(* ===== verification/_CoqProject ===== *)
-Q . S2P
Prelude.v
F32.v
Units.v
FloatArith.v
Geometry.v
Host.v
CustomFrame.v
Zones.v
Nesting.v
ShowSpec.v
Contract.v
Eframe.v
Painting.v
ExampleApp.v
Trace.v
Scenario.v
