(* ===== verification/Prelude.v ===== *)
(** * egui_custom_frame: a verification development

    ** The program

    The repository is one Rust crate and one example program.

    [src/src/lib.rs] defines [CustomFrame], the style of a client-side
    window frame (resize margin, caption rectangle, inner margin, rounding,
    shadow), four builder methods, [Default], and the method [show].  Once
    per egui frame [show] asks whether the window is maximized, builds the
    panel's painting spec, opens a [CentralPanel], computes three rectangles
    from the clip rectangle (the view rectangle inside the shadow, the core
    inside the resize margin, the caption cut to the core), reads the
    pointer, registers a drag region over the view rectangle if the pointer
    is on the ring between view and core, registers a click-and-drag region
    over the caption if the pointer is in it, sets a resize cursor and sends
    [BeginResize] on a drag start on the ring, sends [StartDrag] and
    [Maximized] on a drag start and a double click on the caption, and runs
    the caller's content.  It draws nothing itself and changes no window: it
    talks to egui, and egui's backend carries out the commands after the
    frame.

    [src/examples/custom_frame.rs] is an application whose window has no
    decorations: [TestApp] holds a frame with the whole window as caption,
    its [update] shows the frame with a heading and a Close button, and
    [main] opens a 320 by 120 window and runs the event loop; it returns
    the [Result] of [eframe::run_native].

    ** The files, in dependency order

    - [Prelude] (this file): the tactics and hint databases of the
      development, Rust's [Option::unwrap_or] and [Result], and the state
      monad [State]
      in which the code that talks to egui is written ([x <- c ;; k] in
      [state_scope]), with its laws as rewrite rules.
    - [F32]: Rust's [f32] as IEEE 754 binary32 on the Standard Library's
      [SpecFloat] (precision 24, maximal exponent 128), with NaN, infinities
      and rounding; [<], [<=], [>], [f32::max], [f32::min], [f32::MAX],
      [f32::MIN]; the order theory, decided by [lia] on integer keys; when
      a sum or a difference is NaN (rounding never makes one).
    - [Units]: what [SpecFloat]'s bit-level rounding computes.  A binary32
      number is a whole number of units of [2^-149]; [ulps] reads a float
      in units, [near] rounds a number of units to the format, and
      [SpecFloat]'s shifts and location bits are proved to compute it;
      [near] is monotone and leaves the numbers of the format alone.
    - [FloatArith]: [F32.add] and [F32.sub] are the exact operations
      followed by [near], the comparisons are those of the units, valid
      operands give valid results; integers below [2^24], and their
      quotients by a power of two ([F32.dyadic]), are computed with
      exactly, and [f32::MAX] absorbs them.
    - [Geometry]: emath's [Pos2], [Vec2], [Margin], [Rect] with the
      operations [show] calls ([from_min_size], [shrink], [Rect - Margin],
      [translate], [intersect], [contains]) and the facts about [contains]
      and [intersect].
    - [Host]: egui's data ([Frame], [Shadow], [Sense], [Response], the
      enumerations [CursorIcon], [ResizeDirection], [ViewportCommand]) and
      the interface to egui: [UiView], what a frame's context shows (inputs,
      and outputs as logs); the class [Host] of the calls [show] makes
      ([central_panel], [interact], [set_cursor_icon], [send_viewport_cmd]);
      [HostLaws], what each call does to the view; [Widgets] and
      [WidgetLaws] for the heading and the button of the example;
      [SimpleUi], the least context that obeys the laws.
    - [CustomFrame]: module [CustomFrame] is [lib.rs], definition by
      definition: the record, the setters, [default], one definition per
      [let] of [show], the steps of the panel's closure, [show_body] and
      [show] themselves; [finite], the styles whose margin and shadow
      are finite numbers.  The theorems on the builders.
    - [Zones]: [show] read as a function of the frame's input:
      [resize_direction] (the nested comparisons as a pure classification),
      [regions], [sizebox_live], [caption_live], and [frame_view], the view
      one call leaves.  The theorems that need no context.
    - [Nesting]: the view rectangle and the core coordinate by coordinate
      ([view_lo], [view_hi], [core_lo], [core_hi]) and what rounding does
      to them: nothing that matters for a margin that is not negative,
      nothing at all on whole numbers.
    - [ShowSpec]: the theorems about [show] over any context that satisfies
      [HostLaws].
    - [Contract]: the frame controller as the specification states it, on
      the integers ([Contract.view], [Contract.core], [Contract.caption],
      the two zones, [Contract.direction], [Contract.commands]), and the
      relations between the code and it: [implements] for a style,
      [presents] for the inputs of a frame.
    - [Eframe]: the event loop and the windowing backend the example runs
      on: [App] (the trait), [Error], [open_window] and [start] (what can
      fail before the first frame), [Window], [apply] (what a command
      does),
      [Window.settle] (the size the window manager gives a window that is
      being resized),
      [run_frame], [run] and [run_native] over a list of inputs, [step]
      (the loop as a relation), [event_loop] and [run_native_until_closed]
      over an unbounded session of inputs.
    - [Painting]: the rectangles of what egui paints from the panel
      specification: [Painting.body] (the panel without its outer margin),
      [Painting.content] (the body without the inner margin),
      [Painting.shadow_rect] and [Painting.shadow_reach] (the shadow, and
      how far its blurred edge goes).
    - [ExampleApp]: [examples/custom_frame.rs]: [TestApp], its [update],
      [main_options], [app_creator], [main], [main_loop], and the theorems
      about the example.
    - [Trace]: contexts that log the calls made on them ([Traced],
      [TraceLaws], the instance [TraceUi]) and the calls of a frame in
      order ([frame_calls], [content_calls]).
    - [Scenario]: concrete frames and runs, evaluated; the cases the
      hypotheses of the general theorems exclude; the witnesses.

    ** What is proved

    - Refinement.  [ShowSpec.show_refines_frame_view]: whatever the context,
      [show] changes its view as [frame_view] says and then runs the
      content, last and once.  [ShowSpec.produce_resizing_factored]: the
      nine branches of the resizing code are [resize_direction] followed by
      one branch.  [ExampleApp.update_shows_frame_then_content] is the same
      for the example's [update].
      [Contract.show_implements_contract]: on numbers with [k] binary
      places (integers of at most [2^21] in units of [2^-k] pixels, whole
      pixels for [k = 0]) one call of [show] leaves exactly what the
      specification's steps compute in integer arithmetic; the promises of
      the specification
      (the caption lies in the core, the zones exclude each other, the
      resize zone always has a direction, outside the view rectangle
      nothing is active) are proved of the contract by linear arithmetic.
    - Order.  [Trace.show_calls_in_order]: the calls of [show] on the
      context are made in the order of the source's statements (panel,
      resize ring, caption, cursor icon, resize, drag, maximize, content);
      [Trace.update_calls_in_order] adds the example's heading, button and
      [Close].  The view alone does not tell: it keeps regions and commands
      in separate lists.
    - The classification.  [Zones.resize_direction_total]: on the live ring
      the pointer always has a direction.  [Zones.resize_direction_octant]:
      against an ordered core the direction is the octant the pointer is in.
    - What a frame may do.  A maximized window has no ring, rounding or
      shadow ([maximized_suppresses]); a pointer outside the view rectangle,
      or no pointer, leaves the frame inert ([outside_view_inert],
      [no_pointer_inert]); in the core there is no ring
      ([inside_core_no_ring]); the caption lies in the core and excludes
      the ring ([caption_rect_in_core], [caption_excludes_resize]); the
      commands of the caption and of the
      ring ([caption_commands], [resize_commands]); at most two commands
      and never [Close], since a pointer on the caption has no direction
      ([Zones.caption_live_no_direction], [show_commands_bounded]); the
      inputs are untouched
      ([show_preserves_input], [show_keeps_regions]).
    - Floating point.  [Nesting.margin_keeps_core_in_view]: for every
      well-formed style (finite, valid numbers and a resize margin that is
      not negative) the borders of the core are inside those of the view
      rectangle, whatever is rounded or overflows, because adding a number
      that is not negative never decreases a float
      ([FloatArith.add_nonneg_leb], [FloatArith.sub_nonneg_leb]).
      [ShowSpec.well_formed_outside_inert]: so a pointer outside the view
      rectangle leaves the frame inert.  [Nesting.whole_regions]: on whole
      numbers up to [2^21] the regions are the ones the integers give.
      [Nesting.default_regions_nested]: with the default margin and shadow,
      for every window from 48 to [2^21] pixels a side, the core lies in the
      view rectangle and is ordered (48 is twice the shadow and the margin,
      below which the core is empty).  [Nesting.core_ordered_iff]: for
      numbers with binary places, the core is ordered exactly when the
      window has room for the shadow twice and both margins of each axis,
      and its corners lie in the view rectangle exactly when no margin is
      negative and each fits beside the shadow.
      [Nesting.max_caption_not_moved]: of a caption that reaches
      [f32::MAX], the caption [show] registers has the configured left
      border moved by the shadow width (or the core's) and the core's right
      border; the far border itself stayed at [f32::MAX].
      [ShowSpec.nan_margin_never_resizes]: with a NaN margin the ring
      is registered but never resizes.
    - Painting.  [Painting.view_rect_is_painted_body]: the view rectangle
      [show] computes for its regions is the rectangle egui paints the
      panel in, for every float, as long as the clip rectangle starts at
      the origin: the resize ring is the border of what the user sees.
      [Painting.shadow_within_bounds]: the outer margin of [blur + spread]
      is exactly what a shadow without offset reaches, so it stays in the
      window.  [Painting.shadow_offset_leaves_bounds]: the margin does not
      count the offset, and a shadow moved by more than its blur leaves the
      window.  [Painting.content_clear_of_ring]: an inner margin that is
      not smaller than the resize margin, as the default one, keeps the
      rectangle of the content inside the core, so no resize region is
      registered with the pointer on the content.
    - Well-formed styles.  [CustomFrame.build_finite]: the builders keep
      a style finite.  [Zones.regions_made_of_numbers]: the regions of a
      finite style in a window with a width and a height have no NaN
      coordinate, because rounding never makes a NaN ([F32.is_nan_add],
      [F32.is_nan_sub]).  [ShowSpec.finite_style_regions_exclusive]: for
      such a style ring and caption exclude each other and the ring always
      has a direction, with no hypothesis on the regions themselves.
    - The builders ([CustomFrame.builders_keep_inner_margin],
      [CustomFrame.build_last_call_wins]).
    - The documentation's examples.
      [ShowSpec.crate_example_in_test_context]: in a test context, which
      has no pointer, the default frame around a label paints the panel,
      registers the label and does nothing else.
    - Whole runs of the example.  [ExampleApp.run_frame_window]: what one
      frame does to the window.  [ExampleApp.resize_only_when_windowed]: no
      run ever begins a resize on a maximized window.
      [ExampleApp.example_invariant]: in every reachable state the window
      has the size [main] asked for until a frame begins a resize.
      [ExampleApp.resized_window_regions]: when the window manager then
      gives it a whole size, the next frame computes its regions from that
      size, exactly, and the caption is the core.
      [ExampleApp.main_fails_iff_no_window]: [main] returns an error
      exactly when the window system gives no window, before any frame;
      its creator never fails.
      [ExampleApp.close_click_ends_run]: a click on Close ends the run.
      [ExampleApp.main_ends_iff_closed]: the program returns exactly when
      some frame clicks on Close.
      [ExampleApp.double_click_twice_restores]: two double clicks on the
      caption give the window back as it was.
      [ExampleApp.example_ring_or_caption]: every place of the example's
      window resizes or drags it.
    - Outside the hypotheses.  What the code does on the inputs that the
      theorems above exclude, for every style and window of whole numbers:
      a negative margin lets a drag start outside the view rectangle
      ([ShowSpec.negative_margin_drag_outside_view]); margins wider than
      the window put the pointer in four octants at once and the order of
      the tests makes it north-west ([Nesting.inverted_core_north_west]); a
      drag start and a double click in one frame send two commands
      ([ShowSpec.drag_and_double_click_send_both]).
    - Evaluated cases ([Scenario]): examples, not properties.  The 320 by
      120 scenario of the specification, a seven-frame session of [main],
      and one evaluated frame for each of the inputs above; the witnesses
      of the theorems are applied to these frames.

    ** Bounds and termination

    [show] is straight-line code.  The event loop comes in two forms.
    [run] is a structural recursion on a list of inputs, one frame per
    input, and stops at the first frame that finds the window closed: it
    needs no fuel.  [event_loop] runs over an unbounded session (a function
    from frame numbers to inputs) until the window is closed, as eframe
    does, and takes fuel, one unit per frame, because the program need not
    end: [Eframe.event_loop_complete] shows that fuel above the number of
    the closing frame is enough, [Eframe.event_loop_diverges] that no fuel
    is when no frame closes the window, and [Eframe.event_loop_fuel] that
    more fuel never changes a result.  Floats are kept at binary32 with
    their rounding, overflow and NaN; integers appear only as literals.
    The theorems on whole numbers stop at [2^21] so that every sum [show]
    forms from them stays below [2^24], where binary32 holds every integer;
    with [k] binary places the same bound is on the integer [z] of
    [z / 2^k], so coordinates reach [2^(21-k)] pixels ([FloatArith.dyadic_add]
    and its companions; [k] stops at 149, the last place of the format);
    the theorems on well-formed styles have no bound.  [Units] does not
    cover exponents below [-149], which only multiplication and division
    produce, and the sources use neither.

    ** What is not modelled

    - egui's layout and hit testing.  The context's answers to
      [interact] are arbitrary (a field of [SimpleUi], a parameter of the
      theorems): which of two overlapping regions receives a click, and when
      a press becomes a drag or a double click, is egui's decision.
    - Rendering.  [Painting] has the rectangles of the panel and of its
      shadow and nothing of colours, rounded corners or the blending of
      the blur.  The reach of the blur is taken as the whole of [blur];
      egui blurs over half of it on either side of the edge, so what stays
      in the window here does so in egui.  With other panels around the
      central one the panel would get less than the screen rectangle while
      the clip rectangle stays the screen's; the example has none, and the
      theorems on painting take the panel to fill the clip rectangle.
    - The errors of eframe other than the two a run can start with
      ([Error.Winit] for the window system, [Error.AppCreation] for the
      creator): the renderer's are not told apart from the window
      system's.
    - How the window manager carries out [BeginResize] and [StartDrag].
      [Eframe.apply] logs that the operation began.  The size a resize
      gives the window is an input of the following frames
      ([Input.resized], applied by [Window.settle] once a resize is in the
      log and while the window is not maximized): the model says when the
      size may change, not what it becomes.  The position of the window is
      not kept, so a move changes nothing but the log.
    - The end of an interactive resize.  The model does not follow the
      button of the pointer: once a resize is in the log the window
      manager may resize the window in every later frame.  A real one
      stops when the button is released, so the runs of the model include
      the real ones and the invariants proved of all of them hold of
      these.
    - [ui.clip_rect()] is an input.  Inside the central panel it is the
      screen rectangle; [Eframe.context] sets it so.
    - A closed form for when the core is empty, for every float.  Whether
      the far border of the core is beyond the near one is decided by the
      floats themselves; [Nesting.core_ordered_iff] gives the condition
      for numbers with binary places up to [2^21], and
      [Nesting.margin_keeps_core_in_view] bounds the core by the view
      rectangle for every well-formed style, but a window too small for
      its margins, of a size that is not such a number, is not described
      further.

    Everything under [src/] is modelled apart from comments, [use]
    declarations and closing braces; what is left out above belongs to
    egui, eframe and the window system, which the repository only calls. *)

From Stdlib Require Import Bool List ZArith Lia Setoid.
Import ListNotations.

(** ** Hint databases

    [frame] collects the resolution hints of the development, and the
    rewrite database of the same name the equations that simplify a run of
    the state monad. *)

Create HintDb frame discriminated.
Create Rewrite HintDb frame.

(** ** Tactics *)

(** [bool_hyps] splits boolean conjunctions, disjunctions and negations that
    stand as hypotheses into the facts about their operands. *)
Ltac bool_hyps :=
  repeat match goal with
  | H : andb _ _ = true |- _ => apply andb_true_iff in H; destruct H
  | H : andb _ _ = false |- _ => apply andb_false_iff in H
  | H : orb _ _ = false |- _ => apply orb_false_iff in H; destruct H
  | H : orb _ _ = true |- _ => apply orb_true_iff in H
  | H : negb _ = true |- _ => apply negb_true_iff in H
  | H : negb _ = false |- _ => apply negb_false_iff in H
  end.

(** [bool_props] restates every boolean connective in sight, at any depth, as
    the proposition it decides. *)
Ltac bool_props_in H :=
  rewrite ?andb_true_iff, ?andb_false_iff, ?orb_true_iff, ?orb_false_iff,
    ?negb_true_iff, ?negb_false_iff in H.

Ltac bool_props :=
  repeat match goal with
  | H : _ |- _ => progress bool_props_in H
  end;
  rewrite ?andb_true_iff, ?andb_false_iff, ?orb_true_iff, ?orb_false_iff,
    ?negb_true_iff, ?negb_false_iff.

(** [split_ands] splits the conjunctions that stand as hypotheses. *)
Ltac split_ands :=
  repeat match goal with
  | H : _ /\ _ |- _ => destruct H
  end.

(** [bool_goal] does the same to a goal. *)
Ltac bool_goal :=
  repeat match goal with
  | |- andb _ _ = true => apply andb_true_iff; split
  | |- negb _ = true => apply negb_true_iff
  | |- negb _ = false => apply negb_false_iff
  end.

(** ** Options as Rust uses them *)

(** [Option::unwrap_or]: the value inside, or the default given. *)
Definition unwrap_or {A : Type} (o : option A) (d : A) : A :=
  match o with
  | Some a => a
  | None => d
  end.

(** ** Results as Rust uses them *)

(** [Result<T, E>]: a value, or the error that replaced it. *)
Inductive Result (T E : Type) : Type :=
  | Ok (t : T)
  | Err (e : E).

Arguments Ok {T E} t.
Arguments Err {T E} e.

Module Result.

(** [Result::map_err]: the error seen through [f], a value as it is. *)
Definition map_err {T E F : Type} (f : E -> F) (r : Result T E) : Result T F :=
  match r with
  | Ok t => Ok t
  | Err e => Err (f e)
  end.

(** [Result::and_then], which is also what [?] does: go on with the value,
    or return the error. *)
Definition and_then {T U E : Type} (r : Result T E) (k : T -> Result U E)
    : Result U E :=
  match r with
  | Ok t => k t
  | Err e => Err e
  end.

(** [Result::map]. *)
Definition map {T U E : Type} (f : T -> U) (r : Result T E) : Result U E :=
  and_then r (fun t => Ok (f t)).

End Result.

(** ** The state monad

    Code that talks to the GUI toolkit reads and updates one mutable context.
    It is modelled by explicit state passing: a computation of type
    [State S A] takes the context and returns its result with the context it
    leaves behind. *)

Definition State (S A : Type) : Type := S -> A * S.

Definition ret {S A : Type} (a : A) : State S A := fun s => (a, s).

Definition bind {S A B : Type} (c : State S A) (k : A -> State S B) : State S B :=
  fun s => let (a, s') := c s in k a s'.

(** [gets f] reads the context through [f]; [modify f] updates it. *)
Definition gets {S A : Type} (f : S -> A) : State S A := fun s => (f s, s).

Definition modify {S : Type} (f : S -> S) : State S unit := fun s => (tt, f s).

(** [when b c]: Rust's [if b { c }] used as a statement. *)
Definition when {S : Type} (b : bool) (c : State S unit) : State S unit :=
  if b then c else ret tt.

Declare Scope state_scope.
Delimit Scope state_scope with state.
Bind Scope state_scope with State.

Notation "x <- c ;; k" := (bind c (fun x => k))
  (at level 100, c at next level, k at level 200, right associativity) : state_scope.
Notation "c ;; k" := (bind c (fun _ => k))
  (at level 100, k at level 200, right associativity) : state_scope.

(** [exec c s] is the context a computation leaves, [eval c s] its result. *)
Definition exec {S A : Type} (c : State S A) (s : S) : S := snd (c s).
Definition eval {S A : Type} (c : State S A) (s : S) : A := fst (c s).

(** ** Lists as append-only logs *)

(** An output log only grows: what was there is a prefix of what is there
    afterwards. *)
Definition extends {A : Type} (old new : list A) : Prop :=
  exists added, new = old ++ added.

(** ** Lemmas *)

Lemma unwrap_or_Some {A : Type} (a d : A) : unwrap_or (Some a) d = a.
Proof. reflexivity. Qed.

Lemma unwrap_or_None {A : Type} (d : A) : unwrap_or None d = d.
Proof. reflexivity. Qed.

#[export] Hint Rewrite @unwrap_or_Some @unwrap_or_None : frame.

Section ResultLaws.
Context {T U E F : Type}.
Implicit Types (r : Result T E) (k : T -> Result U E).

(** A computation that goes on after [r] succeeds exactly when [r] does and
    what follows does. *)
Lemma and_then_Ok r k (u : U) :
  Result.and_then r k = Ok u <-> exists t, r = Ok t /\ k t = Ok u.
Proof.
  destruct r as [t|e]; cbn; split.
  - eauto.
  - intros (t' & [= <-] & Hk). exact Hk.
  - discriminate.
  - intros (t' & [=] & _).
Qed.

(** It fails with the error of [r], or with the error of what follows. *)
Lemma and_then_Err r k (e : E) :
  Result.and_then r k = Err e <-> r = Err e \/ exists t, r = Ok t /\ k t = Err e.
Proof.
  destruct r as [t|e']; cbn; split.
  - eauto.
  - intros [[=]|(t' & [= <-] & Hk)]. exact Hk.
  - intros [= ->]. now left.
  - intros [[= ->]|(t' & [=] & _)]. reflexivity.
Qed.

Lemma map_err_Ok (f : E -> F) r (t : T) : Result.map_err f r = Ok t <-> r = Ok t.
Proof. destruct r; cbn; split; congruence. Qed.

Lemma map_err_Err (f : E -> F) r (e : F) :
  Result.map_err f r = Err e <-> exists e', r = Err e' /\ e = f e'.
Proof.
  destruct r as [t|e']; cbn; split.
  - discriminate.
  - intros (? & [=] & _).
  - intros [= <-]. eauto.
  - intros (? & [= <-] & ->). reflexivity.
Qed.

End ResultLaws.

Section StateLaws.
Context {S A B C : Type}.

Lemma bind_ret_l (a : A) (k : A -> State S B) (s : S) :
  bind (ret a) k s = k a s.
Proof. reflexivity. Qed.

Lemma bind_ret_r (c : State S A) (s : S) : bind c ret s = c s.
Proof. unfold bind, ret. destruct (c s); reflexivity. Qed.

Lemma bind_assoc (c : State S A) (k : A -> State S B) (h : B -> State S C) (s : S) :
  bind (bind c k) h s = bind c (fun a => bind (k a) h) s.
Proof. unfold bind. destruct (c s); reflexivity. Qed.

Lemma exec_bind (c : State S A) (k : A -> State S B) (s : S) :
  exec (bind c k) s = exec (k (eval c s)) (exec c s).
Proof. unfold exec, eval, bind. destruct (c s); reflexivity. Qed.

Lemma eval_bind (c : State S A) (k : A -> State S B) (s : S) :
  eval (bind c k) s = eval (k (eval c s)) (exec c s).
Proof. unfold exec, eval, bind. destruct (c s); reflexivity. Qed.

Lemma exec_ret (a : A) (s : S) : exec (ret a) s = s.
Proof. reflexivity. Qed.

Lemma eval_ret (a : A) (s : S) : eval (ret a) s = a.
Proof. reflexivity. Qed.

Lemma exec_modify (f : S -> S) (s : S) : exec (modify f) s = f s.
Proof. reflexivity. Qed.

Lemma exec_gets (f : S -> A) (s : S) : exec (gets f) s = s.
Proof. reflexivity. Qed.

Lemma eval_gets (f : S -> A) (s : S) : eval (gets f) s = f s.
Proof. reflexivity. Qed.

Lemma exec_when (b : bool) (c : State S unit) (s : S) :
  exec (when b c) s = if b then exec c s else s.
Proof. destruct b; reflexivity. Qed.

Lemma run_eta (c : State S A) (s : S) : c s = (eval c s, exec c s).
Proof. unfold eval, exec. destruct (c s); reflexivity. Qed.

End StateLaws.

#[export] Hint Rewrite @exec_bind @eval_bind @exec_ret @eval_ret @exec_modify
  @exec_gets @eval_gets @exec_when : frame.

Lemma extends_refl {A : Type} (l : list A) : extends l l.
Proof. exists []. now rewrite app_nil_r. Qed.

Lemma extends_trans {A : Type} (l1 l2 l3 : list A) :
  extends l1 l2 -> extends l2 l3 -> extends l1 l3.
Proof. intros [a ->] [b ->]. exists (a ++ b). now rewrite app_assoc. Qed.

Lemma extends_app {A : Type} (l added : list A) : extends l (l ++ added).
Proof. now exists added. Qed.

#[export] Hint Resolve extends_refl extends_app : frame.
