(* ===== verification/F32.v ===== *)
(** * F32: Rust's [f32] as IEEE 754 binary32

    Every coordinate the frame computes with is an [f32].  The model is the
    Standard Library's specification of IEEE 754 arithmetic ([SpecFloat]) at
    precision 24 and maximal exponent 128: signed zeros, infinities, one NaN,
    and finite numbers [m * 2^e]; addition and subtraction round to nearest,
    ties to even, and overflow to an infinity.  All operations compute, so a
    scenario is checked by evaluation.

    The comparisons are the ones Rust's [<], [<=] and [>] compile to: false as
    soon as an operand is NaN.  [max] and [min] are [f32::max] and [f32::min],
    which ignore a NaN operand.

    The second half of the file is the order theory the geometry needs.  A
    float is mapped to integer keys ([nanz], [k1], [k2], [k3]) so that the
    comparisons become lexicographic comparisons of integers, and [f32_order]
    ends such goals with [lia].

    The last part says when arithmetic gives NaN: rounding never does
    ([binary_normalize_not_nan]), so a sum is NaN exactly when an operand is
    or when infinities of opposite signs are added ([is_nan_add],
    [is_nan_sub]). *)

From Stdlib Require Import Bool ZArith Lia Setoid.
From Stdlib Require Import Floats.SpecFloat.
From S2P Require Import Prelude.

Module F32.
Local Open Scope Z_scope.

(** ** The format *)

Definition prec : Z := 24.
Definition emax : Z := 128.

Definition t : Type := spec_float.

(** [valid x]: [x] is a binary32 number (its mantissa and exponent are in
    range and normalised). *)
Definition valid (x : t) : bool := valid_binary prec emax x.

(** ** Constants *)

(** A literal such as [4.0], for an integer that binary32 represents. *)
Definition of_Z (z : Z) : t := binary_normalize prec emax z 0 false.

(** The number [z / 2^k]: a coordinate with [k] binary places, such as
    [21.5] for [k = 1] and [z = 43].  [of_Z z] is [dyadic 0 z]. *)
Definition dyadic (k z : Z) : t := binary_normalize prec emax z (- k) false.

Definition zero : t := S754_zero false.
Definition INFINITY : t := S754_infinity false.
Definition NEG_INFINITY : t := S754_infinity true.
Definition NAN : t := S754_nan.

(** [f32::MAX], the largest finite number: [(2^24 - 1) * 2^104]. *)
Definition MAX : t := SFmax_float prec emax.

(** [f32::MIN], the most negative finite number. *)
Definition MIN : t := SFopp MAX.

(** ** Arithmetic *)

Definition add (x y : t) : t := SFadd prec emax x y.
Definition sub (x y : t) : t := SFsub prec emax x y.

(** ** Comparisons *)

Definition ltb (x y : t) : bool := SFltb x y.
Definition leb (x y : t) : bool := SFleb x y.

(** [x > y] is [y < x]. *)
Definition gtb (x y : t) : bool := ltb y x.

Definition is_nan (x : t) : bool :=
  match x with
  | S754_nan => true
  | _ => false
  end.

(** The classes of values: zeros and finite numbers, infinities; and the
    sign bit (a NaN has none). *)
Definition is_finite (x : t) : bool :=
  match x with
  | S754_zero _ | S754_finite _ _ _ => true
  | _ => false
  end.

Definition is_inf (x : t) : bool :=
  match x with
  | S754_infinity _ => true
  | _ => false
  end.

Definition sign (x : t) : bool :=
  match x with
  | S754_zero s | S754_infinity s | S754_finite s _ _ => s
  | S754_nan => false
  end.

(** The two ways a sum or a difference of values that are not NaN is NaN:
    infinities of opposite signs added, infinities of the same sign
    subtracted. *)
Definition opposite_infinities (x y : t) : bool :=
  is_inf x && is_inf y && xorb (sign x) (sign y).

Definition same_infinities (x y : t) : bool :=
  is_inf x && is_inf y && negb (xorb (sign x) (sign y)).

(** [f32::max]: the larger operand; a NaN operand is ignored.  For operands
    that compare equal (the two zeros) IEEE 754 allows either; the model
    returns the first. *)
Definition max (x y : t) : t :=
  if is_nan x then y
  else if is_nan y then x
  else if ltb x y then y else x.

(** [f32::min], likewise. *)
Definition min (x y : t) : t :=
  if is_nan x then y
  else if is_nan y then x
  else if ltb y x then y else x.

(** ** Integer keys

    [nanz] is 1 on NaN and 0 elsewhere.  On the other values, [(k1, k2, k3)]
    ordered lexicographically is the order of the floats: [k1] separates
    negative infinity, negative numbers, zeros, positive numbers and positive
    infinity, [k2] is the exponent and [k3] the mantissa, both negated for
    negative numbers. *)

Definition nanz (x : t) : Z :=
  match x with
  | S754_nan => 1
  | _ => 0
  end.

Definition k1 (x : t) : Z :=
  match x with
  | S754_infinity true => -2
  | S754_finite true _ _ => -1
  | S754_finite false _ _ => 1
  | S754_infinity false => 2
  | _ => 0
  end.

Definition k2 (x : t) : Z :=
  match x with
  | S754_finite true _ e => - e
  | S754_finite false _ e => e
  | _ => 0
  end.

Definition k3 (x : t) : Z :=
  match x with
  | S754_finite true m _ => Z.neg m
  | S754_finite false m _ => Z.pos m
  | _ => 0
  end.

Definition lt_key (x y : t) : Prop :=
  nanz x = 0 /\ nanz y = 0 /\
  (k1 x < k1 y \/ (k1 x = k1 y /\ (k2 x < k2 y \/ (k2 x = k2 y /\ k3 x < k3 y)))).

Definition le_key (x y : t) : Prop :=
  nanz x = 0 /\ nanz y = 0 /\
  (k1 x < k1 y \/ (k1 x = k1 y /\ (k2 x < k2 y \/ (k2 x = k2 y /\ k3 x <= k3 y)))).

(** ** The comparisons in terms of the keys *)

Ltac cmp_cases :=
  repeat match goal with
  | |- context [Z.compare ?a ?b] => destruct (Z.compare_spec a b)
  | |- context [Pos.compare_cont Eq ?a ?b] =>
      change (Pos.compare_cont Eq a b) with (Pos.compare a b);
      destruct (Pos.compare_spec a b)
  end.

Ltac by_cases_on x y :=
  destruct x as [[]|[]| |[] ? ?], y as [[]|[]| |[] ? ?]; cbn;
  cmp_cases; cbn; split; intros; try discriminate; try lia; try reflexivity.

Lemma ltb_iff (x y : t) : ltb x y = true <-> lt_key x y.
Proof. unfold ltb, SFltb, lt_key. by_cases_on x y. Qed.

Lemma leb_iff (x y : t) : leb x y = true <-> le_key x y.
Proof. unfold leb, SFleb, le_key. by_cases_on x y. Qed.

Lemma ltb_false_iff (x y : t) : ltb x y = false <-> ~ lt_key x y.
Proof. rewrite <- ltb_iff. destruct (ltb x y); intuition congruence. Qed.

Lemma leb_false_iff (x y : t) : leb x y = false <-> ~ le_key x y.
Proof. rewrite <- leb_iff. destruct (leb x y); intuition congruence. Qed.

Lemma nanz_range (x : t) : nanz x = 0 \/ nanz x = 1.
Proof. destruct x; cbn; auto. Qed.

Lemma is_nan_true_iff (x : t) : is_nan x = true <-> nanz x = 1.
Proof. destruct x; cbn; intuition (discriminate || lia). Qed.

Lemma is_nan_false_iff (x : t) : is_nan x = false <-> nanz x = 0.
Proof. destruct x; cbn; intuition (discriminate || lia). Qed.

(** [f32_keys] restates every comparison in sight in terms of the keys;
    [f32_order] then decides the goal by linear arithmetic. *)
Ltac f32_keys_in H :=
  rewrite ?ltb_iff, ?ltb_false_iff, ?leb_iff, ?leb_false_iff,
    ?is_nan_true_iff, ?is_nan_false_iff in H.

Ltac f32_keys :=
  unfold gtb in *;
  bool_props;
  repeat match goal with
  | H : _ |- _ => progress f32_keys_in H
  end;
  rewrite ?ltb_iff, ?ltb_false_iff, ?leb_iff, ?leb_false_iff,
    ?is_nan_true_iff, ?is_nan_false_iff;
  unfold lt_key, le_key in *.

Ltac f32_ranges :=
  repeat match goal with
  | |- context [nanz ?x] =>
      lazymatch goal with
      | _ : nanz x = 0 \/ nanz x = 1 |- _ => fail
      | _ => pose proof (nanz_range x)
      end
  | _ : context [nanz ?x] |- _ =>
      lazymatch goal with
      | _ : nanz x = 0 \/ nanz x = 1 |- _ => fail
      | _ => pose proof (nanz_range x)
      end
  end.

Ltac f32_order := intros; f32_keys; f32_ranges; lia.

(** ** Order lemmas *)

Section Order.
Implicit Types x y z : t.

Lemma leb_refl x : is_nan x = false -> leb x x = true.
Proof. f32_order. Qed.

Lemma ltb_irrefl x : ltb x x = false.
Proof. f32_order. Qed.

Lemma ltb_leb x y : ltb x y = true -> leb x y = true.
Proof. f32_order. Qed.

Lemma ltb_asym x y : ltb x y = true -> ltb y x = false.
Proof. f32_order. Qed.

Lemma ltb_not_leb x y : ltb x y = true -> leb y x = false.
Proof. f32_order. Qed.

Lemma leb_not_ltb x y : leb x y = true -> ltb y x = false.
Proof. f32_order. Qed.

(** On numbers the order is total: what is not below or equal is above. *)
Lemma not_leb_ltb x y :
  is_nan x = false -> is_nan y = false -> leb x y = false -> ltb y x = true.
Proof. f32_order. Qed.

Lemma not_ltb_leb x y :
  is_nan x = false -> is_nan y = false -> ltb x y = false -> leb y x = true.
Proof. f32_order. Qed.

Lemma leb_trans x y z : leb x y = true -> leb y z = true -> leb x z = true.
Proof. f32_order. Qed.

Lemma ltb_trans x y z : ltb x y = true -> ltb y z = true -> ltb x z = true.
Proof. f32_order. Qed.

Lemma ltb_leb_trans x y z : ltb x y = true -> leb y z = true -> ltb x z = true.
Proof. f32_order. Qed.

Lemma leb_ltb_trans x y z : leb x y = true -> ltb y z = true -> ltb x z = true.
Proof. f32_order. Qed.

(** What is below the near end of an interval is not above its far end. *)
Lemma ltb_leb_not_gtb x y z : ltb x y = true -> leb y z = true -> gtb x z = false.
Proof. f32_order. Qed.

(** A comparison that holds has no NaN operand. *)
Lemma leb_not_nan x y : leb x y = true -> is_nan x = false /\ is_nan y = false.
Proof. intros; split; f32_order. Qed.

Lemma ltb_not_nan x y : ltb x y = true -> is_nan x = false /\ is_nan y = false.
Proof. intros; split; f32_order. Qed.

(** A comparison with NaN is false. *)
Lemma leb_nan_l x y : is_nan x = true -> leb x y = false.
Proof. f32_order. Qed.

Lemma leb_nan_r x y : is_nan y = true -> leb x y = false.
Proof. f32_order. Qed.

Lemma ltb_nan_l x y : is_nan x = true -> ltb x y = false.
Proof. f32_order. Qed.

Lemma ltb_nan_r x y : is_nan y = true -> ltb x y = false.
Proof. f32_order. Qed.

End Order.

(** ** [max] and [min] *)

Section MinMax.
Implicit Types x y z : t.

Lemma max_nan_l x y : is_nan x = true -> max x y = y.
Proof. unfold max. now intros ->. Qed.

Lemma max_nan_r x y : is_nan x = false -> is_nan y = true -> max x y = x.
Proof. unfold max. now intros -> ->. Qed.

Lemma min_nan_l x y : is_nan x = true -> min x y = y.
Proof. unfold min. now intros ->. Qed.

Lemma min_nan_r x y : is_nan x = false -> is_nan y = true -> min x y = x.
Proof. unfold min. now intros -> ->. Qed.

(** The result is one of the operands. *)
Lemma max_cases x y : max x y = x \/ max x y = y.
Proof. unfold max. destruct (is_nan x), (is_nan y), (ltb x y); auto. Qed.

Lemma min_cases x y : min x y = x \/ min x y = y.
Proof. unfold min. destruct (is_nan x), (is_nan y), (ltb y x); auto. Qed.

(** The result is NaN only if both operands are. *)
Lemma is_nan_max x y : is_nan (max x y) = is_nan x && is_nan y.
Proof.
  unfold max. destruct (is_nan x) eqn:Hx, (is_nan y) eqn:Hy; cbn; auto.
  destruct (ltb x y); auto.
Qed.

Lemma is_nan_min x y : is_nan (min x y) = is_nan x && is_nan y.
Proof.
  unfold min. destruct (is_nan x) eqn:Hx, (is_nan y) eqn:Hy; cbn; auto.
  destruct (ltb y x); auto.
Qed.

(** On numbers, [max] is the least upper bound and [min] the greatest lower
    bound. *)
Lemma leb_max_lub x y z :
  is_nan x = false -> is_nan y = false ->
  leb (max x y) z = leb x z && leb y z.
Proof.
  intros Hx Hy. unfold max. rewrite Hx, Hy.
  destruct (ltb x y) eqn:Hlt, (leb x z) eqn:Hxz, (leb y z) eqn:Hyz;
    cbn; try reflexivity; f32_order.
Qed.

Lemma leb_min_glb z x y :
  is_nan x = false -> is_nan y = false ->
  leb z (min x y) = leb z x && leb z y.
Proof.
  intros Hx Hy. unfold min. rewrite Hx, Hy.
  destruct (ltb y x) eqn:Hlt, (leb z x) eqn:Hzx, (leb z y) eqn:Hzy;
    cbn; try reflexivity; f32_order.
Qed.

(** Whatever the first operand is, a number as second operand bounds the
    result. *)
Lemma leb_max_r x y z : is_nan y = false -> leb (max x y) z = true -> leb y z = true.
Proof.
  intros Hy. destruct (is_nan x) eqn:Hx.
  - now rewrite max_nan_l.
  - rewrite leb_max_lub by assumption. intros H. now bool_hyps.
Qed.

Lemma leb_min_r z x y : is_nan y = false -> leb z (min x y) = true -> leb z y = true.
Proof.
  intros Hy. destruct (is_nan x) eqn:Hx.
  - now rewrite min_nan_l.
  - rewrite leb_min_glb by assumption. intros H. now bool_hyps.
Qed.

(** What is below an operand is below the maximum. *)
Lemma ltb_max_r z x y : ltb z y = true -> ltb z (max x y) = true.
Proof.
  intros H. unfold max.
  destruct (is_nan x) eqn:Hx; [exact H|].
  destruct (is_nan y) eqn:Hy; [apply ltb_not_nan in H; destruct H; congruence|].
  destruct (ltb x y) eqn:Hxy; [exact H|].
  apply ltb_leb_trans with y; [exact H|]. now apply not_ltb_leb.
Qed.

End MinMax.

(** ** Rounding never invents a NaN *)

Section Rounding.

(** Shifting a mantissa to the right keeps it from being negative. *)
Lemma shr_1_nonneg mrs : 0 <= shr_m mrs -> 0 <= shr_m (shr_1 mrs).
Proof. destruct mrs as [[|[p|p|]|p] r s]; cbn; lia. Qed.

Lemma iter_pos_invariant {A} (P : A -> Prop) (f : A -> A) (n : positive) x :
  (forall y, P y -> P (f y)) -> P x -> P (iter_pos f n x).
Proof.
  intros Hf. revert x. induction n as [n IH|n IH|]; intros x Hx; cbn; auto.
Qed.

Lemma shr_nonneg mrs e n : 0 <= shr_m mrs -> 0 <= shr_m (fst (shr mrs e n)).
Proof.
  intros H. destruct n; cbn; try assumption.
  now apply (iter_pos_invariant (fun r => 0 <= shr_m r)); [apply shr_1_nonneg|].
Qed.

Lemma shr_fexp_nonneg m e l :
  0 <= m -> 0 <= shr_m (fst (shr_fexp prec emax m e l)).
Proof.
  intros H. unfold shr_fexp. apply shr_nonneg. now destruct l as [|[]].
Qed.

Lemma round_nearest_even_nonneg m l : 0 <= m -> 0 <= round_nearest_even m l.
Proof. intros H. destruct l as [|[]]; cbn; try destruct (Z.even m); lia. Qed.

(** Rounding a mantissa that is not negative never gives NaN. *)
Lemma binary_round_aux_not_nan s m e l :
  0 <= m -> is_nan (binary_round_aux prec emax s m e l) = false.
Proof.
  intros H. unfold binary_round_aux.
  pose proof (shr_fexp_nonneg m e l H) as H1.
  destruct (shr_fexp prec emax m e l) as [mrs' e'].
  cbn [fst] in H1.
  pose proof (shr_fexp_nonneg _ e' loc_Exact
                (round_nearest_even_nonneg _ (loc_of_shr_record mrs') H1)) as H2.
  destruct (shr_fexp prec emax _ e' loc_Exact) as [mrs'' e''].
  cbn [fst] in H2.
  destruct (shr_m mrs''); [reflexivity | now destruct (_ <=? _) | lia].
Qed.

Lemma binary_round_not_nan s m e :
  is_nan (binary_round prec emax s m e) = false.
Proof.
  unfold binary_round. destruct (shl_align _ _ _) as [mz ez].
  apply binary_round_aux_not_nan. lia.
Qed.

Lemma binary_normalize_not_nan m e sz :
  is_nan (binary_normalize prec emax m e sz) = false.
Proof. destruct m; cbn; [reflexivity | apply binary_round_not_nan ..]. Qed.

End Rounding.

(** ** When a sum or a difference is NaN *)

Section NaN.
Implicit Types (x y : t).

Lemma is_nan_add x y :
  is_nan (add x y) =
  is_nan x || is_nan y || opposite_infinities x y.
Proof.
  destruct x as [sx|sx| |sx mx ex], y as [sy|sy| |sy my ey];
    try (destruct sx, sy; reflexivity); try (destruct sx; reflexivity);
    try (destruct sy; reflexivity); try reflexivity.
  apply binary_normalize_not_nan.
Qed.

Lemma is_nan_sub x y :
  is_nan (sub x y) =
  is_nan x || is_nan y || same_infinities x y.
Proof.
  destruct x as [sx|sx| |sx mx ex], y as [sy|sy| |sy my ey];
    try (destruct sx, sy; reflexivity); try (destruct sx; reflexivity);
    try (destruct sy; reflexivity); try reflexivity.
  apply binary_normalize_not_nan.
Qed.

Lemma dyadic_not_nan k z : is_nan (dyadic k z) = false.
Proof. apply binary_normalize_not_nan. Qed.

Lemma dyadic_0 k : dyadic k 0 = zero.
Proof. reflexivity. Qed.

Lemma of_Z_not_nan z : is_nan (of_Z z) = false.
Proof. apply binary_normalize_not_nan. Qed.

Lemma add_number x y :
  is_nan x = false -> is_finite y = true -> is_nan (add x y) = false.
Proof. rewrite is_nan_add. now destruct x, y. Qed.

Lemma add_number_l x y :
  is_finite x = true -> is_nan y = false -> is_nan (add x y) = false.
Proof. rewrite is_nan_add. now destruct x, y. Qed.

Lemma sub_number x y :
  is_nan x = false -> is_finite y = true -> is_nan (sub x y) = false.
Proof. rewrite is_nan_sub. now destruct x, y. Qed.

(** Adding to zero returns the other operand, the negative zero apart. *)
Lemma add_zero_l x : x <> S754_zero true -> add zero x = x.
Proof. destruct x as [[]| | |]; intros H; try reflexivity. congruence. Qed.

(** A sum with zero is never the negative zero: adding zero to it again, or
    taking zero from it, changes nothing. *)
Lemma add_zero_idem x : add zero (add zero x) = add zero x.
Proof. now destruct x as [[]| | |]. Qed.

Lemma add_zero_sub_zero x : sub (add zero x) zero = add zero x.
Proof. now destruct x as [[]|[]| |]. Qed.

Lemma is_finite_not_nan x : is_finite x = true -> is_nan x = false.
Proof. now destruct x. Qed.

Lemma is_finite_zero : is_finite zero = true.
Proof. reflexivity. Qed.

End NaN.

(** ** The constants *)

Lemma MAX_valid : valid MAX = true.
Proof. reflexivity. Qed.

Lemma MIN_valid : valid MIN = true.
Proof. reflexivity. Qed.

Lemma of_Z_0 : of_Z 0 = zero.
Proof. reflexivity. Qed.

(** Every number other than negative infinity is at or above [MIN], and
    [MIN] is below zero. *)
Lemma MIN_ltb_zero : ltb MIN zero = true.
Proof. reflexivity. Qed.

Lemma MIN_ltb_of_pos (x : t) : leb zero x = true -> ltb MIN x = true.
Proof. intros H. apply ltb_leb_trans with zero; [reflexivity | exact H]. Qed.

End F32.

#[export] Hint Resolve F32.leb_refl F32.ltb_leb F32.ltb_asym F32.ltb_not_leb
  F32.leb_not_ltb F32.not_leb_ltb F32.not_ltb_leb : frame.
#[export] Hint Rewrite F32.is_nan_max F32.is_nan_min : frame.

(** [number] proves that a value computed by additions and subtractions is
    not NaN. *)
Create HintDb number discriminated.
#[export] Hint Resolve F32.add_number F32.add_number_l F32.sub_number
  F32.is_finite_not_nan F32.is_finite_zero F32.of_Z_not_nan : number.

(** ** Notation

    In scope [f32_scope] the arithmetic and the comparisons are written as in
    the source. *)

Declare Scope f32_scope.
Delimit Scope f32_scope with f32.
Bind Scope f32_scope with F32.t.

Infix "+" := F32.add : f32_scope.
Infix "-" := F32.sub : f32_scope.
Infix "<?" := F32.ltb (at level 70) : f32_scope.
Infix "<=?" := F32.leb (at level 70) : f32_scope.
Infix ">?" := F32.gtb (at level 70) : f32_scope.
