(* ===== verification/Units.v ===== *)
(** * Units: binary32 numbers counted in units of [2^-149]

    [SpecFloat] computes on mantissas and exponents: it aligns, shifts bit
    by bit and rounds by two bits of location.  This file says what that
    computes.  Every binary32 number is a whole number of units of
    [2^-149], so the format can be read in the integers: [ulps x] is the
    number [x] in units, [near z] is [z] units rounded to the format (to the
    nearest number with 24 digits, a tie to the even one; [2^128] and beyond
    is an infinity), and [round z] is the float [SpecFloat] makes of [z]
    units.

    - [shr_exact_spec]: the bit-by-bit shift is a division by a power of
      two, and the two bits it keeps round to nearest, ties to even ([rne]);
    - [binary_round_spec], [binary_normalize_spec]: from any exponent in
      the format, [SpecFloat]'s rounding is [round] of the units;
    - [round_valid], [ulps_round]: the result is a number of the format,
      [near] units;
    - [near_mono], [near_ulps]: rounding keeps the order and leaves the
      numbers of the format where they are.

    [FloatArith] draws the consequences for [F32.add], [F32.sub] and the
    comparisons. *)

From Stdlib Require Import Bool ZArith Lia Zpower Morphisms.
From Stdlib Require Import Floats.SpecFloat.
From S2P Require Import Prelude F32.

Local Open Scope Z_scope.

(** ** Definitions *)

(** The least exponent of the format, [-149]: every binary32 number is a
    multiple of [2^-149]. *)
Definition emin : Z := SpecFloat.emin F32.prec F32.emax.

(** The exponent of the numbers that overflow, counted from [emin]. *)
Definition etop : Z := F32.emax - emin.

(** A number counted in units of [2^-149]; an infinity counts as [2^128]. *)
Definition ulps (x : F32.t) : Z :=
  match x with
  | S754_zero _ | S754_nan => 0
  | S754_infinity s => cond_Zopp s (2 ^ etop)
  | S754_finite s m e => cond_Zopp s (Z.pos m * 2 ^ (e - emin))
  end.

(** The number of binary digits of a non-negative integer. *)
Definition digits (z : Z) : Z := Zdigits2 z.

(** [rne n z]: [z / 2^n] rounded to the nearest integer, a tie to the even
    one. *)
Definition rne (n z : Z) : Z :=
  let q := z / 2 ^ n in
  match 2 * (z mod 2 ^ n) ?= 2 ^ n with
  | Lt => q
  | Eq => if Z.even q then q else q + 1
  | Gt => q + 1
  end.

(** The number of digits rounding drops from [z] units. *)
Definition dropped (z : Z) : Z := Z.max (digits z - F32.prec) 0.

(** The float with a sign, a mantissa and an exponent, or the infinity when
    the exponent is beyond the format. *)
Definition float (s : bool) (m : Z) (e : Z) : F32.t :=
  match m with
  | Z.pos p => if e <=? F32.emax - F32.prec then S754_finite s p e else S754_infinity s
  | _ => S754_zero s
  end.

(** [z] units, rounded to binary32: [z] keeps its 24 leading digits, the
    rest is rounded off; a mantissa that rounding carries to [2^24] is
    [2^23] with the next exponent. *)
Definition round_pos (s : bool) (z : Z) : F32.t :=
  let n := dropped z in
  let m := rne n z in
  if m =? 2 ^ F32.prec then float s (2 ^ (F32.prec - 1)) (emin + n + 1)
  else float s m (emin + n).

Definition round (z : Z) : F32.t :=
  match z with
  | Z0 => S754_zero false
  | Z.pos _ => round_pos false z
  | Z.neg p => round_pos true (Z.pos p)
  end.

(** [z] units rounded, in units, before overflow is looked at. *)
Definition nearest (z : Z) : Z := rne (dropped z) z * 2 ^ dropped z.

(** Rounding as a function on units: the nearest number of the format, the
    infinities being [2^etop] units away. *)
Definition near (z : Z) : Z := Z.sgn z * Z.min (nearest (Z.abs z)) (2 ^ etop).

(** [shifted z k mrs]: the record [mrs] is what [k] steps of [shr_1] make
    of the exact mantissa [z]: the quotient by [2^k], and whether a bit was
    shifted out. *)
Definition shifted (z k : Z) (mrs : shr_record) : Prop :=
  shr_m mrs = z / 2 ^ k /\ shr_r mrs || shr_s mrs = negb (z mod 2 ^ k =? 0).

(** Linear arithmetic that knows the constants of the format. *)
Ltac format_lia := unfold etop, emin, SpecFloat.emin, F32.prec, F32.emax in *; lia.

(** ** Digits *)

Section Digits.

Lemma digits_pos_bounds (p : positive) :
  2 ^ (Z.pos (digits2_pos p) - 1) <= Z.pos p < 2 ^ Z.pos (digits2_pos p).
Proof.
  induction p as [p IH|p IH|]; cbn [digits2_pos]; [| |cbn; lia];
    rewrite Pos2Z.inj_succ;
    replace (Z.succ (Z.pos (digits2_pos p)) - 1) with (Z.succ (Z.pos (digits2_pos p) - 1)) by lia;
    rewrite !Z.pow_succ_r by lia; lia.
Qed.

Lemma digits_bounds z : 0 < z -> 2 ^ (digits z - 1) <= z < 2 ^ digits z.
Proof. destruct z; try lia. intros _. apply digits_pos_bounds. Qed.

Lemma digits_positive z : 0 < z -> 0 < digits z.
Proof. destruct z; cbn; lia. Qed.

Lemma digits_unique z d : 2 ^ (d - 1) <= z < 2 ^ d -> 0 < z -> digits z = d.
Proof.
  intros [Hlo Hhi] Hz. pose proof (digits_bounds z Hz) as [Hl Hh].
  pose proof (digits_positive z Hz).
  assert (0 < d).
  { destruct (Z.lt_trichotomy d 0) as [Hd|[->|Hd]]; [|cbn in Hhi|]; try lia.
    rewrite Z.pow_neg_r in Hhi by lia. lia. }
  destruct (Z.lt_trichotomy (digits z) d) as [Hlt|[Heq|Hgt]]; [|exact Heq|].
  - assert (2 ^ digits z <= 2 ^ (d - 1)) by (apply Z.pow_le_mono_r; lia). lia.
  - assert (2 ^ d <= 2 ^ (digits z - 1)) by (apply Z.pow_le_mono_r; lia). lia.
Qed.

Lemma digits_shift z k : 0 < z -> 0 <= k -> digits (z * 2 ^ k) = digits z + k.
Proof.
  intros Hz Hk. pose proof (digits_bounds z Hz) as [Hl Hh].
  pose proof (digits_positive z Hz).
  assert (0 < 2 ^ k) by (apply Z.pow_pos_nonneg; lia).
  apply digits_unique; [|nia].
  replace (digits z + k - 1) with (digits z - 1 + k) by lia.
  rewrite !Z.pow_add_r by lia. nia.
Qed.

End Digits.

(** ** Shifting a mantissa to the right *)

Section Shift.

Lemma iter_pos_nat {A : Type} (f : A -> A) (p : positive) (x : A) :
  iter_pos f p x = Nat.iter (Pos.to_nat p) f x.
Proof.
  revert x. induction p as [p IH|p IH|]; intros x; cbn [iter_pos]; [| |reflexivity];
    rewrite !IH, <- Nat.iter_add.
  - rewrite Nat.iter_swap, Pos2Nat.inj_xI.
    change (Nat.iter (S ?n) f x) with (f (Nat.iter n f x)). do 2 f_equal. lia.
  - rewrite Pos2Nat.inj_xO. f_equal. lia.
Qed.

(** One step halves a mantissa that is not negative, keeps the bit that
    falls off, and remembers whether a bit fell off before. *)
Lemma shr_1_halves m r s :
  0 <= m -> shr_1 (Build_shr_record m r s) = Build_shr_record (m / 2) (Z.odd m) (r || s).
Proof. intros Hm. rewrite <- Z.div2_div. destruct m as [|[p|p|]|]; try lia; reflexivity. Qed.

Lemma shifted_0 z : shifted z 0 (Build_shr_record z false false).
Proof. split; cbn [shr_m shr_r shr_s]; [now rewrite Z.div_1_r | now rewrite Z.mod_1_r]. Qed.

Lemma pow2_pos k : 0 <= k -> 0 < 2 ^ k.
Proof. intros. apply Z.pow_pos_nonneg; lia. Qed.

(** The quotient and the remainder by one more power of two. *)
Lemma div_mod_pow2_succ z k :
  0 <= k ->
  z / 2 ^ (k + 1) = z / 2 ^ k / 2 /\
  z mod 2 ^ (k + 1) = z mod 2 ^ k + 2 ^ k * (z / 2 ^ k mod 2).
Proof.
  intros Hk. pose proof (pow2_pos k Hk). rewrite Z.pow_add_r, Z.pow_1_r by lia. split.
  - now rewrite Z.div_div by lia.
  - apply Z.rem_mul_r; lia.
Qed.

Lemma shifted_step z k mrs :
  0 <= z -> 0 <= k -> shifted z k mrs -> shifted z (k + 1) (shr_1 mrs).
Proof.
  intros Hz Hk [Hm Hs]. destruct mrs as [m r s]. cbn [shr_m shr_r shr_s] in Hm, Hs.
  pose proof (pow2_pos k Hk) as Hp.
  assert (0 <= m) by (subst m; apply Z.div_pos; lia).
  rewrite shr_1_halves by assumption.
  destruct (div_mod_pow2_succ z k Hk) as [Hq Hr].
  split; cbn [shr_m shr_r shr_s]; [now rewrite Hq, Hm|].
  rewrite Hs, Hr, <- Hm, Zmod_odd.
  pose proof (Z.mod_pos_bound z (2 ^ k) Hp).
  destruct (Z.odd m), (Z.eqb_spec (z mod 2 ^ k) 0); cbn [orb negb];
    symmetry; rewrite ?negb_true_iff, ?negb_false_iff, ?Z.eqb_neq, ?Z.eqb_eq; nia.
Qed.

Lemma shifted_iter z (k : nat) :
  0 <= z -> shifted z (Z.of_nat k) (Nat.iter k shr_1 (Build_shr_record z false false)).
Proof.
  intros Hz. induction k as [|k IH]; [apply shifted_0|].
  rewrite Nat2Z.inj_succ, <- Z.add_1_r. cbn [Nat.iter].
  apply shifted_step; [assumption | lia | assumption].
Qed.

(** After the last step the two bits say where [z] lies between two
    multiples of the power of two: rounding the shifted mantissa by them is
    rounding [z] to the nearest multiple. *)
Lemma shifted_round z k mrs :
  0 <= z -> 0 <= k -> shifted z k mrs ->
  round_nearest_even (shr_m (shr_1 mrs)) (loc_of_shr_record (shr_1 mrs)) = rne (k + 1) z.
Proof.
  intros Hz Hk [Hm Hs]. destruct mrs as [m r s]. cbn [shr_m shr_r shr_s] in Hm, Hs.
  pose proof (pow2_pos k Hk) as Hp.
  assert (0 <= m) by (subst m; apply Z.div_pos; lia).
  rewrite shr_1_halves by assumption.
  destruct (div_mod_pow2_succ z k Hk) as [Hq Hr].
  unfold rne. rewrite Hq, Hr, <- Hm, Zmod_odd.
  replace (2 ^ (k + 1)) with (2 * 2 ^ k) by (rewrite Z.pow_add_r, Z.pow_1_r; lia).
  pose proof (Z.mod_pos_bound z (2 ^ k) Hp).
  cbn [shr_m loc_of_shr_record]. rewrite Hs.
  destruct (Z.odd m), (Z.eqb_spec (z mod 2 ^ k) 0);
    cbn [negb loc_of_shr_record round_nearest_even];
    match goal with |- context [?a ?= ?b] => destruct (Z.compare_spec a b) end;
    try reflexivity; nia.
Qed.

(** [shr] from an exact mantissa. *)
Lemma shr_exact_spec z e (p : positive) :
  0 <= z ->
  let r := shr (Build_shr_record z false false) e (Z.pos p) in
  snd r = e + Z.pos p /\
  round_nearest_even (shr_m (fst r)) (loc_of_shr_record (fst r)) = rne (Z.pos p) z.
Proof.
  intros Hz. cbn [shr fst snd]. split; [reflexivity|].
  rewrite iter_pos_nat.
  destruct (Pos2Nat.is_succ p) as [k Hk]. rewrite Hk. cbn [Nat.iter].
  replace (Z.pos p) with (Z.of_nat k + 1) by lia.
  apply shifted_round; [assumption | lia | now apply shifted_iter].
Qed.

End Shift.

(** ** Rounding to the nearest multiple *)

Section Nearest.

Lemma rne_exact n m : 0 <= n -> rne n (m * 2 ^ n) = m.
Proof.
  intros Hn. pose proof (pow2_pos n Hn). unfold rne.
  rewrite Z.div_mul, Z.mod_mul by lia.
  destruct (Z.compare_spec (2 * 0) (2 ^ n)); lia.
Qed.

Lemma rne_0 z : rne 0 z = z.
Proof. rewrite <- (Z.mul_1_r z) at 1. apply (rne_exact 0 z). lia. Qed.

Lemma rne_shift n j z : 0 <= n -> 0 <= j -> rne (n + j) (z * 2 ^ j) = rne n z.
Proof.
  intros Hn Hj. pose proof (pow2_pos n Hn). pose proof (pow2_pos j Hj). unfold rne.
  rewrite Z.pow_add_r, Z.div_mul_cancel_r, Z.mul_mod_distr_r by lia.
  pose proof (Z.mod_pos_bound z (2 ^ n) ltac:(lia)).
  destruct (Z.compare_spec (2 * (z mod 2 ^ n * 2 ^ j)) (2 ^ n * 2 ^ j)),
    (Z.compare_spec (2 * (z mod 2 ^ n)) (2 ^ n)); try reflexivity; nia.
Qed.

Lemma rne_bounds n z : z / 2 ^ n <= rne n z <= z / 2 ^ n + 1.
Proof.
  unfold rne. destruct (2 * (z mod 2 ^ n) ?= 2 ^ n), (Z.even (z / 2 ^ n)); lia.
Qed.

(** Rounding keeps the order. *)
Lemma rne_mono n z1 z2 : 0 <= n -> z1 <= z2 -> rne n z1 <= rne n z2.
Proof.
  intros Hn Hz. pose proof (pow2_pos n Hn) as Hp.
  pose proof (Z.div_le_mono z1 z2 (2 ^ n) Hp Hz) as Hq.
  destruct (Z.eq_dec (z1 / 2 ^ n) (z2 / 2 ^ n)) as [E|N].
  - pose proof (Z.div_mod z1 (2 ^ n) ltac:(lia)). pose proof (Z.div_mod z2 (2 ^ n) ltac:(lia)).
    unfold rne. rewrite <- E.
    destruct (Z.compare_spec (2 * (z1 mod 2 ^ n)) (2 ^ n)),
      (Z.compare_spec (2 * (z2 mod 2 ^ n)) (2 ^ n)), (Z.even (z1 / 2 ^ n)); nia.
  - pose proof (rne_bounds n z1). pose proof (rne_bounds n z2). lia.
Qed.

(** What rounding leaves of a number with [d] digits has [d - n] digits, or
    is the power of two above them. *)
Lemma rne_digits n z :
  0 < z -> 0 <= n < digits z ->
  2 ^ (digits z - n - 1) <= rne n z <= 2 ^ (digits z - n).
Proof.
  intros Hz Hn. pose proof (pow2_pos n ltac:(lia)) as Hp.
  pose proof (digits_bounds z Hz) as [Hl Hh].
  assert (El' : 2 ^ (digits z - 1) = 2 ^ (digits z - n - 1) * 2 ^ n)
    by (rewrite <- Z.pow_add_r by lia; f_equal; lia).
  assert (Eh' : 2 ^ digits z = 2 ^ (digits z - n) * 2 ^ n)
    by (rewrite <- Z.pow_add_r by lia; f_equal; lia).
  rewrite El' in Hl. rewrite Eh' in Hh.
  pose proof (rne_exact n (2 ^ (digits z - n - 1)) ltac:(lia)) as El.
  pose proof (rne_exact n (2 ^ (digits z - n)) ltac:(lia)) as Eh.
  pose proof (rne_mono n _ _ ltac:(lia) Hl). pose proof (rne_mono n z _ ltac:(lia) (Z.lt_le_incl _ _ Hh)).
  lia.
Qed.

End Nearest.

(** ** What [binary_round] computes *)

Section Round.
Implicit Types (s : bool) (p : positive) (e z : Z).

Local Abbreviation fexp := (SpecFloat.fexp F32.prec F32.emax).
Local Abbreviation binary_round_aux := (SpecFloat.binary_round_aux F32.prec F32.emax).
Local Abbreviation binary_round := (SpecFloat.binary_round F32.prec F32.emax).
Local Abbreviation binary_normalize := (SpecFloat.binary_normalize F32.prec F32.emax).

Lemma fexp_spec x : fexp x = Z.max (x - F32.prec) emin.
Proof. reflexivity. Qed.

(** A mantissa that needs no shift. *)
Lemma shr_fexp_canonical z e :
  fexp (digits z + e) = e ->
  shr_fexp F32.prec F32.emax z e loc_Exact = (Build_shr_record z false false, e).
Proof.
  intros Hc. unfold shr_fexp. change (Zdigits2 z) with (digits z).
  now rewrite Hc, Z.sub_diag.
Qed.

Lemma aux_canonical s p e :
  fexp (digits (Z.pos p) + e) = e ->
  binary_round_aux s (Z.pos p) e loc_Exact = float s (Z.pos p) e.
Proof.
  intros Hc. unfold SpecFloat.binary_round_aux.
  rewrite (shr_fexp_canonical _ _ Hc). cbn [shr_m loc_of_shr_record round_nearest_even].
  now rewrite (shr_fexp_canonical _ _ Hc).
Qed.

(** A mantissa with more than 24 digits is rounded to 24. *)
Lemma aux_shift s p e n :
  emin <= e -> 0 < n -> digits (Z.pos p) = F32.prec + n ->
  binary_round_aux s (Z.pos p) e loc_Exact =
  if rne n (Z.pos p) =? 2 ^ F32.prec
  then float s (2 ^ (F32.prec - 1)) (e + n + 1)
  else float s (rne n (Z.pos p)) (e + n).
Proof.
  intros He Hn Hd. unfold SpecFloat.binary_round_aux, shr_fexp at 1.
  change (Zdigits2 (Z.pos p)) with (digits (Z.pos p)).
  replace (fexp (digits (Z.pos p) + e) - e) with n by (rewrite fexp_spec; format_lia).
  destruct n as [|q|q]; [lia| |lia].
  pose proof (shr_exact_spec (Z.pos p) e q ltac:(lia)) as [He' Hr]. cbv zeta in He', Hr.
  cbn [shr_record_of_loc]. destruct (shr _ e (Z.pos q)) as [mrs e'].
  cbn [fst snd] in He', Hr. subst e'. rewrite Hr.
  pose proof (rne_digits (Z.pos q) (Z.pos p) ltac:(lia) ltac:(format_lia)) as [Hlo Hhi].
  replace (digits (Z.pos p) - Z.pos q) with F32.prec in Hlo, Hhi by format_lia.
  set (m := rne (Z.pos q) (Z.pos p)) in *.
  destruct (Z.eqb_spec m (2 ^ F32.prec)) as [E|N].
  - rewrite E. unfold shr_fexp. change (Zdigits2 (2 ^ F32.prec)) with (F32.prec + 1).
    rewrite fexp_spec. replace (Z.max _ emin - (e + Z.pos q)) with 1 by format_lia.
    reflexivity.
  - assert (Hm : 0 < m) by (change (2 ^ (F32.prec - 1)) with 8388608 in Hlo; lia).
    rewrite shr_fexp_canonical.
    + cbn [shr_m]. destruct m; try lia. reflexivity.
    + rewrite fexp_spec. rewrite (digits_unique m F32.prec) by lia. format_lia.
Qed.

Lemma float_pos s p e :
  float s (Z.pos p) e =
  if e <=? F32.emax - F32.prec then S754_finite s p e else S754_infinity s.
Proof. reflexivity. Qed.

(** From an exponent that is not below [emin] and not above the canonical
    one, [binary_round_aux] rounds the number of units. *)
Lemma aux_spec s p e :
  emin <= e -> e <= fexp (digits (Z.pos p) + e) ->
  binary_round_aux s (Z.pos p) e loc_Exact = round_pos s (Z.pos p * 2 ^ (e - emin)).
Proof.
  intros He Hc. pose proof (digits_positive (Z.pos p) ltac:(lia)) as Hd.
  unfold round_pos, dropped. rewrite digits_shift by lia.
  rewrite fexp_spec in Hc.
  destruct (Z.le_gt_cases (digits (Z.pos p)) F32.prec) as [Hle|Hgt].
  - replace (Z.max _ 0) with (e - emin) by format_lia.
    rewrite rne_exact by lia.
    pose proof (digits_bounds (Z.pos p) ltac:(lia)) as [_ Hh].
    assert (2 ^ digits (Z.pos p) <= 2 ^ F32.prec) by (apply Z.pow_le_mono_r; lia).
    destruct (Z.eqb_spec (Z.pos p) (2 ^ F32.prec)); [lia|].
    replace (emin + (e - emin)) with e by lia.
    apply aux_canonical. rewrite fexp_spec. format_lia.
  - set (n := digits (Z.pos p) - F32.prec).
    replace (Z.max _ 0) with (n + (e - emin)) by (unfold n; format_lia).
    rewrite rne_shift by (unfold n; lia).
    replace (emin + (n + (e - emin))) with (e + n) by lia.
    apply aux_shift; unfold n; lia.
Qed.

Lemma shl_align_ge p e e' : e <= e' -> shl_align p e e' = (p, e).
Proof. unfold shl_align. intros H. destruct (e' - e) eqn:E; try lia; reflexivity. Qed.

Lemma shl_align_lt p e e' :
  e' < e ->
  exists p', shl_align p e e' = (p', e') /\ Z.pos p' = Z.pos p * 2 ^ (e - e').
Proof.
  unfold shl_align. intros H. destruct (e' - e) as [|d|d] eqn:E; try lia.
  eexists. split; [reflexivity|].
  change (Pos.iter xO p d) with (shift_pos d p).
  rewrite shift_pos_correct. change (Z.pow_pos 2 d) with (2 ^ Z.pos d).
  replace (e - e') with (Z.pos d) by lia. lia.
Qed.

(** [binary_round] and [binary_normalize] round the number of units. *)
Lemma binary_round_spec s p e :
  emin <= e -> binary_round s p e = round_pos s (Z.pos p * 2 ^ (e - emin)).
Proof.
  intros He. unfold SpecFloat.binary_round.
  change (Z.pos (digits2_pos p)) with (digits (Z.pos p)).
  pose proof (digits_positive (Z.pos p) ltac:(lia)) as Hd.
  destruct (Z.le_gt_cases e (fexp (digits (Z.pos p) + e))) as [Hle|Hgt].
  - rewrite shl_align_ge by assumption. now apply aux_spec.
  - destruct (shl_align_lt p e _ Hgt) as (p' & -> & Hp').
    rewrite fexp_spec in Hgt.
    rewrite aux_spec.
    + f_equal. rewrite Hp', <- Z.mul_assoc, <- Z.pow_add_r by (rewrite ?fexp_spec; format_lia).
      do 2 f_equal. lia.
    + rewrite fexp_spec. format_lia.
    + rewrite Hp', digits_shift by (rewrite ?fexp_spec; format_lia).
      rewrite !fexp_spec. format_lia.
Qed.

Lemma round_positive z : 0 < z -> round z = round_pos false z.
Proof. destruct z; try lia. reflexivity. Qed.

Lemma round_negative z : 0 < z -> round (- z) = round_pos true z.
Proof. destruct z; try lia. reflexivity. Qed.

Lemma binary_normalize_spec z e :
  emin <= e -> binary_normalize z e false = round (z * 2 ^ (e - emin)).
Proof.
  intros He. pose proof (pow2_pos (e - emin) ltac:(lia)).
  destruct z as [|p|p]; cbn [SpecFloat.binary_normalize]; [reflexivity| |].
  - rewrite round_positive by lia. now apply binary_round_spec.
  - change (Z.neg p) with (- Z.pos p). rewrite Z.mul_opp_l, round_negative by lia.
    now apply binary_round_spec.
Qed.

End Round.

(** ** The rounded number: valid, and how many units it is *)

Section Rounded.
Implicit Types (s : bool) (p : positive) (e z m : Z).

Local Abbreviation fexp := (SpecFloat.fexp F32.prec F32.emax).

Lemma dropped_nonneg z : 0 <= dropped z.
Proof. unfold dropped. lia. Qed.

Lemma digits_mono z1 z2 : 0 < z1 <= z2 -> digits z1 <= digits z2.
Proof.
  intros [H1 H2]. pose proof (digits_bounds z1 H1) as [Hl _].
  pose proof (digits_bounds z2 ltac:(lia)) as [_ Hh].
  pose proof (digits_positive z1 H1).
  destruct (Z.le_gt_cases (digits z1) (digits z2)) as [|Hgt]; [assumption|].
  assert (2 ^ digits z2 <= 2 ^ (digits z1 - 1)) by (apply Z.pow_le_mono_r; lia). lia.
Qed.

(** A canonical mantissa and exponent make a valid float. *)
Lemma float_valid s m e :
  0 < m -> fexp (digits m + e) = e -> F32.valid (float s m e) = true.
Proof.
  intros Hm Hc. destruct m as [|p|p]; try lia. rewrite float_pos.
  destruct (Z.leb_spec e (F32.emax - F32.prec)) as [Hle|Hgt]; [|reflexivity].
  unfold F32.valid, valid_binary, bounded, canonical_mantissa.
  change (Z.pos (digits2_pos p)) with (digits (Z.pos p)).
  rewrite Hc, Z.eqb_refl. now apply Z.leb_le.
Qed.

(** The mantissa rounding leaves: 24 digits if digits were dropped. *)
Lemma rne_dropped z :
  0 < z -> 0 < dropped z ->
  2 ^ (F32.prec - 1) <= rne (dropped z) z <= 2 ^ F32.prec.
Proof.
  intros Hz Hn. unfold dropped in *.
  pose proof (rne_digits (Z.max (digits z - F32.prec) 0) z Hz ltac:(format_lia)) as H.
  replace (digits z - Z.max (digits z - F32.prec) 0) with F32.prec in H by lia.
  exact H.
Qed.

Lemma rne_not_dropped z : dropped z = 0 -> rne (dropped z) z = z.
Proof. intros ->. apply rne_0. Qed.

Lemma round_pos_valid s z : 0 < z -> F32.valid (round_pos s z) = true.
Proof.
  intros Hz. unfold round_pos. pose proof (dropped_nonneg z) as Hn.
  destruct (Z.eqb_spec (rne (dropped z) z) (2 ^ F32.prec)) as [E|N].
  - apply float_valid; [reflexivity|].
    change (digits (2 ^ (F32.prec - 1))) with F32.prec. rewrite fexp_spec. format_lia.
  - destruct (Z.eq_dec (dropped z) 0) as [E0|N0].
    + rewrite E0, rne_0. apply float_valid; [assumption|].
      rewrite fexp_spec. unfold dropped in E0. format_lia.
    + pose proof (rne_dropped z Hz ltac:(lia)) as [Hlo Hhi].
      apply float_valid; [change (2 ^ (F32.prec - 1)) with 8388608 in Hlo; lia|].
      rewrite (digits_unique _ F32.prec), fexp_spec by
        (try split; try lia; change (2 ^ (F32.prec - 1)) with 8388608 in Hlo; lia).
      format_lia.
Qed.

Lemma round_valid z : F32.valid (round z) = true.
Proof. destruct z; [reflexivity|apply round_pos_valid; lia..]. Qed.

(** *** Units of the rounded number *)

Lemma pow2_le a b : 0 <= a <= b -> 2 ^ a <= 2 ^ b.
Proof. intros. apply Z.pow_le_mono_r; lia. Qed.

Lemma pow2_split a b : 0 <= a -> 0 <= b -> 2 ^ (a + b) = 2 ^ a * 2 ^ b.
Proof. intros. now apply Z.pow_add_r. Qed.

Lemma nearest_bounds z :
  0 < z ->
  0 < nearest z <= 2 ^ (F32.prec + dropped z) /\
  (0 < dropped z -> 2 ^ (F32.prec - 1 + dropped z) <= nearest z).
Proof.
  intros Hz. pose proof (dropped_nonneg z) as Hn. unfold nearest.
  pose proof (pow2_pos (dropped z) Hn) as Hp.
  rewrite !pow2_split by format_lia.
  destruct (Z.eq_dec (dropped z) 0) as [E0|N0].
  - rewrite E0, rne_0, Z.pow_0_r in *. split; [|lia].
    pose proof (digits_bounds z Hz) as [_ Hh].
    pose proof (pow2_le (digits z) F32.prec) as Hle.
    unfold dropped in E0. pose proof (digits_positive z Hz). split; [lia|].
    assert (2 ^ digits z <= 2 ^ F32.prec) by (apply Hle; lia). lia.
  - pose proof (rne_dropped z Hz ltac:(lia)) as [Hlo Hhi].
    assert (0 < 2 ^ (F32.prec - 1)) by reflexivity.
    split; [split|intros _]; [apply Z.mul_pos_pos|apply Z.mul_le_mono_nonneg_r..]; lia.
Qed.

Lemma ulps_round_pos s z :
  0 < z -> ulps (round_pos s z) = cond_Zopp s (Z.min (nearest z) (2 ^ etop)).
Proof.
  intros Hz. pose proof (dropped_nonneg z) as Hn.
  destruct (nearest_bounds z Hz) as [[_ Hhi] Hlo].
  unfold round_pos, nearest in *. set (n := dropped z) in *.
  pose proof (pow2_pos n Hn) as Hp.
  assert (Etop : forall k, 0 <= k <= etop -> 2 ^ etop = 2 ^ k * 2 ^ (etop - k))
    by (intros k Hk; rewrite <- pow2_split by lia; f_equal; lia).
  destruct (Z.eqb_spec (rne n z) (2 ^ F32.prec)) as [E|N].
  - change (2 ^ (F32.prec - 1)) with 8388608. unfold float.
    rewrite E. destruct (Z.leb_spec (emin + n + 1) (F32.emax - F32.prec)) as [Hle|Hgt];
      cbn [ulps]; f_equal.
    + replace (emin + n + 1 - emin) with (1 + n) by lia. rewrite pow2_split by lia.
      rewrite (Etop (F32.prec + n)), pow2_split by format_lia.
      pose proof (pow2_pos (etop - (F32.prec + n)) ltac:(format_lia)).
      change (2 ^ F32.prec) with 16777216. change (2 ^ 1) with 2. nia.
    + rewrite <- pow2_split by format_lia.
      pose proof (pow2_le etop (F32.prec + n) ltac:(format_lia)). lia.
  - assert (Hm : 0 < rne n z).
    { destruct (Z.eq_dec n 0) as [E0|N0]; [rewrite E0, rne_0; lia|].
      pose proof (rne_dropped z Hz ltac:(fold n; lia)) as [Hl _]. fold n in Hl.
      change (2 ^ (F32.prec - 1)) with 8388608 in Hl. lia. }
    destruct (rne n z) as [|m|m] eqn:Em; try lia. rewrite float_pos.
    destruct (Z.leb_spec (emin + n) (F32.emax - F32.prec)) as [Hle|Hgt]; cbn [ulps]; f_equal.
    + replace (emin + n - emin) with n by lia.
      destruct (Z.eq_dec n 0) as [E0|N0].
      * rewrite E0, Z.pow_0_r, ?Z.add_0_r in *.
        pose proof (pow2_le F32.prec etop ltac:(format_lia)). lia.
      * pose proof (rne_dropped z Hz ltac:(fold n; lia)) as [_ Hh]. fold n in Hh.
        rewrite Em in Hh.
        rewrite (Etop F32.prec) by format_lia.
        pose proof (pow2_le n (etop - F32.prec) ltac:(format_lia)).
        pose proof (pow2_pos F32.prec ltac:(format_lia)). nia.
    + specialize (Hlo ltac:(format_lia)).
      pose proof (pow2_le etop (F32.prec - 1 + n) ltac:(format_lia)). lia.
Qed.

Lemma ulps_round z : ulps (round z) = near z.
Proof.
  unfold near. destruct z as [|p|p]; [reflexivity| |]; cbn [round Z.abs Z.sgn];
    rewrite ulps_round_pos by lia; cbn [cond_Zopp]; lia.
Qed.

(** *** Rounding keeps the order *)

Lemma dropped_mono z1 z2 : 0 < z1 <= z2 -> dropped z1 <= dropped z2.
Proof. intros H. pose proof (digits_mono z1 z2 H). unfold dropped. lia. Qed.

Lemma nearest_mono z1 z2 : 0 < z1 <= z2 -> nearest z1 <= nearest z2.
Proof.
  intros [H1 H2]. pose proof (dropped_mono z1 z2 ltac:(lia)) as Hd.
  pose proof (dropped_nonneg z1) as Hn.
  destruct (Z.eq_dec (dropped z1) (dropped z2)) as [E|N].
  - unfold nearest. rewrite <- E.
    apply Z.mul_le_mono_nonneg_r; [apply Z.lt_le_incl, pow2_pos, Hn|].
    now apply rne_mono.
  - destruct (nearest_bounds z1 H1) as [[_ Hhi] _].
    destruct (nearest_bounds z2 ltac:(lia)) as [_ Hlo]. specialize (Hlo ltac:(lia)).
    pose proof (pow2_le (F32.prec + dropped z1) (F32.prec - 1 + dropped z2) ltac:(format_lia)).
    lia.
Qed.

Lemma near_mono z1 z2 : z1 <= z2 -> near z1 <= near z2.
Proof.
  intros Hz. unfold near.
  assert (Hpos : forall p, 0 < Z.min (nearest (Z.pos p)) (2 ^ etop)).
  { intros p. destruct (nearest_bounds (Z.pos p) ltac:(lia)) as [[H _] _].
    pose proof (pow2_pos etop ltac:(format_lia)). lia. }
  destruct z1 as [|p1|p1], z2 as [|p2|p2]; try lia; cbn [Z.sgn Z.abs];
    try pose proof (Hpos p1); try pose proof (Hpos p2); try lia.
  - pose proof (nearest_mono (Z.pos p1) (Z.pos p2) ltac:(lia)). lia.
  - pose proof (nearest_mono (Z.pos p2) (Z.pos p1) ltac:(lia)). lia.
Qed.

(** Said for rewriting: [near] is a morphism of the order. *)
#[global] Instance near_le_proper : Proper (Z.le ==> Z.le) near.
Proof. intros z1 z2 Hz. now apply near_mono. Qed.

(** *** A valid number is its own rounding *)

Lemma valid_finite_inv s p e :
  F32.valid (S754_finite s p e) = true ->
  fexp (digits (Z.pos p) + e) = e /\ e <= F32.emax - F32.prec /\ emin <= e.
Proof.
  unfold F32.valid, valid_binary, bounded, canonical_mantissa.
  intros [Hc He]%andb_true_iff. apply Z.eqb_eq in Hc. apply Z.leb_le in He.
  change (Z.pos (digits2_pos p)) with (digits (Z.pos p)) in Hc.
  repeat split; [assumption..|]. rewrite fexp_spec in Hc. lia.
Qed.

Lemma round_pos_ulps s p e :
  F32.valid (S754_finite s p e) = true ->
  round_pos s (Z.pos p * 2 ^ (e - emin)) = S754_finite s p e.
Proof.
  intros (Hc & He & Hm)%valid_finite_inv.
  rewrite <- aux_spec, aux_canonical, float_pos by (rewrite ?Hc; lia).
  now apply Z.leb_le in He as ->.
Qed.

Lemma round_ulps x :
  F32.valid x = true -> F32.is_finite x = true -> x <> S754_zero true ->
  round (ulps x) = x.
Proof.
  intros Hv Hf Hz. destruct x as [[]| | |s p e]; try discriminate; try congruence.
  - reflexivity.
  - pose proof (valid_finite_inv _ _ _ Hv) as (_ & _ & He).
    pose proof (pow2_pos (e - emin) ltac:(lia)).
    cbn [ulps]. destruct s; cbn [cond_Zopp].
    + rewrite round_negative by lia. now apply round_pos_ulps.
    + rewrite round_positive by lia. now apply round_pos_ulps.
Qed.

(** In units: rounding leaves every number of the format where it is, the
    infinities too. *)
Lemma near_ulps x : F32.valid x = true -> near (ulps x) = ulps x.
Proof.
  intros Hv. destruct x as [[]|s| |s p e]; try reflexivity.
  - rewrite <- ulps_round. destruct s; reflexivity.
  - rewrite <- ulps_round, round_ulps; [reflexivity|assumption|reflexivity|discriminate].
Qed.

End Rounded.
