(* ===== verification/FloatArith.v ===== *)
(** * FloatArith: addition, subtraction and order of binary32, in units

    With [Units], the operations of [F32] the frame computes with are read
    in the integers:

    - the comparisons of valid numbers are the comparisons of their units
      ([compare_units], [ltb_units], [leb_units]);
    - [F32.add] and [F32.sub] of finite numbers are the exact sum and
      difference, rounded once ([add_units], [sub_units]), and valid
      operands give a valid result ([add_valid], [sub_valid]).

    Three consequences are what the geometry of the frame needs.  Adding a
    margin that is not negative never moves a border the wrong way
    ([add_nonneg_leb], [sub_nonneg_leb]), whatever the rounding.  On
    numbers [a / 2^k] with [a] below [2^24] and [k] from 0 to 149 the
    arithmetic is that of the integers [a] ([dyadic_add], [dyadic_sub],
    [dyadic_leb], [dyadic_ltb], [dyadic_max], [dyadic_min]); the literals
    of integers are the case [k = 0] ([of_Z_add] and the like).  And
    [f32::MAX] absorbs such numbers ([dyadic_add_MAX], [dyadic_sub_MAX]),
    which all lie between [f32::MIN] and [f32::MAX]. *)

From Stdlib Require Import Bool ZArith Lia Zpower Morphisms.
From Stdlib Require Import Floats.SpecFloat.
From S2P Require Import Prelude F32 Units.

Local Open Scope Z_scope.

(** ** The order of the format is the order of the units *)

Section UnitsOrder.
Implicit Types (s : bool) (p : positive) (e : Z) (x y : F32.t).

Local Abbreviation fexp := (SpecFloat.fexp F32.prec F32.emax).

(** A valid mantissa has 24 digits at most, and 24 above the least
    exponent. *)
Lemma valid_mantissa s p e :
  F32.valid (S754_finite s p e) = true ->
  Z.pos p < 2 ^ F32.prec /\ (emin < e -> 2 ^ (F32.prec - 1) <= Z.pos p).
Proof.
  intros (Hc & _ & He)%valid_finite_inv. rewrite fexp_spec in Hc.
  pose proof (digits_bounds (Z.pos p) ltac:(lia)) as [Hl Hh].
  pose proof (digits_positive (Z.pos p) ltac:(lia)). split.
  - pose proof (pow2_le (digits (Z.pos p)) F32.prec ltac:(format_lia)). lia.
  - intros Hlt. replace (digits (Z.pos p)) with F32.prec in Hl by format_lia. exact Hl.
Qed.

Lemma units_lt_exp s1 p1 e1 s2 p2 e2 :
  F32.valid (S754_finite s1 p1 e1) = true -> F32.valid (S754_finite s2 p2 e2) = true ->
  e1 < e2 -> Z.pos p1 * 2 ^ (e1 - emin) < Z.pos p2 * 2 ^ (e2 - emin).
Proof.
  intros H1 H2 He. pose proof (valid_finite_inv _ _ _ H1) as (_ & _ & Hm).
  apply valid_mantissa in H1 as [Hh _]. apply valid_mantissa in H2 as [_ Hl].
  specialize (Hl ltac:(lia)).
  replace (e2 - emin) with (e1 - emin + (e2 - e1)) by lia. rewrite pow2_split by lia.
  pose proof (pow2_pos (e1 - emin) ltac:(lia)).
  pose proof (pow2_le 1 (e2 - e1) ltac:(lia)).
  change (2 ^ 1) with 2 in *. change (2 ^ F32.prec) with 16777216 in *.
  change (2 ^ (F32.prec - 1)) with 8388608 in *.
  set (a := 2 ^ (e1 - emin)) in *. set (b := 2 ^ (e2 - e1)) in *.
  assert (Z.pos p1 * a < 16777216 * a) by nia.
  assert (8388608 * (a * 2) <= Z.pos p2 * (a * 2)) by nia.
  assert (Z.pos p2 * (a * 2) <= Z.pos p2 * (a * b)) by (apply Z.mul_le_mono_nonneg_l; nia).
  lia.
Qed.

Lemma units_lt_top s p e :
  F32.valid (S754_finite s p e) = true -> Z.pos p * 2 ^ (e - emin) < 2 ^ etop.
Proof.
  intros H. pose proof (valid_finite_inv _ _ _ H) as (_ & He & Hm).
  apply valid_mantissa in H as [Hh _].
  replace etop with (F32.prec + (etop - F32.prec)) by lia.
  rewrite pow2_split by format_lia.
  pose proof (pow2_le (e - emin) (etop - F32.prec) ltac:(format_lia)).
  pose proof (pow2_pos (e - emin) ltac:(lia)). nia.
Qed.

Lemma units_pos p e : emin <= e -> 0 < Z.pos p * 2 ^ (e - emin).
Proof. intros. pose proof (pow2_pos (e - emin) ltac:(lia)). nia. Qed.

Lemma ulps_bounds x : F32.valid x = true -> - 2 ^ etop <= ulps x <= 2 ^ etop.
Proof.
  intros Hv. pose proof (pow2_pos etop ltac:(format_lia)).
  destruct x as [?|[]| |[] p e]; cbn [ulps cond_Zopp]; try lia;
    pose proof (units_lt_top _ _ _ Hv); pose proof (valid_finite_inv _ _ _ Hv) as (_ & _ & He);
    pose proof (units_pos p e He); lia.
Qed.

(** Two valid finite numbers of the same sign compare as their exponents,
    then their mantissas. *)
Lemma compare_finite s1 p1 e1 s2 p2 e2 :
  F32.valid (S754_finite s1 p1 e1) = true -> F32.valid (S754_finite s2 p2 e2) = true ->
  match e1 ?= e2 with
  | Lt => Lt
  | Gt => Gt
  | Eq => Pos.compare_cont Eq p1 p2
  end = (Z.pos p1 * 2 ^ (e1 - emin) ?= Z.pos p2 * 2 ^ (e2 - emin)).
Proof.
  intros H1 H2. symmetry. destruct (Z.compare_spec e1 e2) as [E|L|G].
  - subst e2. pose proof (valid_finite_inv _ _ _ H1) as (_ & _ & Hm).
    change (Pos.compare_cont Eq p1 p2) with (Z.pos p1 ?= Z.pos p2).
    symmetry. apply Zmult_compare_compat_r. pose proof (pow2_pos (e1 - emin)). lia.
  - apply Z.compare_lt_iff. now apply (units_lt_exp s1 _ _ s2).
  - apply Z.compare_gt_iff. now apply (units_lt_exp s2 _ _ s1).
Qed.

(** The comparison of the format is the comparison of the units. *)
Lemma compare_units x y :
  F32.valid x = true -> F32.valid y = true ->
  F32.is_nan x = false -> F32.is_nan y = false ->
  SFcompare x y = Some (ulps x ?= ulps y).
Proof.
  intros Hx Hy Nx Ny. pose proof (pow2_pos etop ltac:(format_lia)) as Ht.
  destruct x as [?|[]| |s1 p1 e1]; try discriminate;
    destruct y as [?|[]| |s2 p2 e2]; try discriminate;
    try pose proof (units_lt_top _ _ _ Hx); try pose proof (units_lt_top _ _ _ Hy);
    try (pose proof (valid_finite_inv _ _ _ Hx) as (_ & _ & He1); pose proof (units_pos p1 e1 He1));
    try (pose proof (valid_finite_inv _ _ _ Hy) as (_ & _ & He2); pose proof (units_pos p2 e2 He2)).
  all: try (destruct s1); try (destruct s2); cbn [SFcompare ulps cond_Zopp]; f_equal.
  all: try (rewrite (compare_finite _ _ _ _ _ _ Hx Hy); reflexivity).
  all: try (rewrite Z.compare_opp, (Z.compare_antisym (Z.pos p1 * _) (Z.pos p2 * _)),
              <- (compare_finite _ _ _ _ _ _ Hx Hy);
            destruct (e1 ?= e2); reflexivity).
  all: symmetry;
    first [ apply Z.compare_eq_iff; lia | apply Z.compare_lt_iff; lia
          | apply Z.compare_gt_iff; lia ].
Qed.

Lemma ltb_units x y :
  F32.valid x = true -> F32.valid y = true ->
  F32.is_nan x = false -> F32.is_nan y = false ->
  F32.ltb x y = (ulps x <? ulps y).
Proof.
  intros Hx Hy Nx Ny. unfold F32.ltb, SFltb, Z.ltb.
  rewrite (compare_units x y Hx Hy Nx Ny). reflexivity.
Qed.

Lemma leb_units x y :
  F32.valid x = true -> F32.valid y = true ->
  F32.is_nan x = false -> F32.is_nan y = false ->
  F32.leb x y = (ulps x <=? ulps y).
Proof.
  intros Hx Hy Nx Ny. unfold F32.leb, SFleb, Z.leb.
  rewrite (compare_units x y Hx Hy Nx Ny). now destruct (_ ?= _).
Qed.

End UnitsOrder.

(** ** Addition and subtraction round the exact result *)

Section Arithmetic.
Implicit Types (s : bool) (p : positive) (e : Z) (x y m : F32.t).

Lemma shl_align_units p e e' :
  emin <= e' <= e ->
  Z.pos (fst (shl_align p e e')) * 2 ^ (e' - emin) = Z.pos p * 2 ^ (e - emin).
Proof.
  intros [Hm Hle]. destruct (Z.eq_dec e' e) as [->|N].
  - now rewrite shl_align_ge by lia.
  - destruct (shl_align_lt p e e' ltac:(lia)) as (p' & -> & Hp'). cbn [fst].
    rewrite Hp', <- Z.mul_assoc, <- pow2_split by lia. do 2 f_equal. lia.
Qed.

(** The aligned mantissas of two valid numbers, with their signs, are the
    numbers in units. *)
Lemma aligned_units s p e e' :
  emin <= e' <= e ->
  cond_Zopp s (Z.pos (fst (shl_align p e e'))) * 2 ^ (e' - emin) =
  ulps (S754_finite s p e).
Proof.
  intros H. cbn [ulps]. rewrite <- (shl_align_units p e e' H).
  destruct s; cbn [cond_Zopp]; lia.
Qed.

Lemma add_finite s1 p1 e1 s2 p2 e2 :
  F32.valid (S754_finite s1 p1 e1) = true -> F32.valid (S754_finite s2 p2 e2) = true ->
  F32.add (S754_finite s1 p1 e1) (S754_finite s2 p2 e2) =
  round (ulps (S754_finite s1 p1 e1) + ulps (S754_finite s2 p2 e2)).
Proof.
  intros (_ & _ & H1)%valid_finite_inv (_ & _ & H2)%valid_finite_inv.
  unfold F32.add, SFadd. rewrite binary_normalize_spec by lia.
  now rewrite Z.mul_add_distr_r, !aligned_units by lia.
Qed.

Lemma sub_finite s1 p1 e1 s2 p2 e2 :
  F32.valid (S754_finite s1 p1 e1) = true -> F32.valid (S754_finite s2 p2 e2) = true ->
  F32.sub (S754_finite s1 p1 e1) (S754_finite s2 p2 e2) =
  round (ulps (S754_finite s1 p1 e1) - ulps (S754_finite s2 p2 e2)).
Proof.
  intros (_ & _ & H1)%valid_finite_inv (_ & _ & H2)%valid_finite_inv.
  unfold F32.sub, SFsub. rewrite binary_normalize_spec by lia.
  now rewrite Z.mul_sub_distr_r, !aligned_units by lia.
Qed.

(** The operations keep numbers valid. *)
Lemma add_valid x y : F32.valid x = true -> F32.valid y = true -> F32.valid (F32.add x y) = true.
Proof.
  intros Hx Hy. destruct x as [[]|[]| |s1 p1 e1], y as [[]|[]| |s2 p2 e2];
    try reflexivity; try assumption.
  rewrite add_finite by assumption. apply round_valid.
Qed.

Lemma sub_valid x y : F32.valid x = true -> F32.valid y = true -> F32.valid (F32.sub x y) = true.
Proof.
  intros Hx Hy. destruct x as [[]|[]| |s1 p1 e1], y as [[]|[]| |s2 p2 e2];
    try reflexivity; try assumption.
  rewrite sub_finite by assumption. apply round_valid.
Qed.

Lemma near_0 : near 0 = 0.
Proof. reflexivity. Qed.

Lemma near_opp z : near (- z) = - near z.
Proof. unfold near. rewrite Z.sgn_opp, Z.abs_opp. lia. Qed.

Lemma ulps_opp x : ulps (SFopp x) = - ulps x.
Proof. destruct x as [?|[]| |[] p e]; cbn [SFopp ulps cond_Zopp negb]; lia. Qed.

(** In units, a sum of finite numbers is the exact sum, rounded. *)
Lemma add_units x y :
  F32.valid x = true -> F32.valid y = true ->
  F32.is_finite x = true -> F32.is_finite y = true ->
  ulps (F32.add x y) = near (ulps x + ulps y).
Proof.
  intros Hx Hy Fx Fy.
  destruct x as [[]| | |s1 p1 e1]; try discriminate;
    destruct y as [[]| | |s2 p2 e2]; try discriminate; try reflexivity;
    try (rewrite add_finite, ulps_round by assumption; reflexivity).
  all: cbn [F32.add SFadd]; rewrite ?Z.add_0_l, ?Z.add_0_r; symmetry; now apply near_ulps.
Qed.

Lemma sub_units x y :
  F32.valid x = true -> F32.valid y = true ->
  F32.is_finite x = true -> F32.is_finite y = true ->
  ulps (F32.sub x y) = near (ulps x - ulps y).
Proof.
  intros Hx Hy Fx Fy.
  destruct x as [[]| | |s1 p1 e1]; try discriminate;
    destruct y as [[]| | |s2 p2 e2]; try discriminate; try reflexivity;
    try (rewrite sub_finite, ulps_round by assumption; reflexivity).
  all: cbn [F32.sub SFsub]; rewrite ?Z.sub_0_r; try (symmetry; now apply near_ulps).
  all: transitivity (near (ulps (S754_finite (negb s2) p2 e2)));
    [symmetry; apply near_ulps; exact Hy | f_equal; destruct s2; cbn [ulps cond_Zopp negb]; lia].
Qed.

End Arithmetic.

(** ** Adding what is not negative does not decrease *)

Section Monotone.
Implicit Types x y m : F32.t.

Lemma zero_leb_units m :
  F32.valid m = true -> F32.leb F32.zero m = true -> 0 <= ulps m.
Proof.
  intros Hv Hle. destruct (F32.leb_not_nan _ _ Hle) as [_ Hn].
  rewrite leb_units in Hle by (assumption || reflexivity). now apply Z.leb_le in Hle.
Qed.

(** [x <= x + m] for [m] that is not negative, with the rounding, the
    overflow to an infinity and the infinities as operands. *)
Lemma add_nonneg_leb x m :
  F32.valid x = true -> F32.valid m = true ->
  F32.leb F32.zero m = true -> F32.is_nan (F32.add x m) = false ->
  F32.leb x (F32.add x m) = true.
Proof.
  intros Hx Hm Hle Hn. pose proof (zero_leb_units m Hm Hle) as H0.
  destruct (F32.is_finite x) eqn:Fx, (F32.is_finite m) eqn:Fm.
  - rewrite leb_units, add_units by
      (try apply add_valid; try assumption; now apply F32.is_finite_not_nan).
    assert (Hsum : ulps x <= ulps x + ulps m) by lia.
    apply Z.leb_le. rewrite <- Hsum. now rewrite near_ulps.
  - destruct x as [?|?| |? ? ?], m as [?|[]| |? ? ?]; try discriminate; reflexivity.
  - destruct x as [?|[]| |? ? ?], m as [?|?| |? ? ?]; try discriminate; reflexivity.
  - destruct x as [?|[]| |? ? ?], m as [?|[]| |? ? ?]; try discriminate; reflexivity.
Qed.

(** [x - m <= x], likewise. *)
Lemma sub_nonneg_leb x m :
  F32.valid x = true -> F32.valid m = true ->
  F32.leb F32.zero m = true -> F32.is_nan (F32.sub x m) = false ->
  F32.leb (F32.sub x m) x = true.
Proof.
  intros Hx Hm Hle Hn. pose proof (zero_leb_units m Hm Hle) as H0.
  destruct (F32.is_finite x) eqn:Fx, (F32.is_finite m) eqn:Fm.
  - rewrite leb_units, sub_units by
      (try apply sub_valid; try assumption; now apply F32.is_finite_not_nan).
    assert (Hdiff : ulps x - ulps m <= ulps x) by lia.
    apply Z.leb_le. rewrite Hdiff. now rewrite near_ulps.
  - destruct x as [?|?| |? ? ?], m as [?|[]| |? ? ?]; try discriminate; reflexivity.
  - destruct x as [?|[]| |? ? ?], m as [?|?| |? ? ?]; try discriminate; reflexivity.
  - destruct x as [?|[]| |? ? ?], m as [?|[]| |? ? ?]; try discriminate; reflexivity.
Qed.

(** Addition and subtraction of finite numbers keep the order. *)
Lemma add_leb_mono x x' y y' :
  F32.valid x = true -> F32.valid x' = true -> F32.valid y = true -> F32.valid y' = true ->
  F32.is_finite x = true -> F32.is_finite x' = true ->
  F32.is_finite y = true -> F32.is_finite y' = true ->
  F32.leb x x' = true -> F32.leb y y' = true ->
  F32.leb (F32.add x y) (F32.add x' y') = true.
Proof.
  intros Vx Vx' Vy Vy' Fx Fx' Fy Fy' Hx Hy.
  rewrite leb_units in Hx, Hy by (assumption || now apply F32.is_finite_not_nan).
  apply Z.leb_le in Hx, Hy.
  rewrite leb_units, !add_units by
    (try apply add_valid; try assumption; apply F32.add_number;
     auto using F32.is_finite_not_nan).
  apply Z.leb_le, near_mono. lia.
Qed.

Lemma sub_leb_mono x x' y y' :
  F32.valid x = true -> F32.valid x' = true -> F32.valid y = true -> F32.valid y' = true ->
  F32.is_finite x = true -> F32.is_finite x' = true ->
  F32.is_finite y = true -> F32.is_finite y' = true ->
  F32.leb x x' = true -> F32.leb y' y = true ->
  F32.leb (F32.sub x y) (F32.sub x' y') = true.
Proof.
  intros Vx Vx' Vy Vy' Fx Fx' Fy Fy' Hx Hy.
  rewrite leb_units in Hx, Hy by (assumption || now apply F32.is_finite_not_nan).
  apply Z.leb_le in Hx, Hy.
  rewrite leb_units, !sub_units by
    (try apply sub_valid; try assumption; apply F32.sub_number;
     auto using F32.is_finite_not_nan).
  apply Z.leb_le, near_mono. lia.
Qed.

End Monotone.

(** ** Numbers with 24 digits are exact *)

Section Exact.
Implicit Types (a b k z : Z) (x y : F32.t).

(** An integer below [2^24], scaled by a power of two within the format, is
    a number of the format. *)
Lemma nearest_small a k :
  0 < a < 2 ^ F32.prec -> 0 <= k -> nearest (a * 2 ^ k) = a * 2 ^ k.
Proof.
  intros Ha Hk. unfold nearest, dropped. rewrite digits_shift by lia.
  pose proof (digits_bounds a ltac:(lia)) as [Hl _].
  pose proof (digits_positive a ltac:(lia)).
  assert (digits a <= F32.prec).
  { destruct (Z.le_gt_cases (digits a) F32.prec); [assumption|].
    pose proof (pow2_le F32.prec (digits a - 1) ltac:(format_lia)). lia. }
  set (n := Z.max (digits a + k - F32.prec) 0).
  replace (a * 2 ^ k) with (a * 2 ^ (k - n) * 2 ^ n)
    by (rewrite <- Z.mul_assoc, <- pow2_split by lia; do 2 f_equal; lia).
  now rewrite rne_exact by lia.
Qed.

Lemma near_small a k :
  Z.abs a < 2 ^ F32.prec -> 0 <= k <= etop - F32.prec -> near (a * 2 ^ k) = a * 2 ^ k.
Proof.
  intros Ha Hk. pose proof (pow2_pos k ltac:(lia)) as Hp. unfold near.
  destruct (Z.eq_dec a 0) as [->|Hnz]; [reflexivity|].
  rewrite Z.abs_mul, Z.sgn_mul, (Z.abs_eq (2 ^ k)), (Z.sgn_pos (2 ^ k)), Z.mul_1_r by lia.
  rewrite nearest_small by lia.
  assert (Z.abs a * 2 ^ k < 2 ^ etop).
  { replace etop with (F32.prec + (etop - F32.prec)) by lia. rewrite pow2_split by format_lia.
    pose proof (pow2_le k (etop - F32.prec) Hk). nia. }
  rewrite Z.min_l by lia. destruct a; cbn [Z.sgn Z.abs]; lia.
Qed.

(** What [round] returns: [+0] for no unit, else a number with the sign of
    the units. *)
Lemma round_cases z :
  z <> 0 ->
  round z = S754_infinity (z <? 0) \/ exists p e, round z = S754_finite (z <? 0) p e.
Proof.
  assert (H : forall s z', 0 < z' ->
            round_pos s z' = S754_infinity s \/ exists p e, round_pos s z' = S754_finite s p e).
  { intros s z' Hz. unfold round_pos.
    destruct (Z.eqb_spec (rne (dropped z') z') (2 ^ F32.prec)) as [E|N].
    - change (2 ^ (F32.prec - 1)) with 8388608. rewrite float_pos.
      destruct (_ <=? _); eauto.
    - destruct (nearest_bounds z' Hz) as [[Hpos _] _]. unfold nearest in Hpos.
      pose proof (pow2_pos (dropped z') (dropped_nonneg z')).
      destruct (rne (dropped z') z') as [|m|m]; try nia.
      rewrite float_pos. destruct (_ <=? _); eauto. }
  intros Hz. destruct z as [|p|p]; [lia|apply H; lia..].
Qed.

Lemma round_finite z :
  Z.abs (near z) < 2 ^ etop -> F32.is_finite (round z) = true.
Proof.
  intros Hlt. rewrite <- ulps_round in Hlt.
  destruct (Z.eq_dec z 0) as [->|Hz]; [reflexivity|].
  destruct (round_cases z Hz) as [E|(p & e & E)]; rewrite E in *; [|reflexivity].
  destruct (z <? 0); cbn [ulps cond_Zopp] in Hlt; lia.
Qed.

(** On operands that are numbers of the format, the operations are the
    exact ones followed by one rounding. *)
Lemma add_round z1 z2 :
  near z1 = z1 -> near z2 = z2 -> Z.abs z1 < 2 ^ etop -> Z.abs z2 < 2 ^ etop ->
  F32.add (round z1) (round z2) = round (z1 + z2).
Proof.
  intros E1 E2 B1 B2.
  pose proof (round_finite z1 ltac:(now rewrite E1)) as F1.
  pose proof (round_finite z2 ltac:(now rewrite E2)) as F2.
  destruct (Z.eq_dec z1 0) as [->|N1]; [|destruct (Z.eq_dec z2 0) as [->|N2]].
  - destruct (Z.eq_dec z2 0) as [->|N2]; [reflexivity|]. cbn [round Z.add].
    destruct (round_cases z2 N2) as [E|(p & e & E)]; rewrite E in *; [discriminate|reflexivity].
  - rewrite Z.add_0_r. cbn [round].
    destruct (round_cases z1 N1) as [E|(p & e & E)]; rewrite E in *; [discriminate|reflexivity].
  - pose proof (round_valid z1) as V1. pose proof (round_valid z2) as V2.
    pose proof (ulps_round z1) as U1. pose proof (ulps_round z2) as U2.
    destruct (round_cases z1 N1) as [E|(p1 & e1 & Ef1)]; [rewrite E in F1; discriminate|].
    destruct (round_cases z2 N2) as [E|(p2 & e2 & Ef2)]; [rewrite E in F2; discriminate|].
    rewrite Ef1, Ef2 in *. rewrite add_finite by assumption. now rewrite U1, U2, E1, E2.
Qed.

Lemma float_opp s m e : float (negb s) m e = SFopp (float s m e).
Proof. unfold float. destruct m; [reflexivity| |reflexivity]. now destruct (_ <=? _). Qed.

Lemma round_opp z : z <> 0 -> round (- z) = SFopp (round z).
Proof.
  intros Hz. destruct z as [|p|p]; [lia|..]; cbn [round Z.opp]; unfold round_pos;
    destruct (_ =? _); now rewrite <- float_opp.
Qed.

Lemma sub_round z1 z2 :
  near z1 = z1 -> near z2 = z2 -> Z.abs z1 < 2 ^ etop -> Z.abs z2 < 2 ^ etop ->
  F32.sub (round z1) (round z2) = round (z1 - z2).
Proof.
  intros E1 E2 B1 B2.
  pose proof (round_finite z1 ltac:(now rewrite E1)) as F1.
  pose proof (round_finite z2 ltac:(now rewrite E2)) as F2.
  destruct (Z.eq_dec z1 0) as [->|N1]; [|destruct (Z.eq_dec z2 0) as [->|N2]].
  - destruct (Z.eq_dec z2 0) as [->|N2]; [reflexivity|].
    rewrite Z.sub_0_l, round_opp by assumption. cbn [round].
    destruct (round_cases z2 N2) as [E|(p & e & E)]; rewrite E in *; [discriminate|reflexivity].
  - rewrite Z.sub_0_r. cbn [round].
    destruct (round_cases z1 N1) as [E|(p & e & E)]; rewrite E in *; [discriminate|reflexivity].
  - pose proof (round_valid z1) as V1. pose proof (round_valid z2) as V2.
    pose proof (ulps_round z1) as U1. pose proof (ulps_round z2) as U2.
    destruct (round_cases z1 N1) as [E|(p1 & e1 & Ef1)]; [rewrite E in F1; discriminate|].
    destruct (round_cases z2 N2) as [E|(p2 & e2 & Ef2)]; [rewrite E in F2; discriminate|].
    rewrite Ef1, Ef2 in *. rewrite sub_finite by assumption. now rewrite U1, U2, E1, E2.
Qed.

(** *** Numbers with binary places

    [F32.dyadic k a] is [a / 2^k].  For [0 <= k <= 149] and [a] below
    [2^24] it is a number of the format, and sums, differences and
    comparisons of such numbers are those of the integers. *)

Section Dyadic.
Variable k : Z.
Hypothesis Hk : 0 <= k <= - emin.

Lemma dyadic_round a : F32.dyadic k a = round (a * 2 ^ (- emin - k)).
Proof.
  unfold F32.dyadic. rewrite binary_normalize_spec by lia. do 3 f_equal. lia.
Qed.

Lemma dyadic_valid a : F32.valid (F32.dyadic k a) = true.
Proof. rewrite dyadic_round. apply round_valid. Qed.

Lemma dyadic_units a :
  Z.abs a < 2 ^ F32.prec ->
  near (a * 2 ^ (- emin - k)) = a * 2 ^ (- emin - k) /\
  Z.abs (a * 2 ^ (- emin - k)) < 2 ^ etop.
Proof.
  intros Ha. split; [apply near_small; [assumption|format_lia]|].
  rewrite Z.abs_mul, (Z.abs_eq (2 ^ (- emin - k))) by (apply Z.lt_le_incl, pow2_pos; lia).
  replace etop with (F32.prec + (etop - F32.prec)) by lia. rewrite pow2_split by format_lia.
  pose proof (pow2_le (- emin - k) (etop - F32.prec) ltac:(format_lia)).
  pose proof (pow2_pos (- emin - k) ltac:(lia)). nia.
Qed.

Lemma ulps_dyadic a :
  Z.abs a < 2 ^ F32.prec -> ulps (F32.dyadic k a) = a * 2 ^ (- emin - k).
Proof. intros Ha. rewrite dyadic_round, ulps_round. now apply dyadic_units. Qed.

(** Sums and differences of such numbers are exact when the result is
    below [2^24] too, and rounded once otherwise. *)
Lemma dyadic_add a b :
  Z.abs a < 2 ^ F32.prec -> Z.abs b < 2 ^ F32.prec ->
  F32.add (F32.dyadic k a) (F32.dyadic k b) = F32.dyadic k (a + b).
Proof.
  intros [Ea Ba]%dyadic_units [Eb Bb]%dyadic_units.
  now rewrite !dyadic_round, add_round, Z.mul_add_distr_r.
Qed.

Lemma dyadic_sub a b :
  Z.abs a < 2 ^ F32.prec -> Z.abs b < 2 ^ F32.prec ->
  F32.sub (F32.dyadic k a) (F32.dyadic k b) = F32.dyadic k (a - b).
Proof.
  intros [Ea Ba]%dyadic_units [Eb Bb]%dyadic_units.
  now rewrite !dyadic_round, sub_round, Z.mul_sub_distr_r.
Qed.

(** They are ordered as the integers. *)
Lemma dyadic_leb a b :
  Z.abs a < 2 ^ F32.prec -> Z.abs b < 2 ^ F32.prec ->
  F32.leb (F32.dyadic k a) (F32.dyadic k b) = (a <=? b).
Proof.
  intros Ha Hb.
  rewrite leb_units, !ulps_dyadic by (assumption || apply dyadic_valid || apply F32.dyadic_not_nan).
  pose proof (pow2_pos (- emin - k) ltac:(lia)).
  destruct (Z.leb_spec a b); [apply Z.leb_le|apply Z.leb_gt]; nia.
Qed.

Lemma dyadic_ltb a b :
  Z.abs a < 2 ^ F32.prec -> Z.abs b < 2 ^ F32.prec ->
  F32.ltb (F32.dyadic k a) (F32.dyadic k b) = (a <? b).
Proof.
  intros Ha Hb.
  rewrite ltb_units, !ulps_dyadic by (assumption || apply dyadic_valid || apply F32.dyadic_not_nan).
  pose proof (pow2_pos (- emin - k) ltac:(lia)).
  destruct (Z.ltb_spec a b); [apply Z.ltb_lt|apply Z.ltb_ge]; nia.
Qed.

Lemma dyadic_max a b :
  Z.abs a < 2 ^ F32.prec -> Z.abs b < 2 ^ F32.prec ->
  F32.max (F32.dyadic k a) (F32.dyadic k b) = F32.dyadic k (Z.max a b).
Proof.
  intros Ha Hb. unfold F32.max. rewrite !F32.dyadic_not_nan, dyadic_ltb by assumption.
  destruct (Z.ltb_spec a b); f_equal; lia.
Qed.

Lemma dyadic_min a b :
  Z.abs a < 2 ^ F32.prec -> Z.abs b < 2 ^ F32.prec ->
  F32.min (F32.dyadic k a) (F32.dyadic k b) = F32.dyadic k (Z.min a b).
Proof.
  intros Ha Hb. unfold F32.min. rewrite !F32.dyadic_not_nan, dyadic_ltb by assumption.
  destruct (Z.ltb_spec b a); f_equal; lia.
Qed.

End Dyadic.

(** *** Literals

    The literals of integers are the numbers with no binary place. *)

Lemma of_Z_round a : F32.of_Z a = round (a * 2 ^ (- emin)).
Proof. apply (dyadic_round 0). format_lia. Qed.

Lemma of_Z_valid a : F32.valid (F32.of_Z a) = true.
Proof. apply (dyadic_valid 0). format_lia. Qed.

Lemma ulps_of_Z a : Z.abs a < 2 ^ F32.prec -> ulps (F32.of_Z a) = a * 2 ^ (- emin).
Proof. apply (ulps_dyadic 0). format_lia. Qed.

Lemma of_Z_units a :
  Z.abs a < 2 ^ F32.prec ->
  near (a * 2 ^ (- emin)) = a * 2 ^ (- emin) /\ Z.abs (a * 2 ^ (- emin)) < 2 ^ etop.
Proof. apply (dyadic_units 0). format_lia. Qed.

Lemma of_Z_add a b :
  Z.abs a < 2 ^ F32.prec -> Z.abs b < 2 ^ F32.prec ->
  F32.add (F32.of_Z a) (F32.of_Z b) = F32.of_Z (a + b).
Proof. apply (dyadic_add 0). format_lia. Qed.

Lemma of_Z_sub a b :
  Z.abs a < 2 ^ F32.prec -> Z.abs b < 2 ^ F32.prec ->
  F32.sub (F32.of_Z a) (F32.of_Z b) = F32.of_Z (a - b).
Proof. apply (dyadic_sub 0). format_lia. Qed.

Lemma of_Z_leb a b :
  Z.abs a < 2 ^ F32.prec -> Z.abs b < 2 ^ F32.prec ->
  F32.leb (F32.of_Z a) (F32.of_Z b) = (a <=? b).
Proof. apply (dyadic_leb 0). format_lia. Qed.

Lemma of_Z_ltb a b :
  Z.abs a < 2 ^ F32.prec -> Z.abs b < 2 ^ F32.prec ->
  F32.ltb (F32.of_Z a) (F32.of_Z b) = (a <? b).
Proof. apply (dyadic_ltb 0). format_lia. Qed.

Lemma of_Z_max a b :
  Z.abs a < 2 ^ F32.prec -> Z.abs b < 2 ^ F32.prec ->
  F32.max (F32.of_Z a) (F32.of_Z b) = F32.of_Z (Z.max a b).
Proof. apply (dyadic_max 0). format_lia. Qed.

Lemma of_Z_min a b :
  Z.abs a < 2 ^ F32.prec -> Z.abs b < 2 ^ F32.prec ->
  F32.min (F32.of_Z a) (F32.of_Z b) = F32.of_Z (Z.min a b).
Proof. apply (dyadic_min 0). format_lia. Qed.

End Exact.

(** ** Next to the largest number *)

Section Largest.
Implicit Types (a r : Z).

Lemma ulps_MAX : ulps F32.MAX = (2 ^ F32.prec - 1) * 2 ^ (etop - F32.prec).
Proof. reflexivity. Qed.

(** What is less than half a unit in the last place away from [f32::MAX]
    rounds to it. *)
Lemma round_near_MAX r :
  - 2 ^ (etop - F32.prec - 1) < r < 2 ^ (etop - F32.prec - 1) ->
  round (ulps F32.MAX + r) = F32.MAX.
Proof.
  intros Hr. rewrite ulps_MAX.
  set (h := 2 ^ (etop - F32.prec - 1)) in *.
  assert (Hh : 2 ^ (etop - F32.prec) = 2 * h) by reflexivity.
  assert (Hpos : 0 < h) by reflexivity.
  rewrite Hh. change (2 ^ F32.prec) with 16777216.
  set (z := (16777216 - 1) * (2 * h) + r).
  assert (Hz : 0 < z) by (unfold z; lia).
  assert (Hd : digits z = etop).
  { apply digits_unique; [|lia]. change (2 ^ (etop - 1)) with (8388608 * (2 * h)).
    change (2 ^ etop) with (16777216 * (2 * h)). unfold z. lia. }
  rewrite round_positive by assumption. unfold round_pos, dropped. rewrite Hd.
  change (Z.max (etop - F32.prec) 0) with (etop - F32.prec).
  assert (E : rne (etop - F32.prec) z = 16777215).
  { unfold rne. rewrite Hh.
    destruct (Z.le_gt_cases 0 r) as [Hge|Hlt].
    - assert (Eq : z / (2 * h) = 16777215)
        by (symmetry; apply (Z.div_unique z (2 * h) 16777215 r); unfold z; lia).
      assert (Em : z mod (2 * h) = r)
        by (symmetry; apply (Z.mod_unique z (2 * h) 16777215 r); unfold z; lia).
      rewrite Eq, Em. destruct (Z.compare_spec (2 * r) (2 * h)); lia.
    - assert (Eq : z / (2 * h) = 16777214)
        by (symmetry; apply (Z.div_unique z (2 * h) 16777214 (2 * h + r)); unfold z; lia).
      assert (Em : z mod (2 * h) = 2 * h + r)
        by (symmetry; apply (Z.mod_unique z (2 * h) 16777214 (2 * h + r)); unfold z; lia).
      rewrite Eq, Em. destruct (Z.compare_spec (2 * (2 * h + r)) (2 * h)); lia. }
  rewrite E. reflexivity.
Qed.

(** [f32::MAX] absorbs a number below [2^24], and every such number lies
    between [f32::MIN] and [f32::MAX]. *)
Section DyadicLargest.
Variable k : Z.
Hypothesis Hk : 0 <= k <= - emin.

(** The units of a number below [2^24] are less than half a unit in the
    last place of [f32::MAX]. *)
Lemma dyadic_below_half a :
  Z.abs a < 2 ^ F32.prec ->
  - 2 ^ (etop - F32.prec - 1) < a * 2 ^ (- emin - k) < 2 ^ (etop - F32.prec - 1).
Proof.
  intros Ha.
  pose proof (pow2_le (- emin - k) (- emin) ltac:(lia)).
  pose proof (pow2_pos (- emin - k) ltac:(lia)).
  change (2 ^ (- emin)) with (2 ^ 149) in *. change (2 ^ F32.prec) with (2 ^ 24) in Ha.
  change (2 ^ (etop - F32.prec - 1)) with (2 ^ 24 * 2 ^ 149 * 2 ^ 79).
  pose proof (pow2_pos 149 ltac:(lia)). pose proof (pow2_pos 79 ltac:(lia)).
  apply Z.abs_lt in Ha. nia.
Qed.

Lemma dyadic_add_MAX a :
  Z.abs a < 2 ^ F32.prec -> F32.add (F32.dyadic k a) F32.MAX = F32.MAX.
Proof.
  intros Ha. destruct (dyadic_units k Hk a Ha) as [Ea Ba].
  rewrite (dyadic_round k Hk), <- (round_ulps F32.MAX) at 1 by (reflexivity || discriminate).
  rewrite add_round; [|assumption|now apply near_ulps|assumption|reflexivity].
  rewrite Z.add_comm. now apply round_near_MAX, dyadic_below_half.
Qed.

Lemma dyadic_sub_MAX a :
  Z.abs a < 2 ^ F32.prec -> F32.sub F32.MAX (F32.dyadic k a) = F32.MAX.
Proof.
  intros Ha. destruct (dyadic_units k Hk a Ha) as [Ea Ba].
  rewrite (dyadic_round k Hk), <- (round_ulps F32.MAX) at 1 by (reflexivity || discriminate).
  rewrite sub_round; [|now apply near_ulps|assumption|reflexivity|assumption].
  rewrite <- Z.add_opp_r. apply round_near_MAX.
  pose proof (dyadic_below_half a Ha). lia.
Qed.

Lemma dyadic_ltb_MAX a :
  Z.abs a < 2 ^ F32.prec -> F32.ltb (F32.dyadic k a) F32.MAX = true.
Proof.
  intros Ha.
  rewrite ltb_units, (ulps_dyadic k Hk), ulps_MAX
    by (assumption || apply (dyadic_valid k Hk) || apply F32.dyadic_not_nan || reflexivity).
  apply Z.ltb_lt. pose proof (dyadic_below_half a Ha).
  change (2 ^ F32.prec) with 16777216.
  change (2 ^ (etop - F32.prec)) with (2 * 2 ^ (etop - F32.prec - 1)).
  pose proof (pow2_pos (etop - F32.prec - 1) ltac:(format_lia)). lia.
Qed.

Lemma dyadic_gtb_MIN a :
  Z.abs a < 2 ^ F32.prec -> F32.ltb F32.MIN (F32.dyadic k a) = true.
Proof.
  intros Ha. unfold F32.MIN.
  rewrite ltb_units, (ulps_dyadic k Hk), ulps_opp, ulps_MAX
    by (assumption || apply (dyadic_valid k Hk) || apply F32.dyadic_not_nan || reflexivity).
  apply Z.ltb_lt. pose proof (dyadic_below_half a Ha).
  change (2 ^ F32.prec) with 16777216.
  change (2 ^ (etop - F32.prec)) with (2 * 2 ^ (etop - F32.prec - 1)).
  pose proof (pow2_pos (etop - F32.prec - 1) ltac:(format_lia)). lia.
Qed.

Lemma dyadic_min_MAX a :
  Z.abs a < 2 ^ F32.prec -> F32.min F32.MAX (F32.dyadic k a) = F32.dyadic k a.
Proof.
  intros Ha. unfold F32.min. now rewrite F32.dyadic_not_nan, dyadic_ltb_MAX by assumption.
Qed.

End DyadicLargest.

Lemma add_MAX a : Z.abs a < 2 ^ F32.prec -> F32.add (F32.of_Z a) F32.MAX = F32.MAX.
Proof. apply (dyadic_add_MAX 0). format_lia. Qed.

Lemma sub_MAX a : Z.abs a < 2 ^ F32.prec -> F32.sub F32.MAX (F32.of_Z a) = F32.MAX.
Proof. apply (dyadic_sub_MAX 0). format_lia. Qed.

Lemma of_Z_ltb_MAX a : Z.abs a < 2 ^ F32.prec -> F32.ltb (F32.of_Z a) F32.MAX = true.
Proof. apply (dyadic_ltb_MAX 0). format_lia. Qed.

Lemma min_MAX a : Z.abs a < 2 ^ F32.prec -> F32.min F32.MAX (F32.of_Z a) = F32.of_Z a.
Proof. apply (dyadic_min_MAX 0). format_lia. Qed.

Lemma of_Z_gtb_MIN a : Z.abs a < 2 ^ F32.prec -> F32.ltb F32.MIN (F32.of_Z a) = true.
Proof. apply (dyadic_gtb_MIN 0). format_lia. Qed.

End Largest.

(** The lemmas that keep numbers valid, for [auto]. *)
Create HintDb valid discriminated.

#[export] Hint Resolve add_valid sub_valid of_Z_valid round_valid : valid.
