(* ===== verification/Geometry.v ===== *)
(** * Geometry: the points, vectors, rectangles and margins of egui

    [src/src/lib.rs] computes the frame's regions with egui's [Pos2], [Vec2],
    [Rect] and [Margin].  This file holds these types with the operations the
    crate calls, written as egui defines them over [f32], and the facts about
    them the frame's theorems use: what [Rect::contains] says of a point and
    of a rectangle, and how [Rect::intersect] relates to it.

    A rectangle is a pair of corners and nothing more: it may be empty
    ([max] below [min]) and a coordinate may be NaN or infinite.  The lemmas
    say which of these cases they exclude.  [Rect.valid] and [Margin.valid]
    say that the coordinates are binary32 numbers, [Margin.nonneg] that no
    inset is negative. *)

From stdpp Require Import base decidable numbers.
From Stdlib Require Import Bool ZArith Lia.
From Stdlib Require Import Floats.SpecFloat.
From S2P Require Import Prelude F32.

#[global] Instance f32_eq_dec : EqDecision F32.t.
Proof. solve_decision. Defined.

(** ** [Vec2]: a displacement *)

Module Vec2.

Record t : Type := new { x : F32.t; y : F32.t }.

Definition ZERO : t := new F32.zero F32.zero.

(** [Vec2::splat]: the same amount along both axes. *)
Definition splat (v : F32.t) : t := new v v.

End Vec2.

(** ** [Pos2]: a position *)

Module Pos2.

Record t : Type := new { x : F32.t; y : F32.t }.

Definition ZERO : t := new F32.zero F32.zero.

(** [Pos2 + Vec2] and [Pos2 - Vec2]. *)
Definition add (p : t) (v : Vec2.t) : t :=
  new (x p + Vec2.x v)%f32 (y p + Vec2.y v)%f32.

Definition sub (p : t) (v : Vec2.t) : t :=
  new (x p - Vec2.x v)%f32 (y p - Vec2.y v)%f32.

(** [Pos2 - Pos2]: the displacement between two positions. *)
Definition diff (p q : t) : Vec2.t :=
  Vec2.new (x p - x q)%f32 (y p - y q)%f32.

(** [Pos2::max] and [Pos2::min] work coordinate by coordinate. *)
Definition max (p q : t) : t := new (F32.max (x p) (x q)) (F32.max (y p) (y q)).
Definition min (p q : t) : t := new (F32.min (x p) (x q)) (F32.min (y p) (y q)).

(** A coordinate is NaN. *)
Definition has_nan (p : t) : bool := F32.is_nan (x p) || F32.is_nan (y p).

End Pos2.

(** ** [Margin]: four insets *)

Module Margin.

Record t : Type := mk { left : F32.t; right : F32.t; top : F32.t; bottom : F32.t }.

(** [Margin::same], which is also what [f32::into] gives. *)
Definition same (m : F32.t) : t := mk m m m m.

Definition left_top (m : t) : Vec2.t := Vec2.new (left m) (top m).
Definition right_bottom (m : t) : Vec2.t := Vec2.new (right m) (bottom m).

(** The four insets are finite numbers. *)
Definition finite (m : t) : bool :=
  F32.is_finite (left m) && F32.is_finite (right m) &&
  F32.is_finite (top m) && F32.is_finite (bottom m).

(** The four insets are binary32 numbers, as every [f32] of the program
    is. *)
Definition valid (m : t) : bool :=
  F32.valid (left m) && F32.valid (right m) && F32.valid (top m) && F32.valid (bottom m).

(** No inset is negative. *)
Definition nonneg (m : t) : bool :=
  (F32.zero <=? left m)%f32 && (F32.zero <=? right m)%f32 &&
  (F32.zero <=? top m)%f32 && (F32.zero <=? bottom m)%f32.

End Margin.

(** ** [Rect]: two corners *)

Module Rect.

Record t : Type := from_min_max { min : Pos2.t; max : Pos2.t }.

Definition left (r : t) : F32.t := Pos2.x (min r).
Definition right (r : t) : F32.t := Pos2.x (max r).
Definition top (r : t) : F32.t := Pos2.y (min r).
Definition bottom (r : t) : F32.t := Pos2.y (max r).

Definition width (r : t) : F32.t := (Pos2.x (max r) - Pos2.x (min r))%f32.
Definition height (r : t) : F32.t := (Pos2.y (max r) - Pos2.y (min r))%f32.
Definition size (r : t) : Vec2.t := Pos2.diff (max r) (min r).

(** [Rect::from_min_size]: the far corner is computed by an addition. *)
Definition from_min_size (min : Pos2.t) (size : Vec2.t) : t :=
  from_min_max min (Pos2.add min size).

(** [Rect::shrink2] and [Rect::shrink]: both corners move inwards. *)
Definition shrink2 (r : t) (amnt : Vec2.t) : t :=
  from_min_max (Pos2.add (min r) amnt) (Pos2.sub (max r) amnt).

Definition shrink (r : t) (amnt : F32.t) : t := shrink2 r (Vec2.splat amnt).

(** [Rect::expand2] and [Rect::expand]: both corners move outwards. *)
Definition expand2 (r : t) (amnt : Vec2.t) : t :=
  from_min_max (Pos2.sub (min r) amnt) (Pos2.add (max r) amnt).

Definition expand (r : t) (amnt : F32.t) : t := expand2 r (Vec2.splat amnt).

(** [Rect::translate] moves the near corner and rebuilds the far one from the
    size, so the far corner is [(min + amnt) + (max - min)], rounded twice. *)
Definition translate (r : t) (amnt : Vec2.t) : t :=
  from_min_size (Pos2.add (min r) amnt) (size r).

(** [Rect::intersect]. *)
Definition intersect (r other : t) : t :=
  from_min_max (Pos2.max (min r) (min other)) (Pos2.min (max r) (max other)).

(** [Rect::contains]: the borders belong to the rectangle. *)
Definition contains (r : t) (p : Pos2.t) : bool :=
  (Pos2.x (min r) <=? Pos2.x p)%f32 && (Pos2.x p <=? Pos2.x (max r))%f32 &&
  (Pos2.y (min r) <=? Pos2.y p)%f32 && (Pos2.y p <=? Pos2.y (max r))%f32.

(** [Rect::contains_rect]: both corners of [other] are inside. *)
Definition contains_rect (r other : t) : bool :=
  contains r (min other) && contains r (max other).

(** [Rect - Margin]: each side moves inwards by its inset. *)
Definition sub_margin (r : t) (m : Margin.t) : t :=
  from_min_max (Pos2.add (min r) (Margin.left_top m))
               (Pos2.sub (max r) (Margin.right_bottom m)).

(** A coordinate is NaN. *)
Definition has_nan (r : t) : bool := Pos2.has_nan (min r) || Pos2.has_nan (max r).

(** The four coordinates are binary32 numbers. *)
Definition valid (r : t) : bool :=
  F32.valid (Pos2.x (min r)) && F32.valid (Pos2.y (min r)) &&
  F32.valid (Pos2.x (max r)) && F32.valid (Pos2.y (max r)).

(** The rectangle with integer corners. *)
Definition of_Z (x0 y0 x1 y1 : Z) : t :=
  from_min_max (Pos2.new (F32.of_Z x0) (F32.of_Z y0)) (Pos2.new (F32.of_Z x1) (F32.of_Z y1)).

(** The rectangle whose corners have [k] binary places. *)
Definition dyadic (k x0 y0 x1 y1 : Z) : t :=
  from_min_max (Pos2.new (F32.dyadic k x0) (F32.dyadic k y0))
               (Pos2.new (F32.dyadic k x1) (F32.dyadic k y1)).

End Rect.

#[global] Instance vec2_eq_dec : EqDecision Vec2.t.
Proof. solve_decision. Defined.

#[global] Instance pos2_eq_dec : EqDecision Pos2.t.
Proof. solve_decision. Defined.

#[global] Instance margin_eq_dec : EqDecision Margin.t.
Proof. solve_decision. Defined.

#[global] Instance rect_eq_dec : EqDecision Rect.t.
Proof. solve_decision. Defined.

(** ** Facts *)

(** [rect_unfold] exposes the comparisons inside the rectangle predicates, as
    hypotheses and goals on coordinates. *)
Ltac rect_unfold :=
  unfold Rect.contains_rect, Rect.contains, Rect.has_nan, Pos2.has_nan,
    Rect.left, Rect.right, Rect.top, Rect.bottom in *;
  cbn [Rect.min Rect.max Pos2.x Pos2.y Rect.intersect Pos2.max Pos2.min] in *;
  bool_props; split_ands.

(** [leb_cases] splits on the outcome of every comparison in sight. *)
Ltac leb_cases :=
  repeat match goal with
  | H : context [F32.leb ?u ?v] |- _ =>
      lazymatch type of H with
      | F32.leb u v = _ => fail
      | _ => destruct (F32.leb u v) eqn:?
      end
  | |- context [F32.leb ?u ?v] => destruct (F32.leb u v) eqn:?
  end.

Section RectFacts.
Implicit Types (r a b : Rect.t) (p : Pos2.t).

(** The four inequalities behind [contains]. *)
Lemma contains_iff r p :
  Rect.contains r p = true <->
  (Rect.left r <=? Pos2.x p)%f32 = true /\ (Pos2.x p <=? Rect.right r)%f32 = true /\
  (Rect.top r <=? Pos2.y p)%f32 = true /\ (Pos2.y p <=? Rect.bottom r)%f32 = true.
Proof.
  unfold Rect.contains, Rect.left, Rect.right, Rect.top, Rect.bottom.
  rewrite !andb_true_iff. tauto.
Qed.

(** A point with a NaN coordinate is in no rectangle, and a rectangle with a
    NaN coordinate contains no point. *)
Lemma contains_no_nan r p :
  Rect.contains r p = true -> Pos2.has_nan p = false /\ Rect.has_nan r = false.
Proof.
  intros H. rect_unfold.
  repeat match goal with
  | H : F32.leb _ _ = true |- _ => apply F32.leb_not_nan in H; destruct H
  end.
  repeat split; assumption.
Qed.

Lemma contains_nan_pos r p : Pos2.has_nan p = true -> Rect.contains r p = false.
Proof.
  intros H. destruct (Rect.contains r p) eqn:E; [|reflexivity].
  apply contains_no_nan in E. destruct E; congruence.
Qed.

Lemma contains_nan_rect r p : Rect.has_nan r = true -> Rect.contains r p = false.
Proof.
  intros H. destruct (Rect.contains r p) eqn:E; [|reflexivity].
  apply contains_no_nan in E. destruct E; congruence.
Qed.

(** A point outside a rectangle of numbers lies strictly beyond one of its
    four borders. *)
Lemma not_contains_cases r p :
  Rect.has_nan r = false -> Pos2.has_nan p = false ->
  Rect.contains r p = false ->
  (Pos2.x p <? Rect.left r)%f32 = true \/ (Pos2.x p >? Rect.right r)%f32 = true \/
  (Pos2.y p <? Rect.top r)%f32 = true \/ (Pos2.y p >? Rect.bottom r)%f32 = true.
Proof.
  intros Hr Hp H. rect_unfold. unfold F32.gtb.
  destruct H as [[[H|H]|H]|H]; apply F32.not_leb_ltb in H; auto.
Qed.

(** A point strictly beyond a border is outside. *)
Lemma beyond_left_outside r p :
  (Pos2.x p <? Rect.left r)%f32 = true -> Rect.contains r p = false.
Proof. intros H. apply F32.ltb_not_leb in H. rect_unfold. tauto. Qed.

Lemma beyond_right_outside r p :
  (Pos2.x p >? Rect.right r)%f32 = true -> Rect.contains r p = false.
Proof. intros H. apply F32.ltb_not_leb in H. rect_unfold. tauto. Qed.

Lemma beyond_top_outside r p :
  (Pos2.y p <? Rect.top r)%f32 = true -> Rect.contains r p = false.
Proof. intros H. apply F32.ltb_not_leb in H. rect_unfold. tauto. Qed.

Lemma beyond_bottom_outside r p :
  (Pos2.y p >? Rect.bottom r)%f32 = true -> Rect.contains r p = false.
Proof. intros H. apply F32.ltb_not_leb in H. rect_unfold. tauto. Qed.

(** [contains_rect] is inclusion of the point sets. *)
Lemma contains_rect_sound a b p :
  Rect.contains_rect a b = true -> Rect.contains b p = true ->
  Rect.contains a p = true.
Proof.
  intros Hab Hb. rect_unfold. repeat split; eauto using F32.leb_trans.
Qed.

(** A rectangle that lies in another one is made of numbers. *)
Lemma contains_rect_no_nan a b : Rect.contains_rect a b = true -> Rect.has_nan b = false.
Proof.
  unfold Rect.contains_rect. intros H. bool_hyps.
  repeat match goal with
  | H : Rect.contains _ _ = true |- _ => apply contains_no_nan in H; destruct H
  end.
  unfold Rect.has_nan. apply orb_false_iff. split; assumption.
Qed.

(** A point of an intersection is in the second rectangle when that one is
    made of numbers, whatever the first is. *)
Lemma contains_intersect_r a b p :
  Rect.has_nan b = false ->
  Rect.contains (Rect.intersect a b) p = true -> Rect.contains b p = true.
Proof.
  intros Hb H. rect_unfold.
  repeat split;
    first [ eapply F32.leb_max_r; eassumption | eapply F32.leb_min_r; eassumption ].
Qed.

(** Between rectangles of numbers the intersection is the conjunction. *)
Lemma contains_intersect a b p :
  Rect.has_nan a = false -> Rect.has_nan b = false ->
  Rect.contains (Rect.intersect a b) p = Rect.contains a p && Rect.contains b p.
Proof.
  intros Ha Hb. rect_unfold.
  rewrite !F32.leb_max_lub, !F32.leb_min_glb by assumption.
  leb_cases; reflexivity.
Qed.

End RectFacts.

#[export] Hint Resolve contains_rect_sound contains_intersect_r
  beyond_left_outside beyond_right_outside beyond_top_outside
  beyond_bottom_outside : frame.
