(* ===== verification/Host.v ===== *)
(** * Host: what the frame asks of egui

    [CustomFrame::show] runs inside one egui frame.  It reads the frame's
    input from the context (is the window maximized, the clip rectangle, where
    the pointer is), registers interactive regions, sets the cursor icon and
    queues commands for the windowing backend, which carries them out after
    the frame.

    This file holds the egui data the crate builds or inspects (the panel's
    [Frame] with its [Rounding], [Shadow] and [Stroke], [Sense], [Id],
    [Response], the enumerations [CursorIcon], [ResizeDirection] and
    [ViewportCommand]) and the interface between the crate and egui:

    - [UiView] is what one frame's context shows to the crate: the inputs it
      may read and the outputs it has produced so far, as logs in the order
      they were produced;
    - [Host] is the set of calls the crate makes, over any context type, and
      [HostLaws] what the crate relies on: each call changes the view by
      exactly its own output and leaves the inputs alone (commands are only
      queued, so a frame never sees its own effect on the window);
    - [Widgets] adds the widgets the contents in the sources show (the
      label of the documentation's example, the heading and the button of
      the example program), with [WidgetLaws]: a widget registers one
      region, where the layout of the context places it;
    - [SimpleUi] is the least context that obeys the laws, with the answers
      to [interact] given by a function of the region asked about and the
      layout by a function of the widget's text.  It is what the theorems
      are instantiated at. *)

From stdpp Require Import base decidable numbers strings list.
From Stdlib Require Import Bool ZArith String Morphisms.
From S2P Require Import Prelude F32 Geometry.

(** ** Painting data *)

Module Color32.

(** Four bytes, alpha premultiplied. *)
Record t : Type := from_rgba_premultiplied { r : Z; g : Z; b : Z; a : Z }.

Definition TRANSPARENT : t := from_rgba_premultiplied 0 0 0 0.

(** [Color32::from_black_alpha]. *)
Definition from_black_alpha (a : Z) : t := from_rgba_premultiplied 0 0 0 a.

End Color32.

Module Rounding.

Record t : Type := mk { nw : F32.t; ne : F32.t; sw : F32.t; se : F32.t }.

Definition same (radius : F32.t) : t := mk radius radius radius radius.

Definition ZERO : t := same F32.zero.

End Rounding.

Module Stroke.

Record t : Type := new { width : F32.t; color : Color32.t }.

Definition NONE : t := new F32.zero Color32.TRANSPARENT.

End Stroke.

Module Shadow.

Record t : Type := mk { offset : Vec2.t; blur : F32.t; spread : F32.t; color : Color32.t }.

Definition NONE : t := mk Vec2.ZERO F32.zero F32.zero Color32.TRANSPARENT.

End Shadow.

(** [egui::Frame]: how a panel is painted. *)
Module Frame.

Record t : Type := mk {
  fill : Color32.t;
  rounding : Rounding.t;
  stroke : Stroke.t;
  outer_margin : Margin.t;
  inner_margin : Margin.t;
  shadow : Shadow.t
}.

End Frame.

(** ** Interaction data *)

(** [Sense]: what a region listens to. *)
Module Sense.

Record t : Type := mk { senses_click : bool; senses_drag : bool; focusable : bool }.

(** [Sense::hover()], [Sense::click()], [Sense::drag()] and
    [Sense::click_and_drag()]. *)
Definition hover : t := mk false false false.
Definition click : t := mk true false true.
Definition drag : t := mk false true true.
Definition click_and_drag : t := mk true true true.

End Sense.

(** [Id]: a region's identity, made from a string. *)
Module Id.

Record t : Type := new { source : string }.

End Id.

(** [Response]: what happened to a region, as far as the crate asks. *)
Module Response.

Record t : Type := mk { clicked : bool; drag_started : bool; double_clicked : bool }.

Definition idle : t := mk false false false.

End Response.

(** [InnerResponse<R>]: a panel's response with what its content returned. *)
Module InnerResponse.

Record t (R : Type) : Type := new { inner : R; response : Response.t }.

Arguments new {R} _ _.
Arguments inner {R} _.
Arguments response {R} _.

End InnerResponse.

Inductive ResizeDirection : Type :=
  | North | South | East | West
  | NorthEast | SouthEast | NorthWest | SouthWest.

(** The cursor icons the crate sets, and egui's default one. *)
Inductive CursorIcon : Type :=
  | Default
  | ResizeNorth | ResizeSouth | ResizeEast | ResizeWest
  | ResizeNorthEast | ResizeSouthEast | ResizeNorthWest | ResizeSouthWest.

(** The commands the crate and its example send to the windowing backend. *)
Inductive ViewportCommand : Type :=
  | BeginResize (d : ResizeDirection)
  | StartDrag
  | Maximized (b : bool)
  | Close.

(** A region registered for interaction. *)
Definition Widget : Type := (Id.t * Rect.t * Sense.t)%type.

#[global] Instance color32_eq_dec : EqDecision Color32.t.
Proof. solve_decision. Defined.
#[global] Instance rounding_eq_dec : EqDecision Rounding.t.
Proof. solve_decision. Defined.
#[global] Instance stroke_eq_dec : EqDecision Stroke.t.
Proof. solve_decision. Defined.
#[global] Instance shadow_eq_dec : EqDecision Shadow.t.
Proof. solve_decision. Defined.
#[global] Instance frame_eq_dec : EqDecision Frame.t.
Proof. solve_decision. Defined.
#[global] Instance sense_eq_dec : EqDecision Sense.t.
Proof. solve_decision. Defined.
#[global] Instance id_eq_dec : EqDecision Id.t.
Proof. solve_decision. Defined.
#[global] Instance response_eq_dec : EqDecision Response.t.
Proof. solve_decision. Defined.
#[global] Instance resize_direction_eq_dec : EqDecision ResizeDirection.
Proof. solve_decision. Defined.
#[global] Instance cursor_icon_eq_dec : EqDecision CursorIcon.
Proof. solve_decision. Defined.
#[global] Instance viewport_command_eq_dec : EqDecision ViewportCommand.
Proof. solve_decision. Defined.

(** ** One frame's context, as the crate sees it *)

Module UiView.

Record t : Type := mk {
  (** inputs *)
  maximized : option bool;          (* [i.viewport().maximized] *)
  panel_fill : Color32.t;           (* [ctx.style().visuals.panel_fill] *)
  clip_rect : Rect.t;               (* [ui.clip_rect()] *)
  interact_pos : option Pos2.t;     (* [i.pointer.interact_pos()] *)
  (** outputs, oldest first *)
  cursor_icon : CursorIcon;
  viewport_cmds : list ViewportCommand;
  widgets : list Widget;
  panels : list Frame.t
}.

(** The four ways a call changes the view. *)
Definition paint (f : Frame.t) (v : t) : t :=
  mk (maximized v) (panel_fill v) (clip_rect v) (interact_pos v)
     (cursor_icon v) (viewport_cmds v) (widgets v) (panels v ++ [f]).

Definition register (w : Widget) (v : t) : t :=
  mk (maximized v) (panel_fill v) (clip_rect v) (interact_pos v)
     (cursor_icon v) (viewport_cmds v) (widgets v ++ [w]) (panels v).

Definition with_cursor (c : CursorIcon) (v : t) : t :=
  mk (maximized v) (panel_fill v) (clip_rect v) (interact_pos v)
     c (viewport_cmds v) (widgets v) (panels v).

Definition push (c : ViewportCommand) (v : t) : t :=
  mk (maximized v) (panel_fill v) (clip_rect v) (interact_pos v)
     (cursor_icon v) (viewport_cmds v ++ [c]) (widgets v) (panels v).

(** The general change: a new cursor icon and more commands, regions and
    panels; [paint], [register], [with_cursor] and [push] are instances. *)
Definition extend (v : t) (c : CursorIcon) (cmds : list ViewportCommand)
    (ws : list Widget) (ps : list Frame.t) : t :=
  mk (maximized v) (panel_fill v) (clip_rect v) (interact_pos v)
     c (viewport_cmds v ++ cmds) (widgets v ++ ws) (panels v ++ ps).

(** The clip rectangle has a width and a height: neither is NaN. *)
Definition sized (v : t) : bool :=
  negb (F32.is_nan (Rect.width (clip_rect v))) &&
  negb (F32.is_nan (Rect.height (clip_rect v))).

(** The clip rectangle is made of binary32 numbers. *)
Definition valid (v : t) : bool := Rect.valid (clip_rect v).

(** Two views have the same inputs. *)
Definition same_input (v w : t) : Prop :=
  maximized v = maximized w /\ panel_fill v = panel_fill w /\
  clip_rect v = clip_rect w /\ interact_pos v = interact_pos w.

End UiView.

(** ** The interface *)

(** The calls [show] makes on a context of type [U]. *)
Class Host (U : Type) : Type := {
  (** what the context shows *)
  view : U -> UiView.t;
  (** [CentralPanel::default().frame(f).show]: open the panel painted as [f] *)
  central_panel : Frame.t -> State U unit;
  (** [ui.interact(rect, id, sense)] *)
  interact : Rect.t -> Id.t -> Sense.t -> State U Response.t;
  (** [ctx.set_cursor_icon(icon)] *)
  set_cursor_icon : CursorIcon -> State U unit;
  (** [ctx.send_viewport_cmd(cmd)] *)
  send_viewport_cmd : ViewportCommand -> State U unit;
  (** the response of the panel itself, once its content has run *)
  panel_response : U -> Response.t
}.

(** What a context guarantees. *)
Class HostLaws (U : Type) `{Host U} : Prop := {
  view_central_panel f u :
    view (exec (central_panel f) u) = UiView.paint f (view u);
  view_interact r i s u :
    view (exec (interact r i s) u) = UiView.register (i, r, s) (view u);
  view_set_cursor_icon c u :
    view (exec (set_cursor_icon c) u) = UiView.with_cursor c (view u);
  view_send_viewport_cmd c u :
    view (exec (send_viewport_cmd c) u) = UiView.push c (view u)
}.

(** The widgets the content of the example program shows. *)
Class Widgets (U : Type) `{Host U} : Type := {
  (** [ui.label(text)] *)
  label : string -> State U Response.t;
  (** [ui.heading(text)] *)
  heading : string -> State U Response.t;
  (** [ui.button(text)] *)
  button : string -> State U Response.t;
  (** where the layout places a widget, by its text *)
  placed : U -> string -> Rect.t
}.

(** A widget registers one region; a label and a heading listen to
    nothing, a button to clicks.  The model names the region by the widget's text, where egui
    derives the identity from the widget's place in the layout. *)
Class WidgetLaws (U : Type) `{Widgets U} : Prop := {
  widget_host_laws :: HostLaws U;
  view_label s u :
    view (exec (label s) u) =
    UiView.register (Id.new s, placed u s, Sense.hover) (view u);
  view_heading s u :
    view (exec (heading s) u) =
    UiView.register (Id.new s, placed u s, Sense.hover) (view u);
  view_button s u :
    view (exec (button s) u) =
    UiView.register (Id.new s, placed u s, Sense.click) (view u)
}.

(** ** The least context *)

Module SimpleUi.

Record t : Type := mk {
  the_view : UiView.t;
  (** the answer to [interact], by region *)
  respond : Id.t -> Rect.t -> Sense.t -> Response.t;
  (** the layout: where a widget goes, by its text *)
  place : string -> Rect.t;
  the_panel_response : Response.t
}.

Definition update (f : UiView.t -> UiView.t) (u : t) : t :=
  mk (f (the_view u)) (respond u) (place u) (the_panel_response u).

End SimpleUi.

#[global] Instance simple_host : Host SimpleUi.t := {
  view := SimpleUi.the_view;
  central_panel f := modify (SimpleUi.update (UiView.paint f));
  interact r i s := fun u =>
    (SimpleUi.respond u i r s, SimpleUi.update (UiView.register (i, r, s)) u);
  set_cursor_icon c := modify (SimpleUi.update (UiView.with_cursor c));
  send_viewport_cmd c := modify (SimpleUi.update (UiView.push c));
  panel_response := SimpleUi.the_panel_response
}.

#[global] Instance simple_host_laws : HostLaws SimpleUi.t.
Proof. split; reflexivity. Qed.

#[global] Instance simple_widgets : Widgets SimpleUi.t := {
  label s := fun u => interact (SimpleUi.place u s) (Id.new s) Sense.hover u;
  heading s := fun u => interact (SimpleUi.place u s) (Id.new s) Sense.hover u;
  button s := fun u => interact (SimpleUi.place u s) (Id.new s) Sense.click u;
  placed := SimpleUi.place
}.

#[global] Instance simple_widget_laws : WidgetLaws SimpleUi.t.
Proof. split; [exact _ | reflexivity ..]. Qed.

(** ** Computations that leave the answers of the least context alone *)

(** The answers, the layout and the panel's response of [u'] are those of [u]. *)
Definition same_answers (u u' : SimpleUi.t) : Prop :=
  SimpleUi.respond u' = SimpleUi.respond u /\
  SimpleUi.place u' = SimpleUi.place u /\
  SimpleUi.the_panel_response u' = SimpleUi.the_panel_response u.

Definition keeps_answers {R : Type} (c : State SimpleUi.t R) : Prop :=
  forall u, same_answers u (exec c u).

(** ** Facts about views *)

Section ViewFacts.
Implicit Types (v : UiView.t).

Lemma paint_extend f v : UiView.paint f v = UiView.extend v (UiView.cursor_icon v) [] [] [f].
Proof. unfold UiView.paint, UiView.extend. now rewrite !app_nil_r. Qed.

Lemma register_extend w v :
  UiView.register w v = UiView.extend v (UiView.cursor_icon v) [] [w] [].
Proof. unfold UiView.register, UiView.extend. now rewrite !app_nil_r. Qed.

Lemma with_cursor_extend c v : UiView.with_cursor c v = UiView.extend v c [] [] [].
Proof. unfold UiView.with_cursor, UiView.extend. now rewrite !app_nil_r. Qed.

Lemma push_extend c v : UiView.push c v = UiView.extend v (UiView.cursor_icon v) [c] [] [].
Proof. unfold UiView.push, UiView.extend. now rewrite !app_nil_r. Qed.

Lemma extend_nothing v : UiView.extend v (UiView.cursor_icon v) [] [] [] = v.
Proof. destruct v. unfold UiView.extend. cbn. now rewrite !app_nil_r. Qed.

Lemma extend_extend v c1 cmds1 ws1 ps1 c2 cmds2 ws2 ps2 :
  UiView.extend (UiView.extend v c1 cmds1 ws1 ps1) c2 cmds2 ws2 ps2 =
  UiView.extend v c2 (cmds1 ++ cmds2) (ws1 ++ ws2) (ps1 ++ ps2).
Proof. unfold UiView.extend. cbn. now rewrite <- !app_assoc. Qed.

Lemma cursor_icon_extend v c cmds ws ps :
  UiView.cursor_icon (UiView.extend v c cmds ws ps) = c.
Proof. reflexivity. Qed.

Lemma same_input_extend v c cmds ws ps :
  UiView.same_input (UiView.extend v c cmds ws ps) v.
Proof. repeat split. Qed.

Lemma same_input_refl v : UiView.same_input v v.
Proof. repeat split. Qed.

Lemma same_input_trans v1 v2 v3 :
  UiView.same_input v1 v2 -> UiView.same_input v2 v3 -> UiView.same_input v1 v3.
Proof. unfold UiView.same_input. intuition congruence. Qed.

Lemma same_input_paint f v : UiView.same_input (UiView.paint f v) v.
Proof. repeat split. Qed.

Lemma same_input_register w v : UiView.same_input (UiView.register w v) v.
Proof. repeat split. Qed.

Lemma same_input_with_cursor c v : UiView.same_input (UiView.with_cursor c v) v.
Proof. repeat split. Qed.

Lemma same_input_push c v : UiView.same_input (UiView.push c v) v.
Proof. repeat split. Qed.

End ViewFacts.

(** Having the same inputs is an equivalence. *)
#[global] Instance same_input_equivalence : Equivalence UiView.same_input.
Proof.
  split.
  - intros v. apply same_input_refl.
  - intros v1 v2 (? & ? & ? & ?). repeat split; congruence.
  - intros v1 v2 v3. apply same_input_trans.
Qed.

#[export] Hint Resolve same_input_refl same_input_paint same_input_register
  same_input_with_cursor same_input_push same_input_extend : frame.
#[export] Hint Rewrite @view_central_panel @view_interact @view_set_cursor_icon
  @view_send_viewport_cmd @view_label @view_heading @view_button using (exact _) : frame.

(** ** Facts about the least context *)

Section KeepsAnswers.

Lemma same_answers_refl u : same_answers u u.
Proof. repeat split. Qed.

Lemma same_answers_trans u1 u2 u3 :
  same_answers u1 u2 -> same_answers u2 u3 -> same_answers u1 u3.
Proof. unfold same_answers. intuition congruence. Qed.

Lemma keeps_ret {R} (x : R) : keeps_answers (ret x).
Proof. intros u. apply same_answers_refl. Qed.

Lemma keeps_bind {R S} (c : State SimpleUi.t S) (k : S -> State SimpleUi.t R) :
  keeps_answers c -> (forall x, keeps_answers (k x)) -> keeps_answers (bind c k).
Proof.
  intros Hc Hk u. rewrite exec_bind.
  eapply same_answers_trans; [apply Hc | apply Hk].
Qed.

Lemma keeps_gets {R} (f : SimpleUi.t -> R) : keeps_answers (gets f).
Proof. intros u. apply same_answers_refl. Qed.

Lemma keeps_update (f : UiView.t -> UiView.t) : keeps_answers (modify (SimpleUi.update f)).
Proof. intros u. repeat split. Qed.

Lemma keeps_when (b : bool) (c : State SimpleUi.t unit) :
  keeps_answers c -> keeps_answers (when b c).
Proof. intros Hc. unfold when. destruct b; [exact Hc | apply keeps_ret]. Qed.

End KeepsAnswers.

Lemma keeps_central_panel f : keeps_answers (central_panel f).
Proof. apply keeps_update. Qed.

Lemma keeps_interact r i s : keeps_answers (interact r i s).
Proof. intros u. repeat split. Qed.

Lemma keeps_set_cursor_icon c : keeps_answers (set_cursor_icon c).
Proof. apply keeps_update. Qed.

Lemma keeps_send_viewport_cmd c : keeps_answers (send_viewport_cmd c).
Proof. apply keeps_update. Qed.

Lemma keeps_label s : keeps_answers (label s).
Proof. intros u. repeat split. Qed.

Lemma keeps_heading s : keeps_answers (heading s).
Proof. intros u. repeat split. Qed.

Lemma keeps_button s : keeps_answers (button s).
Proof. intros u. repeat split. Qed.

Create HintDb keeps discriminated.
#[export] Hint Resolve keeps_ret keeps_gets keeps_update keeps_when
  keeps_central_panel keeps_interact keeps_set_cursor_icon
  keeps_send_viewport_cmd keeps_label keeps_heading keeps_button : keeps.

(** [keeps] proves [keeps_answers] of a computation by going through it. *)
Ltac keeps :=
  repeat first
    [ progress auto with keeps
    | apply keeps_bind; [|intros]
    | match goal with
      | |- keeps_answers (if ?b then _ else _) => destruct b
      | |- keeps_answers (match ?x with _ => _ end) => destruct x
      end ].
