(* ===== verification/CustomFrame.v ===== *)
(** * CustomFrame: the crate's one type and its [show] method

    [src/src/lib.rs] defines [CustomFrame], four builder methods, [Default]
    and [show].  Module [CustomFrame] translates them:

    - the record [t] and the setters [sizebox], [caption], [rounding] and
      [shadow] (the fields carry the prefix [f_], since a field and its setter
      share a name in the source), with [build] for a chain of setter calls;
    - [default];
    - the values [show] computes before it looks at the pointer, one
      definition per [let] of the source: [is_maximized], [shadow_width],
      [panel_frame], [view_rect], [sizebox_inner], [caption_rect],
      [pointer_pos];
    - the four steps of the panel's closure, as computations over any context
      that implements [Host]: [sizebox_response], [caption_response],
      [produce_resizing] (the nested comparisons of the source, branch by
      branch) and [produce_caption];
    - [show_body], the closure, and [show];
    - [crate_example] and [type_example]: the two examples of the
      documentation;
    - [finite] and [setter_finite]: the styles and the builder calls whose
      resize margin and shadow width are finite numbers; [valid] and
      [well_formed]: the styles the theorems on rounding are about.

    The theorems of this file are those of the builders.  What [show] does
    is stated in [Zones] and proved in [ShowSpec]. *)

From stdpp Require Import base decidable list.
From Stdlib Require Import Bool ZArith String Lia.
From S2P Require Import Prelude F32 Geometry Host.

Local Open Scope state_scope.

Module CustomFrame.

(** ** The type and its builders *)

Record t : Type := mk {
  f_sizebox : Margin.t;        (* the size of the resizing frame *)
  f_caption : Rect.t;          (* the caption area *)
  f_inner_margin : Margin.t;   (* the inner margin *)
  f_rounding : Rounding.t;     (* the rounding radius *)
  f_shadow : Shadow.t          (* the shadow attributes *)
}.

Definition sizebox (self : t) (sizebox : Margin.t) : t :=
  mk sizebox (f_caption self) (f_inner_margin self) (f_rounding self) (f_shadow self).

Definition caption (self : t) (caption : Rect.t) : t :=
  mk (f_sizebox self) caption (f_inner_margin self) (f_rounding self) (f_shadow self).

Definition rounding (self : t) (rounding : Rounding.t) : t :=
  mk (f_sizebox self) (f_caption self) (f_inner_margin self) rounding (f_shadow self).

Definition shadow (self : t) (shadow : Shadow.t) : t :=
  mk (f_sizebox self) (f_caption self) (f_inner_margin self) (f_rounding self) shadow.

(** A call of one of the four builder methods, and a chain of calls. *)
Inductive Setter : Type :=
  | SetSizebox (sizebox : Margin.t)
  | SetCaption (caption : Rect.t)
  | SetRounding (rounding : Rounding.t)
  | SetShadow (shadow : Shadow.t).

Definition apply_setter (self : t) (call : Setter) : t :=
  match call with
  | SetSizebox m => sizebox self m
  | SetCaption r => caption self r
  | SetRounding r => rounding self r
  | SetShadow s => shadow self s
  end.

Definition build (self : t) (calls : list Setter) : t :=
  fold_left apply_setter calls self.

(** [impl Default for CustomFrame]. *)
Definition default : t :=
  mk (Margin.same (F32.of_Z 4))
     (Rect.from_min_max (Pos2.new (F32.of_Z 4) (F32.of_Z 4))
                        (Pos2.new F32.MAX (F32.of_Z 44)))
     (Margin.same (F32.of_Z 10))
     (Rounding.same (F32.of_Z 10))
     (Shadow.mk Vec2.ZERO (F32.of_Z 18) (F32.of_Z 2) (Color32.from_black_alpha 32)).

(** ** What [show] computes from the style and the frame's input *)

(** [i.viewport().maximized.unwrap_or(false)] *)
Definition is_maximized (v : UiView.t) : bool :=
  unwrap_or (UiView.maximized v) false.

Definition shadow_width (self : t) (is_maximized : bool) : F32.t :=
  if is_maximized then F32.zero
  else (Shadow.blur (f_shadow self) + Shadow.spread (f_shadow self))%f32.

Definition panel_frame (self : t) (panel_fill : Color32.t) (is_maximized : bool)
    : Frame.t :=
  Frame.mk
    panel_fill
    (if is_maximized then Rounding.ZERO else f_rounding self)
    Stroke.NONE
    (Margin.same (shadow_width self is_maximized))
    (f_inner_margin self)
    (if is_maximized then Shadow.NONE else f_shadow self).

(** The clip rectangle moved to the origin and shrunk by the shadow. *)
Definition view_rect (clip_rect : Rect.t) (shadow_width : F32.t) : Rect.t :=
  Rect.shrink
    (Rect.from_min_size Pos2.ZERO
       (Vec2.new (Rect.width clip_rect) (Rect.height clip_rect)))
    shadow_width.

Definition sizebox_inner (self : t) (view_rect : Rect.t) : Rect.t :=
  Rect.sub_margin view_rect (f_sizebox self).

Definition caption_rect (self : t) (shadow_width : F32.t) (sizebox_inner : Rect.t)
    : Rect.t :=
  Rect.intersect
    (Rect.translate (f_caption self) (Vec2.new shadow_width shadow_width))
    sizebox_inner.

(** The pointer's position, or a point at [(f32::MIN, f32::MIN)]. *)
Definition pointer_pos (v : UiView.t) : Pos2.t :=
  unwrap_or (UiView.interact_pos v) (Pos2.new F32.MIN F32.MIN).

(** ** Styles made of finite numbers

    [show] checks nothing of the style.  [finite] is what the specification
    asks of it as far as the regions need it: the resize margin and the
    width of the shadow are finite numbers; [setter_finite] is the same of
    the argument of a builder call. *)
Definition finite (self : t) : bool :=
  Margin.finite (f_sizebox self) && F32.is_finite (shadow_width self false).

Definition setter_finite (call : Setter) : bool :=
  match call with
  | SetSizebox m => Margin.finite m
  | SetShadow s => F32.is_finite (Shadow.blur s + Shadow.spread s)%f32
  | SetCaption _ | SetRounding _ => true
  end.

(** The numbers of the style the regions depend on are binary32 numbers. *)
Definition valid (self : t) : bool :=
  Margin.valid (f_sizebox self) && Rect.valid (f_caption self) &&
  F32.valid (Shadow.blur (f_shadow self)) && F32.valid (Shadow.spread (f_shadow self)).

(** [well_formed]: a finite style whose resize margin takes nothing away
    from the window on any side. *)
Definition well_formed (self : t) : bool :=
  valid self && finite self && Margin.nonneg (f_sizebox self).

Definition sizebox_id : Id.t := Id.new "custom_frame_sizebox"%string.
Definition caption_id : Id.t := Id.new "custom_frame_caption"%string.

(** ** The steps of the panel's closure *)

Section Show.
Context {U : Type} `{Host U}.

(** create sizebox interact area *)
Definition sizebox_response (view_rect sizebox_inner : Rect.t) (pos : Pos2.t)
    (is_maximized : bool) : State U (option Response.t) :=
  if Rect.contains view_rect pos &&
     negb (Rect.contains sizebox_inner pos) &&
     negb is_maximized
  then r <- interact view_rect sizebox_id Sense.drag ;; ret (Some r)
  else ret None.

(** create caption interact area *)
Definition caption_response (caption_rect : Rect.t) (pos : Pos2.t)
    : State U (option Response.t) :=
  if Rect.contains caption_rect pos
  then r <- interact caption_rect caption_id Sense.click_and_drag ;; ret (Some r)
  else ret None.

(** One branch of the resizing code: set the cursor, and begin the resize
    when a drag starts. *)
Definition resize_branch (icon : CursorIcon) (d : ResizeDirection) (drag : bool)
    : State U unit :=
  set_cursor_icon icon ;;
  when drag (send_viewport_cmd (BeginResize d)).

(** produce resizing *)
Definition produce_resizing (sizebox_response : option Response.t) (pos : Pos2.t)
    (sizebox_inner : Rect.t) : State U unit :=
  match sizebox_response with
  | Some sizebox_response =>
    let drag := Response.drag_started sizebox_response in
    if (Pos2.x pos <? Rect.left sizebox_inner)%f32 then
      if (Pos2.y pos <? Rect.top sizebox_inner)%f32 then
        resize_branch ResizeNorthWest NorthWest drag
      else if (Pos2.y pos >? Rect.bottom sizebox_inner)%f32 then
        resize_branch ResizeSouthWest SouthWest drag
      else
        resize_branch ResizeWest West drag
    else if (Pos2.x pos >? Rect.right sizebox_inner)%f32 then
      if (Pos2.y pos <? Rect.top sizebox_inner)%f32 then
        resize_branch ResizeNorthEast NorthEast drag
      else if (Pos2.y pos >? Rect.bottom sizebox_inner)%f32 then
        resize_branch ResizeSouthEast SouthEast drag
      else
        resize_branch ResizeEast East drag
    else
      if (Pos2.y pos <? Rect.top sizebox_inner)%f32 then
        resize_branch ResizeNorth North drag
      else if (Pos2.y pos >? Rect.bottom sizebox_inner)%f32 then
        resize_branch ResizeSouth South drag
      else
        ret tt
  | None => ret tt
  end.

(** produce caption dragging and double clicking *)
Definition produce_caption (caption_response : option Response.t)
    (is_maximized : bool) : State U unit :=
  match caption_response with
  | Some caption_response =>
    when (Response.drag_started caption_response)
      (send_viewport_cmd StartDrag) ;;
    when (Response.double_clicked caption_response)
      (send_viewport_cmd (Maximized (negb is_maximized)))
  | None => ret tt
  end.

(** The closure given to the panel. *)
Definition show_body {R : Type} (self : t) (is_maximized : bool)
    (shadow_width : F32.t) (add_content : State U R) : State U R :=
  clip_rect <- gets (fun u => UiView.clip_rect (view u)) ;;
  let view_rect := view_rect clip_rect shadow_width in
  let sizebox_inner := sizebox_inner self view_rect in
  let caption_rect := caption_rect self shadow_width sizebox_inner in
  pos <- gets (fun u => pointer_pos (view u)) ;;
  sizebox_response <- sizebox_response view_rect sizebox_inner pos is_maximized ;;
  caption_response <- caption_response caption_rect pos ;;
  produce_resizing sizebox_response pos sizebox_inner ;;
  produce_caption caption_response is_maximized ;;
  add_content.

(** Show the custom frame *)
Definition show {R : Type} (self : t) (add_content : State U R)
    : State U (InnerResponse.t R) :=
  is_maximized <- gets (fun u => is_maximized (view u)) ;;
  let shadow_width := shadow_width self is_maximized in
  panel_fill <- gets (fun u => UiView.panel_fill (view u)) ;;
  let panel_frame := panel_frame self panel_fill is_maximized in
  central_panel panel_frame ;;
  inner <- show_body self is_maximized shadow_width add_content ;;
  response <- gets panel_response ;;
  ret (InnerResponse.new inner response).

End Show.

End CustomFrame.

#[global] Instance custom_frame_eq_dec : EqDecision CustomFrame.t.
Proof. solve_decision. Defined.

(** ** The examples of the documentation

    The documentation of the crate and that of the type each show the
    default frame around a label, in a test context. *)

Section DocExamples.
Context {U : Type} `{Widgets U}.

(** The example of the crate's documentation. *)
Definition crate_example : State U (InnerResponse.t unit) :=
  CustomFrame.show CustomFrame.default
    (label "Hello World!"%string ;; ret tt).

(** The example of the documentation of [CustomFrame]. *)
Definition type_example : State U (InnerResponse.t unit) :=
  CustomFrame.show CustomFrame.default
    (label "Hello World!"%string ;; ret tt).

End DocExamples.

(** ** The builders *)

(** C33 (invariant).  No chain of builder calls changes the inner margin: of
    the five fields it is the one without a setter. *)
Theorem builders_keep_inner_margin (self : CustomFrame.t) (calls : list CustomFrame.Setter) :
  CustomFrame.f_inner_margin (CustomFrame.build self calls) =
  CustomFrame.f_inner_margin self.
Proof.
  unfold CustomFrame.build. revert self.
  induction calls as [|call calls IH]; intros self; [reflexivity|].
  cbn [fold_left]. rewrite IH. now destruct call.
Qed.

(** A chain of builder calls gives each field the
    argument of the last call of its setter, and leaves a field without a
    call as it was. *)
Theorem build_last_call_wins (self : CustomFrame.t) (calls : list CustomFrame.Setter)
    (call : CustomFrame.Setter) :
  let before := CustomFrame.build self calls in
  let after := CustomFrame.build self (calls ++ [call]) in
  match call with
  | CustomFrame.SetSizebox m =>
      after = CustomFrame.mk m (CustomFrame.f_caption before)
                (CustomFrame.f_inner_margin before) (CustomFrame.f_rounding before)
                (CustomFrame.f_shadow before)
  | CustomFrame.SetCaption r =>
      after = CustomFrame.mk (CustomFrame.f_sizebox before) r
                (CustomFrame.f_inner_margin before) (CustomFrame.f_rounding before)
                (CustomFrame.f_shadow before)
  | CustomFrame.SetRounding r =>
      after = CustomFrame.mk (CustomFrame.f_sizebox before) (CustomFrame.f_caption before)
                (CustomFrame.f_inner_margin before) r (CustomFrame.f_shadow before)
  | CustomFrame.SetShadow s =>
      after = CustomFrame.mk (CustomFrame.f_sizebox before) (CustomFrame.f_caption before)
                (CustomFrame.f_inner_margin before) (CustomFrame.f_rounding before) s
  end.
Proof.
  cbv zeta. unfold CustomFrame.build. rewrite fold_left_app.
  destruct call; reflexivity.
Qed.

(** ** Finite styles *)

Lemma apply_setter_finite (self : CustomFrame.t) (call : CustomFrame.Setter) :
  CustomFrame.finite self = true -> CustomFrame.setter_finite call = true ->
  CustomFrame.finite (CustomFrame.apply_setter self call) = true.
Proof.
  unfold CustomFrame.finite. intros Hs Hc. bool_hyps.
  destruct call; cbn in *; bool_goal; assumption.
Qed.

Lemma shadow_width_finite (self : CustomFrame.t) (m : bool) :
  CustomFrame.finite self = true ->
  F32.is_finite (CustomFrame.shadow_width self m) = true.
Proof. unfold CustomFrame.finite. intros H. bool_hyps. now destruct m. Qed.

(** The builders keep a style finite: the default style is
    finite, and a chain of builder calls whose resize margins and shadows
    are finite leads from a finite style to a finite style. *)
Theorem build_finite (self : CustomFrame.t) (calls : list CustomFrame.Setter) :
  CustomFrame.finite CustomFrame.default = true /\
  (CustomFrame.finite self = true ->
   forallb CustomFrame.setter_finite calls = true ->
   CustomFrame.finite (CustomFrame.build self calls) = true).
Proof.
  split; [reflexivity|].
  unfold CustomFrame.build. revert self.
  induction calls as [|call calls IH]; intros self Hs Hc; [exact Hs|].
  cbn in Hc. bool_hyps. cbn [fold_left]. apply IH; [|assumption].
  now apply apply_setter_finite.
Qed.
