(* ===== verification/Zones.v ===== *)
(** * Zones: one frame read as a function of its input

    [CustomFrame::show] decides what to do from the style, the maximized
    flag, the clip rectangle and the pointer position.  This file writes
    that decision down without the context: [resize_direction] classifies a
    pointer against the core rectangle, in the order of the source's tests,
    and [octant] says where each direction lies; [regions] gathers the
    rectangles of one frame; [sizebox_live] and [caption_live] say which
    regions are registered; [frame_cursor], [frame_cmds] and [frame_widgets]
    are the cursor icon, the commands and the regions of one call, and
    [frame_view] is the view it leaves.

    The lemmas and theorems are those that need no context: the
    classification is total on the resize ring and agrees with [octant], the
    caption lies in the core and excludes the ring, the commands of a frame
    are of three kinds and two at most, the regions of a finite style
    have no NaN coordinate, and the stand-in for a missing pointer is in no
    region that begins right of [f32::MIN].  What rounding does to the
    regions is in [Nesting]. *)

From stdpp Require Import base decidable list.
From Stdlib Require Import Bool ZArith String Lia Morphisms.
From S2P Require Import Prelude F32 Geometry Host CustomFrame.

(** ** What [show] is meant to do *)

(** The icon that goes with a direction. *)
Definition cursor_of (d : ResizeDirection) : CursorIcon :=
  match d with
  | North => ResizeNorth
  | South => ResizeSouth
  | East => ResizeEast
  | West => ResizeWest
  | NorthEast => ResizeNorthEast
  | SouthEast => ResizeSouthEast
  | NorthWest => ResizeNorthWest
  | SouthWest => ResizeSouthWest
  end.

(** Where a coordinate lies with respect to an interval: the source tests
    "below the near border" first and "above the far border" second. *)
Inductive Side : Type := Before | Within | After.

Definition side (c near far : F32.t) : Side :=
  if (c <? near)%f32 then Before
  else if (c >? far)%f32 then After
  else Within.

(** The pointer classified against the core rectangle: one of the eight
    directions, or none when it is beyond no border. *)
Definition resize_direction (pos : Pos2.t) (sizebox_inner : Rect.t)
    : option ResizeDirection :=
  match side (Pos2.x pos) (Rect.left sizebox_inner) (Rect.right sizebox_inner),
        side (Pos2.y pos) (Rect.top sizebox_inner) (Rect.bottom sizebox_inner) with
  | Before, Before => Some NorthWest
  | Before, After => Some SouthWest
  | Before, Within => Some West
  | After, Before => Some NorthEast
  | After, After => Some SouthEast
  | After, Within => Some East
  | Within, Before => Some North
  | Within, After => Some South
  | Within, Within => None
  end.

(** The octant of a direction, by the borders of the core the pointer is
    beyond: west of the left one, east of the right one, north of the top
    one, south of the bottom one. *)
Definition octant (d : ResizeDirection) (pos : Pos2.t) (core : Rect.t) : Prop :=
  let w := (Pos2.x pos <? Rect.left core)%f32 = true in
  let e := (Pos2.x pos >? Rect.right core)%f32 = true in
  let n := (Pos2.y pos <? Rect.top core)%f32 = true in
  let s := (Pos2.y pos >? Rect.bottom core)%f32 = true in
  match d with
  | North => ~ w /\ ~ e /\ n
  | South => ~ w /\ ~ e /\ s
  | East => e /\ ~ n /\ ~ s
  | West => w /\ ~ n /\ ~ s
  | NorthEast => e /\ n
  | SouthEast => e /\ s
  | NorthWest => w /\ n
  | SouthWest => w /\ s
  end.

(** A rectangle whose far borders are not before its near ones. *)
Definition ordered (r : Rect.t) : bool :=
  (Rect.left r <=? Rect.right r)%f32 && (Rect.top r <=? Rect.bottom r)%f32.

(** The resize ring is live: the pointer is in the view rectangle, not in the
    core, and the window is not maximized. *)
Definition resize_active (view_rect sizebox_inner : Rect.t) (pos : Pos2.t)
    (is_maximized : bool) : bool :=
  Rect.contains view_rect pos &&
  negb (Rect.contains sizebox_inner pos) &&
  negb is_maximized.

(** What [produce_resizing] sends and the icon it leaves. *)
Definition resize_cmds (response : option Response.t) (pos : Pos2.t)
    (sizebox_inner : Rect.t) : list ViewportCommand :=
  match response, resize_direction pos sizebox_inner with
  | Some r, Some d => if Response.drag_started r then [BeginResize d] else []
  | _, _ => []
  end.

Definition resize_cursor (response : option Response.t) (pos : Pos2.t)
    (sizebox_inner : Rect.t) (old : CursorIcon) : CursorIcon :=
  match response, resize_direction pos sizebox_inner with
  | Some _, Some d => cursor_of d
  | _, _ => old
  end.

(** What [produce_caption] sends. *)
Definition caption_cmds (response : option Response.t) (is_maximized : bool)
    : list ViewportCommand :=
  match response with
  | Some r =>
      (if Response.drag_started r then [StartDrag] else []) ++
      (if Response.double_clicked r then [Maximized (negb is_maximized)] else [])
  | None => []
  end.

(** The regions of one frame: the view rectangle, the core and the caption,
    with the pointer and the maximized flag they are tested against. *)
Record Regions : Type := mk_regions {
  g_maximized : bool;
  g_shadow_width : F32.t;
  g_view : Rect.t;
  g_core : Rect.t;
  g_caption : Rect.t;
  g_pos : Pos2.t
}.

Definition regions (self : CustomFrame.t) (v : UiView.t) : Regions :=
  let is_maximized := CustomFrame.is_maximized v in
  let shadow_width := CustomFrame.shadow_width self is_maximized in
  let view_rect := CustomFrame.view_rect (UiView.clip_rect v) shadow_width in
  let sizebox_inner := CustomFrame.sizebox_inner self view_rect in
  mk_regions is_maximized shadow_width view_rect sizebox_inner
    (CustomFrame.caption_rect self shadow_width sizebox_inner)
    (CustomFrame.pointer_pos v).

Definition sizebox_live (g : Regions) : bool :=
  resize_active (g_view g) (g_core g) (g_pos g) (g_maximized g).

Definition caption_live (g : Regions) : bool :=
  Rect.contains (g_caption g) (g_pos g).

(** The regions registered, the commands sent and the icon left by one call
    of [show], content apart; [rs] and [rc] are what the context answers for
    the resize ring and for the caption, should they be registered. *)
Definition frame_widgets (g : Regions) : list Widget :=
  (if sizebox_live g
   then [(CustomFrame.sizebox_id, g_view g, Sense.drag)] else []) ++
  (if caption_live g
   then [(CustomFrame.caption_id, g_caption g, Sense.click_and_drag)] else []).

Definition frame_cmds (g : Regions) (rs rc : Response.t) : list ViewportCommand :=
  resize_cmds (if sizebox_live g then Some rs else None) (g_pos g) (g_core g) ++
  caption_cmds (if caption_live g then Some rc else None) (g_maximized g).

Definition frame_cursor (g : Regions) (old : CursorIcon) : CursorIcon :=
  resize_cursor (if sizebox_live g then Some Response.idle else None)
    (g_pos g) (g_core g) old.

(** The view one call of [show] leaves, content apart. *)
Definition frame_view (self : CustomFrame.t) (rs rc : Response.t) (v : UiView.t)
    : UiView.t :=
  let g := regions self v in
  UiView.extend v
    (frame_cursor g (UiView.cursor_icon v))
    (frame_cmds g rs rc)
    (frame_widgets g)
    [CustomFrame.panel_frame self (UiView.panel_fill v) (g_maximized g)].

(** A command [show] itself may send in a frame whose maximized flag is [m]. *)
Definition frame_cmd_ok (m : bool) (c : ViewportCommand) : Prop :=
  (exists d, c = BeginResize d) \/ c = StartDrag \/ c = Maximized (negb m).

(** ** Lemmas: the regions *)

(** The regions of a frame depend on the inputs of the view alone. *)
#[global] Instance is_maximized_proper :
  Proper (UiView.same_input ==> eq) CustomFrame.is_maximized.
Proof. intros v1 v2 (Hm & _). unfold CustomFrame.is_maximized. now rewrite Hm. Qed.

#[global] Instance pointer_pos_proper :
  Proper (UiView.same_input ==> eq) CustomFrame.pointer_pos.
Proof. intros v1 v2 (_ & _ & _ & Hp). unfold CustomFrame.pointer_pos. now rewrite Hp. Qed.

#[global] Instance regions_proper (self : CustomFrame.t) :
  Proper (UiView.same_input ==> eq) (regions self).
Proof.
  intros v1 v2 Hv. unfold regions.
  rewrite (is_maximized_proper _ _ Hv), (pointer_pos_proper _ _ Hv).
  destruct Hv as (_ & _ & -> & _). reflexivity.
Qed.


Section RegionFacts.
Implicit Types (self : CustomFrame.t) (v : UiView.t) (g : Regions).

(** A maximized window has no live ring. *)
Lemma sizebox_live_maximized g : g_maximized g = true -> sizebox_live g = false.
Proof.
  unfold sizebox_live, resize_active. intros ->. now rewrite andb_false_r.
Qed.

(** A live ring has the pointer in the view rectangle and out of the core. *)
Lemma sizebox_live_inv g :
  sizebox_live g = true ->
  Rect.contains (g_view g) (g_pos g) = true /\
  Rect.contains (g_core g) (g_pos g) = false /\
  g_maximized g = false.
Proof. unfold sizebox_live, resize_active. intros H. bool_hyps. auto. Qed.

(** The caption of a frame is cut out of its core. *)
Lemma caption_in_core self v p :
  let g := regions self v in
  Rect.has_nan (g_core g) = false ->
  Rect.contains (g_caption g) p = true -> Rect.contains (g_core g) p = true.
Proof. cbv zeta. apply contains_intersect_r. Qed.

(** With a core made of numbers, the ring and the caption are never live
    together. *)
Lemma not_both_live self v :
  let g := regions self v in
  Rect.has_nan (g_core g) = false ->
  sizebox_live g = true -> caption_live g = false.
Proof.
  cbv zeta. intros Hnan Hs. apply sizebox_live_inv in Hs as (_ & Hout & _).
  unfold caption_live.
  destruct (Rect.contains (g_caption _) _) eqn:Hc; [|reflexivity].
  apply caption_in_core in Hc; [congruence | assumption].
Qed.

(** On the ring of a core made of numbers the pointer has a direction. *)
Lemma ring_has_direction vr core pos :
  Rect.contains vr pos = true -> Rect.has_nan core = false ->
  Rect.contains core pos = false ->
  exists d, resize_direction pos core = Some d.
Proof.
  intros Hin Hnan Hout. apply contains_no_nan in Hin as [Hpos _].
  destruct (not_contains_cases _ _ Hnan Hpos Hout) as [E|[E|[E|E]]];
    unfold resize_direction, side; rewrite ?E;
    repeat match goal with |- context [if ?b then _ else _] => destruct b end;
    eauto.
Qed.

(** What [frame_view] leaves when neither region is live. *)
Lemma frame_view_inert self rs rc v :
  let g := regions self v in
  sizebox_live g = false -> caption_live g = false ->
  frame_view self rs rc v =
  UiView.paint (CustomFrame.panel_frame self (UiView.panel_fill v) (g_maximized g)) v.
Proof.
  cbv zeta. intros Hs Hc.
  unfold frame_view, frame_cursor, frame_cmds, frame_widgets.
  rewrite Hs, Hc, paint_extend. reflexivity.
Qed.

(** The commands of a frame are of the three kinds, and three at most
    whatever the regions are; for the regions [show] computes they are two
    at most ([frame_cmds_two]). *)
Lemma frame_cmds_ok g rs rc :
  Forall (frame_cmd_ok (g_maximized g)) (frame_cmds g rs rc) /\
  List.length (frame_cmds g rs rc) <= 3.
Proof.
  unfold frame_cmds, resize_cmds, caption_cmds.
  destruct (sizebox_live g), (caption_live g),
    (resize_direction (g_pos g) (g_core g)),
    (Response.drag_started rs), (Response.drag_started rc),
    (Response.double_clicked rc); cbn;
    (split; [ repeat (match goal with |- Forall _ _ => constructor end);
              unfold frame_cmd_ok; eauto
            | lia ]).
Qed.

(** A coordinate inside an intersection is beyond no border of the second
    rectangle, whether the borders are numbers or not: a NaN border is
    ignored by the intersection and fails both tests of the resizing
    code. *)
Lemma within_side (c t0 t1 near far : F32.t) :
  (F32.max t0 near <=? c)%f32 = true -> (c <=? F32.min t1 far)%f32 = true ->
  side c near far = Within.
Proof.
  intros Hlo Hhi. unfold side, F32.gtb.
  assert (Hn : (c <? near)%f32 = false).
  { destruct (F32.is_nan near) eqn:En; [now apply F32.ltb_nan_r|].
    apply F32.leb_not_ltb. now apply (F32.leb_max_r t0). }
  assert (Hf : (far <? c)%f32 = false).
  { destruct (F32.is_nan far) eqn:En; [now apply F32.ltb_nan_l|].
    apply F32.leb_not_ltb. now apply (F32.leb_min_r _ t1). }
  now rewrite Hn, Hf.
Qed.

(** A pointer on the caption has no direction, for every float: the
    resizing code and the caption code never both send in a frame. *)
Lemma caption_live_no_direction self v :
  let g := regions self v in
  caption_live g = true -> resize_direction (g_pos g) (g_core g) = None.
Proof.
  cbv zeta. unfold caption_live. intros (Hl & Hr & Ht & Hb)%contains_iff.
  unfold resize_direction.
  set (core := g_core (regions self v)).
  now rewrite (within_side _ _ _ (Rect.left core) (Rect.right core) Hl Hr),
    (within_side _ _ _ (Rect.top core) (Rect.bottom core) Ht Hb).
Qed.

(** So a frame sends two commands at most. *)
Lemma frame_cmds_two self v rs rc :
  List.length (frame_cmds (regions self v) rs rc) <= 2.
Proof.
  unfold frame_cmds, resize_cmds, caption_cmds.
  destruct (caption_live (regions self v)) eqn:Hc.
  - rewrite (caption_live_no_direction self v Hc).
    destruct (sizebox_live _), (Response.drag_started rc), (Response.double_clicked rc);
      cbn; lia.
  - destruct (sizebox_live _),
      (resize_direction (g_pos (regions self v)) (g_core (regions self v))),
      (Response.drag_started rs); cbn; lia.
Qed.

(** [show] itself never closes the window. *)
Lemma frame_cmds_no_close g rs rc : ~ In Close (frame_cmds g rs rc).
Proof.
  intros Hin. destruct (frame_cmds_ok g rs rc) as [Hok _].
  apply (proj1 (List.Forall_forall _ _) Hok) in Hin.
  destruct Hin as [[d Hd]|[Hd|Hd]]; discriminate.
Qed.

(** With the core in the view rectangle, a pointer outside the view
    rectangle is in no region. *)
Lemma outside_view_not_live self v :
  let g := regions self v in
  Rect.contains_rect (g_view g) (g_core g) = true ->
  Rect.contains (g_view g) (g_pos g) = false ->
  sizebox_live g = false /\ caption_live g = false.
Proof.
  cbv zeta. intros Hsub Hout. split.
  - unfold sizebox_live, resize_active. now rewrite Hout.
  - unfold caption_live.
    destruct (Rect.contains (g_caption _) _) eqn:Hc; [|reflexivity].
    apply caption_in_core in Hc; [|eauto using contains_rect_no_nan].
    rewrite (contains_rect_sound _ _ _ Hsub Hc) in Hout. discriminate.
Qed.

(** With the pointer in the core, the ring is not live. *)
Lemma inside_core_not_live self v :
  let g := regions self v in
  Rect.contains (g_core g) (g_pos g) = true -> sizebox_live g = false.
Proof.
  cbv zeta. intros Hin. unfold sizebox_live, resize_active.
  rewrite Hin. cbn. now rewrite andb_false_r.
Qed.

(** The regions of a finite style in a sized window are made of numbers. *)
Lemma regions_numbers self v :
  CustomFrame.finite self = true -> UiView.sized v = true ->
  let g := regions self v in
  Rect.has_nan (g_view g) = false /\ Rect.has_nan (g_core g) = false /\
  Rect.has_nan (g_caption g) = false.
Proof.
  intros Hf Hv. cbv zeta.
  pose proof (shadow_width_finite self (CustomFrame.is_maximized v) Hf) as Hsw.
  unfold CustomFrame.finite, Margin.finite, UiView.sized in *. bool_hyps.
  unfold regions, CustomFrame.caption_rect, CustomFrame.sizebox_inner,
    CustomFrame.view_rect, Rect.has_nan, Pos2.has_nan.
  cbn [g_view g_core g_caption Rect.min Rect.max Rect.intersect Rect.sub_margin
       Rect.shrink Rect.shrink2 Rect.from_min_size Pos2.add Pos2.sub Pos2.max
       Pos2.min Pos2.x Pos2.y Vec2.x Vec2.y Vec2.splat Margin.left_top
       Margin.right_bottom Pos2.ZERO].
  rewrite !F32.is_nan_max, !F32.is_nan_min.
  assert (Hn : forall a b, b = false -> a && b = false)
    by (intros ? ? ->; apply andb_false_r).
  repeat split; rewrite ?orb_false_iff; repeat split;
    try apply Hn; auto 10 with number.
Qed.

(** Without a pointer, in a frame whose view rectangle and core begin right
    of [f32::MIN], no region is live. *)
Lemma sentinel_not_live self v :
  let g := regions self v in
  UiView.interact_pos v = None ->
  (F32.MIN <? Rect.left (g_view g))%f32 = true ->
  (F32.MIN <? Rect.left (g_core g))%f32 = true ->
  sizebox_live g = false /\ caption_live g = false.
Proof.
  cbv zeta. intros Hnone Hv Hc.
  assert (Hp : g_pos (regions self v) = Pos2.new F32.MIN F32.MIN).
  { cbn. unfold CustomFrame.pointer_pos. now rewrite Hnone. }
  unfold sizebox_live, resize_active, caption_live. rewrite Hp.
  rewrite (beyond_left_outside (g_view _)) by exact Hv.
  rewrite (beyond_left_outside (g_caption _)); [split; reflexivity|].
  cbn [Pos2.x]. unfold Rect.left in *. cbn [regions g_caption g_core] in *.
  unfold CustomFrame.caption_rect. cbn [Rect.intersect Rect.min Pos2.max Pos2.x].
  now apply F32.ltb_max_r.
Qed.

End RegionFacts.

(** ** Theorems *)

Section HostFree.
Implicit Types (self : CustomFrame.t) (v : UiView.t).

(** When the resize ring is live and the core is made of
    numbers, the pointer is classified into one of the eight directions, and
    the icon of the frame is that direction's icon. *)
Theorem resize_direction_total self v :
  let g := regions self v in
  sizebox_live g = true ->
  Rect.has_nan (g_core g) = false ->
  exists d,
    resize_direction (g_pos g) (g_core g) = Some d /\
    forall old, frame_cursor g old = cursor_of d.
Proof.
  cbv zeta. intros Hs Hnan.
  destruct (sizebox_live_inv _ Hs) as (Hin & Hout & _).
  destruct (ring_has_direction _ _ _ Hin Hnan Hout) as [d Hd].
  exists d. split; [exact Hd|]. intros old.
  unfold frame_cursor, resize_cursor. now rewrite Hs, Hd.
Qed.

(** C4 (functional).  Against a core whose right border is not left of its
    left one and whose bottom border is not above its top one, the pointer
    is given direction [d] exactly when it lies in the octant of [d]: beyond
    the borders [d] names and beyond no other. *)
Theorem resize_direction_octant pos core d :
  ordered core = true ->
  resize_direction pos core = Some d <-> octant d pos core.
Proof.
  unfold ordered. intros Ho. bool_hyps.
  pose proof (F32.ltb_leb_not_gtb (Pos2.x pos) (Rect.left core) (Rect.right core)) as Hx.
  pose proof (F32.ltb_leb_not_gtb (Pos2.y pos) (Rect.top core) (Rect.bottom core)) as Hy.
  unfold resize_direction, side, octant. cbv zeta.
  destruct (F32.ltb (Pos2.x pos) (Rect.left core)),
    (F32.gtb (Pos2.x pos) (Rect.right core)),
    (F32.ltb (Pos2.y pos) (Rect.top core)),
    (F32.gtb (Pos2.y pos) (Rect.bottom core));
    destruct d; intuition (congruence || discriminate).
Qed.

(** C8 (invariant).  The caption rectangle of a frame lies in its core: when
    the core is made of numbers, a point of the caption is a point of the
    core, and of the view rectangle too if the core lies in it. *)
Theorem caption_rect_in_core self v p :
  let g := regions self v in
  Rect.has_nan (g_core g) = false ->
  Rect.contains (g_caption g) p = true ->
  Rect.contains (g_core g) p = true /\
  (Rect.contains_rect (g_view g) (g_core g) = true -> Rect.contains (g_view g) p = true).
Proof.
  cbv zeta. intros Hnan Hc. apply caption_in_core in Hc; [|exact Hnan].
  split; [exact Hc|]. intros Hsub. exact (contains_rect_sound _ _ _ Hsub Hc).
Qed.

(** C21 (type).  The regions of a finite style are made of numbers: when
    the resize margin and the shadow width are finite and the clip
    rectangle has a width and a height, no coordinate of the view
    rectangle, the core or the caption is NaN, whatever the caption
    configured. *)
Theorem regions_made_of_numbers self v :
  CustomFrame.finite self = true -> UiView.sized v = true ->
  let g := regions self v in
  Rect.has_nan (g_view g) = false /\ Rect.has_nan (g_core g) = false /\
  Rect.has_nan (g_caption g) = false.
Proof. apply regions_numbers. Qed.

End HostFree.

(** The default style keeps the pointer's stand-in, [(f32::MIN, f32::MIN)],
    out of the view rectangle and out of the caption, whatever the clip
    rectangle is. *)
Lemma default_keeps_sentinel_out v :
  UiView.interact_pos v = None ->
  let g := regions CustomFrame.default v in
  sizebox_live g = false /\ caption_live g = false.
Proof.
  intros Hnone. apply sentinel_not_live; [exact Hnone|..];
    cbn [regions g_view g_core]; destruct (CustomFrame.is_maximized v); reflexivity.
Qed.
