(* ===== verification/Nesting.v ===== *)
(** * Nesting: the regions under rounding

    [show] computes the view rectangle and the core with four float
    additions and subtractions per axis.  The specification reads them as
    exact: the core lies in the view rectangle, a pointer outside the view
    rectangle is in no region.  This file proves what holds of the floats,
    with [Units]:

    - for a well-formed style (finite numbers, a resize margin that is not
      negative) every border of the core is on the inner side of the border
      of the view rectangle, whatever is rounded and whatever overflows, so
      that the core and the caption lie in the view rectangle
      ([margin_keeps_core_in_view]);
    - for a style and a window of whole numbers up to [2^21] the regions are
      the ones the integers give ([whole_regions]): nothing is rounded; the
      same holds of numbers with [k] binary places ([regions_dyadic],
      [contains_dyadic], [side_dyadic]), of which the whole numbers are the
      case [k = 0];
    - for the default margin and shadow, in a window of 48 pixels or more,
      the core lies in the view rectangle and is not empty
      ([default_regions_nested]);
    - two styles that are not well formed, on whole numbers: a negative
      margin puts a corner of the core outside the view rectangle
      ([negative_margin_corner]), and margins wider than the window turn
      the core inside out ([inverted_core_north_west]); and, for numbers
      with binary places, the sizes from which the core is ordered and lies
      in the view rectangle ([core_ordered_iff]);
    - two cases in which the arithmetic is not the integers': a NaN margin
      makes the core a rectangle of NaNs ([nan_margin_regions]), and a
      caption that reaches [f32::MAX] keeps its far border when it is moved,
      so that the caption registered has the moved left border and the
      core's right border ([max_caption_not_moved]). *)

From stdpp Require Import base decidable list.
From Stdlib Require Import Bool ZArith String Lia.
From S2P Require Import Prelude F32 Units FloatArith Geometry Host CustomFrame Zones.

Local Open Scope Z_scope.

(** ** One axis of the regions

    [show] computes the view rectangle and the core coordinate by
    coordinate, the same way along both axes: from the length of the clip
    rectangle, the shadow width and the two insets of the resize margin. *)

Definition view_lo (shadow_width : F32.t) : F32.t := (F32.zero + shadow_width)%f32.

Definition view_hi (len shadow_width : F32.t) : F32.t :=
  ((F32.zero + len) - shadow_width)%f32.

Definition core_lo (shadow_width margin : F32.t) : F32.t :=
  (view_lo shadow_width + margin)%f32.

Definition core_hi (len shadow_width margin : F32.t) : F32.t :=
  (view_hi len shadow_width - margin)%f32.

(** The integers the exact arithmetic covers: up to [2^21], so that every
    sum the frame computes from them stays below [2^24]. *)
Definition small (n : Z) : bool := Z.abs n <=? 2097152.

(** The lengths of a window's side that the theorems on the default style
    cover: from twice the shadow and the resize margin up to [2^21]. *)
Definition min_pixels : Z := 48.
Definition max_pixels : Z := 2097152.

(** ** Lemmas *)

Section Axes.
Implicit Types (self : CustomFrame.t) (v : UiView.t) (sw m len : F32.t).

(** The regions, coordinate by coordinate. *)
Lemma regions_axes self v :
  let g := regions self v in
  let sw := CustomFrame.shadow_width self (CustomFrame.is_maximized v) in
  let w := Rect.width (UiView.clip_rect v) in
  let h := Rect.height (UiView.clip_rect v) in
  let mg := CustomFrame.f_sizebox self in
  g_view g = Rect.from_min_max (Pos2.new (view_lo sw) (view_lo sw))
                               (Pos2.new (view_hi w sw) (view_hi h sw)) /\
  g_core g = Rect.from_min_max
               (Pos2.new (core_lo sw (Margin.left mg)) (core_lo sw (Margin.top mg)))
               (Pos2.new (core_hi w sw (Margin.right mg)) (core_hi h sw (Margin.bottom mg))).
Proof. split; reflexivity. Qed.

Lemma shadow_width_valid self (mx : bool) :
  CustomFrame.valid self = true -> F32.valid (CustomFrame.shadow_width self mx) = true.
Proof.
  unfold CustomFrame.valid, CustomFrame.shadow_width. intros H. bool_hyps.
  destruct mx; [reflexivity|auto with valid].
Qed.

Lemma clip_size_valid v :
  UiView.valid v = true ->
  F32.valid (Rect.width (UiView.clip_rect v)) = true /\
  F32.valid (Rect.height (UiView.clip_rect v)) = true.
Proof.
  unfold UiView.valid, Rect.valid, Rect.width, Rect.height. intros H. bool_hyps.
  split; auto with valid.
Qed.

Lemma view_lo_valid sw : F32.valid sw = true -> F32.valid (view_lo sw) = true.
Proof. unfold view_lo. auto with valid. Qed.

Lemma view_hi_valid len sw :
  F32.valid len = true -> F32.valid sw = true -> F32.valid (view_hi len sw) = true.
Proof. unfold view_hi. auto with valid. Qed.

(** Along an axis, a margin that is not negative keeps the core between the
    borders of the view rectangle. *)
Lemma core_lo_inside sw m :
  F32.valid sw = true -> F32.valid m = true -> (F32.zero <=? m)%f32 = true ->
  F32.is_nan (core_lo sw m) = false ->
  (view_lo sw <=? core_lo sw m)%f32 = true.
Proof. intros. apply add_nonneg_leb; auto using view_lo_valid. Qed.

Lemma core_hi_inside len sw m :
  F32.valid len = true -> F32.valid sw = true -> F32.valid m = true ->
  (F32.zero <=? m)%f32 = true -> F32.is_nan (core_hi len sw m) = false ->
  (core_hi len sw m <=? view_hi len sw)%f32 = true.
Proof. intros. apply sub_nonneg_leb; auto using view_hi_valid. Qed.

(** The borders of the core of a well-formed style are inside those of the
    view rectangle, side by side. *)
Lemma core_borders_inside self v :
  CustomFrame.well_formed self = true -> UiView.valid v = true -> UiView.sized v = true ->
  let g := regions self v in
  (Rect.left (g_view g) <=? Rect.left (g_core g))%f32 = true /\
  (Rect.right (g_core g) <=? Rect.right (g_view g))%f32 = true /\
  (Rect.top (g_view g) <=? Rect.top (g_core g))%f32 = true /\
  (Rect.bottom (g_core g) <=? Rect.bottom (g_view g))%f32 = true.
Proof.
  unfold CustomFrame.well_formed. intros [[Hv Hf]%andb_true_iff Hn]%andb_true_iff Hc Hs.
  cbv zeta.
  destruct (regions_numbers self v Hf Hs) as (_ & Hnan & _).
  pose proof (shadow_width_valid self (CustomFrame.is_maximized v) Hv) as Hsw.
  destruct (clip_size_valid v Hc) as [Hw Hh].
  destruct (regions_axes self v) as [Ev Ec]. cbv zeta in Ev, Ec.
  rewrite Ev, Ec in *. clear Ev Ec.
  unfold CustomFrame.valid, Margin.valid, Margin.nonneg in *.
  rect_unfold. bool_hyps.
  repeat split; first [apply core_lo_inside | apply core_hi_inside]; assumption.
Qed.

End Axes.

(** ** A margin that is not negative *)

Section WellFormed.
Implicit Types (self : CustomFrame.t) (v : UiView.t) (p : Pos2.t).

(** Every point of the core is a point of the view rectangle. *)
Lemma core_in_view self v p :
  CustomFrame.well_formed self = true -> UiView.valid v = true -> UiView.sized v = true ->
  let g := regions self v in
  Rect.contains (g_core g) p = true -> Rect.contains (g_view g) p = true.
Proof.
  intros Hwf Hv Hs. cbv zeta.
  destruct (core_borders_inside self v Hwf Hv Hs) as (Hl & Hr & Ht & Hb).
  rewrite !contains_iff. intros (Hl' & Hr' & Ht' & Hb').
  repeat split; eauto using F32.leb_trans.
Qed.

(** So is every point of the caption. *)
Lemma caption_in_view self v p :
  CustomFrame.well_formed self = true -> UiView.valid v = true -> UiView.sized v = true ->
  let g := regions self v in
  Rect.contains (g_caption g) p = true -> Rect.contains (g_view g) p = true.
Proof.
  intros Hwf Hv Hs. cbv zeta. intros Hc. apply core_in_view; try assumption.
  apply (caption_in_core self v p); [|exact Hc].
  unfold CustomFrame.well_formed in Hwf. bool_hyps.
  now destruct (regions_numbers self v) as (_ & Hn & _).
Qed.

(** A pointer outside the view rectangle is in no region. *)
Lemma well_formed_outside_not_live self v :
  CustomFrame.well_formed self = true -> UiView.valid v = true -> UiView.sized v = true ->
  let g := regions self v in
  Rect.contains (g_view g) (g_pos g) = false ->
  sizebox_live g = false /\ caption_live g = false.
Proof.
  intros Hwf Hv Hs. cbv zeta. intros Hout. split.
  - unfold sizebox_live, resize_active. now rewrite Hout.
  - unfold caption_live.
    destruct (Rect.contains (g_caption _) _) eqn:Hc; [|reflexivity].
    now rewrite (caption_in_view self v _ Hwf Hv Hs Hc) in Hout.
Qed.

End WellFormed.

(** ** Whole numbers *)

Lemma small_bound (n : Z) : small n = true -> - 2097152 <= n <= 2097152.
Proof. unfold small. intros ?%Z.leb_le. lia. Qed.

(** [small_bounds] turns the hypotheses [small n = true] into the bounds
    they state, for [lia]. *)
Ltac small_bounds :=
  repeat match goal with H : small _ = true |- _ => apply small_bound in H end.

(** [whole] turns the float arithmetic on literals into the arithmetic of
    the integers, as long as the operands stay below [2^24]. *)
Ltac whole_side := apply Z.abs_lt; change (2 ^ F32.prec) with 16777216; lia.

Ltac whole :=
  change F32.zero with (F32.of_Z 0) in *;
  repeat first
    [ rewrite of_Z_add by whole_side | rewrite of_Z_sub by whole_side
    | rewrite of_Z_max by whole_side | rewrite of_Z_min by whole_side
    | rewrite of_Z_leb by whole_side | rewrite of_Z_ltb by whole_side ].

(** [places k Hk] does the same for numbers with [k] binary places. *)
Ltac places k Hk :=
  change F32.zero with (F32.dyadic k 0) in *;
  repeat first
    [ rewrite (dyadic_add k Hk) by whole_side | rewrite (dyadic_sub k Hk) by whole_side
    | rewrite (dyadic_max k Hk) by whole_side | rewrite (dyadic_min k Hk) by whole_side
    | rewrite (dyadic_leb k Hk) by whole_side | rewrite (dyadic_ltb k Hk) by whole_side ].

(** *** Numbers with binary places

    A style, a window and a pointer whose numbers all have [k] binary
    places, written as the integers [z] of [z / 2^k]. *)

Section Places.
Variable k : Z.
Hypothesis Hk : 0 <= k <= 149.
Implicit Types (self : CustomFrame.t) (v : UiView.t) (s m len : Z).

(** One axis. *)
Lemma axis_dyadic s m len :
  - 4194304 <= s <= 4194304 -> - 2097152 <= m <= 2097152 -> - 2097152 <= len <= 2097152 ->
  view_lo (F32.dyadic k s) = F32.dyadic k s /\
  view_hi (F32.dyadic k len) (F32.dyadic k s) = F32.dyadic k (len - s) /\
  core_lo (F32.dyadic k s) (F32.dyadic k m) = F32.dyadic k (s + m) /\
  core_hi (F32.dyadic k len) (F32.dyadic k s) (F32.dyadic k m) = F32.dyadic k (len - s - m).
Proof.
  intros Hs Hm Hl. unfold core_lo, core_hi, view_lo, view_hi. places k Hk.
  repeat split; f_equal; lia.
Qed.

(** A point is in a rectangle when the integers say so. *)
Lemma contains_dyadic x0 y0 x1 y1 x y :
  - 16777216 < x0 < 16777216 -> - 16777216 < y0 < 16777216 -> - 16777216 < x1 < 16777216 ->
  - 16777216 < y1 < 16777216 -> - 16777216 < x < 16777216 -> - 16777216 < y < 16777216 ->
  Rect.contains (Rect.dyadic k x0 y0 x1 y1) (Pos2.new (F32.dyadic k x) (F32.dyadic k y)) =
  (x0 <=? x) && (x <=? x1) && (y0 <=? y) && (y <=? y1).
Proof.
  intros. unfold Rect.contains, Rect.dyadic. cbn [Rect.min Rect.max Pos2.x Pos2.y].
  now places k Hk.
Qed.

(** A rectangle is in a rectangle when both its corners are. *)
Lemma contains_rect_dyadic a0 b0 a1 b1 x0 y0 x1 y1 :
  - 16777216 < a0 < 16777216 -> - 16777216 < b0 < 16777216 -> - 16777216 < a1 < 16777216 ->
  - 16777216 < b1 < 16777216 -> - 16777216 < x0 < 16777216 -> - 16777216 < y0 < 16777216 ->
  - 16777216 < x1 < 16777216 -> - 16777216 < y1 < 16777216 ->
  Rect.contains_rect (Rect.dyadic k a0 b0 a1 b1) (Rect.dyadic k x0 y0 x1 y1) =
  ((a0 <=? x0) && (x0 <=? a1) && (b0 <=? y0) && (y0 <=? b1)) &&
  ((a0 <=? x1) && (x1 <=? a1) && (b0 <=? y1) && (y1 <=? b1)).
Proof.
  intros. unfold Rect.contains_rect.
  change (Rect.min (Rect.dyadic k x0 y0 x1 y1))
    with (Pos2.new (F32.dyadic k x0) (F32.dyadic k y0)).
  change (Rect.max (Rect.dyadic k x0 y0 x1 y1))
    with (Pos2.new (F32.dyadic k x1) (F32.dyadic k y1)).
  now rewrite !contains_dyadic.
Qed.

(** A rectangle has its borders in order when the integers do. *)
Lemma ordered_dyadic x0 y0 x1 y1 :
  - 16777216 < x0 < 16777216 -> - 16777216 < y0 < 16777216 -> - 16777216 < x1 < 16777216 ->
  - 16777216 < y1 < 16777216 ->
  ordered (Rect.dyadic k x0 y0 x1 y1) = (x0 <=? x1) && (y0 <=? y1).
Proof.
  intros. unfold ordered, Rect.dyadic, Rect.left, Rect.right, Rect.top, Rect.bottom.
  cbn [Rect.min Rect.max Pos2.x Pos2.y]. now places k Hk.
Qed.

(** The side of a coordinate against two borders. *)
Lemma side_dyadic c near far :
  - 16777216 < c < 16777216 -> - 16777216 < near < 16777216 -> - 16777216 < far < 16777216 ->
  side (F32.dyadic k c) (F32.dyadic k near) (F32.dyadic k far) =
  if c <? near then Before else if far <? c then After else Within.
Proof. intros. unfold side, F32.gtb. now places k Hk. Qed.

(** The shadow width. *)
Lemma shadow_width_dyadic self (mx : bool) bl sp :
  Shadow.blur (CustomFrame.f_shadow self) = F32.dyadic k bl ->
  Shadow.spread (CustomFrame.f_shadow self) = F32.dyadic k sp ->
  small bl = true -> small sp = true ->
  CustomFrame.shadow_width self mx = F32.dyadic k (if mx then 0 else bl + sp).
Proof.
  intros Hb Hs Bb%small_bound Bs%small_bound. unfold CustomFrame.shadow_width.
  rewrite Hb, Hs. destruct mx; [reflexivity|]. now places k Hk.
Qed.

(** The view rectangle and the core. *)
Lemma regions_dyadic self v l r t b bl sp w h :
  CustomFrame.f_sizebox self =
    Margin.mk (F32.dyadic k l) (F32.dyadic k r) (F32.dyadic k t) (F32.dyadic k b) ->
  Shadow.blur (CustomFrame.f_shadow self) = F32.dyadic k bl ->
  Shadow.spread (CustomFrame.f_shadow self) = F32.dyadic k sp ->
  Rect.width (UiView.clip_rect v) = F32.dyadic k w ->
  Rect.height (UiView.clip_rect v) = F32.dyadic k h ->
  forallb small [l; r; t; b; bl; sp; w; h] = true ->
  let g := regions self v in
  let s := if CustomFrame.is_maximized v then 0 else bl + sp in
  g_view g = Rect.dyadic k s s (w - s) (h - s) /\
  g_core g = Rect.dyadic k (s + l) (s + t) (w - s - r) (h - s - b).
Proof.
  intros Hm Hbl Hsp Hw Hh Hsmall. cbv zeta. cbn [forallb] in Hsmall. bool_hyps.
  destruct (regions_axes self v) as [Ev Ec]. cbv zeta in Ev, Ec.
  rewrite Ev, Ec, Hw, Hh, Hm, (shadow_width_dyadic self _ bl sp) by assumption.
  clear Ev Ec Hw Hh Hm Hbl Hsp.
  small_bounds.
  cbn [Margin.left Margin.right Margin.top Margin.bottom].
  set (s := if CustomFrame.is_maximized v then 0 else bl + sp).
  assert (Hs : - 4194304 <= s <= 4194304) by (unfold s; destruct (CustomFrame.is_maximized v); lia).
  unfold Rect.dyadic.
  destruct (axis_dyadic s l w) as (-> & -> & -> & _); try assumption.
  destruct (axis_dyadic s t h) as (_ & -> & -> & _); try assumption.
  destruct (axis_dyadic s r w) as (_ & _ & _ & ->); try assumption.
  destruct (axis_dyadic s b h) as (_ & _ & _ & ->); try assumption.
  split; reflexivity.
Qed.

End Places.

(** *** Whole numbers: no binary place *)

Section Whole.
Implicit Types (self : CustomFrame.t) (v : UiView.t) (s m len : Z).

Lemma axis_whole s m len :
  - 4194304 <= s <= 4194304 -> - 2097152 <= m <= 2097152 -> - 2097152 <= len <= 2097152 ->
  view_lo (F32.of_Z s) = F32.of_Z s /\
  view_hi (F32.of_Z len) (F32.of_Z s) = F32.of_Z (len - s) /\
  core_lo (F32.of_Z s) (F32.of_Z m) = F32.of_Z (s + m) /\
  core_hi (F32.of_Z len) (F32.of_Z s) (F32.of_Z m) = F32.of_Z (len - s - m).
Proof. apply (axis_dyadic 0). lia. Qed.

(** A point of whole coordinates is in a rectangle of whole corners when the
    integers say so. *)
Lemma contains_of_Z x0 y0 x1 y1 x y :
  - 16777216 < x0 < 16777216 -> - 16777216 < y0 < 16777216 -> - 16777216 < x1 < 16777216 ->
  - 16777216 < y1 < 16777216 -> - 16777216 < x < 16777216 -> - 16777216 < y < 16777216 ->
  Rect.contains (Rect.of_Z x0 y0 x1 y1) (Pos2.new (F32.of_Z x) (F32.of_Z y)) =
  (x0 <=? x) && (x <=? x1) && (y0 <=? y) && (y <=? y1).
Proof. apply (contains_dyadic 0). lia. Qed.

Lemma contains_rect_of_Z a0 b0 a1 b1 x0 y0 x1 y1 :
  - 16777216 < a0 < 16777216 -> - 16777216 < b0 < 16777216 -> - 16777216 < a1 < 16777216 ->
  - 16777216 < b1 < 16777216 -> - 16777216 < x0 < 16777216 -> - 16777216 < y0 < 16777216 ->
  - 16777216 < x1 < 16777216 -> - 16777216 < y1 < 16777216 ->
  Rect.contains_rect (Rect.of_Z a0 b0 a1 b1) (Rect.of_Z x0 y0 x1 y1) =
  ((a0 <=? x0) && (x0 <=? a1) && (b0 <=? y0) && (y0 <=? b1)) &&
  ((a0 <=? x1) && (x1 <=? a1) && (b0 <=? y1) && (y1 <=? b1)).
Proof. apply (contains_rect_dyadic 0). lia. Qed.

Lemma ordered_of_Z x0 y0 x1 y1 :
  - 16777216 < x0 < 16777216 -> - 16777216 < y0 < 16777216 -> - 16777216 < x1 < 16777216 ->
  - 16777216 < y1 < 16777216 ->
  ordered (Rect.of_Z x0 y0 x1 y1) = (x0 <=? x1) && (y0 <=? y1).
Proof. apply (ordered_dyadic 0). lia. Qed.

(** The shadow width of a style with whole blur and spread. *)
Lemma shadow_width_whole self (mx : bool) bl sp :
  Shadow.blur (CustomFrame.f_shadow self) = F32.of_Z bl ->
  Shadow.spread (CustomFrame.f_shadow self) = F32.of_Z sp ->
  small bl = true -> small sp = true ->
  CustomFrame.shadow_width self mx = F32.of_Z (if mx then 0 else bl + sp).
Proof. apply (shadow_width_dyadic 0). lia. Qed.

(** The view rectangle and the core of a style with whole margins, in a
    window of whole width and height. *)
Lemma regions_whole self v l r t b bl sp w h :
  CustomFrame.f_sizebox self = Margin.mk (F32.of_Z l) (F32.of_Z r) (F32.of_Z t) (F32.of_Z b) ->
  Shadow.blur (CustomFrame.f_shadow self) = F32.of_Z bl ->
  Shadow.spread (CustomFrame.f_shadow self) = F32.of_Z sp ->
  Rect.width (UiView.clip_rect v) = F32.of_Z w ->
  Rect.height (UiView.clip_rect v) = F32.of_Z h ->
  forallb small [l; r; t; b; bl; sp; w; h] = true ->
  let g := regions self v in
  let s := if CustomFrame.is_maximized v then 0 else bl + sp in
  g_view g = Rect.of_Z s s (w - s) (h - s) /\
  g_core g = Rect.of_Z (s + l) (s + t) (w - s - r) (h - s - b).
Proof. apply (regions_dyadic 0). lia. Qed.

(** The caption of such a style, when it has whole corners too: moved by
    the shadow width and cut to the core, in the integers. *)
Lemma caption_whole self sw (x0 y0 x1 y1 c0 d0 c1 d1 : Z) :
  CustomFrame.f_caption self = Rect.of_Z x0 y0 x1 y1 ->
  forallb small [x0; y0; x1; y1] = true ->
  - 4194304 <= sw <= 4194304 ->
  - 16777216 < c0 < 16777216 -> - 16777216 < d0 < 16777216 -> - 16777216 < c1 < 16777216 -> - 16777216 < d1 < 16777216 ->
  CustomFrame.caption_rect self (F32.of_Z sw) (Rect.of_Z c0 d0 c1 d1) =
  Rect.of_Z (Z.max (x0 + sw) c0) (Z.max (y0 + sw) d0)
            (Z.min (x1 + sw) c1) (Z.min (y1 + sw) d1).
Proof.
  intros Hc Hsmall Hs Hc0 Hd0 Hc1 Hd1. cbn [forallb] in Hsmall. bool_hyps.
  small_bounds.
  unfold CustomFrame.caption_rect, Rect.intersect, Rect.translate, Rect.from_min_size,
    Rect.size, Pos2.diff, Pos2.add, Pos2.max, Pos2.min. rewrite Hc. unfold Rect.of_Z.
  cbn [Rect.min Rect.max Pos2.x Pos2.y Vec2.x Vec2.y]. whole.
  f_equal; f_equal; f_equal; lia.
Qed.

(** The caption of a style of whole numbers in a window of whole width
    and height. *)
Lemma caption_region_whole self v (l r t b bl sp w h x0 y0 x1 y1 : Z) :
  CustomFrame.f_sizebox self = Margin.mk (F32.of_Z l) (F32.of_Z r) (F32.of_Z t) (F32.of_Z b) ->
  Shadow.blur (CustomFrame.f_shadow self) = F32.of_Z bl ->
  Shadow.spread (CustomFrame.f_shadow self) = F32.of_Z sp ->
  CustomFrame.f_caption self = Rect.of_Z x0 y0 x1 y1 ->
  Rect.width (UiView.clip_rect v) = F32.of_Z w ->
  Rect.height (UiView.clip_rect v) = F32.of_Z h ->
  forallb small [l; r; t; b; bl; sp; w; h; x0; y0; x1; y1] = true ->
  let s := if CustomFrame.is_maximized v then 0 else bl + sp in
  g_caption (regions self v) =
    Rect.of_Z (Z.max (x0 + s) (s + l)) (Z.max (y0 + s) (s + t))
              (Z.min (x1 + s) (w - s - r)) (Z.min (y1 + s) (h - s - b)).
Proof.
  intros Hm Hbl Hsp Hc Hw Hh Hsmall. cbv zeta. cbn [forallb] in Hsmall. bool_hyps.
  destruct (regions_whole self v l r t b bl sp w h) as [Ev Ec]; try assumption.
  { cbn [forallb]. now bool_goal. }
  change (g_caption (regions self v)) with
    (CustomFrame.caption_rect self
       (CustomFrame.shadow_width self (CustomFrame.is_maximized v)) (g_core (regions self v))).
  rewrite Ec, (shadow_width_whole self _ bl sp) by assumption.
  assert (Hcap : forallb small [x0; y0; x1; y1] = true) by (cbn [forallb]; now bool_goal).
  clear Ev Ec Hm Hbl Hsp Hw Hh.
  small_bounds.
  set (s := if CustomFrame.is_maximized v then 0 else bl + sp).
  assert (Hs : - 4194304 <= s <= 4194304) by (unfold s; destruct (CustomFrame.is_maximized v); lia).
  apply (caption_whole self s x0 y0 x1 y1 (s + l) (s + t) (w - s - r) (h - s - b) Hc Hcap Hs);
    lia.
Qed.

(** The side of a whole coordinate against whole borders. *)
Lemma side_of_Z c near far :
  - 16777216 < c < 16777216 -> - 16777216 < near < 16777216 -> - 16777216 < far < 16777216 ->
  side (F32.of_Z c) (F32.of_Z near) (F32.of_Z far) =
  if c <? near then Before else if far <? c then After else Within.
Proof. apply (side_dyadic 0). lia. Qed.

(** With a negative left margin the near corner of the core lies outside the
    view rectangle, and in the caption when the configured caption covers
    the corner of the margins. *)
Lemma negative_margin_corner self v (l r t b bl sp w h x0 y0 x1 y1 : Z) :
  CustomFrame.f_sizebox self = Margin.mk (F32.of_Z l) (F32.of_Z r) (F32.of_Z t) (F32.of_Z b) ->
  Shadow.blur (CustomFrame.f_shadow self) = F32.of_Z bl ->
  Shadow.spread (CustomFrame.f_shadow self) = F32.of_Z sp ->
  CustomFrame.f_caption self = Rect.of_Z x0 y0 x1 y1 ->
  Rect.width (UiView.clip_rect v) = F32.of_Z w ->
  Rect.height (UiView.clip_rect v) = F32.of_Z h ->
  forallb small [l; r; t; b; bl; sp; w; h; x0; y0; x1; y1] = true ->
  let g := regions self v in
  let s := if CustomFrame.is_maximized v then 0 else bl + sp in
  l < 0 -> s + l <= w - s - r -> s + t <= h - s - b ->
  x0 <= l <= x1 -> y0 <= t <= y1 ->
  let p := Pos2.new (F32.of_Z (s + l)) (F32.of_Z (s + t)) in
  Rect.contains (g_view g) p = false /\ Rect.contains (g_caption g) p = true.
Proof.
  intros Hm Hbl Hsp Hc Hw Hh Hsmall. cbv zeta. intros Hl Hx Hy Hcx Hcy.
  rewrite (caption_region_whole self v l r t b bl sp w h x0 y0 x1 y1) by assumption.
  cbn [forallb] in Hsmall. bool_hyps.
  destruct (regions_whole self v l r t b bl sp w h) as [-> _]; try assumption.
  { cbn [forallb]. now bool_goal. }
  clear Hm Hbl Hsp Hw Hh Hc.
  small_bounds.
  set (s := if CustomFrame.is_maximized v then 0 else bl + sp) in *.
  assert (Hs : - 4194304 <= s <= 4194304) by (unfold s; destruct (CustomFrame.is_maximized v); lia).
  rewrite !contains_of_Z by lia. split.
  - do 3 (apply andb_false_iff; left). apply Z.leb_gt. lia.
  - bool_goal; apply Z.leb_le; lia.
Qed.

(** The regions of the default margin and shadow in a window of whole
    pixels are nested. *)
Lemma regions_nested_pixels self v (w h : Z) :
  CustomFrame.f_sizebox self = CustomFrame.f_sizebox CustomFrame.default ->
  CustomFrame.f_shadow self = CustomFrame.f_shadow CustomFrame.default ->
  Rect.width (UiView.clip_rect v) = F32.of_Z w ->
  Rect.height (UiView.clip_rect v) = F32.of_Z h ->
  min_pixels <= w <= max_pixels -> min_pixels <= h <= max_pixels ->
  let g := regions self v in
  Rect.contains_rect (g_view g) (g_core g) = true /\ ordered (g_core g) = true.
Proof.
  unfold min_pixels, max_pixels. intros Hsb Hsh Hw Hh Hwr Hhr. cbv zeta.
  destruct (regions_whole self v 4 4 4 4 18 2 w h) as [-> ->];
    rewrite ?Hsb, ?Hsh; try assumption; try reflexivity.
  { cbn [forallb]. unfold small. bool_goal; try apply Z.leb_le; lia. }
  clear Hsb Hsh Hw Hh.
  destruct (CustomFrame.is_maximized v);
    rewrite contains_rect_of_Z, ordered_of_Z by lia;
    split; bool_goal; apply Z.leb_le; lia.
Qed.

End Whole.

(** ** Special values: NaN and [f32::MAX] *)

Section Special.
Implicit Types (self : CustomFrame.t) (v : UiView.t) (x : F32.t).

Lemma add_nan_r x : (x + F32.NAN)%f32 = F32.NAN.
Proof. now destruct x as [[]|[]| |[] ? ?]. Qed.

Lemma sub_nan_r x : (x - F32.NAN)%f32 = F32.NAN.
Proof. now destruct x as [[]|[]| |[] ? ?]. Qed.

Lemma ltb_nan x : (x <? F32.NAN)%f32 = false /\ (F32.NAN <? x)%f32 = false.
Proof. now destruct x as [[]|[]| |[] ? ?]. Qed.

Lemma max_nan x : F32.max x F32.NAN = x.
Proof. now destruct x. Qed.

Lemma min_nan x : F32.min x F32.NAN = x.
Proof. now destruct x. Qed.

(** With a NaN resize margin every coordinate of the core is NaN, and the
    caption is not cut. *)
Lemma nan_margin_regions self v :
  CustomFrame.f_sizebox self = Margin.same F32.NAN ->
  let g := regions self v in
  g_core g = Rect.from_min_max (Pos2.new F32.NAN F32.NAN) (Pos2.new F32.NAN F32.NAN) /\
  g_caption g =
    Rect.translate (CustomFrame.f_caption self)
      (Vec2.new (g_shadow_width g) (g_shadow_width g)).
Proof.
  intros Hm. cbv zeta.
  assert (Ec : g_core (regions self v) =
               Rect.from_min_max (Pos2.new F32.NAN F32.NAN) (Pos2.new F32.NAN F32.NAN)).
  { destruct (regions_axes self v) as [_ ->]. rewrite Hm.
    unfold core_lo, core_hi. cbn [Margin.same Margin.left Margin.right Margin.top Margin.bottom].
    now rewrite !add_nan_r, !sub_nan_r. }
  split; [exact Ec|].
  change (g_caption (regions self v)) with
    (CustomFrame.caption_rect self (g_shadow_width (regions self v)) (g_core (regions self v))).
  rewrite Ec. unfold CustomFrame.caption_rect, Rect.intersect, Pos2.max, Pos2.min.
  cbn [Rect.min Rect.max Pos2.x Pos2.y]. rewrite !max_nan, !min_nan.
  now destruct (Rect.translate _ _) as [[] []].
Qed.

(** No point is in a rectangle of NaNs, and none has a direction from it. *)
Lemma nan_rect_empty (p : Pos2.t) :
  let r := Rect.from_min_max (Pos2.new F32.NAN F32.NAN) (Pos2.new F32.NAN F32.NAN) in
  Rect.contains r p = false /\ resize_direction p r = None.
Proof.
  cbv zeta. split.
  - unfold Rect.contains. cbn [Rect.min Pos2.x]. now rewrite F32.leb_nan_l.
  - unfold resize_direction, side, F32.gtb, Rect.left, Rect.right, Rect.top, Rect.bottom.
    cbn [Rect.min Rect.max Pos2.x Pos2.y].
    now rewrite !(proj1 (ltb_nan _)), !(proj2 (ltb_nan _)).
Qed.

(** The far corner of a translated rectangle that reaches [f32::MAX]. *)
Lemma translate_far_max (x0 sw : Z) :
  - 2097152 <= x0 <= 2097152 -> - 4194304 <= sw <= 4194304 ->
  ((F32.of_Z x0 + F32.of_Z sw) + (F32.MAX - F32.of_Z x0))%f32 = F32.MAX.
Proof. intros. rewrite sub_MAX by whole_side. whole. apply add_MAX. whole_side. Qed.

End Special.

(** ** Theorems *)

Section NestingTheorems.
Implicit Types (self : CustomFrame.t) (v : UiView.t) (p : Pos2.t).

(** C16 (bounds).  For a well-formed style (finite numbers, a resize margin
    that is not negative on any side) in a window whose clip rectangle has
    a width and a height, the roundings and overflows of the float
    arithmetic never put the core outside the view rectangle: each border
    of the core is on the inner side of the same border of the view
    rectangle, and every point of the core or of the caption is a point of
    the view rectangle. *)
Theorem margin_keeps_core_in_view self v :
  CustomFrame.well_formed self = true -> UiView.valid v = true -> UiView.sized v = true ->
  let g := regions self v in
  ((Rect.left (g_view g) <=? Rect.left (g_core g))%f32 = true /\
   (Rect.right (g_core g) <=? Rect.right (g_view g))%f32 = true /\
   (Rect.top (g_view g) <=? Rect.top (g_core g))%f32 = true /\
   (Rect.bottom (g_core g) <=? Rect.bottom (g_view g))%f32 = true) /\
  (forall p, Rect.contains (g_core g) p = true \/ Rect.contains (g_caption g) p = true ->
             Rect.contains (g_view g) p = true).
Proof.
  intros Hwf Hv Hs. cbv zeta. split; [now apply core_borders_inside|].
  intros p [Hc|Hc]; [now apply core_in_view | now apply caption_in_view].
Qed.

(** For a style whose resize margin, shadow and caption
    are whole numbers, in a window of whole width and height, all up to
    [2^21], no operation of [show] rounds: the view rectangle is the window
    shrunk by the shadow width, the core is the view rectangle shrunk by
    the margin, and the caption is the configured one moved by the shadow
    width and cut to the core, all three as the integers give them.  In a
    maximized window the shadow width is 0. *)
Theorem whole_regions self v (l r t b bl sp w h x0 y0 x1 y1 : Z) :
  CustomFrame.f_sizebox self = Margin.mk (F32.of_Z l) (F32.of_Z r) (F32.of_Z t) (F32.of_Z b) ->
  Shadow.blur (CustomFrame.f_shadow self) = F32.of_Z bl ->
  Shadow.spread (CustomFrame.f_shadow self) = F32.of_Z sp ->
  CustomFrame.f_caption self = Rect.of_Z x0 y0 x1 y1 ->
  Rect.width (UiView.clip_rect v) = F32.of_Z w ->
  Rect.height (UiView.clip_rect v) = F32.of_Z h ->
  forallb small [l; r; t; b; bl; sp; w; h; x0; y0; x1; y1] = true ->
  let g := regions self v in
  let s := if CustomFrame.is_maximized v then 0 else bl + sp in
  g_view g = Rect.of_Z s s (w - s) (h - s) /\
  g_core g = Rect.of_Z (s + l) (s + t) (w - s - r) (h - s - b) /\
  g_caption g = Rect.of_Z (Z.max (x0 + s) (s + l)) (Z.max (y0 + s) (s + t))
                          (Z.min (x1 + s) (w - s - r)) (Z.min (y1 + s) (h - s - b)).
Proof.
  intros Hm Hbl Hsp Hc Hw Hh Hsmall. cbv zeta.
  pose proof (caption_region_whole self v l r t b bl sp w h x0 y0 x1 y1
                Hm Hbl Hsp Hc Hw Hh Hsmall) as Ecap.
  cbn [forallb] in Hsmall. bool_hyps.
  destruct (regions_whole self v l r t b bl sp w h) as [Ev Ec]; try assumption.
  { cbn [forallb]. now bool_goal. }
  now split; [|split].
Qed.

(** For a style with the default resize margin and shadow,
    in a window from 48 to [2^21] pixels wide and high, maximized or not,
    the core lies in the view rectangle and its borders are in order: no
    addition or subtraction rounds, and the window is large enough for the
    shadow and the margin on both sides. *)
Theorem default_regions_nested self v (w h : Z) :
  CustomFrame.f_sizebox self = CustomFrame.f_sizebox CustomFrame.default ->
  CustomFrame.f_shadow self = CustomFrame.f_shadow CustomFrame.default ->
  Rect.width (UiView.clip_rect v) = F32.of_Z w ->
  Rect.height (UiView.clip_rect v) = F32.of_Z h ->
  min_pixels <= w <= max_pixels -> min_pixels <= h <= max_pixels ->
  let g := regions self v in
  Rect.contains_rect (g_view g) (g_core g) = true /\ ordered (g_core g) = true.
Proof. apply regions_nested_pixels. Qed.

(** C40 (functional).  A caption that reaches [f32::MAX], as the one of
    [Default] and the one of the example do, is not moved as a whole before
    it is cut to the core: for a whole shadow width and a whole left
    border, the left border of the caption [show] registers is the
    configured one moved by the shadow width, or the core's if that is
    further right, while its right border is the core's cut at
    [f32::MAX], where the configured one stayed, since [f32::MAX] absorbs
    what is added to it. *)
Theorem max_caption_not_moved self v (x0 bl sp : Z) :
  Rect.left (CustomFrame.f_caption self) = F32.of_Z x0 ->
  Rect.right (CustomFrame.f_caption self) = F32.MAX ->
  Shadow.blur (CustomFrame.f_shadow self) = F32.of_Z bl ->
  Shadow.spread (CustomFrame.f_shadow self) = F32.of_Z sp ->
  forallb small [x0; bl; sp] = true ->
  let g := regions self v in
  let s := if CustomFrame.is_maximized v then 0 else bl + sp in
  g_shadow_width g = F32.of_Z s /\
  Rect.left (g_caption g) = F32.max (F32.of_Z (x0 + s)) (Rect.left (g_core g)) /\
  Rect.right (g_caption g) = F32.min F32.MAX (Rect.right (g_core g)).
Proof.
  intros Hl Hr Hbl Hsp Hsmall. cbv zeta. cbn [forallb] in Hsmall. bool_hyps.
  cbn [regions g_caption g_core g_shadow_width]. unfold CustomFrame.caption_rect.
  rewrite (shadow_width_whole self _ bl sp) by assumption.
  small_bounds.
  set (s := if CustomFrame.is_maximized v then 0 else bl + sp).
  assert (Hs : - 4194304 <= s <= 4194304) by (unfold s; destruct (CustomFrame.is_maximized v); lia).
  unfold Rect.left, Rect.right in *.
  unfold Rect.intersect, Rect.translate, Rect.from_min_size, Rect.size, Pos2.diff,
    Pos2.add, Pos2.max, Pos2.min.
  cbn [Rect.min Rect.max Pos2.x Pos2.y Vec2.x Vec2.y]. rewrite Hl, Hr.
  split; [reflexivity|split]; [now whole|now rewrite translate_far_max].
Qed.

(** C39 (functional).  Resize margins wider than the window turn the core
    inside out, and the order of the tests then decides the direction: for a
    style and a window of whole numbers whose core has its far borders
    before its near ones, a pointer between them is beyond all four borders,
    so it lies in the four corner octants at once, and is classified
    north-west, the first test of the code. *)
Theorem inverted_core_north_west self v (l r t b bl sp w h px py : Z) :
  CustomFrame.f_sizebox self = Margin.mk (F32.of_Z l) (F32.of_Z r) (F32.of_Z t) (F32.of_Z b) ->
  Shadow.blur (CustomFrame.f_shadow self) = F32.of_Z bl ->
  Shadow.spread (CustomFrame.f_shadow self) = F32.of_Z sp ->
  Rect.width (UiView.clip_rect v) = F32.of_Z w ->
  Rect.height (UiView.clip_rect v) = F32.of_Z h ->
  forallb small [l; r; t; b; bl; sp; w; h] = true ->
  let g := regions self v in
  let s := if CustomFrame.is_maximized v then 0 else bl + sp in
  w - s - r < px < s + l -> h - s - b < py < s + t ->
  let p := Pos2.new (F32.of_Z px) (F32.of_Z py) in
  ordered (g_core g) = false /\
  (octant NorthWest p (g_core g) /\ octant NorthEast p (g_core g) /\
   octant SouthWest p (g_core g) /\ octant SouthEast p (g_core g)) /\
  resize_direction p (g_core g) = Some NorthWest.
Proof.
  intros Hm Hbl Hsp Hw Hh Hsmall. cbv zeta. intros Hx Hy.
  destruct (regions_whole self v l r t b bl sp w h) as [_ ->]; try assumption.
  cbn [forallb] in Hsmall. bool_hyps. clear Hm Hbl Hsp Hw Hh.
  small_bounds.
  set (s := if CustomFrame.is_maximized v then 0 else bl + sp) in *.
  assert (Hs : - 4194304 <= s <= 4194304) by (unfold s; destruct (CustomFrame.is_maximized v); lia).
  rewrite ordered_of_Z by lia.
  unfold octant, resize_direction, Rect.of_Z, Rect.left, Rect.right, Rect.top, Rect.bottom, F32.gtb.
  cbn [Rect.min Rect.max Pos2.x Pos2.y]. rewrite !side_of_Z by lia. whole.
  assert (Hlx : (px <? s + l) = true) by (apply Z.ltb_lt; lia).
  assert (Hrx : (w - s - r <? px) = true) by (apply Z.ltb_lt; lia).
  assert (Hty : (py <? s + t) = true) by (apply Z.ltb_lt; lia).
  assert (Hby : (h - s - b <? py) = true) by (apply Z.ltb_lt; lia).
  assert (Hinv : (s + l <=? w - s - r) = false) by (apply Z.leb_gt; lia).
  now rewrite Hlx, Hrx, Hty, Hby, Hinv.
Qed.

(** C17 (bounds).  When the core is empty: for a style and a window whose
    numbers have [k] binary places, the far borders of the core are not
    before its near ones exactly when the window has room for the shadow
    twice and for the two resize margins of each axis together; the
    corners of the core lie in the view rectangle exactly when no margin
    is negative and each fits beside the shadow by itself, which two
    margins that cross each other also do. *)
Theorem core_ordered_iff (k : Z) self v (l r t b bl sp w h : Z) :
  0 <= k <= 149 ->
  CustomFrame.f_sizebox self =
    Margin.mk (F32.dyadic k l) (F32.dyadic k r) (F32.dyadic k t) (F32.dyadic k b) ->
  Shadow.blur (CustomFrame.f_shadow self) = F32.dyadic k bl ->
  Shadow.spread (CustomFrame.f_shadow self) = F32.dyadic k sp ->
  Rect.width (UiView.clip_rect v) = F32.dyadic k w ->
  Rect.height (UiView.clip_rect v) = F32.dyadic k h ->
  forallb small [l; r; t; b; bl; sp; w; h] = true ->
  let g := regions self v in
  let s := if CustomFrame.is_maximized v then 0 else bl + sp in
  (ordered (g_core g) = true <-> 2 * s + l + r <= w /\ 2 * s + t + b <= h) /\
  (Rect.contains_rect (g_view g) (g_core g) = true <->
   (0 <= l <= w - 2 * s /\ 0 <= r <= w - 2 * s) /\
   (0 <= t <= h - 2 * s /\ 0 <= b <= h - 2 * s)).
Proof.
  intros Hk Hm Hbl Hsp Hw Hh Hsmall. cbv zeta.
  destruct (regions_dyadic k Hk self v l r t b bl sp w h Hm Hbl Hsp Hw Hh Hsmall)
    as [Ev Ec].
  cbv zeta in Ev, Ec. rewrite Ev, Ec. cbn [forallb] in Hsmall. bool_hyps. small_bounds.
  set (s := if CustomFrame.is_maximized v then 0 else bl + sp).
  assert (Hs : - 4194304 <= s <= 4194304) by (unfold s; destruct (CustomFrame.is_maximized v); lia).
  rewrite (ordered_dyadic k Hk), (contains_rect_dyadic k Hk) by lia.
  rewrite !andb_true_iff, !Z.leb_le. lia.
Qed.

End NestingTheorems.
