(* ===== verification/ShowSpec.v ===== *)
(** * ShowSpec: what [CustomFrame::show] does to a context

    The theorems about [CustomFrame.show], over any context that satisfies
    [HostLaws].  The lemmas of section [Steps] run the method step by step:
    each step changes the view of the context as the matching definition of
    [Zones] says, so that one call leaves the view [frame_view] and runs the
    content last.  The theorems are consequences: the refinement itself, the
    factoring of the resizing code through [resize_direction], what a
    maximized window suppresses, when a frame is inert (a pointer outside
    the view rectangle, or no pointer at all), what the caption and the ring
    send, that a finite style never registers both, the bound on the
    commands, and that the inputs of the frame are left as they were; then
    what [show] does outside the hypotheses of these theorems (a NaN margin,
    a negative margin, a drag start and a double click in one frame).

    [sizebox_answer] and [caption_answer] name what the context answers when
    [show] registers its two regions. *)

From stdpp Require Import base decidable list.
From Stdlib Require Import Bool ZArith String Lia Morphisms.
From S2P Require Import Prelude F32 Geometry Host CustomFrame Zones Nesting.

Local Open Scope state_scope.

Section Answers.
Context {U : Type} `{Host U}.

Definition after_panel (self : CustomFrame.t) (u : U) : U :=
  exec (central_panel
    (CustomFrame.panel_frame self (UiView.panel_fill (view u))
       (CustomFrame.is_maximized (view u)))) u.

Definition sizebox_answer (self : CustomFrame.t) (u : U) : Response.t :=
  eval (interact (g_view (regions self (view u))) CustomFrame.sizebox_id Sense.drag)
    (after_panel self u).

Definition caption_answer (self : CustomFrame.t) (u : U) : Response.t :=
  let g := regions self (view u) in
  eval (interact (g_caption g) CustomFrame.caption_id Sense.click_and_drag)
    (if sizebox_live g
     then exec (interact (g_view g) CustomFrame.sizebox_id Sense.drag)
            (after_panel self u)
     else after_panel self u).

End Answers.

(** ** Lemmas: the steps of [show] *)

(** [host_simpl] runs a computation symbolically, down to the view it
    leaves, written with [UiView.extend]. *)
Ltac host_simpl :=
  autorewrite with frame;
  rewrite ?paint_extend, ?register_extend, ?with_cursor_extend, ?push_extend,
    ?extend_extend;
  cbn [UiView.cursor_icon UiView.extend app].

(** [by_direction] goes through the comparisons of the resizing code and
    of [resize_direction] together, one case per outcome. *)
Ltac by_direction :=
  unfold CustomFrame.produce_resizing, resize_direction, side;
  repeat match goal with |- context [if ?b then _ else _] =>
    lazymatch b with F32.ltb _ _ => destruct b | F32.gtb _ _ => destruct b end
  end.

Section Steps.
Context {U : Type} `{HostLaws U}.
Implicit Types (u : U) (self : CustomFrame.t).

Lemma view_resize_branch icon d drag u :
  view (exec (CustomFrame.resize_branch icon d drag) u) =
  UiView.extend (view u) icon (if drag then [BeginResize d] else []) [] [].
Proof.
  unfold CustomFrame.resize_branch. destruct drag; host_simpl; reflexivity.
Qed.

Lemma view_produce_resizing r pos core u :
  view (exec (CustomFrame.produce_resizing r pos core) u) =
  UiView.extend (view u)
    (resize_cursor r pos core (UiView.cursor_icon (view u)))
    (resize_cmds r pos core) [] [].
Proof.
  destruct r as [r|]; [|symmetry; apply extend_nothing].
  unfold resize_cursor, resize_cmds.
  by_direction; first [apply view_resize_branch | symmetry; apply extend_nothing].
Qed.

Lemma view_produce_caption r m u :
  view (exec (CustomFrame.produce_caption r m) u) =
  UiView.extend (view u) (UiView.cursor_icon (view u)) (caption_cmds r m) [] [].
Proof.
  destruct r as [[clicked drag dbl]|]; [|symmetry; apply extend_nothing].
  unfold CustomFrame.produce_caption, caption_cmds.
  cbn [Response.drag_started Response.double_clicked].
  destruct drag, dbl; host_simpl; rewrite ?extend_nothing; reflexivity.
Qed.

(** The content runs once, after everything else, and its result is what
    [show] returns. *)
Lemma show_content_last {R} self (add_content : State U R) u :
  CustomFrame.show self add_content u =
  let u1 := exec (CustomFrame.show self (ret tt)) u in
  let u2 := exec add_content u1 in
  (InnerResponse.new (eval add_content u1) (panel_response u2), u2).
Proof.
  rewrite (run_eta (CustomFrame.show self add_content) u).
  unfold CustomFrame.show, CustomFrame.show_body. cbv zeta.
  autorewrite with frame. reflexivity.
Qed.

Lemma exec_show {R} self (add_content : State U R) u :
  exec (CustomFrame.show self add_content) u =
  exec add_content (exec (CustomFrame.show self (ret tt)) u).
Proof. unfold exec at 1. now rewrite show_content_last. Qed.

(** [show], content apart, changes the view as [frame_view] says. *)
Lemma view_show_frame self u :
  view (exec (CustomFrame.show self (ret tt)) u) =
  frame_view self (sizebox_answer self u) (caption_answer self u) (view u).
Proof.
  unfold CustomFrame.show, CustomFrame.show_body, frame_view, frame_cmds,
    frame_widgets, frame_cursor, sizebox_answer, caption_answer, after_panel,
    sizebox_live, caption_live, regions.
  cbv zeta. cbn [g_maximized g_view g_core g_caption g_pos g_shadow_width].
  autorewrite with frame.
  rewrite view_produce_caption, view_produce_resizing.
  unfold CustomFrame.sizebox_response, CustomFrame.caption_response, resize_active.
  unfold CustomFrame.pointer_pos.
  cbn [UiView.clip_rect UiView.interact_pos UiView.paint].
  repeat match goal with |- context [if ?b then _ else _] =>
    lazymatch b with
    | Rect.contains _ _ => destruct b eqn:?
    | andb _ _ => destruct b eqn:?
    end end;
  host_simpl; rewrite ?app_nil_r; reflexivity.
Qed.

(** [show] leaves the inputs of the frame alone. *)
Lemma same_input_show self u :
  UiView.same_input (view (exec (CustomFrame.show self (ret tt)) u)) (view u).
Proof. rewrite view_show_frame. apply same_input_extend. Qed.

End Steps.

(** In the least context [show] leaves the answers alone, if the content does. *)
Lemma keeps_show {R} self (add_content : State SimpleUi.t R) :
  keeps_answers add_content -> keeps_answers (CustomFrame.show self add_content).
Proof.
  intros Hc. unfold CustomFrame.show, CustomFrame.show_body,
    CustomFrame.sizebox_response, CustomFrame.caption_response,
    CustomFrame.produce_resizing, CustomFrame.produce_caption,
    CustomFrame.resize_branch.
  keeps.
Qed.

(** ** Theorems *)

Section Theorems.
Context {U : Type} `{HostLaws U}.
Implicit Types (u : U) (self : CustomFrame.t).

(** C1 (refinement).  One call of [show] first does what [frame_view] says
    to the view of the context (it paints the panel, registers the live
    regions, sets the cursor icon and queues the commands) and then runs the
    content once; what the content returns is the [inner] of the result. *)
Theorem show_refines_frame_view {R} self (add_content : State U R) u :
  let u1 := exec (CustomFrame.show self (ret tt)) u in
  let u2 := exec add_content u1 in
  view u1 = frame_view self (sizebox_answer self u) (caption_answer self u) (view u) /\
  CustomFrame.show self add_content u =
    (InnerResponse.new (eval add_content u1) (panel_response u2), u2).
Proof. cbv zeta. split; [apply view_show_frame | apply show_content_last]. Qed.

(** C6 (safety).  In a maximized window [show] paints the panel without
    rounding, shadow or outer margin, leaves the cursor icon alone, registers
    no resize ring, and sends nothing but the caption's commands. *)
Theorem maximized_suppresses self u :
  UiView.maximized (view u) = Some true ->
  let v := view u in
  let v' := view (exec (CustomFrame.show self (ret tt)) u) in
  UiView.panels v' = UiView.panels v ++
    [Frame.mk (UiView.panel_fill v) Rounding.ZERO Stroke.NONE
       (Margin.same F32.zero) (CustomFrame.f_inner_margin self) Shadow.NONE] /\
  UiView.cursor_icon v' = UiView.cursor_icon v /\
  (forall w, In w (UiView.widgets v') ->
     In w (UiView.widgets v) \/ fst (fst w) = CustomFrame.caption_id) /\
  (forall c, In c (UiView.viewport_cmds v') ->
     In c (UiView.viewport_cmds v) \/ c = StartDrag \/ c = Maximized false).
Proof.
  intros Hmax. cbv zeta. rewrite view_show_frame.
  assert (Hg : g_maximized (regions self (view u)) = true).
  { cbn. unfold CustomFrame.is_maximized. now rewrite Hmax. }
  pose proof (sizebox_live_maximized _ Hg) as Hs.
  unfold frame_view, frame_cursor, frame_cmds, frame_widgets, CustomFrame.panel_frame,
    CustomFrame.shadow_width.
  rewrite Hs, Hg. cbn [UiView.extend UiView.panels UiView.cursor_icon UiView.widgets
    UiView.viewport_cmds resize_cursor resize_cmds app].
  repeat split.
  - intros w [Hw|Hw]%in_app_or; [auto|].
    destruct (caption_live _); [|destruct Hw].
    destruct Hw as [<-|[]]. now right.
  - intros c [Hc|Hc]%in_app_or; [auto|]. right.
    unfold caption_cmds in Hc.
    destruct (caption_live _); [|destruct Hc].
    destruct (Response.drag_started _), (Response.double_clicked _);
      cbn in Hc; intuition auto.
Qed.

(** C7 (safety).  When the core lies in the view rectangle and the pointer is
    outside the view rectangle, [show] only paints the panel: it registers no
    region, leaves the cursor icon alone and sends no command. *)
Theorem outside_view_inert self u :
  let g := regions self (view u) in
  Rect.contains_rect (g_view g) (g_core g) = true ->
  Rect.contains (g_view g) (g_pos g) = false ->
  view (exec (CustomFrame.show self (ret tt)) u) =
  UiView.paint
    (CustomFrame.panel_frame self (UiView.panel_fill (view u)) (g_maximized g))
    (view u).
Proof.
  cbv zeta. intros Hsub Hout. rewrite view_show_frame.
  destruct (outside_view_not_live _ _ Hsub Hout) as [Hs Hc].
  now apply frame_view_inert.
Qed.

(** C9 (safety).  When the core is made of numbers, [show] registers at most
    one region in a frame: never the resize ring and the caption together. *)
Theorem caption_excludes_resize self u :
  let g := regions self (view u) in
  Rect.has_nan (g_core g) = false ->
  exists ws,
    UiView.widgets (view (exec (CustomFrame.show self (ret tt)) u)) =
      UiView.widgets (view u) ++ ws /\
    List.length ws <= 1.
Proof.
  cbv zeta. intros Hnan. rewrite view_show_frame.
  exists (frame_widgets (regions self (view u))). split; [reflexivity|].
  unfold frame_widgets.
  destruct (sizebox_live _) eqn:Hs; [rewrite (not_both_live _ _ Hnan Hs)|];
    [|destruct (caption_live _)]; cbn; lia.
Qed.

(** C10 (functional).  When the core is made of numbers and the pointer is in
    the caption, [show] leaves the cursor icon alone and sends the caption's
    commands and no other: [StartDrag] if the context reports that a drag
    started, then [Maximized] of the negated flag if it reports a double
    click. *)
Theorem caption_commands self u :
  let g := regions self (view u) in
  let v' := view (exec (CustomFrame.show self (ret tt)) u) in
  let rc := caption_answer self u in
  Rect.has_nan (g_core g) = false ->
  caption_live g = true ->
  UiView.viewport_cmds v' =
    UiView.viewport_cmds (view u) ++
    (if Response.drag_started rc then [StartDrag] else []) ++
    (if Response.double_clicked rc then [Maximized (negb (g_maximized g))] else []) /\
  UiView.cursor_icon v' = UiView.cursor_icon (view u).
Proof.
  cbv zeta. intros Hnan Hc. rewrite view_show_frame.
  assert (Hs : sizebox_live (regions self (view u)) = false).
  { destruct (sizebox_live _) eqn:Hs; [|reflexivity].
    rewrite (not_both_live _ _ Hnan Hs) in Hc. discriminate. }
  unfold frame_view, frame_cursor, frame_cmds.
  rewrite Hs, Hc. split; reflexivity.
Qed.

(** C11 (functional).  When the core is made of numbers and the resize ring
    is live, the pointer has a direction, [show] sets that direction's icon,
    and it sends [BeginResize] in that direction if the context reports that
    a drag started, and nothing otherwise. *)
Theorem resize_commands self u :
  let g := regions self (view u) in
  let v' := view (exec (CustomFrame.show self (ret tt)) u) in
  Rect.has_nan (g_core g) = false ->
  sizebox_live g = true ->
  exists d,
    resize_direction (g_pos g) (g_core g) = Some d /\
    UiView.cursor_icon v' = cursor_of d /\
    UiView.viewport_cmds v' =
      UiView.viewport_cmds (view u) ++
      (if Response.drag_started (sizebox_answer self u) then [BeginResize d] else []).
Proof.
  cbv zeta. intros Hnan Hs. rewrite view_show_frame.
  pose proof (not_both_live _ _ Hnan Hs) as Hc.
  destruct (sizebox_live_inv _ Hs) as (Hin & Hout & _).
  destruct (ring_has_direction _ _ _ Hin Hnan Hout) as [d Hd].
  exists d. split; [exact Hd|].
  unfold frame_view, frame_cursor, frame_cmds, resize_cursor, resize_cmds, caption_cmds.
  rewrite Hs, Hc, Hd. cbn. rewrite app_nil_r. split; reflexivity.
Qed.

(** C22 (bounds).  Whatever the style, the input and the context's answers,
    [show] itself sends at most two commands in a frame, each of them a
    [BeginResize], [StartDrag] or [Maximized] of the negated flag: it never
    sends [Close].  Two is reached by a drag start and a double click on
    the caption; a resize is never sent with a caption command, since a
    pointer on the caption has no direction. *)
Theorem show_commands_bounded self u :
  exists cmds,
    UiView.viewport_cmds (view (exec (CustomFrame.show self (ret tt)) u)) =
      UiView.viewport_cmds (view u) ++ cmds /\
    List.length cmds <= 2 /\
    Forall (frame_cmd_ok (CustomFrame.is_maximized (view u))) cmds /\
    ~ In Close cmds.
Proof.
  rewrite view_show_frame.
  exists (frame_cmds (regions self (view u)) (sizebox_answer self u) (caption_answer self u)).
  destruct (frame_cmds_ok (regions self (view u)) (sizebox_answer self u)
              (caption_answer self u)) as [Hok _].
  repeat split; [apply frame_cmds_two | exact Hok |].
  intros Hin. apply (proj1 (List.Forall_forall _ _) Hok) in Hin.
  destruct Hin as [[d Hd]|[Hd|Hd]]; discriminate.
Qed.

(** [show] changes no input of the frame: the maximized
    flag, the fill colour, the clip rectangle and the pointer position read
    after the call are those read before it. *)
Theorem show_preserves_input self u :
  UiView.same_input (view (exec (CustomFrame.show self (ret tt)) u)) (view u).
Proof. rewrite view_show_frame. apply same_input_extend. Qed.

(** C18 (safety).  With the pointer in the core, [show] registers no resize
    ring: it leaves the cursor icon alone, registers the caption if the
    pointer is in it and nothing else, and sends the caption's commands and
    no other. *)
Theorem inside_core_no_ring self u :
  let g := regions self (view u) in
  let v' := view (exec (CustomFrame.show self (ret tt)) u) in
  Rect.contains (g_core g) (g_pos g) = true ->
  UiView.cursor_icon v' = UiView.cursor_icon (view u) /\
  UiView.widgets v' = UiView.widgets (view u) ++
    (if caption_live g
     then [(CustomFrame.caption_id, g_caption g, Sense.click_and_drag)] else []) /\
  UiView.viewport_cmds v' = UiView.viewport_cmds (view u) ++
    caption_cmds (if caption_live g then Some (caption_answer self u) else None)
      (g_maximized g).
Proof.
  cbv zeta. intros Hin. rewrite view_show_frame.
  pose proof (inside_core_not_live _ _ Hin) as Hs.
  unfold frame_view, frame_cursor, frame_cmds, frame_widgets.
  rewrite Hs. repeat split.
Qed.

(** C15 (safety).  For a well-formed style (finite numbers, a resize margin
    that is not negative) in a window whose clip rectangle has a width and a
    height, a pointer outside the view rectangle leaves the frame inert,
    whatever the float arithmetic rounds: [show] only paints the panel,
    registers no region, leaves the cursor icon alone and sends nothing. *)
Theorem well_formed_outside_inert self u :
  let g := regions self (view u) in
  CustomFrame.well_formed self = true ->
  UiView.valid (view u) = true -> UiView.sized (view u) = true ->
  Rect.contains (g_view g) (g_pos g) = false ->
  view (exec (CustomFrame.show self (ret tt)) u) =
  UiView.paint
    (CustomFrame.panel_frame self (UiView.panel_fill (view u)) (g_maximized g))
    (view u).
Proof.
  cbv zeta. intros Hwf Hv Hs Hout. rewrite view_show_frame.
  destruct (well_formed_outside_not_live _ _ Hwf Hv Hs Hout) as [Hr Hc].
  now apply frame_view_inert.
Qed.

(** C36 (functional).  A negative resize margin lets the pointer drag the
    window from outside the view rectangle: for a style and a window of
    whole numbers with a negative left margin, a core that is not empty and
    a configured caption that covers the corner of the margins, a pointer at
    the near corner of the core is outside the view rectangle, and a drag
    start there sends [StartDrag]. *)
Theorem negative_margin_drag_outside_view self u (l r t b bl sp w h x0 y0 x1 y1 : Z) :
  CustomFrame.f_sizebox self = Margin.mk (F32.of_Z l) (F32.of_Z r) (F32.of_Z t) (F32.of_Z b) ->
  Shadow.blur (CustomFrame.f_shadow self) = F32.of_Z bl ->
  Shadow.spread (CustomFrame.f_shadow self) = F32.of_Z sp ->
  CustomFrame.f_caption self = Rect.of_Z x0 y0 x1 y1 ->
  Rect.width (UiView.clip_rect (view u)) = F32.of_Z w ->
  Rect.height (UiView.clip_rect (view u)) = F32.of_Z h ->
  forallb small [l; r; t; b; bl; sp; w; h; x0; y0; x1; y1] = true ->
  let g := regions self (view u) in
  let s := (if CustomFrame.is_maximized (view u) then 0 else bl + sp)%Z in
  (l < 0)%Z -> (s + l <= w - s - r)%Z -> (s + t <= h - s - b)%Z ->
  (x0 <= l <= x1)%Z -> (y0 <= t <= y1)%Z ->
  g_pos g = Pos2.new (F32.of_Z (s + l)) (F32.of_Z (s + t)) ->
  Response.drag_started (caption_answer self u) = true ->
  Rect.contains (g_view g) (g_pos g) = false /\
  In StartDrag (UiView.viewport_cmds (view (exec (CustomFrame.show self (ret tt)) u))).
Proof.
  intros Hm Hbl Hsp Hc Hw Hh Hsmall. cbv zeta. intros Hl Hx Hy Hcx Hcy Hpos Hdrag.
  destruct (negative_margin_corner self (view u) l r t b bl sp w h x0 y0 x1 y1)
    as [Hout Hin]; try assumption.
  rewrite Hpos. split; [exact Hout|].
  rewrite view_show_frame. unfold frame_view, frame_cmds, caption_cmds, caption_live.
  cbn [UiView.extend UiView.viewport_cmds]. rewrite Hpos, Hin, Hdrag.
  apply in_or_app. right. apply in_or_app. right. now left.
Qed.

(** C37 (functional).  The two tests of the caption code are independent:
    in a frame in which the caption is live and the context reports both a
    drag start and a double click on it, [show] sends both [StartDrag] and
    [Maximized], after the commands of the resizing code. *)
Theorem drag_and_double_click_send_both self u :
  let g := regions self (view u) in
  let v' := view (exec (CustomFrame.show self (ret tt)) u) in
  caption_live g = true ->
  Response.drag_started (caption_answer self u) = true ->
  Response.double_clicked (caption_answer self u) = true ->
  UiView.viewport_cmds v' =
    UiView.viewport_cmds (view u) ++
    resize_cmds (if sizebox_live g then Some (sizebox_answer self u) else None)
      (g_pos g) (g_core g) ++
    [StartDrag; Maximized (negb (g_maximized g))].
Proof.
  cbv zeta. intros Hlive Hdrag Hdbl. rewrite view_show_frame.
  unfold frame_view, frame_cmds, caption_cmds.
  cbn [UiView.extend UiView.viewport_cmds]. now rewrite Hlive, Hdrag, Hdbl.
Qed.

(** C35 (functional).  With a NaN resize margin the frame can never be
    resized: every coordinate of the core is NaN, so the resize ring is live
    wherever the pointer is in the view rectangle of a window that is not
    maximized, but the pointer has no direction from the core; [show] leaves
    the cursor icon alone and sends the caption's commands only.  The
    caption is the configured one moved by the shadow width, not cut to the
    core. *)
Theorem nan_margin_never_resizes self u :
  let g := regions self (view u) in
  let v' := view (exec (CustomFrame.show self (ret tt)) u) in
  CustomFrame.f_sizebox self = Margin.same F32.NAN ->
  sizebox_live g = Rect.contains (g_view g) (g_pos g) && negb (g_maximized g) /\
  resize_direction (g_pos g) (g_core g) = None /\
  g_caption g =
    Rect.translate (CustomFrame.f_caption self)
      (Vec2.new (g_shadow_width g) (g_shadow_width g)) /\
  UiView.cursor_icon v' = UiView.cursor_icon (view u) /\
  UiView.viewport_cmds v' = UiView.viewport_cmds (view u) ++
    caption_cmds (if caption_live g then Some (caption_answer self u) else None)
      (g_maximized g).
Proof.
  cbv zeta. intros Hm. rewrite view_show_frame.
  destruct (nan_margin_regions self (view u) Hm) as [Ec Ecap].
  destruct (nan_rect_empty (g_pos (regions self (view u)))) as [Hout Hdir].
  rewrite <- Ec in Hout, Hdir.
  unfold frame_view, frame_cursor, frame_cmds, resize_cursor, resize_cmds,
    sizebox_live, resize_active.
  cbn [UiView.extend UiView.cursor_icon UiView.viewport_cmds].
  rewrite Hout, Hdir, andb_true_r.
  repeat split; try assumption; now destruct (_ && _).
Qed.

(** The same for a style with the default resize margin and shadow, in a
    window from 48 to [2^21] pixels wide and high, whatever its caption. *)
Theorem pixel_window_outside_inert self u (w h : Z) :
  let g := regions self (view u) in
  CustomFrame.f_sizebox self = CustomFrame.f_sizebox CustomFrame.default ->
  CustomFrame.f_shadow self = CustomFrame.f_shadow CustomFrame.default ->
  Rect.width (UiView.clip_rect (view u)) = F32.of_Z w ->
  Rect.height (UiView.clip_rect (view u)) = F32.of_Z h ->
  (min_pixels <= w <= max_pixels)%Z -> (min_pixels <= h <= max_pixels)%Z ->
  Rect.contains (g_view g) (g_pos g) = false ->
  view (exec (CustomFrame.show self (ret tt)) u) =
  UiView.paint
    (CustomFrame.panel_frame self (UiView.panel_fill (view u)) (g_maximized g))
    (view u).
Proof.
  cbv zeta. intros Hsb Hsh Hw Hh Hwr Hhr Hout. rewrite view_show_frame.
  destruct (regions_nested_pixels self (view u) w h Hsb Hsh Hw Hh Hwr Hhr) as [Hsub _].
  destruct (outside_view_not_live _ _ Hsub Hout) as [Hs Hc].
  now apply frame_view_inert.
Qed.

(** A call of [show] changes nothing of what a later call
    in the same frame computes: the regions of any style are the same after
    it as before it. *)
Theorem show_keeps_regions self self' u :
  regions self' (view (exec (CustomFrame.show self (ret tt)) u)) =
  regions self' (view u).
Proof. now rewrite same_input_show. Qed.

(** C24 (error).  A frame without a pointer falls back on the position
    [(f32::MIN, f32::MIN)].  Whenever the view rectangle and the core begin
    right of [f32::MIN], that position is in no region, and [show] only
    paints the panel: no region, no cursor icon, no command. *)
Theorem no_pointer_inert self u :
  let g := regions self (view u) in
  UiView.interact_pos (view u) = None ->
  (F32.MIN <? Rect.left (g_view g))%f32 = true ->
  (F32.MIN <? Rect.left (g_core g))%f32 = true ->
  view (exec (CustomFrame.show self (ret tt)) u) =
  UiView.paint
    (CustomFrame.panel_frame self (UiView.panel_fill (view u)) (g_maximized g))
    (view u).
Proof.
  cbv zeta. intros Hnone Hv Hc. rewrite view_show_frame.
  destruct (sentinel_not_live _ _ Hnone Hv Hc) as [Hs Hcap].
  now apply frame_view_inert.
Qed.

(** C20 (safety).  For a finite style in a window that has a width and a
    height, with no further hypothesis on the regions: [show] registers at
    most one region; if the resize ring is live the pointer has a direction
    and the cursor icon is that direction's; otherwise the cursor icon is
    left alone. *)
Theorem finite_style_regions_exclusive self u :
  let g := regions self (view u) in
  let v' := view (exec (CustomFrame.show self (ret tt)) u) in
  CustomFrame.finite self = true -> UiView.sized (view u) = true ->
  (exists ws, UiView.widgets v' = UiView.widgets (view u) ++ ws /\ List.length ws <= 1) /\
  (sizebox_live g = true ->
   exists d, resize_direction (g_pos g) (g_core g) = Some d /\
             UiView.cursor_icon v' = cursor_of d) /\
  (sizebox_live g = false -> UiView.cursor_icon v' = UiView.cursor_icon (view u)).
Proof.
  cbv zeta. intros Hf Hv. rewrite view_show_frame.
  destruct (regions_numbers self (view u) Hf Hv) as (_ & Hnan & _).
  unfold frame_view, frame_widgets, frame_cursor, resize_cursor.
  cbn [UiView.extend UiView.widgets UiView.cursor_icon].
  split; [|split].
  - eexists. split; [reflexivity|].
    destruct (sizebox_live _) eqn:Hs; [rewrite (not_both_live _ _ Hnan Hs)|];
      [|destruct (caption_live _)]; cbn; lia.
  - intros Hs. destruct (sizebox_live_inv _ Hs) as (Hin & Hout & _).
    destruct (ring_has_direction _ _ _ Hin Hnan Hout) as [d Hd].
    exists d. now rewrite Hs, Hd.
  - now intros ->.
Qed.

End Theorems.

Section Factoring.
Context {U : Type} `{Host U}.

(** C5 (equivalence).  The nested comparisons of [produce_resizing] do what
    classifying the pointer with [resize_direction] and then running the one
    branch of that direction does; without a direction nothing happens. *)
Theorem produce_resizing_factored (r : Response.t) pos core (u : U) :
  CustomFrame.produce_resizing (Some r) pos core u =
  match resize_direction pos core with
  | Some d => CustomFrame.resize_branch (cursor_of d) d (Response.drag_started r) u
  | None => (tt, u)
  end.
Proof.
  by_direction; reflexivity.
Qed.

End Factoring.

Section DefaultStyle.
Context {U : Type} `{HostLaws U}.

(** With the default style, a frame in which the pointer has no position
    is inert, whatever the clip rectangle and the maximized flag are:
    [show] only paints the panel. *)
Lemma default_keeps_inert (u : U) :
  UiView.interact_pos (view u) = None ->
  view (exec (CustomFrame.show CustomFrame.default (ret tt)) u) =
  UiView.paint
    (CustomFrame.panel_frame CustomFrame.default (UiView.panel_fill (view u))
       (CustomFrame.is_maximized (view u)))
    (view u).
Proof.
  intros Hnone. rewrite view_show_frame.
  destruct (default_keeps_sentinel_out _ Hnone) as [Hs Hc].
  now apply (frame_view_inert CustomFrame.default).
Qed.

End DefaultStyle.

Section DocExamples.
Context {U : Type} `{WidgetLaws U}.

(** C34 (functional).  The example of the documentation runs in a test
    context, which has no pointer.  There the default frame is inert: the
    example paints the panel, registers the label where the layout places
    it and nothing else, sends no command, leaves the cursor icon alone and
    returns the unit value of its closure; the example in the documentation
    of the type does the same. *)
Theorem crate_example_in_test_context (u : U) :
  UiView.interact_pos (view u) = None ->
  let u1 := exec (CustomFrame.show CustomFrame.default (ret tt)) u in
  view (exec crate_example u) =
    UiView.extend (view u) (UiView.cursor_icon (view u)) []
      [(Id.new "Hello World!"%string, placed u1 "Hello World!"%string, Sense.hover)]
      [CustomFrame.panel_frame CustomFrame.default (UiView.panel_fill (view u))
         (CustomFrame.is_maximized (view u))] /\
  InnerResponse.inner (eval crate_example u) = tt /\
  type_example u = crate_example u.
Proof.
  intros Hnone. cbv zeta. split; [|split; [|reflexivity]].
  - unfold crate_example. rewrite exec_show. autorewrite with frame.
    rewrite (default_keeps_inert u Hnone). now host_simpl.
  - now destruct (InnerResponse.inner (eval crate_example u)).
Qed.

End DocExamples.
