(* ===== verification/Contract.v ===== *)
(** * Contract: the frame controller of the specification, on integers

    The specification describes one pass of the frame controller in exact
    arithmetic: a view rectangle, a core, a caption, two zones and the
    commands of each.  [Module Contract] writes that description down on
    the integers, step by step as the specification numbers them, with no
    float in it; its lemmas are the promises of the specification, proved
    by linear arithmetic.

    The rest of the file relates the code to it.  The integers of the
    contract count units of [2^-k] pixels, for any number [k] of binary
    places from 0 (whole pixels) to 149: the float of the integer [z] is
    [F32.dyadic k z].  [implements] says that a [CustomFrame] holds the
    numbers of a contract style, [presents] that a view of the context
    shows the inputs of a contract pass, [bounded] that every integer is at
    most [2^21] in absolute value.  Under these [regions_implement] gives
    the regions, [zones_implement] the zones and the direction of the code
    as the contract computes them, and [show_implements_contract] the view
    one call of [CustomFrame::show] leaves: on such numbers no operation
    rounds, and the code is the contract.

    A caption may be unbounded on its far sides ([Unbounded], the float
    [f32::MAX]), as the default caption and the example's are. *)

From stdpp Require Import base decidable list.
From Stdlib Require Import Bool ZArith String Lia.
From S2P Require Import Prelude F32 Units FloatArith Geometry Host CustomFrame Zones Nesting ShowSpec.

Local Open Scope Z_scope.

Module Contract.

(** The far side of a caption: a coordinate, or none. *)
Inductive Far : Type :=
  | At (z : Z)
  | Unbounded.

(** A rectangle, by its four borders. *)
Record Box : Type := box { left : Z; top : Z; right : Z; bottom : Z }.

(** The numbers of a style the zones depend on. *)
Record FrameStyle : Type := style {
  margin_left : Z;
  margin_right : Z;
  margin_top : Z;
  margin_bottom : Z;
  caption_left : Z;
  caption_top : Z;
  caption_right : Far;
  caption_bottom : Far;
  blur : Z;
  spread : Z
}.

(** The inputs of one pass. *)
Record Pass : Type := pass {
  maximized : bool;
  width : Z;
  height : Z;
  pointer : option (Z * Z)
}.

(** Step 2. *)
Definition shadowWidth (st : FrameStyle) (is_maximized : bool) : Z :=
  if is_maximized then 0 else blur st + spread st.

(** Step 5. *)
Definition viewRect (p : Pass) (s : Z) : Box :=
  box s s (width p - s) (height p - s).

(** Step 6. *)
Definition coreRect (st : FrameStyle) (view : Box) : Box :=
  box (left view + margin_left st) (top view + margin_top st)
      (right view - margin_right st) (bottom view - margin_bottom st).

(** Step 7: a far side moved by the shadow and cut to the core. *)
Definition cut (far : Far) (s limit : Z) : Z :=
  match far with
  | At z => Z.min (z + s) limit
  | Unbounded => limit
  end.

Definition captionRect (st : FrameStyle) (s : Z) (core : Box) : Box :=
  box (Z.max (caption_left st + s) (left core))
      (Z.max (caption_top st + s) (top core))
      (cut (caption_right st) s (right core))
      (cut (caption_bottom st) s (bottom core)).

(** The borders belong to a rectangle. *)
Definition within (b : Box) (q : Z * Z) : bool :=
  (left b <=? fst q) && (fst q <=? right b) && (top b <=? snd q) && (snd q <=? bottom b).

(** The geometry of a pass. *)
Definition view (st : FrameStyle) (p : Pass) : Box :=
  viewRect p (shadowWidth st (maximized p)).

Definition core (st : FrameStyle) (p : Pass) : Box := coreRect st (view st p).

Definition caption (st : FrameStyle) (p : Pass) : Box :=
  captionRect st (shadowWidth st (maximized p)) (core st p).

(** Steps 8 to 10: without a pointer no zone is active. *)
Definition resizeZone (st : FrameStyle) (p : Pass) : bool :=
  match pointer p with
  | Some q => within (view st p) q && negb (within (core st p) q) && negb (maximized p)
  | None => false
  end.

Definition captionZone (st : FrameStyle) (p : Pass) : bool :=
  match pointer p with
  | Some q => within (caption st p) q
  | None => false
  end.

(** Step 11: a coordinate against two borders, the near one first. *)
Definition beyond (c near far : Z) : Side :=
  if c <? near then Before else if far <? c then After else Within.

Definition direction (q : Z * Z) (core : Box) : option ResizeDirection :=
  match beyond (fst q) (left core) (right core),
        beyond (snd q) (top core) (bottom core) with
  | Before, Before => Some NorthWest
  | Before, After => Some SouthWest
  | Before, Within => Some West
  | After, Before => Some NorthEast
  | After, After => Some SouthEast
  | After, Within => Some East
  | Within, Before => Some North
  | Within, After => Some South
  | Within, Within => None
  end.

(** The direction of a pass: that of the pointer on the resize zone. *)
Definition resolved (st : FrameStyle) (p : Pass) : option ResizeDirection :=
  match pointer p with
  | Some q => if resizeZone st p then direction q (core st p) else None
  | None => None
  end.

(** What a pass leaves: the regions it registers, the cursor hint, and the
    commands, given what the host reports of the two regions. *)
Definition regions (st : FrameStyle) (p : Pass) : list (Id.t * Box * Sense.t) :=
  (if resizeZone st p then [(CustomFrame.sizebox_id, view st p, Sense.drag)] else []) ++
  (if captionZone st p
   then [(CustomFrame.caption_id, caption st p, Sense.click_and_drag)] else []).

Definition cursor (st : FrameStyle) (p : Pass) : option CursorIcon :=
  option_map cursor_of (resolved st p).

(** Steps 11 and 12. *)
Definition commands (st : FrameStyle) (p : Pass) (on_ring on_caption : Response.t)
    : list ViewportCommand :=
  match resolved st p with
  | Some d => if Response.drag_started on_ring then [BeginResize d] else []
  | None => []
  end ++
  (if captionZone st p
   then (if Response.drag_started on_caption then [StartDrag] else []) ++
        (if Response.double_clicked on_caption
         then [Maximized (negb (maximized p))] else [])
   else []).

(** A style whose margins take nothing away from outside the window. *)
Definition wellFormed (st : FrameStyle) : Prop :=
  0 <= margin_left st /\ 0 <= margin_right st /\
  0 <= margin_top st /\ 0 <= margin_bottom st.

End Contract.

(** ** The code against the contract *)

(** The floats of the contract's integers, in units of [2^-k]. *)
Definition far_of (k : Z) (f : Contract.Far) : F32.t :=
  match f with
  | Contract.At z => F32.dyadic k z
  | Contract.Unbounded => F32.MAX
  end.

Definition rect_of (k : Z) (b : Contract.Box) : Rect.t :=
  Rect.dyadic k (Contract.left b) (Contract.top b) (Contract.right b) (Contract.bottom b).

Definition point_of (k : Z) (q : Z * Z) : Pos2.t :=
  Pos2.new (F32.dyadic k (fst q)) (F32.dyadic k (snd q)).

Definition widget_of (k : Z) (w : Id.t * Contract.Box * Sense.t) : Widget :=
  (fst (fst w), rect_of k (snd (fst w)), snd w).

(** A [CustomFrame] holds the numbers of a contract style. *)
Definition implements (k : Z) (self : CustomFrame.t) (st : Contract.FrameStyle) : Prop :=
  CustomFrame.f_sizebox self =
    Margin.mk (F32.dyadic k (Contract.margin_left st)) (F32.dyadic k (Contract.margin_right st))
              (F32.dyadic k (Contract.margin_top st)) (F32.dyadic k (Contract.margin_bottom st)) /\
  CustomFrame.f_caption self =
    Rect.from_min_max
      (Pos2.new (F32.dyadic k (Contract.caption_left st))
                (F32.dyadic k (Contract.caption_top st)))
      (Pos2.new (far_of k (Contract.caption_right st))
                (far_of k (Contract.caption_bottom st))) /\
  Shadow.blur (CustomFrame.f_shadow self) = F32.dyadic k (Contract.blur st) /\
  Shadow.spread (CustomFrame.f_shadow self) = F32.dyadic k (Contract.spread st).

(** A view of the context shows the inputs of a contract pass. *)
Definition presents (k : Z) (v : UiView.t) (p : Contract.Pass) : Prop :=
  CustomFrame.is_maximized v = Contract.maximized p /\
  Rect.width (UiView.clip_rect v) = F32.dyadic k (Contract.width p) /\
  Rect.height (UiView.clip_rect v) = F32.dyadic k (Contract.height p) /\
  UiView.interact_pos v = option_map (point_of k) (Contract.pointer p).

(** Every number of the style and of the pass is at most [2^21] in absolute
    value. *)
Definition far_small (f : Contract.Far) : bool :=
  match f with
  | Contract.At z => small z
  | Contract.Unbounded => true
  end.

Definition bounded (st : Contract.FrameStyle) (p : Contract.Pass) : bool :=
  forallb small
    [Contract.margin_left st; Contract.margin_right st; Contract.margin_top st;
     Contract.margin_bottom st; Contract.caption_left st; Contract.caption_top st;
     Contract.blur st; Contract.spread st; Contract.width p; Contract.height p] &&
  far_small (Contract.caption_right st) && far_small (Contract.caption_bottom st) &&
  match Contract.pointer p with
  | Some q => small (fst q) && small (snd q)
  | None => true
  end.

(** ** What the contract promises *)

(** [boxes] unfolds the geometry of the contract and decides the
    comparisons, leaving linear arithmetic. *)
Ltac boxes :=
  unfold Contract.resizeZone, Contract.captionZone, Contract.resolved, Contract.direction,
    Contract.beyond, Contract.within, Contract.caption, Contract.captionRect, Contract.cut,
    Contract.core, Contract.coreRect, Contract.view, Contract.viewRect, Contract.wellFormed in *;
  cbn [Contract.left Contract.top Contract.right Contract.bottom fst snd] in *;
  repeat match goal with
         | H : context [match ?f with Contract.At _ => _ | Contract.Unbounded => _ end] |- _ =>
             destruct f
         | |- context [match ?f with Contract.At _ => _ | Contract.Unbounded => _ end] =>
             destruct f
         end;
  repeat match goal with
         | H : context [?a <=? ?b] |- _ => destruct (Z.leb_spec a b)
         | H : context [?a <? ?b] |- _ => destruct (Z.ltb_spec a b)
         | |- context [?a <=? ?b] => destruct (Z.leb_spec a b)
         | |- context [?a <? ?b] => destruct (Z.ltb_spec a b)
         end;
  cbn [andb orb negb] in *; try discriminate; try reflexivity; try lia; try (exfalso; lia).

Section Promises.
Implicit Types (st : Contract.FrameStyle) (p : Contract.Pass) (q : Z * Z).

(** The caption never extends into the resize ring. *)
Lemma caption_within_core st p q :
  Contract.within (Contract.caption st p) q = true ->
  Contract.within (Contract.core st p) q = true.
Proof.
  intros H. boxes.
Qed.

(** The core of a well-formed style lies in the view rectangle. *)
Lemma core_within_view st p q :
  Contract.wellFormed st ->
  Contract.within (Contract.core st p) q = true ->
  Contract.within (Contract.view st p) q = true.
Proof. intros Hwf H. boxes. Qed.

(** A position is in the core exactly when it is beyond no border. *)
Lemma direction_none q (core : Contract.Box) :
  Contract.direction q core = None <-> Contract.within core q = true.
Proof. split; intros H; boxes. Qed.

(** At most one zone is active. *)
Lemma zones_exclusive st p :
  Contract.resizeZone st p = true -> Contract.captionZone st p = false.
Proof.
  unfold Contract.resizeZone, Contract.captionZone. destruct (Contract.pointer p) as [q|]; [|easy].
  destruct (Contract.within (Contract.caption st p) q) eqn:Hc; [|easy].
  rewrite (caption_within_core st p q Hc). cbn [negb]. now rewrite andb_false_r.
Qed.

(** On the resize zone the pointer has a direction. *)
Lemma resolved_on_zone st p :
  Contract.resizeZone st p = true -> exists d, Contract.resolved st p = Some d.
Proof.
  unfold Contract.resolved. intros Hz. rewrite Hz.
  unfold Contract.resizeZone in Hz. destruct (Contract.pointer p) as [q|]; [|easy].
  destruct (Contract.direction q (Contract.core st p)) as [d|] eqn:Hd; [now exists d|].
  apply direction_none in Hd. rewrite Hd in Hz. bool_hyps. discriminate.
Qed.

(** A pointer outside the view rectangle of a well-formed style is in no
    zone. *)
Lemma outside_view_no_zone st p q :
  Contract.wellFormed st -> Contract.pointer p = Some q ->
  Contract.within (Contract.view st p) q = false ->
  Contract.resizeZone st p = false /\ Contract.captionZone st p = false.
Proof.
  intros Hwf Hq Hout. unfold Contract.resizeZone, Contract.captionZone. rewrite Hq, Hout.
  split; [reflexivity|].
  destruct (Contract.within (Contract.caption st p) q) eqn:Hc; [|reflexivity].
  apply caption_within_core, (core_within_view st p q Hwf) in Hc. congruence.
Qed.

End Promises.

(** ** The regions of the code are those of the contract *)

Section Geometry.
Variable k : Z.
Hypothesis Hk : 0 <= k <= 149.
Implicit Types (self : CustomFrame.t) (v : UiView.t) (st : Contract.FrameStyle)
  (p : Contract.Pass) (b : Contract.Box) (q : Z * Z).

(** A far side of the caption, moved by the shadow and cut to the core: a
    side at [f32::MAX] stays there when it is moved, and the cut takes the
    border of the core. *)
Lemma far_whole cl s (f : Contract.Far) c :
  - 2097152 <= cl <= 2097152 -> - 4194304 <= s <= 4194304 -> far_small f = true ->
  - 16777216 < c < 16777216 ->
  F32.min ((F32.dyadic k cl + F32.dyadic k s) + (far_of k f - F32.dyadic k cl))%f32
          (F32.dyadic k c) =
  F32.dyadic k (Contract.cut f s c).
Proof.
  intros Hcl Hs Hf Hc. destruct f as [z|]; cbn [far_of far_small Contract.cut] in *.
  - apply small_bound in Hf. places k Hk. f_equal. lia.
  - rewrite (dyadic_sub_MAX k Hk) by whole_side. places k Hk.
    rewrite (dyadic_add_MAX k Hk) by whole_side. apply (dyadic_min_MAX k Hk). whole_side.
Qed.

(** The bounds of a bounded style and pass, as intervals. *)
Lemma bounded_style st p :
  bounded st p = true ->
  (- 2097152 <= Contract.margin_left st <= 2097152 /\
   - 2097152 <= Contract.margin_right st <= 2097152 /\
   - 2097152 <= Contract.margin_top st <= 2097152 /\
   - 2097152 <= Contract.margin_bottom st <= 2097152) /\
  (- 2097152 <= Contract.caption_left st <= 2097152 /\
   - 2097152 <= Contract.caption_top st <= 2097152 /\
   far_small (Contract.caption_right st) = true /\
   far_small (Contract.caption_bottom st) = true) /\
  (- 2097152 <= Contract.width p <= 2097152 /\
   - 2097152 <= Contract.height p <= 2097152) /\
  - 4194304 <= Contract.shadowWidth st (Contract.maximized p) <= 4194304.
Proof.
  unfold bounded. cbn [forallb]. intros H. bool_hyps.
  small_bounds.
  unfold Contract.shadowWidth. destruct (Contract.maximized p); repeat split; assumption || lia.
Qed.

Lemma bounded_pointer st p q :
  bounded st p = true -> Contract.pointer p = Some q ->
  - 2097152 <= fst q <= 2097152 /\ - 2097152 <= snd q <= 2097152.
Proof.
  unfold bounded. intros H Hq. rewrite Hq in H. bool_hyps.
  split; now apply small_bound.
Qed.

(** Step 7 in the code. *)
Lemma caption_implements self st s b :
  implements k self st ->
  - 2097152 <= Contract.caption_left st <= 2097152 ->
  - 2097152 <= Contract.caption_top st <= 2097152 ->
  far_small (Contract.caption_right st) = true ->
  far_small (Contract.caption_bottom st) = true ->
  - 4194304 <= s <= 4194304 ->
  - 16777216 < Contract.left b < 16777216 -> - 16777216 < Contract.top b < 16777216 ->
  - 16777216 < Contract.right b < 16777216 -> - 16777216 < Contract.bottom b < 16777216 ->
  CustomFrame.caption_rect self (F32.dyadic k s) (rect_of k b) =
  rect_of k (Contract.captionRect st s b).
Proof.
  intros (_ & Hc & _) Hl Ht Hr Hb Hs Bl Bt Br Bb.
  unfold CustomFrame.caption_rect, Rect.intersect, Rect.translate, Rect.from_min_size,
    Rect.size, Pos2.diff, Pos2.add, Pos2.max, Pos2.min, rect_of, Rect.dyadic,
    Contract.captionRect.
  rewrite Hc. cbn [Rect.min Rect.max Pos2.x Pos2.y Vec2.x Vec2.y Contract.left
                   Contract.top Contract.right Contract.bottom].
  rewrite !far_whole by assumption. now places k Hk.
Qed.

(** Steps 1 to 8 in the code. *)
Lemma regions_implement self v st p :
  implements k self st -> presents k v p -> bounded st p = true ->
  let g := regions self v in
  g_maximized g = Contract.maximized p /\
  g_view g = rect_of k (Contract.view st p) /\
  g_core g = rect_of k (Contract.core st p) /\
  g_caption g = rect_of k (Contract.caption st p) /\
  g_pos g = match Contract.pointer p with
            | Some q => point_of k q
            | None => Pos2.new F32.MIN F32.MIN
            end.
Proof.
  intros Hi (Hm & Hw & Hh & Hp) Hb. cbv zeta.
  pose proof Hi as (Hmargin & _ & Hblur & Hspread).
  destruct (bounded_style st p Hb) as ((Bl & Br & Bt & Bb) & (Cl & Ct & Cr & Cb) & (Bw & Bh) & Bs).
  assert (Hsmall : forallb small
            [Contract.margin_left st; Contract.margin_right st; Contract.margin_top st;
             Contract.margin_bottom st; Contract.blur st; Contract.spread st;
             Contract.width p; Contract.height p] = true).
  { unfold bounded in Hb. cbn [forallb] in Hb |- *. bool_hyps. now bool_goal. }
  destruct (regions_dyadic k Hk self v _ _ _ _ _ _ _ _ Hmargin Hblur Hspread Hw Hh Hsmall)
    as [Ev Ec].
  cbv zeta in Ev, Ec. rewrite Hm in Ev, Ec.
  change (g_maximized (regions self v)) with (CustomFrame.is_maximized v).
  change (g_pos (regions self v)) with (CustomFrame.pointer_pos v).
  change (g_caption (regions self v)) with
    (CustomFrame.caption_rect self
       (CustomFrame.shadow_width self (CustomFrame.is_maximized v)) (g_core (regions self v))).
  rewrite Ev, Ec, Hm. repeat split.
  - cbn [forallb] in Hsmall. bool_hyps.
    rewrite (shadow_width_dyadic k Hk self _ _ _ Hblur Hspread) by assumption.
    apply (caption_implements self st _
             (Contract.core st p) Hi Cl Ct Cr Cb Bs);
      unfold Contract.core, Contract.coreRect, Contract.view, Contract.viewRect;
      cbn [Contract.left Contract.top Contract.right Contract.bottom]; lia.
  - unfold CustomFrame.pointer_pos. rewrite Hp. now destruct (Contract.pointer p).
Qed.

End Geometry.

(** ** The zones and what a pass leaves *)

Section Zones.
Variable k : Z.
Hypothesis Hk : 0 <= k <= 149.
Implicit Types (self : CustomFrame.t) (v : UiView.t) (st : Contract.FrameStyle)
  (p : Contract.Pass) (b : Contract.Box) (q : Z * Z).

(** A position against a rectangle. *)
Lemma contains_implements b q :
  - 16777216 < Contract.left b < 16777216 -> - 16777216 < Contract.top b < 16777216 ->
  - 16777216 < Contract.right b < 16777216 -> - 16777216 < Contract.bottom b < 16777216 ->
  - 16777216 < fst q < 16777216 -> - 16777216 < snd q < 16777216 ->
  Rect.contains (rect_of k b) (point_of k q) = Contract.within b q.
Proof.
  intros. unfold rect_of, point_of, Contract.within.
  rewrite (contains_dyadic k Hk) by assumption.
  now rewrite <- !andb_assoc.
Qed.

(** The stand-in for a missing pointer is in no rectangle. *)
Lemma sentinel_outside b :
  - 16777216 < Contract.left b < 16777216 ->
  Rect.contains (rect_of k b) (Pos2.new F32.MIN F32.MIN) = false.
Proof.
  intros Hl. apply beyond_left_outside. apply (dyadic_gtb_MIN k Hk). whole_side.
Qed.

(** Step 11 in the code. *)
Lemma direction_implements b q :
  - 16777216 < Contract.left b < 16777216 -> - 16777216 < Contract.top b < 16777216 ->
  - 16777216 < Contract.right b < 16777216 -> - 16777216 < Contract.bottom b < 16777216 ->
  - 16777216 < fst q < 16777216 -> - 16777216 < snd q < 16777216 ->
  resize_direction (point_of k q) (rect_of k b) = Contract.direction q b.
Proof.
  intros. unfold resize_direction, Contract.direction, Contract.beyond, rect_of, point_of,
    Rect.dyadic, Rect.left, Rect.right, Rect.top, Rect.bottom.
  cbn [Rect.min Rect.max Pos2.x Pos2.y]. now rewrite !(side_dyadic k Hk) by assumption.
Qed.

(** The boxes of a bounded pass have borders below [2^24]. *)
Lemma bounded_boxes st p :
  bounded st p = true ->
  forall b, b = Contract.view st p \/ b = Contract.core st p \/ b = Contract.caption st p ->
  (- 16777216 < Contract.left b < 16777216 /\ - 16777216 < Contract.top b < 16777216) /\
  (- 16777216 < Contract.right b < 16777216 /\ - 16777216 < Contract.bottom b < 16777216).
Proof.
  intros Hb b Hcase.
  destruct (bounded_style st p Hb) as ((Bl & Br & Bt & Bb) & (Cl & Ct & Cr & Cb) & (Bw & Bh) & Bs).
  destruct Hcase as [-> | [-> | ->]];
    unfold Contract.caption, Contract.captionRect, Contract.cut, Contract.core,
      Contract.coreRect, Contract.view, Contract.viewRect;
    cbn [Contract.left Contract.top Contract.right Contract.bottom];
    try (destruct (Contract.caption_right st) as [zr|], (Contract.caption_bottom st) as [zb|];
         cbn [far_small] in Cr, Cb; try apply small_bound in Cr; try apply small_bound in Cb);
    lia.
Qed.

(** Steps 9 and 10 in the code: the zones are the contract's, and on the
    resize zone so is the direction. *)
Lemma zones_implement self v st p :
  implements k self st -> presents k v p -> bounded st p = true ->
  let g := regions self v in
  sizebox_live g = Contract.resizeZone st p /\
  caption_live g = Contract.captionZone st p /\
  (if sizebox_live g then resize_direction (g_pos g) (g_core g) else None) =
    Contract.resolved st p.
Proof.
  intros Hi Hv Hb. cbv zeta.
  destruct (regions_implement k Hk self v st p Hi Hv Hb) as (Em & Ev & Ec & Ecap & Epos).
  destruct (bounded_boxes st p Hb _ (or_introl eq_refl)) as ((? & ?) & (? & ?)).
  destruct (bounded_boxes st p Hb _ (or_intror (or_introl eq_refl))) as ((? & ?) & (? & ?)).
  destruct (bounded_boxes st p Hb _ (or_intror (or_intror eq_refl))) as ((? & ?) & (? & ?)).
  unfold sizebox_live, resize_active, caption_live, Contract.resolved,
    Contract.resizeZone, Contract.captionZone.
  rewrite Em, Ev, Ec, Ecap, Epos.
  destruct (Contract.pointer p) as [q|] eqn:Hq.
  - destruct (bounded_pointer st p q Hb Hq).
    rewrite !contains_implements, direction_implements by lia. now repeat split.
  - rewrite !sentinel_outside by assumption. now repeat split.
Qed.

(** What [show] registers, sends and hints at is what the contract says. *)
Lemma frame_implements self v st p rs rc :
  implements k self st -> presents k v p -> bounded st p = true ->
  let g := regions self v in
  frame_widgets g = map (widget_of k) (Contract.regions st p) /\
  frame_cmds g rs rc = Contract.commands st p rs rc /\
  frame_cursor g (UiView.cursor_icon v) =
    default (UiView.cursor_icon v) (Contract.cursor st p).
Proof.
  intros Hi Hv Hb. cbv zeta.
  destruct (regions_implement k Hk self v st p Hi Hv Hb) as (Em & Ev & _ & Ecap & _).
  destruct (zones_implement self v st p Hi Hv Hb) as (Er & Ec & Ed). cbv zeta in Er, Ec, Ed.
  unfold frame_widgets, frame_cmds, frame_cursor, resize_cmds, resize_cursor, caption_cmds,
    Contract.regions, Contract.commands, Contract.cursor.
  rewrite <- Ed, <- Er, <- Ec, Ev, Ecap, Em.
  destruct (sizebox_live (regions self v)); [destruct (resize_direction _ _)|];
    destruct (caption_live (regions self v)); repeat split; reflexivity.
Qed.

End Zones.

(** ** Theorems *)

Section ContractTheorems.
Context {U : Type} `{HostLaws U}.
Implicit Types (self : CustomFrame.t) (u : U) (st : Contract.FrameStyle) (p : Contract.Pass).

(** C2 (refinement).  On numbers with binary places the code is the
    contract: for a style that holds the numbers of a contract style, in a
    context that shows the inputs of a contract pass, all of them integers
    of at most [2^21] in units of [2^-k] pixels, one call of [show] paints
    the panel and leaves the cursor hint, the commands and the regions that
    the contract computes on the integers, whatever the context answers. *)
Theorem show_implements_contract (k : Z) self u st p :
  0 <= k <= 149 ->
  implements k self st -> presents k (view u) p -> bounded st p = true ->
  view (exec (CustomFrame.show self (ret tt)) u) =
  UiView.extend (view u)
    (default (UiView.cursor_icon (view u)) (Contract.cursor st p))
    (Contract.commands st p (sizebox_answer self u) (caption_answer self u))
    (map (widget_of k) (Contract.regions st p))
    [CustomFrame.panel_frame self (UiView.panel_fill (view u)) (Contract.maximized p)].
Proof.
  intros Hk Hi Hv Hb. rewrite view_show_frame. unfold frame_view.
  destruct (frame_implements k Hk self (view u) st p (sizebox_answer self u)
              (caption_answer self u) Hi Hv Hb) as (-> & -> & ->).
  now destruct (regions_implement k Hk self (view u) st p Hi Hv Hb) as (-> & _).
Qed.

End ContractTheorems.
