(* ===== verification/Eframe.v ===== *)
(** * Eframe: the application loop and the windowing backend

    [examples/custom_frame.rs] hands an application to [eframe::run_native],
    which opens a window from the viewport options and then, frame after
    frame, builds a context from the window and the user's input, calls the
    application's [update], and carries out the commands the frame queued.
    [CustomFrame::show] only queues commands; what they do to the window is
    the backend's part, and this file is the model of it that the theorems
    about whole runs are stated against.

    - [ViewportBuilder] and [NativeOptions]: the options [main] sets;
    - [App]: the trait an application implements, as a class;
    - [Window]: the window as the backend keeps it (its size, whether it is
      maximized, whether it is still open) with [begun], the log of the
      interactive operations the commands [BeginResize] and [StartDrag]
      began, each with the maximized flag of the window at that moment;
    - [apply] and [apply_all]: what one command, and the queue of one frame,
      does to the window; [Window.settle]: what the window manager does of
      a resize that was begun, the new size being part of the input;
    - [Input]: what the user and the layout contribute to one frame, and
      [context], the context the frame starts from;
    - [Error], [CreationContext], [AppCreator], [open_window] and [start]:
      what can go wrong before the first frame, and the errors [run_native]
      returns then;
    - [run_frame], [run] and [run_native]: one frame, the loop over a list
      of inputs (it stops at the first frame that finds the window closed),
      and the whole program;
    - [step] and [reachable]: the same loop as a relation between states,
      one rule per frame, for invariants by induction on the run; the loop
      reaches exactly the reachable states ([run_reachable],
      [reachable_run]).

    - [event_loop] and [run_native_until_closed]: the loop as the program
      runs it, over a session without end, until it finds the window closed.
      It takes fuel, since a session in which nobody closes the window does
      not end: [event_loop_complete] says that fuel for the frames up to the
      closing one is enough, [event_loop_diverges] that no fuel is enough
      when the window stays open, [event_loop_sound] that what it returns
      is what [run] computes on the frames it ran.

    None of this code is under [src/]: it is written from what the example
    and the specification say of the backend.  [run] is a structural
    recursion on the list of inputs, one frame per input, and needs no
    fuel. *)

From stdpp Require Import base decidable list relations.
From Stdlib Require Import Bool ZArith String.
From S2P Require Import Prelude F32 Geometry Host.

(** ** The options of a window *)

(** [egui::Rgba]: a colour as four floats. *)
Module Rgba.

Record t : Type := from_rgba_premultiplied { r : F32.t; g : F32.t; b : F32.t; a : F32.t }.

Definition TRANSPARENT : t :=
  from_rgba_premultiplied F32.zero F32.zero F32.zero F32.zero.

Definition to_array (c : t) : F32.t * F32.t * F32.t * F32.t := (r c, g c, b c, a c).

End Rgba.

(** [egui::ViewportBuilder], as far as [main] fills it in. *)
Module ViewportBuilder.

Record t : Type := mk {
  inner_size : option Vec2.t;
  decorations : option bool;
  transparent : option bool
}.

Definition default : t := mk None None None.

Definition with_inner_size (self : t) (size : Vec2.t) : t :=
  mk (Some size) (decorations self) (transparent self).

Definition with_decorations (self : t) (decorations : bool) : t :=
  mk (inner_size self) (Some decorations) (transparent self).

Definition with_transparent (self : t) (transparent : bool) : t :=
  mk (inner_size self) (decorations self) (Some transparent).

End ViewportBuilder.

(** [eframe::NativeOptions], as far as [main] fills it in. *)
Module NativeOptions.

Record t : Type := mk { viewport : ViewportBuilder.t }.

Definition default : t := mk ViewportBuilder.default.

End NativeOptions.

(** ** The application *)

(** [eframe::App].  [update] takes [&mut self]: it returns the application
    as the call leaves it. *)
Class App (A : Type) : Type := {
  update : forall {U : Type} {HH : Host U} {HW : Widgets U}, A -> State U A;
  clear_color : A -> F32.t * F32.t * F32.t * F32.t
}.

(** ** The window *)

(** An interactive operation of the window manager. *)
Inductive Operation : Type :=
  | Resize (d : ResizeDirection)
  | Drag.

#[global] Instance operation_eq_dec : EqDecision Operation.
Proof. solve_decision. Defined.

(** An entry of the log of a window is a resize. *)
Definition is_resize (entry : bool * Operation) : bool :=
  match entry with
  | (_, Resize _) => true
  | (_, Drag) => false
  end.

(** What the platform decides: the size of a maximized window, the size
    of a window whose options name none, and whether there is a window at
    all: [failure] is the error of the window system when it cannot open
    one. *)
Module Platform.

Record t : Type := mk {
  monitor : Vec2.t;
  default_size : Vec2.t;
  failure : option string
}.

End Platform.

(** [eframe::Error], as far as a run can meet it: the creator of the
    application failed, or the window system did. *)
Module Error.

Inductive t : Type :=
  | AppCreation (e : string)
  | Winit (e : string).

End Error.

#[global] Instance error_eq_dec : EqDecision Error.t.
Proof. solve_decision. Defined.

Module Window.

Record t : Type := mk {
  monitor : Vec2.t;            (* the size it has when maximized *)
  inner_size : Vec2.t;         (* the size it has otherwise *)
  decorations : bool;
  transparent : bool;
  maximized : bool;
  open : bool;
  (** the operations begun, oldest first, each with [maximized] at the time *)
  begun : list (bool * Operation)
}.

(** The window the options describe: decorated and opaque unless they say
    otherwise, not maximized, open. *)
Definition create (p : Platform.t) (vb : ViewportBuilder.t) : t :=
  mk (Platform.monitor p)
     (unwrap_or (ViewportBuilder.inner_size vb) (Platform.default_size p))
     (unwrap_or (ViewportBuilder.decorations vb) true)
     (unwrap_or (ViewportBuilder.transparent vb) false)
     false true [].

(** The rectangle a frame draws in. *)
Definition screen_rect (w : t) : Rect.t :=
  Rect.from_min_size Pos2.ZERO (if maximized w then monitor w else inner_size w).

Definition begin (op : Operation) (w : t) : t :=
  mk (monitor w) (inner_size w) (decorations w) (transparent w) (maximized w)
     (open w) (begun w ++ [(maximized w, op)]).

Definition set_maximized (b : bool) (w : t) : t :=
  mk (monitor w) (inner_size w) (decorations w) (transparent w) b (open w) (begun w).

Definition close (w : t) : t :=
  mk (monitor w) (inner_size w) (decorations w) (transparent w) (maximized w)
     false (begun w).

(** A resize is among the operations begun. *)
Definition resizing (w : t) : bool := existsb is_resize (begun w).

Definition set_inner_size (size : Vec2.t) (w : t) : t :=
  mk (monitor w) size (decorations w) (transparent w) (maximized w) (open w)
     (begun w).

(** The window manager carries a resize out: it gives the window the size
    the user dragged it to.  It does so only after a resize was begun, and
    not to a maximized window. *)
Definition settle (size : option Vec2.t) (w : t) : t :=
  match size with
  | Some size =>
      if resizing w && negb (maximized w) then set_inner_size size w else w
  | None => w
  end.

End Window.

(** [eframe::CreationContext]: what the creator of the application is
    given.  The example looks at nothing in it, and the model keeps
    nothing of it. *)
Module CreationContext.

Inductive t : Type := mk.

End CreationContext.

(** [eframe::AppCreator]: the closure that makes the application, or
    fails. *)
Definition AppCreator (A : Type) : Type := CreationContext.t -> Result A string.

(** The window system opens the window the options describe, or fails. *)
Definition open_window (p : Platform.t) (vb : ViewportBuilder.t)
    : Result Window.t Error.t :=
  match Platform.failure p with
  | Some e => Err (Error.Winit e)
  | None => Ok (Window.create p vb)
  end.

(** What a command does to the window. *)
Definition apply (c : ViewportCommand) (w : Window.t) : Window.t :=
  match c with
  | BeginResize d => Window.begin (Resize d) w
  | StartDrag => Window.begin Drag w
  | Maximized b => Window.set_maximized b w
  | Close => Window.close w
  end.

(** The queue of a frame, oldest command first. *)
Definition apply_all (cmds : list ViewportCommand) (w : Window.t) : Window.t :=
  fold_left (fun w c => apply c w) cmds w.

(** ** One frame and the loop *)

(** What the user and the layout contribute to a frame. *)
Module Input.

Record t : Type := mk {
  fill : Color32.t;
  pointer : option Pos2.t;
  respond : Id.t -> Rect.t -> Sense.t -> Response.t;
  place : string -> Rect.t;
  (** the size the window manager gives the window after the frame, when
      the user is dragging a border *)
  resized : option Vec2.t
}.

End Input.

(** The context a frame starts from: the window's state as input, the
    default cursor icon, nothing queued, registered or painted yet. *)
Definition context (w : Window.t) (i : Input.t) : SimpleUi.t :=
  SimpleUi.mk
    (UiView.mk (Some (Window.maximized w)) (Input.fill i) (Window.screen_rect w)
       (Input.pointer i) Default [] [] [])
    (Input.respond i) (Input.place i) Response.idle.

Section Loop.
Context {A : Type} `{App A}.

(** One frame: the application's [update], then the frame's commands, then
    what the window manager did of a resize. *)
Definition run_frame (app : A) (w : Window.t) (i : Input.t) : A * Window.t :=
  let r := update app (context w i) in
  (fst r,
   Window.settle (Input.resized i) (apply_all (UiView.viewport_cmds (view (snd r))) w)).

(** Frame after frame, until the inputs end or the window is closed. *)
Fixpoint run (app : A) (w : Window.t) (inputs : list Input.t) : A * Window.t :=
  match inputs with
  | [] => (app, w)
  | i :: rest =>
      if Window.open w
      then let r := run_frame app w i in run (fst r) (snd r) rest
      else (app, w)
  end.

(** What [run_native] does before the first frame: it opens the window,
    then calls the creator; an error of either is the error of the run,
    the creator's as [Error::AppCreation]. *)
Definition start (p : Platform.t) (options : NativeOptions.t)
    (app_creator : AppCreator A) : Result (A * Window.t) Error.t :=
  Result.and_then (open_window p (NativeOptions.viewport options)) (fun w =>
  Result.and_then
    (Result.map_err Error.AppCreation (app_creator CreationContext.mk)) (fun app =>
  Ok (app, w))).

(** [eframe::run_native]: the window the options describe, the application
    its creator makes, then the loop.  The program gets [Ok(())] when the
    loop ends; the model keeps under [Ok] the application and the window
    the loop ended with.  The application's name is the window's title,
    which the model does not keep. *)
Definition run_native (p : Platform.t) (app_name : string)
    (options : NativeOptions.t) (app_creator : AppCreator A)
    (inputs : list Input.t) : Result (A * Window.t) Error.t :=
  Result.map (fun s => run (fst s) (snd s) inputs) (start p options app_creator).

End Loop.

(** ** The loop as the program runs it *)

(** The inputs of a session, frame by frame, without end; its first [n]
    frames; what is left after [k] frames. *)
Definition take (n : nat) (inputs : nat -> Input.t) : list Input.t :=
  map inputs (seq 0 n).

Definition shift (k : nat) (inputs : nat -> Input.t) : nat -> Input.t :=
  fun j => inputs (k + j).

Section EventLoop.
Context {A : Type} `{App A}.

(** [run_native] returns when it finds the window closed, and not before.
    With [fuel] frames to spend, [event_loop] gives the state it returns in
    and the number of frames it ran, or [None] if the fuel ends on an open
    window. *)
Fixpoint event_loop (fuel : nat) (app : A) (w : Window.t) (inputs : nat -> Input.t)
    : option (A * Window.t * nat) :=
  if Window.open w then
    match fuel with
    | O => None
    | S fuel' =>
        let r := run_frame app w (inputs 0) in
        match event_loop fuel' (fst r) (snd r) (shift 1 inputs) with
        | Some (s, n) => Some (s, S n)
        | None => None
        end
    end
  else Some (app, w, 0).

End EventLoop.

(** [eframe::run_native] as the program runs it: until the window is
    closed.  An error before the first frame is returned at once, whatever
    the fuel; [None] is a loop that the fuel did not see the end of. *)
Definition run_native_until_closed {A : Type} `{App A} (fuel : nat) (p : Platform.t)
    (app_name : string) (options : NativeOptions.t) (app_creator : AppCreator A)
    (inputs : nat -> Input.t) : option (Result (A * Window.t * nat) Error.t) :=
  match start p options app_creator with
  | Ok s => option_map Ok (event_loop fuel (fst s) (snd s) inputs)
  | Err e => Some (Err e)
  end.

(** ** Runs as a relation *)

Section Steps.
Context {A : Type} `{App A}.

(** One frame of an open window, on some input. *)
Inductive step : A * Window.t -> A * Window.t -> Prop :=
  | step_frame app w i :
      Window.open w = true -> step (app, w) (run_frame app w i).

(** The states a run can be in. *)
Definition reachable : A * Window.t -> A * Window.t -> Prop := rtc step.

End Steps.

(** ** Logs and queues *)

(** The window was not maximized when any of the resizes in the log began. *)
Definition resize_windowed (entry : bool * Operation) : Prop :=
  match entry with
  | (m, Resize _) => m = false
  | (_, Drag) => True
  end.

(** A queue of commands begins no resize on a maximized window, when it is
    applied to a window whose maximized flag is [m]. *)
Fixpoint queue_ok (m : bool) (cmds : list ViewportCommand) : bool :=
  match cmds with
  | [] => true
  | BeginResize _ :: rest => negb m && queue_ok m rest
  | Maximized b :: rest => queue_ok b rest
  | _ :: rest => queue_ok m rest
  end.

(** ** Facts about the backend *)

Section BackendFacts.
Implicit Types (w : Window.t) (c : ViewportCommand) (cmds : list ViewportCommand).

Lemma apply_all_nil w : apply_all [] w = w.
Proof. reflexivity. Qed.

Lemma apply_all_cons c cmds w : apply_all (c :: cmds) w = apply_all cmds (apply c w).
Proof. reflexivity. Qed.

Lemma apply_all_app cmds1 cmds2 w :
  apply_all (cmds1 ++ cmds2) w = apply_all cmds2 (apply_all cmds1 w).
Proof. unfold apply_all. apply fold_left_app. Qed.

(** [settle] changes the size of the window and nothing else, and only of
    a window that is being resized. *)
Lemma settle_fields size w :
  Window.monitor (Window.settle size w) = Window.monitor w /\
  Window.decorations (Window.settle size w) = Window.decorations w /\
  Window.transparent (Window.settle size w) = Window.transparent w /\
  Window.maximized (Window.settle size w) = Window.maximized w /\
  Window.open (Window.settle size w) = Window.open w /\
  Window.begun (Window.settle size w) = Window.begun w.
Proof.
  unfold Window.settle. destruct size as [size|]; [|now repeat split].
  now destruct (Window.resizing w && negb (Window.maximized w)).
Qed.

Lemma settle_none w : Window.settle None w = w.
Proof. reflexivity. Qed.

Lemma settle_idle size w : Window.resizing w = false -> Window.settle size w = w.
Proof. unfold Window.settle. intros ->. now destruct size. Qed.

Lemma settle_maximized size w : Window.maximized w = true -> Window.settle size w = w.
Proof. unfold Window.settle. intros ->. rewrite andb_false_r. now destruct size. Qed.

(** The size of a window that is being resized, and is not maximized, is
    the one the window manager gives it. *)
Lemma settle_size size w :
  Window.resizing w = true -> Window.maximized w = false ->
  Window.inner_size (Window.settle (Some size) w) = size.
Proof. unfold Window.settle. now intros -> ->. Qed.

Lemma settle_resized size w :
  Window.resizing (Window.settle (Some size) w) = true ->
  Window.maximized (Window.settle (Some size) w) = false ->
  Window.inner_size (Window.settle (Some size) w) = size.
Proof.
  unfold Window.settle.
  destruct (Window.resizing w) eqn:Hr, (Window.maximized w) eqn:Hm; cbn;
    intros; congruence.
Qed.

(** A log that extends one with a resize has a resize. *)
Lemma resizing_extends w w' :
  extends (Window.begun w) (Window.begun w') ->
  Window.resizing w' = false -> Window.resizing w = false.
Proof.
  unfold Window.resizing. intros [k ->]. rewrite existsb_app.
  now intros [-> _]%orb_false_iff.
Qed.

(** No command changes what the platform and the options fixed. *)
Lemma apply_all_fixed cmds w :
  Window.monitor (apply_all cmds w) = Window.monitor w /\
  Window.inner_size (apply_all cmds w) = Window.inner_size w /\
  Window.decorations (apply_all cmds w) = Window.decorations w /\
  Window.transparent (apply_all cmds w) = Window.transparent w.
Proof.
  revert w. induction cmds as [|c cmds IH]; intros w; [repeat split|].
  rewrite apply_all_cons.
  destruct (IH (apply c w)) as (-> & -> & -> & ->). now destruct c.
Qed.

(** The log only grows. *)
Lemma apply_all_begun cmds w :
  extends (Window.begun w) (Window.begun (apply_all cmds w)).
Proof.
  revert w. induction cmds as [|c cmds IH]; intros w; [apply extends_refl|].
  rewrite apply_all_cons. eapply extends_trans; [|apply IH].
  destruct c; cbn; auto using extends_refl, extends_app.
Qed.

(** A window stays closed, and it is closed by [Close] alone. *)
Lemma apply_all_open cmds w :
  Window.open (apply_all cmds w) = true <->
  Window.open w = true /\ ~ In Close cmds.
Proof.
  revert w. induction cmds as [|c cmds IH]; intros w; [cbn; tauto|].
  rewrite apply_all_cons, IH.
  destruct c; cbn; intuition (discriminate || congruence).
Qed.

(** A queue that is [queue_ok] keeps the log [resize_windowed]. *)
Lemma apply_all_windowed cmds w :
  Forall resize_windowed (Window.begun w) ->
  queue_ok (Window.maximized w) cmds = true ->
  Forall resize_windowed (Window.begun (apply_all cmds w)).
Proof.
  revert w. induction cmds as [|c cmds IH]; intros w Hw Hq; [exact Hw|].
  rewrite apply_all_cons. apply IH.
  - destruct c; cbn in *; try exact Hw;
      apply Forall_app; (split; [exact Hw|]);
      repeat constructor. bool_hyps. now destruct (Window.maximized w).
  - destruct c; cbn in *; bool_hyps; assumption.
Qed.

End BackendFacts.

Section LoopFacts.
Context {A : Type} `{App A}.
Implicit Types (app : A) (w : Window.t) (inputs : list Input.t).

Lemma run_nil app w : run app w [] = (app, w).
Proof. reflexivity. Qed.

Lemma run_cons app w i inputs :
  run app w (i :: inputs) =
  if Window.open w
  then run (fst (run_frame app w i)) (snd (run_frame app w i)) inputs
  else (app, w).
Proof. reflexivity. Qed.

(** The loop does nothing on a closed window. *)
Lemma run_closed app w inputs : Window.open w = false -> run app w inputs = (app, w).
Proof. intros Hc. destruct inputs; cbn; [reflexivity | now rewrite Hc]. Qed.

(** A run over two lists of inputs is the run over the second from where
    the first one ends. *)
Lemma run_app app w inputs1 inputs2 :
  run app w (inputs1 ++ inputs2) =
  run (fst (run app w inputs1)) (snd (run app w inputs1)) inputs2.
Proof.
  revert app w. induction inputs1 as [|i inputs1 IH]; intros app w; [reflexivity|].
  cbn [List.app]. rewrite !run_cons.
  destruct (Window.open w) eqn:Ho; [apply IH|].
  cbn. now rewrite run_closed.
Qed.

(** One frame leaves alone what the platform and the options fixed, and
    only adds to the log. *)
Lemma run_frame_fixed app w i :
  Window.monitor (snd (run_frame app w i)) = Window.monitor w /\
  Window.decorations (snd (run_frame app w i)) = Window.decorations w /\
  Window.transparent (snd (run_frame app w i)) = Window.transparent w.
Proof.
  unfold run_frame. cbn [snd].
  destruct (settle_fields (Input.resized i)
              (apply_all (UiView.viewport_cmds (view (snd (update app (context w i))))) w))
    as (-> & -> & -> & _).
  destruct (apply_all_fixed
              (UiView.viewport_cmds (view (snd (update app (context w i))))) w)
    as (-> & _ & -> & ->).
  now repeat split.
Qed.

Lemma run_frame_begun app w i :
  extends (Window.begun w) (Window.begun (snd (run_frame app w i))).
Proof.
  unfold run_frame. cbn [snd].
  destruct (settle_fields (Input.resized i)
              (apply_all (UiView.viewport_cmds (view (snd (update app (context w i))))) w))
    as (_ & _ & _ & _ & _ & ->).
  apply apply_all_begun.
Qed.

(** A window that is being resized, and not maximized, leaves the frame
    with the size the window manager gave it. *)
Lemma run_frame_resized app w i size :
  Input.resized i = Some size ->
  Window.resizing (snd (run_frame app w i)) = true ->
  Window.maximized (snd (run_frame app w i)) = false ->
  Window.inner_size (snd (run_frame app w i)) = size.
Proof. unfold run_frame. cbn [snd]. intros ->. apply settle_resized. Qed.

(** A frame changes the size of the window only when a resize has been
    begun, in this frame or before. *)
Lemma run_frame_size app w i :
  Window.resizing (snd (run_frame app w i)) = false ->
  Window.inner_size (snd (run_frame app w i)) = Window.inner_size w.
Proof.
  unfold run_frame. cbn [snd]. intros Hidle.
  assert (Hcmds : Window.resizing
            (apply_all (UiView.viewport_cmds (view (snd (update app (context w i))))) w)
          = false).
  { revert Hidle. unfold Window.resizing.
    now destruct (settle_fields (Input.resized i)
      (apply_all (UiView.viewport_cmds (view (snd (update app (context w i))))) w))
      as (_ & _ & _ & _ & _ & ->). }
  rewrite settle_idle by exact Hcmds. apply apply_all_fixed.
Qed.

End LoopFacts.

(** ** Facts about the start of a run *)

Section StartFacts.
Context {A : Type} `{App A}.
Implicit Types (p : Platform.t) (options : NativeOptions.t) (c : AppCreator A).

(** The window of a run, when there is one. *)
Lemma open_window_Ok p vb w :
  open_window p vb = Ok w <-> Platform.failure p = None /\ w = Window.create p vb.
Proof.
  unfold open_window. destruct (Platform.failure p); split.
  - discriminate.
  - now intros [[=] _].
  - intros [= <-]. now split.
  - now intros [_ ->].
Qed.

Lemma open_window_Err p vb e :
  open_window p vb = Err e <-> exists msg, Platform.failure p = Some msg /\ e = Error.Winit msg.
Proof.
  unfold open_window. destruct (Platform.failure p) as [msg|]; split.
  - intros [= <-]. eauto.
  - now intros (? & [= <-] & ->).
  - discriminate.
  - now intros (? & [=] & _).
Qed.

(** A run starts when the window system gives a window and the creator an
    application. *)
Lemma start_Ok p options c s :
  start p options c = Ok s <->
  Platform.failure p = None /\
  c CreationContext.mk = Ok (fst s) /\
  snd s = Window.create p (NativeOptions.viewport options).
Proof.
  unfold start. rewrite and_then_Ok. split.
  - intros (w & [Hp ->]%open_window_Ok & (app & Hc%map_err_Ok & [= <-])%and_then_Ok).
    now repeat split.
  - intros (Hp & Hc & Hw). eexists. split; [now apply open_window_Ok|].
    apply and_then_Ok. exists (fst s). split; [now apply map_err_Ok|].
    rewrite <- Hw. now destruct s.
Qed.

(** It fails with the error of the window system, and the creator is not
    called, or else with the error of the creator. *)
Lemma start_Err p options c e :
  start p options c = Err e <->
  (exists msg, Platform.failure p = Some msg /\ e = Error.Winit msg) \/
  (exists msg, Platform.failure p = None /\
     c CreationContext.mk = Err msg /\
     e = Error.AppCreation msg).
Proof.
  unfold start. rewrite and_then_Err, open_window_Err. split.
  - intros [Hw|(w & [Hp ->]%open_window_Ok & Hc)]; [now left|right].
    apply and_then_Err in Hc as [(msg & Hc & ->)%map_err_Err|(? & _ & [=])].
    now exists msg.
  - intros [Hw|(msg & Hp & Hc & ->)]; [now left|right].
    eexists. split; [now apply open_window_Ok|].
    apply and_then_Err. left. apply map_err_Err. eauto.
Qed.

(** With a window and an application, [run_native] is the loop. *)
Lemma run_native_Ok p name options c app inputs :
  Platform.failure p = None ->
  c CreationContext.mk = Ok app ->
  run_native p name options c inputs =
  Ok (run app (Window.create p (NativeOptions.viewport options)) inputs).
Proof.
  intros Hp Hc. unfold run_native.
  now rewrite (proj2 (start_Ok p options c (app, _)) (conj Hp (conj Hc eq_refl))).
Qed.

Lemma run_native_until_closed_Ok fuel p name options c app session :
  Platform.failure p = None ->
  c CreationContext.mk = Ok app ->
  run_native_until_closed fuel p name options c session =
  option_map Ok
    (event_loop fuel app (Window.create p (NativeOptions.viewport options)) session).
Proof.
  intros Hp Hc. unfold run_native_until_closed.
  now rewrite (proj2 (start_Ok p options c (app, _)) (conj Hp (conj Hc eq_refl))).
Qed.

(** A run fails before the first frame or not at all, and the loop with
    fuel returns the same error whatever the fuel. *)
Lemma run_native_Err p name options c inputs e :
  run_native p name options c inputs = Err e <-> start p options c = Err e.
Proof.
  unfold run_native, Result.map. destruct (start p options c); cbn; split; congruence.
Qed.

Lemma run_native_until_closed_Err fuel p name options c session e :
  run_native_until_closed fuel p name options c session = Some (Err e) <->
  start p options c = Err e.
Proof.
  unfold run_native_until_closed. destruct (start p options c) as [s|e']; split.
  - destruct (event_loop fuel _ _ _); discriminate.
  - discriminate.
  - now intros [= ->].
  - now intros [= ->].
Qed.

End StartFacts.

(** ** Facts about reachable states *)

Section StepFacts.
Context {A : Type} `{App A}.
Implicit Types (app : A) (w : Window.t) (s : A * Window.t).

(** The loop goes through reachable states only. *)
Lemma run_reachable app w inputs : reachable (app, w) (run app w inputs).
Proof.
  revert app w. induction inputs as [|i inputs IH]; intros app w; [apply rtc_refl|].
  rewrite run_cons. destruct (Window.open w) eqn:Ho; [|apply rtc_refl].
  eapply rtc_l; [apply (step_frame app w i Ho)|].
  destruct (run_frame app w i) as [app' w']. apply IH.
Qed.

(** Every reachable state is where the loop ends on some inputs. *)
Lemma reachable_run s s' :
  reachable s s' -> exists inputs, run (fst s) (snd s) inputs = s'.
Proof.
  induction 1 as [[app w]|s1 s2 s3 Hstep _ [inputs IH]]; [now exists []|].
  destruct Hstep as [app w i Ho]. exists (i :: inputs).
  rewrite run_cons. cbn [fst snd]. now rewrite Ho.
Qed.

(** A closed window is a final state. *)
Lemma closed_final app w s :
  Window.open w = false -> reachable (app, w) s -> s = (app, w).
Proof.
  intros Hc Hr. destruct (reachable_run _ _ Hr) as [inputs <-].
  apply run_closed, Hc.
Qed.

(** A property that every frame preserves holds in every reachable state. *)
Lemma reachable_invariant (P : A * Window.t -> Prop) s s' :
  (forall app w i, Window.open w = true -> P (app, w) -> P (run_frame app w i)) ->
  reachable s s' -> P s -> P s'.
Proof.
  intros Hstep Hr. induction Hr as [|s1 s2 s3 Hs _ IH]; [auto|].
  intros HP. apply IH. destruct Hs as [app w i Ho]. now apply Hstep.
Qed.

(** Along a run the log only grows, the decorations and the transparency
    of the window are those it was created with, and so is its size as long
    as no resize was begun. *)
Lemma reachable_begun s s' :
  reachable s s' -> extends (Window.begun (snd s)) (Window.begun (snd s')).
Proof.
  induction 1 as [|s1 s2 s3 Hs _ IH]; [apply extends_refl|].
  eapply extends_trans; [|exact IH]. destruct Hs. apply run_frame_begun.
Qed.

Lemma reachable_fixed s s' :
  reachable s s' ->
  Window.monitor (snd s') = Window.monitor (snd s) /\
  Window.decorations (snd s') = Window.decorations (snd s) /\
  Window.transparent (snd s') = Window.transparent (snd s).
Proof.
  induction 1 as [|s1 s2 s3 Hs _ (-> & -> & ->)]; [repeat split|].
  destruct Hs. apply run_frame_fixed.
Qed.

Lemma reachable_size s s' :
  reachable s s' -> Window.resizing (snd s') = false ->
  Window.inner_size (snd s') = Window.inner_size (snd s).
Proof.
  induction 1 as [|s1 s2 s3 Hs Hr IH]; [reflexivity|]. intros Hidle.
  rewrite IH by exact Hidle. destruct Hs as [app w i Ho].
  apply run_frame_size.
  exact (resizing_extends _ _ (reachable_begun _ _ Hr) Hidle).
Qed.

End StepFacts.

(** ** Facts about the loop until the window is closed *)

Section EventLoopFacts.
Context {A : Type} `{App A}.
Implicit Types (app : A) (w : Window.t) (inputs : nat -> Input.t) (fuel n : nat).

Lemma take_S n inputs : take (S n) inputs = inputs 0 :: take n (shift 1 inputs).
Proof.
  unfold take, shift. cbn [seq map]. f_equal.
  rewrite <- seq_shift, map_map. reflexivity.
Qed.

Lemma take_snoc n inputs : take (S n) inputs = take n inputs ++ [inputs n].
Proof. unfold take. now rewrite seq_S, map_app. Qed.

(** What the loop returns is where the frames it ran lead, and a closed
    window. *)
Lemma event_loop_sound fuel app w inputs s n :
  event_loop fuel app w inputs = Some (s, n) ->
  s = run app w (take n inputs) /\ Window.open (snd s) = false /\ n <= fuel.
Proof.
  revert app w inputs s n.
  induction fuel as [|fuel IH]; intros app w inputs s n; cbn [event_loop];
    destruct (Window.open w) eqn:Ho; try discriminate;
    try (intros [= <- <-]; cbn; repeat split; [assumption | lia]).
  destruct (event_loop fuel _ _ _) as [[s' n']|] eqn:E; [|discriminate].
  intros [= <- <-]. apply IH in E as (-> & Hc & Hn).
  rewrite take_S, run_cons, Ho. repeat split; [assumption | lia].
Qed.

(** If the window is closed after [n] frames, the loop returns on any fuel
    of [n] frames or more, with the state these frames lead to. *)
Lemma event_loop_complete n fuel app w inputs :
  Window.open (snd (run app w (take n inputs))) = false -> n <= fuel ->
  exists m, m <= n /\
    event_loop fuel app w inputs = Some (run app w (take n inputs), m).
Proof.
  revert fuel app w inputs.
  induction n as [|n IH]; intros fuel app w inputs Hc Hf.
  - cbn in Hc. exists 0. split; [lia|]. destruct fuel; cbn; now rewrite Hc.
  - destruct (Window.open w) eqn:Ho.
    + destruct fuel as [|fuel]; [lia|].
      rewrite take_S, run_cons, Ho in Hc |- *. cbn [event_loop]. rewrite Ho.
      destruct (IH fuel _ _ _ Hc ltac:(lia)) as (m & Hm & ->).
      exists (S m). split; [lia | reflexivity].
    + exists 0. split; [lia|]. rewrite run_closed by exact Ho.
      destruct fuel; cbn; now rewrite Ho.
Qed.

(** If the window is open after every number of frames, the loop does not
    return, whatever the fuel. *)
Lemma event_loop_diverges fuel app w inputs :
  (forall n, Window.open (snd (run app w (take n inputs))) = true) ->
  event_loop fuel app w inputs = None.
Proof.
  intros Ho. destruct (event_loop fuel app w inputs) as [[s n]|] eqn:E; [|reflexivity].
  apply event_loop_sound in E as (-> & Hc & _). now rewrite Ho in Hc.
Qed.

(** More fuel does not change what the loop returns. *)
Lemma event_loop_fuel fuel fuel' app w inputs r :
  event_loop fuel app w inputs = Some r -> fuel <= fuel' ->
  event_loop fuel' app w inputs = Some r.
Proof.
  revert fuel' app w inputs r.
  induction fuel as [|fuel IH]; intros fuel' app w inputs r; cbn [event_loop];
    destruct (Window.open w) eqn:Ho; try discriminate;
    try (intros [= <-] _; destruct fuel'; cbn; now rewrite Ho).
  destruct (event_loop fuel _ _ _) as [[s n]|] eqn:E; [|discriminate].
  intros [= <-] Hf. destruct fuel' as [|fuel']; [lia|].
  cbn [event_loop]. rewrite Ho, (IH fuel' _ _ _ _ E) by lia. reflexivity.
Qed.

End EventLoopFacts.

#[export] Hint Rewrite apply_all_nil apply_all_cons apply_all_app : frame.
#[export] Hint Resolve apply_all_begun : frame.
