(* ===== verification/Painting.v ===== *)
(** * Painting: where egui paints the panel and its shadow

    [CustomFrame::show] draws nothing: it hands egui a panel specification
    (an [egui::Frame]) and computes, on its own, the view rectangle whose
    border is the resize ring.  The outer margin of the specification is
    the shadow width, "so the shadow is within the bounds" as the source
    says.  This file states what egui does with the specification, as far
    as rectangles go, and proves that the two computations agree.

    - [Painting.body]: the rectangle egui paints a frame in, what the panel
      has without the outer margin of the frame;
    - [Painting.shadow_rect]: the rectangle of the shadow egui paints
      behind it ([Shadow::as_shape]): the body moved by the offset and
      grown by the spread; its edge is blurred;
    - [Painting.shadow_reach]: the shadow rectangle grown by the blur, a
      rectangle outside which the shadow leaves no trace (egui blurs the
      edge over half of [blur] on either side);
    - [Painting.content]: the rectangle the content is laid out in, the
      body without the inner margin;
    - [Painting.panel]: the specification [show] hands over in a view.

    The theorems: the view rectangle of [show] is the body of the panel it
    paints, for every float ([view_rect_is_painted_body]); the gutter of
    [blur + spread] is what a shadow without offset reaches, so that such
    a shadow stays in the window ([shadow_within_bounds]); a shadow whose
    offset exceeds its blur does not ([shadow_offset_leaves_bounds]); an
    inner margin that is not smaller than the resize margin keeps the
    content clear of the resize ring ([content_clear_of_ring]).
    Colours, rounded corners and the blending of the blur are egui's and
    are not modelled. *)

From stdpp Require Import base decidable list.
From Stdlib Require Import Bool ZArith Lia.
From S2P Require Import Prelude F32 Units FloatArith Geometry Host CustomFrame Zones Nesting Eframe.

Local Open Scope Z_scope.

Module Painting.

(** [egui::Frame::outer_margin] is the margin outside the painted frame:
    a frame that is given [available] is painted in what is left of it. *)
Definition body (f : Frame.t) (available : Rect.t) : Rect.t :=
  Rect.sub_margin available (Frame.outer_margin f).

(** [egui::Shadow::as_shape]: the shadow of a rectangle. *)
Definition shadow_rect (s : Shadow.t) (r : Rect.t) : Rect.t :=
  Rect.expand (Rect.translate r (Shadow.offset s)) (Shadow.spread s).

(** The blur softens the edge of the shadow over [blur]; beyond this
    rectangle nothing of it is painted. *)
Definition shadow_reach (s : Shadow.t) (r : Rect.t) : Rect.t :=
  Rect.expand (shadow_rect s r) (Shadow.blur s).

(** The rectangle the content of a frame is laid out in: the body without
    the inner margin of the frame. *)
Definition content (f : Frame.t) (available : Rect.t) : Rect.t :=
  Rect.sub_margin (body f available) (Frame.inner_margin f).

(** The panel [show] paints in a view. *)
Definition panel (self : CustomFrame.t) (v : UiView.t) : Frame.t :=
  CustomFrame.panel_frame self (UiView.panel_fill v) (CustomFrame.is_maximized v).

End Painting.

(** ** Rectangles with binary places *)

Section PlacesOfRectangles.
Variable k : Z.
Hypothesis Hk : 0 <= k <= 149.
Implicit Types (dx dy a : Z).

Lemma sub_margin_dyadic (x0 y0 x1 y1 l r t b : Z) :
  - 8388608 <= x0 <= 8388608 -> - 8388608 <= y0 <= 8388608 ->
  - 8388608 <= x1 <= 8388608 -> - 8388608 <= y1 <= 8388608 ->
  - 4194304 <= l <= 4194304 -> - 4194304 <= r <= 4194304 ->
  - 4194304 <= t <= 4194304 -> - 4194304 <= b <= 4194304 ->
  Rect.sub_margin (Rect.dyadic k x0 y0 x1 y1)
    (Margin.mk (F32.dyadic k l) (F32.dyadic k r) (F32.dyadic k t) (F32.dyadic k b)) =
  Rect.dyadic k (x0 + l) (y0 + t) (x1 - r) (y1 - b).
Proof.
  intros. unfold Rect.sub_margin, Rect.dyadic, Pos2.add, Pos2.sub.
  cbn. now places k Hk.
Qed.

Lemma sub_margin_same_dyadic (x0 y0 x1 y1 : Z) a :
  - 4194304 <= x0 <= 4194304 -> - 4194304 <= y0 <= 4194304 ->
  - 4194304 <= x1 <= 4194304 -> - 4194304 <= y1 <= 4194304 ->
  - 4194304 <= a <= 4194304 ->
  Rect.sub_margin (Rect.dyadic k x0 y0 x1 y1) (Margin.same (F32.dyadic k a)) =
  Rect.dyadic k (x0 + a) (y0 + a) (x1 - a) (y1 - a).
Proof. intros. apply sub_margin_dyadic; lia. Qed.

(** A rectangle within another has its points in the other, whatever the
    point is. *)
Lemma contains_dyadic_mono (a0 b0 a1 b1 x0 y0 x1 y1 : Z) (p : Pos2.t) :
  - 16777216 < a0 < 16777216 -> - 16777216 < b0 < 16777216 -> - 16777216 < a1 < 16777216 ->
  - 16777216 < b1 < 16777216 -> - 16777216 < x0 < 16777216 -> - 16777216 < y0 < 16777216 ->
  - 16777216 < x1 < 16777216 -> - 16777216 < y1 < 16777216 ->
  x0 <= a0 -> y0 <= b0 -> a1 <= x1 -> b1 <= y1 ->
  Rect.contains (Rect.dyadic k a0 b0 a1 b1) p = true ->
  Rect.contains (Rect.dyadic k x0 y0 x1 y1) p = true.
Proof.
  intros ? ? ? ? ? ? ? ? ? ? ? ? (Hl & Hr & Ht & Hb)%contains_iff. apply contains_iff.
  unfold Rect.left, Rect.right, Rect.top, Rect.bottom, Rect.dyadic in *.
  cbn [Rect.min Rect.max Pos2.x Pos2.y] in *.
  repeat split;
    [ eapply F32.leb_trans; [|exact Hl] | eapply F32.leb_trans; [exact Hr|]
    | eapply F32.leb_trans; [|exact Ht] | eapply F32.leb_trans; [exact Hb|] ];
    rewrite (dyadic_leb k Hk) by whole_side; apply Z.leb_le; lia.
Qed.

(** The width and the height of a rectangle at the origin. *)
Lemma size_dyadic (w h : Z) :
  - 2097152 <= w <= 2097152 -> - 2097152 <= h <= 2097152 ->
  Rect.width (Rect.dyadic k 0 0 w h) = F32.dyadic k w /\
  Rect.height (Rect.dyadic k 0 0 w h) = F32.dyadic k h.
Proof.
  intros. unfold Rect.width, Rect.height, Rect.dyadic. cbn [Rect.min Rect.max Pos2.x Pos2.y].
  places k Hk. now rewrite !Z.sub_0_r.
Qed.

Lemma expand_dyadic (x0 y0 x1 y1 : Z) a :
  - 12582912 <= x0 <= 12582912 -> - 12582912 <= y0 <= 12582912 ->
  - 12582912 <= x1 <= 12582912 -> - 12582912 <= y1 <= 12582912 ->
  - 4194304 <= a <= 4194304 ->
  Rect.expand (Rect.dyadic k x0 y0 x1 y1) (F32.dyadic k a) =
  Rect.dyadic k (x0 - a) (y0 - a) (x1 + a) (y1 + a).
Proof.
  intros. unfold Rect.expand, Rect.expand2, Rect.dyadic, Vec2.splat, Pos2.add, Pos2.sub.
  cbn. now places k Hk.
Qed.

(** A translation rebuilds the far corner from the size: on these numbers
    nothing is lost. *)
Lemma translate_dyadic (x0 y0 x1 y1 : Z) dx dy :
  - 6291456 <= x0 <= 6291456 -> - 6291456 <= y0 <= 6291456 ->
  - 6291456 <= x1 <= 6291456 -> - 6291456 <= y1 <= 6291456 ->
  - 2097152 <= dx <= 2097152 -> - 2097152 <= dy <= 2097152 ->
  Rect.translate (Rect.dyadic k x0 y0 x1 y1) (Vec2.new (F32.dyadic k dx) (F32.dyadic k dy)) =
  Rect.dyadic k (x0 + dx) (y0 + dy) (x1 + dx) (y1 + dy).
Proof.
  intros. unfold Rect.translate, Rect.from_min_size, Rect.size, Rect.dyadic,
    Pos2.add, Pos2.diff.
  cbn. places k Hk.
  replace (x0 + dx + (x1 - x0)) with (x1 + dx) by lia.
  now replace (y0 + dy + (y1 - y0)) with (y1 + dy) by lia.
Qed.

(** The shadow of a rectangle, and how far it reaches. *)
Lemma shadow_dyadic (s : Shadow.t) (x0 y0 x1 y1 : Z) dx dy bl sp :
  Shadow.offset s = Vec2.new (F32.dyadic k dx) (F32.dyadic k dy) ->
  Shadow.blur s = F32.dyadic k bl -> Shadow.spread s = F32.dyadic k sp ->
  - 6291456 <= x0 <= 6291456 -> - 6291456 <= y0 <= 6291456 ->
  - 6291456 <= x1 <= 6291456 -> - 6291456 <= y1 <= 6291456 ->
  forallb small [dx; dy; bl; sp] = true ->
  Painting.shadow_rect s (Rect.dyadic k x0 y0 x1 y1) =
    Rect.dyadic k (x0 + dx - sp) (y0 + dy - sp) (x1 + dx + sp) (y1 + dy + sp) /\
  Painting.shadow_reach s (Rect.dyadic k x0 y0 x1 y1) =
    Rect.dyadic k (x0 + dx - sp - bl) (y0 + dy - sp - bl)
      (x1 + dx + sp + bl) (y1 + dy + sp + bl).
Proof.
  intros Ho Hb Hs ? ? ? ? Hsmall. cbn [forallb] in Hsmall. bool_hyps.
  small_bounds.
  unfold Painting.shadow_reach, Painting.shadow_rect. rewrite Ho, Hb, Hs.
  rewrite translate_dyadic, !expand_dyadic by lia. split; reflexivity.
Qed.

End PlacesOfRectangles.

(** ** What [show] hands over *)

Section PanelFacts.
Implicit Types (self : CustomFrame.t) (v : UiView.t).

(** The view rectangle of a clip rectangle at the origin is that rectangle
    without a margin of the shadow width: moving it to the origin changes
    nothing, whatever the floats are. *)
Lemma view_rect_origin (size : Vec2.t) (sw : F32.t) :
  CustomFrame.view_rect (Rect.from_min_size Pos2.ZERO size) sw =
  Rect.sub_margin (Rect.from_min_size Pos2.ZERO size) (Margin.same sw).
Proof.
  unfold CustomFrame.view_rect, Rect.shrink, Rect.shrink2, Rect.sub_margin,
    Rect.from_min_size, Rect.width, Rect.height, Pos2.add, Pos2.sub, Vec2.splat,
    Margin.left_top, Margin.right_bottom, Margin.same, Pos2.ZERO.
  cbn [Rect.min Rect.max Pos2.x Pos2.y Vec2.x Vec2.y Margin.left Margin.right
       Margin.top Margin.bottom].
  now rewrite !F32.add_zero_sub_zero, !F32.add_zero_idem.
Qed.

(** The body of the panel and its shadow, on numbers with [k] binary
    places, in a window of [w] by [h]. *)
Lemma painted_dyadic (k : Z) self v (bl sp dx dy w h : Z) :
  0 <= k <= 149 ->
  Shadow.offset (CustomFrame.f_shadow self) = Vec2.new (F32.dyadic k dx) (F32.dyadic k dy) ->
  Shadow.blur (CustomFrame.f_shadow self) = F32.dyadic k bl ->
  Shadow.spread (CustomFrame.f_shadow self) = F32.dyadic k sp ->
  UiView.clip_rect v = Rect.dyadic k 0 0 w h ->
  forallb small [dx; dy; bl; sp; w; h] = true ->
  let body := Painting.body (Painting.panel self v) (UiView.clip_rect v) in
  let shadow := Frame.shadow (Painting.panel self v) in
  if CustomFrame.is_maximized v
  then body = Rect.dyadic k 0 0 w h /\
       Painting.shadow_rect shadow body = Rect.dyadic k 0 0 w h /\
       Painting.shadow_reach shadow body = Rect.dyadic k 0 0 w h
  else body = Rect.dyadic k (bl + sp) (bl + sp) (w - (bl + sp)) (h - (bl + sp)) /\
       Painting.shadow_rect shadow body =
         Rect.dyadic k (bl + dx) (bl + dy) (w - bl + dx) (h - bl + dy) /\
       Painting.shadow_reach shadow body = Rect.dyadic k dx dy (w + dx) (h + dy).
Proof.
  intros Hk Ho Hb Hs Hclip Hsmall. cbv zeta.
  pose proof Hsmall as Hall. cbn [forallb] in Hall. bool_hyps.
  small_bounds.
  unfold Painting.body, Painting.panel, CustomFrame.panel_frame.
  cbn [Frame.outer_margin Frame.shadow].
  rewrite Hclip, (shadow_width_dyadic k Hk self _ bl sp) by (try assumption; apply Z.leb_le; lia).
  rewrite (sub_margin_same_dyadic k Hk) by (destruct (CustomFrame.is_maximized v); lia).
  destruct (CustomFrame.is_maximized v).
  - destruct (shadow_dyadic k Hk Shadow.NONE (0 + 0) (0 + 0) (w - 0) (h - 0) 0 0 0 0)
      as [-> ->]; rewrite ?F32.dyadic_0; try reflexivity; try lia.
    repeat split; f_equal; lia.
  - destruct (shadow_dyadic k Hk (CustomFrame.f_shadow self)
                (0 + (bl + sp)) (0 + (bl + sp)) (w - (bl + sp)) (h - (bl + sp))
                dx dy bl sp) as [-> ->]; try assumption; try lia.
    + cbn [forallb]. bool_goal; try reflexivity; apply Z.leb_le; lia.
    + repeat split; f_equal; lia.
Qed.

(** The content rectangle and the core of a style whose numbers have [k]
    binary places. *)
Lemma content_dyadic (k : Z) self v (l r t b il ir it ib bl sp w h : Z) :
  0 <= k <= 149 ->
  CustomFrame.f_sizebox self =
    Margin.mk (F32.dyadic k l) (F32.dyadic k r) (F32.dyadic k t) (F32.dyadic k b) ->
  CustomFrame.f_inner_margin self =
    Margin.mk (F32.dyadic k il) (F32.dyadic k ir) (F32.dyadic k it) (F32.dyadic k ib) ->
  Shadow.blur (CustomFrame.f_shadow self) = F32.dyadic k bl ->
  Shadow.spread (CustomFrame.f_shadow self) = F32.dyadic k sp ->
  UiView.clip_rect v = Rect.dyadic k 0 0 w h ->
  forallb small [l; r; t; b; il; ir; it; ib; bl; sp; w; h] = true ->
  let s := if CustomFrame.is_maximized v then 0 else bl + sp in
  Painting.content (Painting.panel self v) (UiView.clip_rect v) =
    Rect.dyadic k (s + il) (s + it) (w - s - ir) (h - s - ib) /\
  g_core (regions self v) = Rect.dyadic k (s + l) (s + t) (w - s - r) (h - s - b).
Proof.
  intros Hk Hm Hi Hb Hs Hclip Hsmall. cbv zeta.
  pose proof Hsmall as Hall. cbn [forallb] in Hall. bool_hyps.
  destruct (regions_dyadic k Hk self v l r t b bl sp w h) as [_ ->]; try assumption.
  { rewrite Hclip. apply (size_dyadic k Hk); now apply small_bound. }
  { rewrite Hclip. apply (size_dyadic k Hk); now apply small_bound. }
  { cbn [forallb]. now bool_goal. }
  small_bounds.
  split; [|reflexivity].
  unfold Painting.content, Painting.body, Painting.panel, CustomFrame.panel_frame.
  cbn [Frame.outer_margin Frame.inner_margin].
  rewrite Hclip, Hi, (shadow_width_dyadic k Hk self _ bl sp)
    by (try assumption; apply Z.leb_le; lia).
  set (s := if CustomFrame.is_maximized v then 0 else bl + sp).
  assert (- 4194304 <= s <= 4194304) by (unfold s; destruct (CustomFrame.is_maximized v); lia).
  rewrite (sub_margin_same_dyadic k Hk), (sub_margin_dyadic k Hk) by lia.
  f_equal; lia.
Qed.

End PanelFacts.

(** ** Theorems *)

Section PaintingTheorems.
Implicit Types (self : CustomFrame.t) (v : UiView.t).

(** C12 (equivalence).  The rectangle whose border [show] makes the resize
    ring is the rectangle egui paints the panel in: in a panel whose clip
    rectangle starts at the origin, as the screen rectangle of a window
    does, the view rectangle [show] computes from the size of the clip
    rectangle is the clip rectangle without the outer margin of the panel
    specification, for every style and every float, NaN and infinities
    included. *)
Theorem view_rect_is_painted_body self v (size : Vec2.t) :
  UiView.clip_rect v = Rect.from_min_size Pos2.ZERO size ->
  g_view (regions self v) = Painting.body (Painting.panel self v) (UiView.clip_rect v).
Proof.
  intros Hclip. cbn [regions g_view]. rewrite Hclip. apply view_rect_origin.
Qed.

(** C23 (bounds).  The gutter is what the shadow needs: for a style whose
    shadow has no offset, on numbers with [k] binary places, the shadow of
    the panel body grown by its blur is the window's rectangle exactly, so
    nothing of the shadow is painted outside the window; in a maximized
    window body and shadow are the window's rectangle itself. *)
Theorem shadow_within_bounds (k : Z) self v (bl sp w h : Z) :
  0 <= k <= 149 ->
  Shadow.offset (CustomFrame.f_shadow self) = Vec2.ZERO ->
  Shadow.blur (CustomFrame.f_shadow self) = F32.dyadic k bl ->
  Shadow.spread (CustomFrame.f_shadow self) = F32.dyadic k sp ->
  UiView.clip_rect v = Rect.dyadic k 0 0 w h ->
  forallb small [bl; sp; w; h] = true -> 0 <= w -> 0 <= h ->
  let body := Painting.body (Painting.panel self v) (UiView.clip_rect v) in
  let reach := Painting.shadow_reach (Frame.shadow (Painting.panel self v)) body in
  reach = UiView.clip_rect v /\
  Rect.contains_rect (UiView.clip_rect v) reach = true /\
  (CustomFrame.is_maximized v = true -> body = UiView.clip_rect v).
Proof.
  intros Hk Ho Hb Hs Hclip Hsmall Hw Hh. cbv zeta.
  assert (Ho' : Shadow.offset (CustomFrame.f_shadow self) =
                Vec2.new (F32.dyadic k 0) (F32.dyadic k 0))
    by now rewrite Ho, F32.dyadic_0.
  pose proof (painted_dyadic k self v bl sp 0 0 w h Hk Ho' Hb Hs Hclip Hsmall) as Hp.
  cbv zeta in Hp. cbn [forallb] in Hsmall. bool_hyps.
  small_bounds.
  assert (Hreach : Painting.shadow_reach (Frame.shadow (Painting.panel self v))
                     (Painting.body (Painting.panel self v) (UiView.clip_rect v)) =
                   Rect.dyadic k 0 0 w h).
  { destruct (CustomFrame.is_maximized v); destruct Hp as (_ & _ & ->);
      [reflexivity | f_equal; lia]. }
  rewrite Hreach. rewrite Hclip in Hp |- *. repeat split.
  - rewrite (contains_rect_dyadic k Hk) by lia. bool_goal; apply Z.leb_le; lia.
  - intros Hm. rewrite Hm in Hp. now destruct Hp as (-> & _).
Qed.

(** C38 (functional).  The gutter does not count the offset: for a style
    whose shadow is moved by more than its blur along an axis, in a window
    that is not maximized, the shadow egui paints behind the panel is not
    within the window's rectangle. *)
Theorem shadow_offset_leaves_bounds (k : Z) self v (bl sp dx dy w h : Z) :
  0 <= k <= 149 ->
  Shadow.offset (CustomFrame.f_shadow self) = Vec2.new (F32.dyadic k dx) (F32.dyadic k dy) ->
  Shadow.blur (CustomFrame.f_shadow self) = F32.dyadic k bl ->
  Shadow.spread (CustomFrame.f_shadow self) = F32.dyadic k sp ->
  UiView.clip_rect v = Rect.dyadic k 0 0 w h ->
  forallb small [dx; dy; bl; sp; w; h] = true ->
  CustomFrame.is_maximized v = false ->
  bl < Z.abs dx \/ bl < Z.abs dy ->
  let body := Painting.body (Painting.panel self v) (UiView.clip_rect v) in
  Rect.contains_rect (UiView.clip_rect v)
    (Painting.shadow_rect (Frame.shadow (Painting.panel self v)) body) = false.
Proof.
  intros Hk Ho Hb Hs Hclip Hsmall Hm Hfar. cbv zeta.
  pose proof (painted_dyadic k self v bl sp dx dy w h Hk Ho Hb Hs Hclip Hsmall) as Hp.
  cbv zeta in Hp. rewrite Hm in Hp. destruct Hp as (_ & -> & _). rewrite Hclip.
  cbn [forallb] in Hsmall. bool_hyps.
  small_bounds.
  rewrite (contains_rect_dyadic k Hk) by lia.
  apply not_true_is_false. intros Hin. bool_hyps.
  repeat match goal with H : (_ <=? _) = true |- _ => apply Z.leb_le in H end. lia.
Qed.

(** C19 (safety).  The content stays clear of the resize ring: for a style
    whose inner margin is not smaller than its resize margin on any side
    (as the Default one, 10 against 4), on numbers with [k] binary places,
    every point of the rectangle the content is laid out in is a point of
    the core, whatever floats its coordinates are, so with the pointer on
    the content [show] registers no resize region. *)
Theorem content_clear_of_ring (k : Z) self v (l r t b il ir it ib bl sp w h : Z) :
  0 <= k <= 149 ->
  CustomFrame.f_sizebox self =
    Margin.mk (F32.dyadic k l) (F32.dyadic k r) (F32.dyadic k t) (F32.dyadic k b) ->
  CustomFrame.f_inner_margin self =
    Margin.mk (F32.dyadic k il) (F32.dyadic k ir) (F32.dyadic k it) (F32.dyadic k ib) ->
  Shadow.blur (CustomFrame.f_shadow self) = F32.dyadic k bl ->
  Shadow.spread (CustomFrame.f_shadow self) = F32.dyadic k sp ->
  UiView.clip_rect v = Rect.dyadic k 0 0 w h ->
  forallb small [l; r; t; b; il; ir; it; ib; bl; sp; w; h] = true ->
  l <= il -> r <= ir -> t <= it -> b <= ib ->
  let g := regions self v in
  let content := Painting.content (Painting.panel self v) (UiView.clip_rect v) in
  (forall p, Rect.contains content p = true -> Rect.contains (g_core g) p = true) /\
  (Rect.contains content (g_pos g) = true -> sizebox_live g = false).
Proof.
  intros Hk Hm Hi Hb Hs Hclip Hsmall Hl Hr Ht Hbo. cbv zeta.
  destruct (content_dyadic k self v l r t b il ir it ib bl sp w h) as [Ec Ek];
    try assumption.
  cbv zeta in Ec, Ek. cbn [forallb] in Hsmall. bool_hyps.
  small_bounds.
  assert (Hin : forall p,
             Rect.contains (Painting.content (Painting.panel self v) (UiView.clip_rect v)) p
               = true ->
             Rect.contains (g_core (regions self v)) p = true).
  { intros p. rewrite Ec, Ek. apply (contains_dyadic_mono k Hk);
      destruct (CustomFrame.is_maximized v); lia. }
  split; [exact Hin|].
  intros Hp%Hin. unfold sizebox_live, resize_active. rewrite Hp.
  now rewrite andb_false_r.
Qed.

End PaintingTheorems.
