(* ===== verification/ExampleApp.v ===== *)
(** * ExampleApp: the program of [examples/custom_frame.rs]

    The example is a window without decorations whose whole client area is
    the caption of a [CustomFrame]; its content is a heading and a button
    that closes the window.

    - [TestApp.t], [TestApp.new]: the application and its constructor, which
      sets the caption to (0,0)-(f32::MAX,f32::MAX);
    - [TestApp.content]: the closure given to [show];
    - [TestApp.update], [TestApp.clear_color] and the instance [test_app]:
      [impl eframe::App for TestApp];
    - [main_options], [app_creator] and [main]: the options, the creator
      closure and the call of [run_native], over a list of inputs, with the
      [Result] it returns; [main_loop]: the same call over an unbounded
      session, which returns when the window is closed.

    The theorems say what one [update] does to a context (the frame, then a
    heading, a button and [Close] if the button reports a click), that the
    caption of this application is its core, so that every place of the
    window either resizes or drags it, and, over whole runs of [main], that
    [main] fails exactly when the window system gives no window, that
    a resize is only ever begun on a window that is not maximized, that the
    window keeps its size until a resize is begun, that a
    click on the button ends the run and nothing else does, and that a
    double click on the caption toggles the maximized state, so that two of
    them give the window back. *)

From stdpp Require Import base decidable list relations.
From Stdlib Require Import Bool ZArith String Lia.
From S2P Require Import Prelude F32 Units FloatArith Geometry Host CustomFrame Zones Nesting ShowSpec Eframe.

Local Open Scope state_scope.

Module TestApp.

Record t : Type := mk { tip : string; frame : CustomFrame.t }.

(** [TestApp::new]: the default frame with the whole window as caption.
    The creation context is not looked at. *)
Definition new (_cc : CreationContext.t) : t :=
  mk "This window is for testing a custom frame window."%string
     (CustomFrame.caption CustomFrame.default
        (Rect.from_min_max
           (Pos2.new (F32.of_Z 0) (F32.of_Z 0))
           (Pos2.new F32.MAX F32.MAX))).

(** [clear_color]: nothing is painted behind the rounded corners and the
    shadow. *)
Definition clear_color (self : t) : F32.t * F32.t * F32.t * F32.t :=
  Rgba.to_array Rgba.TRANSPARENT.

Section Update.
Context {U : Type} `{Widgets U}.

(** The closure given to [show]. *)
Definition content (self : t) : State U unit :=
  heading (tip self) ;;
  close <- button "Close"%string ;;
  when (Response.clicked close) (send_viewport_cmd Close).

(** Display contents in the custom frame *)
Definition update (self : t) : State U t :=
  CustomFrame.show (frame self) (content self) ;;
  ret self.

End Update.

End TestApp.

#[global] Instance test_app : App TestApp.t := {
  update U HH HW := TestApp.update;
  clear_color := TestApp.clear_color
}.

(** The options of [main]: 320 by 120, no decorations, transparent. *)
Definition main_options : NativeOptions.t :=
  NativeOptions.mk
    (ViewportBuilder.with_transparent
       (ViewportBuilder.with_decorations
          (ViewportBuilder.with_inner_size ViewportBuilder.default
             (Vec2.new (F32.of_Z 320) (F32.of_Z 120)))
          false)
       true).

(** The creator [main] gives [run_native]: it makes the test application
    and never fails. *)
Definition app_creator : AppCreator TestApp.t :=
  fun cc => Ok (TestApp.new cc).

(** [main]: the run of the test application on a platform, over the inputs
    of the session.  It returns what [run_native] does: an error if the
    run could not start, [Ok] when the loop has ended. *)
Definition main (p : Platform.t) (inputs : list Input.t)
    : Result (TestApp.t * Window.t) Error.t :=
  run_native p "Custom Frame Test"%string main_options app_creator inputs.

(** [main] as the program runs it: until the window is closed, on [fuel]
    frames at most. *)
Definition main_loop (fuel : nat) (p : Platform.t) (inputs : nat -> Input.t)
    : option (Result (TestApp.t * Window.t * nat) Error.t) :=
  run_native_until_closed fuel p "Custom Frame Test"%string main_options
    app_creator inputs.

(** The application [main] runs: the one its creator makes. *)
Definition started_app : TestApp.t := TestApp.new CreationContext.mk.

(** The input of a frame reports a click on the Close button. *)
Definition clicks_close (i : Input.t) : bool :=
  Response.clicked
    (Input.respond i (Id.new "Close"%string) (Input.place i "Close"%string) Sense.click).

(** ** What the context answers to the content *)

Section ContentAnswers.
Context {U : Type} `{Widgets U}.

(** The context when the content starts, when the button is shown, and what
    the button answers. *)
Definition before_content (self : TestApp.t) (u : U) : U :=
  exec (CustomFrame.show (TestApp.frame self) (ret tt)) u.

Definition before_button (self : TestApp.t) (u : U) : U :=
  exec (heading (TestApp.tip self)) (before_content self u).

Definition close_answer (self : TestApp.t) (u : U) : Response.t :=
  eval (button "Close"%string) (before_button self u).

(** The regions of the content. *)
Definition content_widgets (self : TestApp.t) (u : U) : list Widget :=
  [ (Id.new (TestApp.tip self), placed (before_content self u) (TestApp.tip self),
     Sense.hover);
    (Id.new "Close"%string, placed (before_button self u) "Close"%string,
     Sense.click) ].

(** The commands of the content. *)
Definition content_cmds (close : Response.t) : list ViewportCommand :=
  if Response.clicked close then [Close] else [].

End ContentAnswers.

(** The commands of one [update]: those of the frame, then the content's. *)
Definition update_cmds (g : Regions) (rs rc close : Response.t) : list ViewportCommand :=
  frame_cmds g rs rc ++ content_cmds close.

(** The frame's regions, as the window and the input determine them. *)
Definition frame_regions (self : TestApp.t) (w : Window.t) (i : Input.t) : Regions :=
  regions (TestApp.frame self) (view (context w i)).

(** The operations a frame begins, and whether it toggles the maximized
    flag. *)
Definition frame_ops (g : Regions) (rs rc : Response.t) : list Operation :=
  (if sizebox_live g && Response.drag_started rs
   then match resize_direction (g_pos g) (g_core g) with
        | Some d => [Resize d]
        | None => []
        end
   else []) ++
  (if caption_live g && Response.drag_started rc then [Drag] else []).

Definition frame_toggles (g : Regions) (rc : Response.t) : bool :=
  caption_live g && Response.double_clicked rc.

(** A frame that only toggles: the double click is on the live caption,
    no drag starts, Close is not clicked and the window manager does not
    resize the window. *)
Definition toggles_only (self : TestApp.t) (w : Window.t) (i : Input.t) : bool :=
  let g := frame_regions self w i in
  let u := context w i in
  let rs := sizebox_answer (TestApp.frame self) u in
  let rc := caption_answer (TestApp.frame self) u in
  frame_toggles g rc &&
  match frame_ops g rs rc with [] => true | _ :: _ => false end &&
  negb (clicks_close i) &&
  match Input.resized i with None => true | Some _ => false end.

(** ** Lemmas *)

Section UpdateSteps.
Context {U : Type} `{WidgetLaws U}.
Implicit Types (u : U) (self : TestApp.t).

(** What the content does to the view. *)
Lemma view_content self u :
  view (exec (TestApp.content self) u) =
  UiView.extend (view u) (UiView.cursor_icon (view u))
    (content_cmds (eval (button "Close"%string) (exec (heading (TestApp.tip self)) u)))
    [ (Id.new (TestApp.tip self), placed u (TestApp.tip self), Sense.hover);
      (Id.new "Close"%string, placed (exec (heading (TestApp.tip self)) u) "Close"%string,
       Sense.click) ]
    [].
Proof.
  unfold TestApp.content, content_cmds. autorewrite with frame.
  destruct (Response.clicked _); host_simpl; reflexivity.
Qed.

(** What one [update] does to the view. *)
Lemma view_update self u :
  let v1 := frame_view (TestApp.frame self)
              (sizebox_answer (TestApp.frame self) u)
              (caption_answer (TestApp.frame self) u) (view u) in
  view (exec (TestApp.update self) u) =
  UiView.extend v1 (UiView.cursor_icon v1) (content_cmds (close_answer self u))
    (content_widgets self u) [].
Proof.
  cbv zeta. unfold TestApp.update. autorewrite with frame.
  rewrite exec_show, view_content, view_show_frame. reflexivity.
Qed.

(** [update] returns the application as it was. *)
Lemma update_keeps_self self u : eval (TestApp.update self) u = self.
Proof. unfold TestApp.update. now autorewrite with frame. Qed.

End UpdateSteps.

(** ** The caption of the example *)

Section ExampleRegions.
Implicit Types (v : UiView.t) (p : Pos2.t).

(** The caption the example configures, moved by the shadow: from the
    shadow's width to [f32::MAX], which the addition does not exceed. *)
Lemma example_caption_translated (cc : CreationContext.t) (m : bool) :
  let sw := CustomFrame.shadow_width (TestApp.frame (TestApp.new cc)) m in
  Rect.translate (CustomFrame.f_caption (TestApp.frame (TestApp.new cc))) (Vec2.new sw sw) =
  Rect.from_min_max (Pos2.new sw sw) (Pos2.new F32.MAX F32.MAX).
Proof. destruct m; vm_compute; reflexivity. Qed.

(** The near corner of the example's core does not depend on the window. *)
Lemma example_core_min (cc : CreationContext.t) v :
  let g := regions (TestApp.frame (TestApp.new cc)) v in
  Rect.min (g_core g) =
  if g_maximized g then Pos2.new (F32.of_Z 4) (F32.of_Z 4)
  else Pos2.new (F32.of_Z 24) (F32.of_Z 24).
Proof.
  cbv zeta. cbn [regions g_core g_maximized].
  destruct (CustomFrame.is_maximized v); vm_compute; reflexivity.
Qed.

(** A point of the core that is not beyond [f32::MAX] is in the caption. *)
Lemma example_core_in_caption (cc : CreationContext.t) v p :
  let g := regions (TestApp.frame (TestApp.new cc)) v in
  Rect.contains (g_core g) p = true ->
  (Pos2.x p <=? F32.MAX)%f32 = true -> (Pos2.y p <=? F32.MAX)%f32 = true ->
  Rect.contains (g_caption g) p = true.
Proof.
  cbv zeta. intros Hcore Hx Hy.
  pose proof (example_core_min cc v) as Hmin. cbv zeta in Hmin.
  pose proof (contains_no_nan _ _ Hcore) as [_ Hnan].
  cbn [regions g_core g_caption g_maximized] in *.
  unfold CustomFrame.caption_rect.
  rewrite (example_caption_translated cc).
  rewrite contains_intersect; [|destruct (CustomFrame.is_maximized v); reflexivity|exact Hnan].
  rewrite Hcore, andb_true_r.
  apply contains_iff in Hcore. destruct Hcore as (Hl & _ & Ht & _).
  unfold Rect.left, Rect.top in Hl, Ht. rewrite Hmin in Hl, Ht.
  apply contains_iff. unfold Rect.left, Rect.right, Rect.top, Rect.bottom.
  cbn [Rect.min Rect.max Pos2.x Pos2.y].
  destruct (CustomFrame.is_maximized v); cbn [Pos2.x Pos2.y] in Hl, Ht;
    (repeat split; [ eapply F32.leb_trans; [|exact Hl]; vm_compute; reflexivity
                   | exact Hx
                   | eapply F32.leb_trans; [|exact Ht]; vm_compute; reflexivity
                   | exact Hy ]).
Qed.

(** The regions of the example in a window of whole width and height: the
    view rectangle and the core are the ones the integers give, and the
    caption is the core. *)
Lemma example_regions_whole (cc : CreationContext.t) v (W H : Z) :
  Rect.width (UiView.clip_rect v) = F32.of_Z W ->
  Rect.height (UiView.clip_rect v) = F32.of_Z H ->
  small W = true -> small H = true ->
  let g := regions (TestApp.frame (TestApp.new cc)) v in
  let s := (if CustomFrame.is_maximized v then 0 else 20)%Z in
  g_view g = Rect.of_Z s s (W - s) (H - s) /\
  g_core g = Rect.of_Z (s + 4) (s + 4) (W - s - 4) (H - s - 4) /\
  g_caption g = g_core g.
Proof.
  intros HW HH SW SH. cbv zeta.
  destruct (regions_whole (TestApp.frame (TestApp.new cc)) v 4 4 4 4 18 2 W H) as [Ev Ec];
    try assumption; try reflexivity.
  { cbn [forallb]. now rewrite SW, SH. }
  cbv zeta in Ev, Ec. change (18 + 2)%Z with 20%Z in Ev, Ec.
  split; [exact Ev|split; [exact Ec|]].
  change (g_caption (regions (TestApp.frame (TestApp.new cc)) v)) with
    (CustomFrame.caption_rect (TestApp.frame (TestApp.new cc))
       (CustomFrame.shadow_width (TestApp.frame (TestApp.new cc)) (CustomFrame.is_maximized v))
       (g_core (regions (TestApp.frame (TestApp.new cc)) v))).
  unfold CustomFrame.caption_rect. rewrite (example_caption_translated cc), Ec.
  apply small_bound in SW, SH.
  rewrite (shadow_width_whole _ _ 18 2) by reflexivity. change (18 + 2)%Z with 20%Z.
  set (s := (if CustomFrame.is_maximized v then 0 else 20)%Z).
  assert (Hs : (0 <= s <= 20)%Z) by (unfold s; destruct (CustomFrame.is_maximized v); lia).
  unfold Rect.intersect, Rect.of_Z, Pos2.max, Pos2.min.
  cbn [Rect.min Rect.max Pos2.x Pos2.y].
  rewrite !min_MAX by whole_side. whole.
  rewrite !Z.max_r by lia. reflexivity.
Qed.

End ExampleRegions.

(** ** One frame of the example *)

Section ExampleFrame.
Implicit Types (self : TestApp.t) (w : Window.t) (i : Input.t) (u : SimpleUi.t).

(** In the least context the answers are those the context was made with. *)
Lemma simple_sizebox_answer (f : CustomFrame.t) u :
  sizebox_answer f u =
  SimpleUi.respond u CustomFrame.sizebox_id (g_view (regions f (view u))) Sense.drag.
Proof. reflexivity. Qed.

Lemma simple_caption_answer (f : CustomFrame.t) u :
  caption_answer f u =
  SimpleUi.respond u CustomFrame.caption_id (g_caption (regions f (view u)))
    Sense.click_and_drag.
Proof. unfold caption_answer. destruct (sizebox_live _); reflexivity. Qed.

Lemma simple_before_button self u : same_answers u (before_button self u).
Proof.
  unfold before_button, before_content.
  eapply same_answers_trans; [apply (keeps_show (TestApp.frame self) (ret tt)), keeps_ret | apply keeps_heading].
Qed.

Lemma simple_close_answer self u :
  close_answer self u =
  SimpleUi.respond u (Id.new "Close"%string) (SimpleUi.place u "Close"%string) Sense.click.
Proof.
  destruct (simple_before_button self u) as (Hr & Hp & _).
  transitivity
    (SimpleUi.respond (before_button self u) (Id.new "Close"%string)
       (SimpleUi.place (before_button self u) "Close"%string) Sense.click);
    [reflexivity | now rewrite Hr, Hp].
Qed.

(** One frame applies the commands of one [update] to the window, and the
    window manager then resizes it. *)
Lemma run_frame_example self w i :
  let u := context w i in
  run_frame self w i =
  (self,
   Window.settle (Input.resized i)
     (apply_all
        (update_cmds (frame_regions self w i)
           (sizebox_answer (TestApp.frame self) u)
           (caption_answer (TestApp.frame self) u)
           (close_answer self u))
        w)).
Proof.
  cbv zeta. unfold run_frame. f_equal; [apply update_keeps_self|].
  change (snd (update self (context w i))) with (exec (TestApp.update self) (context w i)).
  rewrite view_update. reflexivity.
Qed.

(** The commands of one [update] are [queue_ok]: a resize comes first in
    the queue, and only from a frame that saw the window not maximized. *)
Lemma update_cmds_ok g rs rc close :
  queue_ok (g_maximized g) (update_cmds g rs rc close) = true.
Proof.
  unfold update_cmds, frame_cmds, resize_cmds, caption_cmds, content_cmds.
  destruct (g_maximized g) eqn:Hm.
  - rewrite (sizebox_live_maximized g Hm).
    destruct (caption_live g), (Response.drag_started rc),
      (Response.double_clicked rc), (Response.clicked close); reflexivity.
  - destruct (sizebox_live g), (caption_live g),
      (resize_direction (g_pos g) (g_core g)), (Response.drag_started rs),
      (Response.drag_started rc), (Response.double_clicked rc),
      (Response.clicked close); reflexivity.
Qed.

(** What one frame does to the window. *)
Lemma run_frame_example_window self w i :
  let g := frame_regions self w i in
  let u := context w i in
  let rs := sizebox_answer (TestApp.frame self) u in
  let rc := caption_answer (TestApp.frame self) u in
  snd (run_frame self w i) =
  Window.settle (Input.resized i)
    (Window.mk (Window.monitor w) (Window.inner_size w) (Window.decorations w)
       (Window.transparent w)
       (xorb (Window.maximized w) (frame_toggles g rc))
       (Window.open w && negb (Response.clicked (close_answer self u)))
       (Window.begun w ++ map (pair (Window.maximized w)) (frame_ops g rs rc))).
Proof.
  cbv zeta. rewrite run_frame_example. cbn [snd]. f_equal.
  unfold update_cmds, frame_cmds, resize_cmds, caption_cmds, content_cmds,
    frame_toggles, frame_ops.
  change (g_maximized (frame_regions self w i)) with (Window.maximized w).
  destruct w as [mon size dec tr m o log].
  cbn [Window.maximized Window.monitor Window.inner_size Window.decorations
       Window.transparent Window.open Window.begun].
  destruct (sizebox_live _), (caption_live _), (resize_direction _ _),
    (Response.drag_started (sizebox_answer _ _)),
    (Response.drag_started (caption_answer _ _)),
    (Response.double_clicked (caption_answer _ _)),
    (Response.clicked (close_answer _ _)), m, o;
    cbn [app map andb negb xorb]; unfold apply_all; cbn [fold_left apply];
    unfold Window.begin, Window.set_maximized, Window.close;
    cbn [Window.maximized Window.monitor Window.inner_size Window.decorations
         Window.transparent Window.open Window.begun];
    rewrite <- ?app_assoc; cbn [app]; rewrite ?app_nil_r; reflexivity.
Qed.

(** A frame closes the window exactly when its input clicks on Close. *)
Lemma run_frame_open self w i :
  Window.open (snd (run_frame self w i)) = Window.open w && negb (clicks_close i).
Proof.
  rewrite run_frame_example_window.
  destruct (settle_fields (Input.resized i)
              (Window.mk (Window.monitor w) (Window.inner_size w) (Window.decorations w)
                 (Window.transparent w)
                 (xorb (Window.maximized w)
                    (frame_toggles (frame_regions self w i)
                       (caption_answer (TestApp.frame self) (context w i))))
                 (Window.open w && negb (Response.clicked (close_answer self (context w i))))
                 (Window.begun w ++
                  map (pair (Window.maximized w))
                    (frame_ops (frame_regions self w i)
                       (sizebox_answer (TestApp.frame self) (context w i))
                       (caption_answer (TestApp.frame self) (context w i))))))
    as (_ & _ & _ & _ & -> & _).
  cbn [Window.open]. now rewrite simple_close_answer.
Qed.

(** A frame without a click on Close leaves the window open; a run without
    one too. *)
Lemma run_stays_open self w (inputs : list Input.t) :
  Window.open w = true -> forallb (fun i => negb (clicks_close i)) inputs = true ->
  Window.open (snd (run self w inputs)) = true.
Proof.
  revert self w. induction inputs as [|i inputs IH]; intros self w Ho Hi; [exact Ho|].
  cbn in Hi. apply andb_true_iff in Hi as [Hi Hrest].
  rewrite run_cons, Ho. apply IH; [|exact Hrest].
  now rewrite run_frame_open, Ho, Hi.
Qed.

(** The first [n] frames of a session without a click on Close. *)
Lemma take_no_click n (inputs : nat -> Input.t) :
  (forall k, k < n -> clicks_close (inputs k) = false) ->
  forallb (fun i => negb (clicks_close i)) (take n inputs) = true.
Proof.
  intros Hk. unfold take. apply forallb_forall. intros i [k [<- Hin]]%in_map_iff.
  apply in_seq in Hin. rewrite Hk by lia. reflexivity.
Qed.

(** A click on Close in frame [n] leaves the window closed after [n + 1]
    frames, whatever happened before. *)
Lemma run_closed_after_click self w n (inputs : nat -> Input.t) :
  clicks_close (inputs n) = true ->
  Window.open (snd (run self w (take (S n) inputs))) = false.
Proof.
  intros Hclick. rewrite take_snoc, run_app.
  destruct (run self w (take n inputs)) as [self' w']. cbn [fst snd].
  destruct (Window.open w') eqn:Ho; [|now rewrite run_closed].
  rewrite run_cons, Ho, run_nil. cbn [snd].
  rewrite run_frame_open, Hclick. apply andb_false_r.
Qed.

(** A frame that only toggles changes the maximized flag and nothing
    else. *)
Lemma run_frame_toggles_only self w i :
  Window.open w = true -> toggles_only self w i = true ->
  run_frame self w i = (self, Window.set_maximized (negb (Window.maximized w)) w).
Proof.
  unfold toggles_only.
  intros Ho [[[Ht Hops]%andb_true_iff Hc%negb_true_iff]%andb_true_iff Hsame]%andb_true_iff.
  destruct (frame_ops _ _ _) eqn:Hnil; [clear Hops|discriminate].
  destruct (Input.resized i) eqn:Hsize; [discriminate|clear Hsame].
  rewrite (surjective_pairing (run_frame self w i)). f_equal.
  - now rewrite run_frame_example.
  - assert (Hclose : Response.clicked (close_answer self (context w i)) = false)
      by (rewrite simple_close_answer; exact Hc).
    rewrite run_frame_example_window, Hsize, settle_none, Ht, Hnil, Hclose.
    destruct w. cbn in Ho |- *. rewrite app_nil_r, xorb_true_r. now subst.
Qed.

(** The clip rectangle of a frame in a window of whole size that is not
    maximized. *)
Lemma context_clip_whole w i (W H : Z) :
  Window.maximized w = false ->
  Window.inner_size w = Vec2.new (F32.of_Z W) (F32.of_Z H) ->
  small W = true -> small H = true ->
  Rect.width (UiView.clip_rect (view (context w i))) = F32.of_Z W /\
  Rect.height (UiView.clip_rect (view (context w i))) = F32.of_Z H.
Proof.
  intros Hm Hsize SW%small_bound SH%small_bound.
  cbn [context view simple_host SimpleUi.the_view UiView.clip_rect].
  unfold Window.screen_rect. rewrite Hm, Hsize.
  unfold Rect.width, Rect.height, Rect.from_min_size, Pos2.add, Pos2.ZERO.
  cbn [Rect.min Rect.max Pos2.x Pos2.y Vec2.x Vec2.y]. whole.
  split; f_equal; lia.
Qed.

(** One frame keeps the log [resize_windowed]. *)
Lemma run_frame_windowed self w i :
  Forall resize_windowed (Window.begun w) ->
  Forall resize_windowed (Window.begun (snd (run_frame self w i))).
Proof.
  intros Hw. rewrite run_frame_example. cbn [snd].
  match goal with |- context [Window.settle ?size ?w0] =>
    destruct (settle_fields size w0) as (_ & _ & _ & _ & _ & ->) end.
  apply apply_all_windowed; [exact Hw|].
  change (Window.maximized w) with (g_maximized (frame_regions self w i)).
  apply update_cmds_ok.
Qed.

(** So does every run, by induction on the run. *)
Lemma reachable_windowed (s s' : TestApp.t * Window.t) :
  reachable s s' ->
  Forall resize_windowed (Window.begun (snd s)) ->
  Forall resize_windowed (Window.begun (snd s')).
Proof.
  apply (reachable_invariant (fun s => Forall resize_windowed (Window.begun (snd s)))).
  intros app w i _. apply run_frame_windowed.
Qed.

(** The example never changes the application value. *)
Lemma reachable_app (s s' : TestApp.t * Window.t) : reachable s s' -> fst s' = fst s.
Proof.
  intros Hr. refine (reachable_invariant (fun x => fst x = fst s) _ _ _ Hr eq_refl).
  intros app w i _ Happ. now rewrite run_frame_example.
Qed.

End ExampleFrame.

(** ** Theorems *)

Section UpdateTheorems.
Context {U : Type} `{WidgetLaws U}.
Implicit Types (u : U) (self : TestApp.t).

(** C25 (refinement).  One [update] of the example shows the frame, as
    [frame_view] says, then a heading and a button, and it sends [Close]
    after the frame's commands if the button reports a click; the
    application itself is left as it was. *)
Theorem update_shows_frame_then_content self u :
  let f := TestApp.frame self in
  let v1 := frame_view f (sizebox_answer f u) (caption_answer f u) (view u) in
  view (exec (TestApp.update self) u) =
    UiView.extend v1 (UiView.cursor_icon v1) (content_cmds (close_answer self u))
      (content_widgets self u) [] /\
  eval (TestApp.update self) u = self.
Proof. cbv zeta. split; [apply view_update | apply update_keeps_self]. Qed.

(** One [update] of the example sends [Close] exactly
    when the button reports a click. *)
Theorem update_closes_iff_clicked self u :
  exists cmds,
    UiView.viewport_cmds (view (exec (TestApp.update self) u)) =
      UiView.viewport_cmds (view u) ++ cmds /\
    (In Close cmds <-> Response.clicked (close_answer self u) = true).
Proof.
  rewrite view_update. cbv zeta. unfold frame_view.
  rewrite extend_extend. cbn [UiView.extend UiView.viewport_cmds].
  eexists. split; [reflexivity|].
  rewrite in_app_iff. unfold content_cmds.
  pose proof (frame_cmds_no_close (regions (TestApp.frame self) (view u))
                (sizebox_answer (TestApp.frame self) u)
                (caption_answer (TestApp.frame self) u)) as Hno.
  destruct (Response.clicked _); cbn; intuition discriminate.
Qed.

End UpdateTheorems.

(** ** The start of [main] *)

Section MainStarts.
Variable p : Platform.t.
Hypothesis Hp : Platform.failure p = None.

(** On a platform that gives a window, [main] is the loop on the test
    application. *)
Lemma main_starts (inputs : list Input.t) :
  run_native p "Custom Frame Test"%string main_options app_creator inputs =
  Ok (run started_app (Window.create p (NativeOptions.viewport main_options)) inputs).
Proof. now apply run_native_Ok. Qed.

Lemma main_loop_starts (fuel : nat) (session : nat -> Input.t) :
  run_native_until_closed fuel p "Custom Frame Test"%string main_options app_creator
    session =
  option_map Ok
    (event_loop fuel started_app
       (Window.create p (NativeOptions.viewport main_options)) session).
Proof. now apply run_native_until_closed_Ok. Qed.

End MainStarts.

Section ExampleTheorems.
Implicit Types (self : TestApp.t) (w : Window.t) (i : Input.t) (v : UiView.t).

(** C32 (functional).  In the example every place of the window either
    resizes or drags it: when the window is not maximized, the core is made
    of numbers and the pointer is in the view rectangle and not beyond
    [f32::MAX], exactly one of the resize ring and the caption is live, and
    the caption is live exactly on the core. *)
Theorem example_ring_or_caption (cc : CreationContext.t) v :
  let g := regions (TestApp.frame (TestApp.new cc)) v in
  g_maximized g = false ->
  Rect.has_nan (g_core g) = false ->
  Rect.contains (g_view g) (g_pos g) = true ->
  (Pos2.x (g_pos g) <=? F32.MAX)%f32 = true ->
  (Pos2.y (g_pos g) <=? F32.MAX)%f32 = true ->
  caption_live g = Rect.contains (g_core g) (g_pos g) /\
  sizebox_live g = negb (caption_live g).
Proof.
  cbv zeta. intros Hm Hnan Hview Hx Hy.
  assert (Hc : caption_live (regions (TestApp.frame (TestApp.new cc)) v) =
               Rect.contains (g_core (regions (TestApp.frame (TestApp.new cc)) v))
                 (g_pos (regions (TestApp.frame (TestApp.new cc)) v))).
  { unfold caption_live.
    destruct (Rect.contains (g_core _) _) eqn:Hcore.
    - now apply example_core_in_caption.
    - destruct (Rect.contains (g_caption _) _) eqn:Hcap; [|reflexivity].
      apply caption_in_core in Hcap; [congruence | exact Hnan]. }
  split; [exact Hc|].
  rewrite Hc. unfold sizebox_live, resize_active. rewrite Hview, Hm.
  now destruct (Rect.contains (g_core _) _).
Qed.

(** C26 (functional).  What one frame of the example does to the window:
    the maximized flag is toggled exactly by a double click on the live
    caption, the window is closed exactly by a click on the button, the log
    gains the operations the frame began, each with the maximized flag the
    frame saw, the window manager then resizes the window if it is being
    resized, and nothing else changes. *)
Theorem run_frame_window self w i :
  let g := frame_regions self w i in
  let u := context w i in
  let rs := sizebox_answer (TestApp.frame self) u in
  let rc := caption_answer (TestApp.frame self) u in
  snd (run_frame self w i) =
  Window.settle (Input.resized i)
    (Window.mk (Window.monitor w) (Window.inner_size w) (Window.decorations w)
       (Window.transparent w)
       (xorb (Window.maximized w) (frame_toggles g rc))
       (Window.open w && negb (Response.clicked (close_answer self u)))
       (Window.begun w ++ map (pair (Window.maximized w)) (frame_ops g rs rc))).
Proof. apply run_frame_example_window. Qed.

(** In every run of the example, on every platform and for
    every sequence of inputs, each resize in the log was begun on a window
    that was not maximized. *)
Theorem resize_only_when_windowed (p : Platform.t) (inputs : list Input.t) s :
  main p inputs = Ok s -> Forall resize_windowed (Window.begun (snd s)).
Proof.
  intros (s0 & Hs & [= <-])%and_then_Ok.
  apply start_Ok in Hs as (_ & _ & Hw). destruct s0 as [app w]. cbn [fst snd] in *.
  apply (reachable_windowed (app, w) _ (run_reachable _ _ _)). subst w. constructor.
Qed.

(** C31 (liveness).  A click on the button ends the run: the frame that
    reports it leaves the window closed, and the inputs after it are not
    looked at. *)
Theorem close_click_ends_run self w i rest :
  Window.open w = true ->
  Response.clicked
    (Input.respond i (Id.new "Close"%string) (Input.place i "Close"%string) Sense.click)
    = true ->
  Window.open (snd (run_frame self w i)) = false /\
  run self w (i :: rest) = run_frame self w i.
Proof.
  intros Ho Hclick.
  assert (Hc : Window.open (snd (run_frame self w i)) = false).
  { rewrite run_frame_open. unfold clicks_close. rewrite Hclick. apply andb_false_r. }
  split; [exact Hc|].
  rewrite run_cons, Ho, run_closed by exact Hc.
  now destruct (run_frame self w i).
Qed.

(** C29 (invariant).  In every state a run of the example program can reach,
    each resize in the log was begun on a window that was not maximized,
    and the window is as [main] asked for it: 320 by 120 as long as no frame
    has begun a resize, without decorations, transparent; the application
    value is the one [TestApp::new] made. *)
Theorem example_invariant (cc : CreationContext.t) (p : Platform.t) (s : TestApp.t * Window.t) :
  reachable ((TestApp.new cc), Window.create p (NativeOptions.viewport main_options)) s ->
  Forall resize_windowed (Window.begun (snd s)) /\
  (Window.resizing (snd s) = false ->
   Window.inner_size (snd s) = Vec2.new (F32.of_Z 320) (F32.of_Z 120)) /\
  Window.decorations (snd s) = false /\
  Window.transparent (snd s) = true /\
  fst s = TestApp.new cc.
Proof.
  intros Hr. destruct (reachable_fixed _ _ Hr) as (_ & Hdec & Htr).
  repeat split; [| | exact Hdec | exact Htr | exact (reachable_app _ _ Hr)].
  - apply (reachable_windowed _ _ Hr). constructor.
  - intros Hidle. now rewrite (reachable_size _ _ Hr Hidle).
Qed.

(** C13 (termination).  On a platform that gives a window the example
    program ends exactly when somebody clicks on Close.  If the input of
    frame [n] reports the click, the loop of [main] returns [Ok] on any
    fuel above [n], after [n + 1] frames at most, with the window closed
    and in the state the first [n + 1] frames lead to.  If no input ever
    reports one, the loop does not return, whatever the fuel. *)
Theorem main_ends_iff_closed (p : Platform.t) (inputs : nat -> Input.t) :
  Platform.failure p = None ->
  (forall n fuel, clicks_close (inputs n) = true -> n < fuel ->
     exists s m, m <= S n /\
       main p (take (S n) inputs) = Ok s /\
       main_loop fuel p inputs = Some (Ok (s, m)) /\
       Window.open (snd s) = false) /\
  ((forall n, clicks_close (inputs n) = false) ->
   forall fuel, main_loop fuel p inputs = None).
Proof.
  intros Hp. unfold main, main_loop. split.
  - intros n fuel Hclick Hfuel.
    rewrite (main_starts p Hp), (main_loop_starts p Hp).
    pose proof (run_closed_after_click started_app
                  (Window.create p (NativeOptions.viewport main_options)) n inputs Hclick)
      as Hc.
    destruct (event_loop_complete (S n) fuel _ _ inputs Hc ltac:(lia)) as (m & Hm & E).
    eexists _, m. rewrite E. repeat split; assumption.
  - intros Hno fuel. rewrite (main_loop_starts p Hp).
    rewrite event_loop_diverges; [reflexivity|]. intros n.
    apply run_stays_open; [reflexivity|]. apply take_no_click. auto.
Qed.

(** C30 (error).  [main] fails exactly when the window system cannot open
    the window, with the error of the window system, whatever the inputs
    and before any frame; the loop with fuel returns that error on any
    fuel.  The creator of the application never fails: no run of [main]
    ends in [AppCreation]. *)
Theorem main_fails_iff_no_window (p : Platform.t) (inputs : list Input.t)
    (session : nat -> Input.t) (fuel : nat) (e : Error.t) :
  (main p inputs = Err e <->
   exists msg, Platform.failure p = Some msg /\ e = Error.Winit msg) /\
  (main_loop fuel p session = Some (Err e) <-> main p inputs = Err e) /\
  (Platform.failure p = None ->
   main p inputs =
   Ok (run started_app (Window.create p (NativeOptions.viewport main_options))
         inputs)).
Proof.
  unfold main, main_loop.
  rewrite run_native_Err, run_native_until_closed_Err, start_Err.
  split; [|split].
  - split; [|now left]. intros [Hw|(msg & _ & [=] & _)]. exact Hw.
  - reflexivity.
  - intros Hp. exact (main_starts p Hp inputs).
Qed.

(** C14 (roundtrip).  Two double clicks on the caption bring the window
    back: if two frames in a row only toggle (a double click on the live
    caption, no drag, no click on Close), the window after the first has
    the maximized flag flipped and the window after the second is the
    window before the first. *)
Theorem double_click_twice_restores self w i1 i2 :
  let w1 := Window.set_maximized (negb (Window.maximized w)) w in
  Window.open w = true ->
  toggles_only self w i1 = true -> toggles_only self w1 i2 = true ->
  run self w [i1] = (self, w1) /\ run self w [i1; i2] = (self, w).
Proof.
  cbv zeta. intros Ho H1 H2.
  rewrite !run_cons, !run_nil, Ho, (run_frame_toggles_only self w i1 Ho H1).
  cbn [fst snd]. split; [reflexivity|].
  rewrite (fun Ho1 => run_frame_toggles_only self _ i2 Ho1 H2) by exact Ho.
  change (Window.open (Window.set_maximized _ w)) with (Window.open w).
  rewrite Ho. cbn [fst snd]. f_equal. destruct w. cbn. now rewrite negb_involutive.
Qed.

(** C27 (functional).  The frame follows the window through a resize: when
    the window manager gives the example's window a whole size of 48
    pixels or more a side, the window has that size after the frame, and in
    the next frame the view rectangle is the window without the shadow, the
    core the view rectangle without the margin of 4, the caption is the
    core, and the core lies in the view rectangle and is not empty. *)
Theorem resized_window_regions (cc : CreationContext.t) w i1 i2 (W H : Z) :
  let w1 := snd (run_frame (TestApp.new cc) w i1) in
  Window.resizing w1 = true -> Window.maximized w1 = false ->
  Input.resized i1 = Some (Vec2.new (F32.of_Z W) (F32.of_Z H)) ->
  (min_pixels <= W <= max_pixels)%Z -> (min_pixels <= H <= max_pixels)%Z ->
  let g := frame_regions (TestApp.new cc) w1 i2 in
  Window.inner_size w1 = Vec2.new (F32.of_Z W) (F32.of_Z H) /\
  g_view g = Rect.of_Z 20 20 (W - 20) (H - 20) /\
  g_core g = Rect.of_Z 24 24 (W - 24) (H - 24) /\
  g_caption g = g_core g /\
  Rect.contains_rect (g_view g) (g_core g) = true /\
  ordered (g_core g) = true.
Proof.
  unfold min_pixels, max_pixels. cbv zeta. intros Hr Hm Hi HW HH.
  pose proof (run_frame_resized (TestApp.new cc) w i1 _ Hi Hr Hm) as Hsize.
  split; [exact Hsize|].
  assert (SW : small W = true) by (apply Z.leb_le; lia).
  assert (SH : small H = true) by (apply Z.leb_le; lia).
  destruct (context_clip_whole _ i2 W H Hm Hsize SW SH) as [Hw Hh].
  destruct (example_regions_whole cc _ W H Hw Hh SW SH) as (Ev & Ec & Ecap).
  cbv zeta in Ev, Ec, Ecap. unfold frame_regions.
  change (CustomFrame.is_maximized (view (context (snd (run_frame (TestApp.new cc) w i1)) i2)))
    with (unwrap_or (Some (Window.maximized (snd (run_frame (TestApp.new cc) w i1)))) false)
    in Ev, Ec.
  rewrite Hm in Ev, Ec. cbn [unwrap_or] in Ev, Ec.
  replace (W - 20 - 4)%Z with (W - 24)%Z in Ec by lia.
  replace (H - 20 - 4)%Z with (H - 24)%Z in Ec by lia.
  change (20 + 4)%Z with 24%Z in Ec.
  rewrite Ecap, Ev, Ec, contains_rect_of_Z, ordered_of_Z by lia.
  repeat split; bool_goal; apply Z.leb_le; lia.
Qed.

End ExampleTheorems.
