(* ===== verification/Trace.v ===== *)
(** * Trace: the calls of one frame, in the order they are made

    The view of a context keeps the panels, the regions and the commands of
    a frame in three lists, so it does not say in which order calls of
    different kinds were made.  This file adds the order: a context that is
    [Traced] keeps every call made on it in one log, and the theorems give
    the log one call of [CustomFrame::show], and one [update] of the example
    program, leave behind: the statements of the source, in their order.

    - [Call]: a call on the context;
    - [Traced] and [TraceLaws]: the interface of a context that keeps a log,
      stated beside [Host] and [Widgets];
    - [TraceUi]: the least context with a log, an instance of both;
    - [resize_calls], [caption_calls], [frame_calls], [content_calls]: the
      calls of the parts of a frame;
    - [show_calls_in_order], [update_calls_in_order]: the theorems. *)

From stdpp Require Import base decidable list.
From Stdlib Require Import Bool ZArith String Lia.
From S2P Require Import Prelude F32 Geometry Host CustomFrame Zones ShowSpec Eframe ExampleApp.

Local Open Scope state_scope.

(** A call on the context. *)
Inductive Call : Type :=
  | CentralPanel (f : Frame.t)
  | Interact (r : Rect.t) (i : Id.t) (s : Sense.t)
  | SetCursorIcon (c : CursorIcon)
  | SendViewportCmd (c : ViewportCommand)
  | Label (text : string)
  | Heading (text : string)
  | Button (text : string).

#[global] Instance call_eq_dec : EqDecision Call.
Proof. solve_decision. Defined.

(** A context that keeps a log of the calls made on it, oldest first. *)
Class Traced (U : Type) `{Widgets U} : Type := {
  trace : U -> list Call
}.

(** Every call adds itself to the log, and nothing else does. *)
Class TraceLaws (U : Type) `{Traced U} : Prop := {
  trace_widget_laws :: WidgetLaws U;
  trace_central_panel f u :
    trace (exec (central_panel f) u) = trace u ++ [CentralPanel f];
  trace_interact r i s u :
    trace (exec (interact r i s) u) = trace u ++ [Interact r i s];
  trace_set_cursor_icon c u :
    trace (exec (set_cursor_icon c) u) = trace u ++ [SetCursorIcon c];
  trace_send_viewport_cmd c u :
    trace (exec (send_viewport_cmd c) u) = trace u ++ [SendViewportCmd c];
  trace_label s u :
    trace (exec (label s) u) = trace u ++ [Label s];
  trace_heading s u :
    trace (exec (heading s) u) = trace u ++ [Heading s];
  trace_button s u :
    trace (exec (button s) u) = trace u ++ [Button s]
}.

(** ** The least context with a log *)

Module TraceUi.

Record t : Type := mk { ui : SimpleUi.t; calls : list Call }.

(** A call of the least context, logged. *)
Definition logged {R : Type} (c : Call) (m : State SimpleUi.t R) : State t R :=
  fun u => (eval m (ui u), mk (exec m (ui u)) (calls u ++ [c])).

End TraceUi.

#[global] Instance trace_host : Host TraceUi.t := {
  view u := view (TraceUi.ui u);
  central_panel f := TraceUi.logged (CentralPanel f) (central_panel f);
  interact r i s := TraceUi.logged (Interact r i s) (interact r i s);
  set_cursor_icon c := TraceUi.logged (SetCursorIcon c) (set_cursor_icon c);
  send_viewport_cmd c := TraceUi.logged (SendViewportCmd c) (send_viewport_cmd c);
  panel_response u := panel_response (TraceUi.ui u)
}.

#[global] Instance trace_host_laws : HostLaws TraceUi.t.
Proof. split; reflexivity. Qed.

#[global] Instance trace_widgets : Widgets TraceUi.t := {
  label s := TraceUi.logged (Label s) (label s);
  heading s := TraceUi.logged (Heading s) (heading s);
  button s := TraceUi.logged (Button s) (button s);
  placed u := placed (TraceUi.ui u)
}.

#[global] Instance trace_widget_laws_ui : WidgetLaws TraceUi.t.
Proof. split; [exact _ | reflexivity ..]. Qed.

#[global] Instance trace_ui : Traced TraceUi.t := { trace := TraceUi.calls }.

#[global] Instance trace_ui_laws : TraceLaws TraceUi.t.
Proof. split; [exact _ | reflexivity ..]. Qed.

(** ** The calls of a frame *)

(** What [produce_resizing] calls: the cursor icon of the direction, then
    the resize if a drag starts. *)
Definition resize_calls (response : option Response.t) (pos : Pos2.t)
    (sizebox_inner : Rect.t) : list Call :=
  match response, resize_direction pos sizebox_inner with
  | Some r, Some d =>
      SetCursorIcon (cursor_of d) ::
      (if Response.drag_started r then [SendViewportCmd (BeginResize d)] else [])
  | _, _ => []
  end.

(** What [produce_caption] calls. *)
Definition caption_calls (response : option Response.t) (is_maximized : bool)
    : list Call :=
  map SendViewportCmd (caption_cmds response is_maximized).

Definition interact_call (w : Widget) : Call :=
  Interact (snd (fst w)) (fst (fst w)) (snd w).

(** The calls of one [show], content apart: the panel, the regions, the
    resizing code, the caption code. *)
Definition frame_calls (self : CustomFrame.t) (rs rc : Response.t) (v : UiView.t)
    : list Call :=
  let g := regions self v in
  CentralPanel (CustomFrame.panel_frame self (UiView.panel_fill v) (g_maximized g)) ::
  map interact_call (frame_widgets g) ++
  resize_calls (if sizebox_live g then Some rs else None) (g_pos g) (g_core g) ++
  caption_calls (if caption_live g then Some rc else None) (g_maximized g).

(** The calls of the example's content. *)
Definition content_calls (self : TestApp.t) (close : Response.t) : list Call :=
  [Heading (TestApp.tip self); Button "Close"%string] ++
  (if Response.clicked close then [SendViewportCmd Close] else []).

#[export] Hint Rewrite @trace_central_panel @trace_interact @trace_set_cursor_icon
  @trace_send_viewport_cmd @trace_label @trace_heading @trace_button using (exact _) : frame.

(** ** Lemmas: the steps of [show] *)

Section TraceSteps.
Context {U : Type} `{TraceLaws U}.
Implicit Types (u : U) (self : CustomFrame.t).

Lemma trace_resize_branch icon d drag u :
  trace (exec (CustomFrame.resize_branch icon d drag) u) =
  trace u ++ SetCursorIcon icon :: (if drag then [SendViewportCmd (BeginResize d)] else []).
Proof.
  unfold CustomFrame.resize_branch. destruct drag; autorewrite with frame;
    rewrite <- ?app_assoc; reflexivity.
Qed.

Lemma trace_produce_resizing r pos core u :
  trace (exec (CustomFrame.produce_resizing r pos core) u) =
  trace u ++ resize_calls r pos core.
Proof.
  destruct r as [r|]; [|symmetry; apply app_nil_r].
  unfold resize_calls.
  by_direction; first [apply trace_resize_branch | symmetry; apply app_nil_r].
Qed.

Lemma trace_produce_caption r m u :
  trace (exec (CustomFrame.produce_caption r m) u) = trace u ++ caption_calls r m.
Proof.
  destruct r as [[clicked drag dbl]|]; [|symmetry; apply app_nil_r].
  unfold CustomFrame.produce_caption, caption_calls, caption_cmds.
  cbn [Response.drag_started Response.double_clicked].
  destruct drag, dbl; autorewrite with frame; cbn [map app];
    rewrite <- ?app_assoc, ?app_nil_r; reflexivity.
Qed.

(** [show], content apart, makes the calls of [frame_calls]. *)
Lemma trace_show_frame self u :
  trace (exec (CustomFrame.show self (ret tt)) u) =
  trace u ++ frame_calls self (sizebox_answer self u) (caption_answer self u) (view u).
Proof.
  unfold CustomFrame.show, CustomFrame.show_body, frame_calls, frame_widgets,
    sizebox_answer, caption_answer, after_panel, sizebox_live, caption_live, regions.
  cbv zeta. cbn [g_maximized g_view g_core g_caption g_pos g_shadow_width].
  autorewrite with frame.
  rewrite trace_produce_caption, trace_produce_resizing.
  unfold CustomFrame.sizebox_response, CustomFrame.caption_response, resize_active.
  unfold CustomFrame.pointer_pos.
  cbn [UiView.clip_rect UiView.interact_pos UiView.paint].
  repeat match goal with |- context [if ?b then _ else _] =>
    lazymatch b with
    | Rect.contains _ _ => destruct b eqn:?
    | andb _ _ => destruct b eqn:?
    end end;
  autorewrite with frame; cbn [map app interact_call fst snd];
    rewrite <- ?app_assoc; reflexivity.
Qed.

(** The content of the example makes the calls of [content_calls]. *)
Lemma trace_content (app : TestApp.t) u :
  trace (exec (TestApp.content app) u) =
  trace u ++
  content_calls app (eval (button "Close"%string) (exec (heading (TestApp.tip app)) u)).
Proof.
  unfold TestApp.content, content_calls. autorewrite with frame.
  destruct (Response.clicked _); autorewrite with frame;
    rewrite <- ?app_assoc, ?app_nil_r; reflexivity.
Qed.

End TraceSteps.

(** ** Theorems *)

Section TraceTheorems.
Context {U : Type} `{TraceLaws U}.
Implicit Types (u : U) (self : CustomFrame.t).

(** C3 (functional).  The calls of one [show], in order: the panel is
    opened first; then the resize ring is registered, if it is live, and
    after it the caption, if it is live; then the resizing code sets the
    cursor icon and, on a drag start, begins the resize; then the caption
    code starts the drag and, after it, toggles the maximized state; the
    content runs last, on the context these calls leave. *)
Theorem show_calls_in_order {R} self (add_content : State U R) u :
  let u1 := exec (CustomFrame.show self (ret tt)) u in
  trace u1 =
    trace u ++ frame_calls self (sizebox_answer self u) (caption_answer self u) (view u) /\
  exec (CustomFrame.show self add_content) u = exec add_content u1.
Proof. cbv zeta. split; [apply trace_show_frame | apply exec_show]. Qed.

(** C28 (functional).  The calls of one [update] of the example, in order:
    those of the frame, then the heading, then the button, and [Close]
    after it if the button reports a click. *)
Theorem update_calls_in_order (app : TestApp.t) u :
  trace (exec (TestApp.update app) u) =
  trace u ++
  frame_calls (TestApp.frame app) (sizebox_answer (TestApp.frame app) u)
    (caption_answer (TestApp.frame app) u) (view u) ++
  content_calls app (close_answer app u).
Proof.
  unfold TestApp.update. autorewrite with frame.
  rewrite exec_show, trace_content, trace_show_frame, <- app_assoc. reflexivity.
Qed.

End TraceTheorems.
