(* ===== verification/Scenario.v ===== *)
(** * Scenario: concrete frames and runs

    Frames and runs evaluated on concrete inputs: the 320 by 120 window that
    [examples/custom_frame.rs] opens, with the pointer at a given place, in
    a context that answers every [interact] the same.  The file holds

    - the scenario of the specification (pointer in the shadow, in the
      caption, on the west border);
    - the cases that the hypotheses of the general theorems exclude (a NaN
      margin, a negative margin, a margin wider than the window, a drag
      start and a double click in one frame, a caption that reaches
      [f32::MAX]);
    - a seven-frame session of [main], and [main] without a display;
    - a shadow thrown beyond the window;
    - the contract of the specification evaluated in half pixels, and the
      calls of a frame in order;
    - the witnesses: each theorem of [CustomFrame], [Zones], [Nesting],
      [ShowSpec], [Contract], [Painting], [ExampleApp] and [Trace] that has a
      hypothesis, applied to one of these frames. *)

From stdpp Require Import base decidable list.
From Stdlib Require Import Bool ZArith String Lia.
From S2P Require Import Prelude F32 Units FloatArith Geometry Host CustomFrame Zones Nesting ShowSpec.
From S2P Require Import Contract Eframe Painting ExampleApp Trace.

Local Open Scope state_scope.

Definition scenario_view (pos : option Pos2.t) (maximized : option bool) : UiView.t :=
  UiView.mk maximized (Color32.from_rgba_premultiplied 27 27 27 255)
    (Rect.from_min_max Pos2.ZERO (Pos2.new (F32.of_Z 320) (F32.of_Z 120)))
    pos Default [] [] [].

Definition scenario_ui (pos : option Pos2.t) (maximized : option bool)
    (answer : Response.t) : SimpleUi.t :=
  SimpleUi.mk (scenario_view pos maximized) (fun _ _ _ => answer)
    (fun _ => Rect.from_min_max (Pos2.new (F32.of_Z 30) (F32.of_Z 70))
                                (Pos2.new (F32.of_Z 80) (F32.of_Z 90)))
    Response.idle.

Definition pointer_at (x y : Z) : option Pos2.t :=
  Some (Pos2.new (F32.of_Z x) (F32.of_Z y)).

Definition drag_start : Response.t := Response.mk false true false.
Definition double_click : Response.t := Response.mk false false true.

(** The content of the example program's close button: it sends [Close]. *)
Definition close_content : State SimpleUi.t nat :=
  send_viewport_cmd Close ;; ret 7.

(** A platform with a 1920 by 1080 monitor, and the same without a
    display. *)
Definition desktop : Platform.t :=
  Platform.mk (Vec2.new (F32.of_Z 1920) (F32.of_Z 1080))
              (Vec2.new (F32.of_Z 800) (F32.of_Z 600)) None.

Definition headless : Platform.t :=
  Platform.mk (Platform.monitor desktop) (Platform.default_size desktop)
    (Some "no display"%string).

(** What the creator of the example is given. *)
Definition creation : CreationContext.t := CreationContext.mk.

(** The input of a frame with the pointer at a given place, in which every
    region answers the same. *)
Definition frame_input (pos : option Pos2.t) (answer : Response.t) : Input.t :=
  Input.mk (Color32.from_rgba_premultiplied 27 27 27 255) pos (fun _ _ _ => answer)
    (fun _ => Rect.from_min_max (Pos2.new (F32.of_Z 30) (F32.of_Z 70))
                                (Pos2.new (F32.of_Z 80) (F32.of_Z 90)))
    None.

(** The same frame, after which the window manager gives the window a new
    size. *)
Definition resized_to (width height : Z) (i : Input.t) : Input.t :=
  Input.mk (Input.fill i) (Input.pointer i) (Input.respond i) (Input.place i)
    (Some (Vec2.new (F32.of_Z width) (F32.of_Z height))).

Definition click : Response.t := Response.mk true false false.

(** The default style with its shadow thrown 30 pixels to the right. *)
Definition thrown_shadow : CustomFrame.t :=
  CustomFrame.shadow CustomFrame.default
    (Shadow.mk (Vec2.new (F32.of_Z 30) (F32.of_Z 0)) (F32.of_Z 18) (F32.of_Z 2)
       (Color32.from_black_alpha 32)).

(** A session: resize from the west border, the window manager making the
    window 400 by 200 while the caption is dragged in the next frame;
    maximize by a double click, press on the former border, drag the
    maximized window (the window manager's resize to 500 by 300 in that
    frame is not carried out), close it, and one more frame. *)
Definition session : list Input.t :=
  [ frame_input (pointer_at 21 60) drag_start;
    resized_to 400 200 (frame_input (pointer_at 25 25) drag_start);
    frame_input (pointer_at 160 60) double_click;
    frame_input (pointer_at 2 500) drag_start;
    resized_to 500 300 (frame_input (pointer_at 500 500) drag_start);
    frame_input (pointer_at 50 80) click;
    frame_input (pointer_at 25 25) double_click ].

(** ** The scenario of the example program *)

(** The scenario of the specification, evaluated.  The default frame in a 320 by 120 window that is not
    maximized has the view rectangle (20,20)-(300,100), the core
    (24,24)-(296,96) and the caption (24,24)-(296,64).  With the pointer at
    (1,1), in the shadow, [show] registers nothing and sends nothing; at
    (25,25) it registers the caption and sends [StartDrag] on a drag start
    and [Maximized(true)] on a double click; at (21,60) it registers the
    resize ring, sets the west icon, and sends [BeginResize(West)] on a drag
    start and nothing without one. *)
Example scenario_320_120 :
  let run pos answer :=
    view (exec (CustomFrame.show CustomFrame.default (ret tt))
            (scenario_ui pos None answer)) in
  let rect (x0 y0 x1 y1 : Z) :=
    Rect.from_min_max (Pos2.new (F32.of_Z x0) (F32.of_Z y0))
                      (Pos2.new (F32.of_Z x1) (F32.of_Z y1)) in
  let g := regions CustomFrame.default (scenario_view None None) in
  (g_view g = rect 20%Z 20%Z 300%Z 100%Z /\ g_core g = rect 24%Z 24%Z 296%Z 96%Z /\
   g_caption g = rect 24%Z 24%Z 296%Z 64%Z) /\
  (UiView.widgets (run (pointer_at 1 1) drag_start) = [] /\
   UiView.viewport_cmds (run (pointer_at 1 1) drag_start) = [] /\
   UiView.cursor_icon (run (pointer_at 1 1) drag_start) = Default) /\
  (UiView.widgets (run (pointer_at 25 25) drag_start) =
     [(CustomFrame.caption_id, rect 24%Z 24%Z 296%Z 64%Z, Sense.click_and_drag)] /\
   UiView.viewport_cmds (run (pointer_at 25 25) drag_start) = [StartDrag] /\
   UiView.viewport_cmds (run (pointer_at 25 25) double_click) = [Maximized true] /\
   UiView.cursor_icon (run (pointer_at 25 25) drag_start) = Default) /\
  (UiView.widgets (run (pointer_at 21 60) drag_start) =
     [(CustomFrame.sizebox_id, rect 20%Z 20%Z 300%Z 100%Z, Sense.drag)] /\
   UiView.cursor_icon (run (pointer_at 21 60) Response.idle) = ResizeWest /\
   UiView.viewport_cmds (run (pointer_at 21 60) Response.idle) = [] /\
   UiView.viewport_cmds (run (pointer_at 21 60) drag_start) = [BeginResize West]).
Proof. vm_compute. repeat split. Qed.

(** ** The cases the hypotheses exclude *)

(** A NaN resize margin makes every coordinate of the core
    NaN.  The pointer is then never in the core, so anywhere in the view
    rectangle the resize ring is registered, but the pointer has no
    direction: no icon is set and a drag start sends nothing.  The caption
    is no longer cut to the core, so at (160,60) both regions are
    registered in the same frame. *)
Theorem nan_margin_ring_without_direction :
  let self := CustomFrame.sizebox CustomFrame.default (Margin.same F32.NAN) in
  let run pos :=
    view (exec (CustomFrame.show self (ret tt)) (scenario_ui pos None drag_start)) in
  let g := regions self (scenario_view (pointer_at 160 100) None) in
  Rect.has_nan (g_core g) = true /\
  sizebox_live g = true /\
  resize_direction (g_pos g) (g_core g) = None /\
  UiView.widgets (run (pointer_at 160 100)) = [(CustomFrame.sizebox_id, g_view g, Sense.drag)] /\
  UiView.cursor_icon (run (pointer_at 160 100)) = Default /\
  UiView.viewport_cmds (run (pointer_at 160 100)) = [] /\
  List.length (UiView.widgets (run (pointer_at 160 60))) = 2.
Proof. vm_compute. repeat split. Qed.

(** A negative resize margin puts the core, and with it
    the caption, beyond the view rectangle.  With a margin of -30 and the
    pointer at (310,30), which is outside the view rectangle (20,20)-(300,100),
    [show] registers the caption and sends [StartDrag] on a drag start. *)
Theorem negative_margin_caption_outside_view :
  let self := CustomFrame.sizebox CustomFrame.default (Margin.same (F32.of_Z (-30))) in
  let u := scenario_ui (pointer_at 310 30) None drag_start in
  let g := regions self (view u) in
  let v' := view (exec (CustomFrame.show self (ret tt)) u) in
  Rect.contains (g_view g) (g_pos g) = false /\
  Rect.contains_rect (g_view g) (g_core g) = false /\
  UiView.widgets v' = [(CustomFrame.caption_id, g_caption g, Sense.click_and_drag)] /\
  UiView.viewport_cmds v' = [StartDrag].
Proof. vm_compute. repeat split. Qed.

(** If the context reports a drag start and a double
    click on the caption in the same frame, [show] sends two commands in
    that frame: [StartDrag], then [Maximized]. *)
Theorem caption_sends_two_commands :
  let u := scenario_ui (pointer_at 25 25) None (Response.mk false true true) in
  UiView.viewport_cmds (view (exec (CustomFrame.show CustomFrame.default (ret tt)) u)) =
  [StartDrag; Maximized true].
Proof. vm_compute. reflexivity. Qed.

(** A resize margin wider than half the window turns the
    core inside out: with a margin of 200 the core is (220,220)-(100,-100).
    The pointer at (150,60) is then west of the left border and east of the
    right one, north of the top border and south of the bottom one, so it
    lies in four octants; [show] takes the first test that holds and
    resizes north-west. *)
Theorem inverted_core_prefers_north_west :
  let self := CustomFrame.sizebox CustomFrame.default (Margin.same (F32.of_Z 200)) in
  let u := scenario_ui (pointer_at 150 60) None drag_start in
  let g := regions self (view u) in
  ordered (g_core g) = false /\
  (octant NorthWest (g_pos g) (g_core g) /\ octant NorthEast (g_pos g) (g_core g) /\
   octant SouthWest (g_pos g) (g_core g) /\ octant SouthEast (g_pos g) (g_core g)) /\
  resize_direction (g_pos g) (g_core g) = Some NorthWest /\
  UiView.viewport_cmds (view (exec (CustomFrame.show self (ret tt)) u)) =
    [BeginResize NorthWest].
Proof. vm_compute. repeat split. Qed.

(** The translation of the caption is not exact at
    [f32::MAX]: moved by (20,20), the default caption (4,4)-(MAX,44) becomes
    (24,24)-(MAX,64), its right border where it was; the intersection with
    the core then puts it at 296. *)
Theorem caption_translation_saturates :
  let g := regions CustomFrame.default (scenario_view None None) in
  Rect.translate (CustomFrame.f_caption CustomFrame.default)
    (Vec2.new (g_shadow_width g) (g_shadow_width g)) =
    Rect.from_min_max (Pos2.new (F32.of_Z 24) (F32.of_Z 24))
                      (Pos2.new F32.MAX (F32.of_Z 64)) /\
  Rect.right (g_caption g) = F32.of_Z 296.
Proof. vm_compute. split; reflexivity. Qed.

(** ** A run of the example program *)

(** The session on a 1920 by 1080 monitor: the window of
    [main] is undecorated and transparent; the drag on the west border
    begins a resize to the west, after which the window manager makes the
    window 400 by 200; the drag on the caption begins a move, the double
    click maximizes the window; in the maximized window the press at
    (2,500) begins nothing, the drag at (500,500) begins a move and the
    size stays; the click on the button closes the window, and the seventh
    frame is not run. *)
Theorem session_of_main :
  exists w,
  Result.map snd (main desktop session) = Ok w /\
  Result.map (fun s => Window.inner_size (snd s)) (main desktop (firstn 1 session)) =
    Ok (Vec2.new (F32.of_Z 320) (F32.of_Z 120)) /\
  Window.begun w = [(false, Resize West); (false, Drag); (true, Drag)] /\
  Window.maximized w = true /\
  Window.open w = false /\
  Window.inner_size w = Vec2.new (F32.of_Z 400) (F32.of_Z 200) /\
  Window.decorations w = false /\
  Window.transparent w = true /\
  Result.map snd (main desktop (firstn 6 session)) = Ok w.
Proof.
  exists (snd (run started_app
                 (Window.create desktop (NativeOptions.viewport main_options)) session)).
  vm_compute. repeat split.
Qed.

(** Without a display [main] returns the error of the window system, and
    its loop does so with no fuel at all. *)
Example main_without_display :
  main headless session = Err (Error.Winit "no display"%string) /\
  main_loop 0 headless (fun _ => frame_input None Response.idle) =
    Some (Err (Error.Winit "no display"%string)).
Proof. split; reflexivity. Qed.

(** The contract on the same window in half pixels, the pointer at
    (21.5, 60): the resize zone, to the west. *)
Example contract_half_pixels :
  let st := Contract.style 8 8 8 8 8 8 Contract.Unbounded (Contract.At 88) 36 4 in
  let p := Contract.pass false 640 240 (Some (43, 120)%Z) in
  Contract.view st p = Contract.box 40 40 600 200 /\
  Contract.core st p = Contract.box 48 48 592 192 /\
  Contract.caption st p = Contract.box 48 48 592 128 /\
  Contract.regions st p = [(CustomFrame.sizebox_id, Contract.box 40 40 600 200, Sense.drag)] /\
  Contract.cursor st p = Some ResizeWest /\
  Contract.commands st p drag_start drag_start = [BeginResize West].
Proof. repeat split. Qed.

(** The calls of the frame with a drag start on the west border, in
    order: the panel, the resize ring, the cursor icon, the resize. *)
Example calls_on_west_border :
  let u := TraceUi.mk (scenario_ui (pointer_at 21 60) None drag_start) [] in
  trace (exec (CustomFrame.show CustomFrame.default (ret tt)) u) =
  [ CentralPanel (CustomFrame.panel_frame CustomFrame.default
                    (Color32.from_rgba_premultiplied 27 27 27 255) false);
    Interact (Rect.of_Z 20 20 300 100) CustomFrame.sizebox_id Sense.drag;
    SetCursorIcon ResizeWest;
    SendViewportCmd (BeginResize West) ].
Proof. vm_compute. reflexivity. Qed.

(** ** Witnesses

    Each theorem that has a hypothesis, applied in the 320 by 120 window of
    the example program. *)

Lemma show_refines_frame_view_witness :
  let u := scenario_ui (pointer_at 21 60) None drag_start in
  let u1 := exec (CustomFrame.show CustomFrame.default (ret tt)) u in
  let u2 := exec close_content u1 in
  view u1 = frame_view CustomFrame.default (sizebox_answer CustomFrame.default u)
              (caption_answer CustomFrame.default u) (view u) /\
  CustomFrame.show CustomFrame.default close_content u =
    (InnerResponse.new (eval close_content u1) (panel_response u2), u2).
Proof.
  exact (show_refines_frame_view CustomFrame.default close_content
           (scenario_ui (pointer_at 21 60) None drag_start)).
Defined.

Lemma resize_direction_total_witness :
  let g := regions CustomFrame.default (scenario_view (pointer_at 21 60) None) in
  exists d,
    resize_direction (g_pos g) (g_core g) = Some d /\
    forall old, frame_cursor g old = cursor_of d.
Proof.
  apply (resize_direction_total CustomFrame.default
           (scenario_view (pointer_at 21 60) None)); vm_compute; reflexivity.
Defined.

Lemma resize_direction_octant_witness :
  let g := regions CustomFrame.default (scenario_view (pointer_at 299 21) None) in
  resize_direction (g_pos g) (g_core g) = Some NorthEast <->
  octant NorthEast (g_pos g) (g_core g).
Proof.
  apply (resize_direction_octant
           (g_pos (regions CustomFrame.default (scenario_view (pointer_at 299 21) None)))
           (g_core (regions CustomFrame.default (scenario_view (pointer_at 299 21) None)))
           NorthEast).
  vm_compute; reflexivity.
Defined.

Lemma maximized_suppresses_witness :
  let u := scenario_ui (pointer_at 25 25) (Some true) double_click in
  let v := view u in
  let v' := view (exec (CustomFrame.show CustomFrame.default (ret tt)) u) in
  UiView.panels v' = UiView.panels v ++
    [Frame.mk (UiView.panel_fill v) Rounding.ZERO Stroke.NONE
       (Margin.same F32.zero) (CustomFrame.f_inner_margin CustomFrame.default)
       Shadow.NONE] /\
  UiView.cursor_icon v' = UiView.cursor_icon v /\
  (forall w, In w (UiView.widgets v') ->
     In w (UiView.widgets v) \/ fst (fst w) = CustomFrame.caption_id) /\
  (forall c, In c (UiView.viewport_cmds v') ->
     In c (UiView.viewport_cmds v) \/ c = StartDrag \/ c = Maximized false).
Proof.
  apply (maximized_suppresses CustomFrame.default
           (scenario_ui (pointer_at 25 25) (Some true) double_click)).
  reflexivity.
Defined.

Lemma outside_view_inert_witness :
  let u := scenario_ui (pointer_at 1 1) None drag_start in
  view (exec (CustomFrame.show CustomFrame.default (ret tt)) u) =
  UiView.paint
    (CustomFrame.panel_frame CustomFrame.default (UiView.panel_fill (view u))
       (g_maximized (regions CustomFrame.default (view u))))
    (view u).
Proof.
  apply (outside_view_inert CustomFrame.default
           (scenario_ui (pointer_at 1 1) None drag_start)); vm_compute; reflexivity.
Defined.

Lemma caption_rect_in_core_witness :
  let g := regions CustomFrame.default (scenario_view (pointer_at 25 25) None) in
  Rect.contains (g_core g) (g_pos g) = true /\
  (Rect.contains_rect (g_view g) (g_core g) = true ->
   Rect.contains (g_view g) (g_pos g) = true).
Proof.
  apply (caption_rect_in_core CustomFrame.default
           (scenario_view (pointer_at 25 25) None)); vm_compute; reflexivity.
Defined.

Lemma caption_excludes_resize_witness :
  let u := scenario_ui (pointer_at 25 25) None drag_start in
  exists ws,
    UiView.widgets (view (exec (CustomFrame.show CustomFrame.default (ret tt)) u)) =
      UiView.widgets (view u) ++ ws /\
    List.length ws <= 1.
Proof.
  apply (caption_excludes_resize CustomFrame.default
           (scenario_ui (pointer_at 25 25) None drag_start)); vm_compute; reflexivity.
Defined.

Lemma caption_commands_witness :
  let u := scenario_ui (pointer_at 25 25) None double_click in
  let v' := view (exec (CustomFrame.show CustomFrame.default (ret tt)) u) in
  let rc := caption_answer CustomFrame.default u in
  let g := regions CustomFrame.default (view u) in
  UiView.viewport_cmds v' =
    UiView.viewport_cmds (view u) ++
    (if Response.drag_started rc then [StartDrag] else []) ++
    (if Response.double_clicked rc then [Maximized (negb (g_maximized g))] else []) /\
  UiView.cursor_icon v' = UiView.cursor_icon (view u).
Proof.
  apply (caption_commands CustomFrame.default
           (scenario_ui (pointer_at 25 25) None double_click)); vm_compute; reflexivity.
Defined.

Lemma resize_commands_witness :
  let u := scenario_ui (pointer_at 160 99) None drag_start in
  let g := regions CustomFrame.default (view u) in
  let v' := view (exec (CustomFrame.show CustomFrame.default (ret tt)) u) in
  exists d,
    resize_direction (g_pos g) (g_core g) = Some d /\
    UiView.cursor_icon v' = cursor_of d /\
    UiView.viewport_cmds v' =
      UiView.viewport_cmds (view u) ++
      (if Response.drag_started (sizebox_answer CustomFrame.default u)
       then [BeginResize d] else []).
Proof.
  apply (resize_commands CustomFrame.default
           (scenario_ui (pointer_at 160 99) None drag_start)); vm_compute; reflexivity.
Defined.

Lemma show_commands_bounded_witness :
  let u := scenario_ui (pointer_at 25 25) None (Response.mk false true true) in
  exists cmds,
    UiView.viewport_cmds (view (exec (CustomFrame.show CustomFrame.default (ret tt)) u)) =
      UiView.viewport_cmds (view u) ++ cmds /\
    List.length cmds <= 2 /\
    Forall (frame_cmd_ok (CustomFrame.is_maximized (view u))) cmds /\
    ~ In Close cmds.
Proof.
  exact (show_commands_bounded CustomFrame.default
           (scenario_ui (pointer_at 25 25) None (Response.mk false true true))).
Defined.

Lemma show_preserves_input_witness :
  let u := scenario_ui (pointer_at 21 60) None drag_start in
  UiView.same_input (view (exec (CustomFrame.show CustomFrame.default (ret tt)) u)) (view u).
Proof.
  exact (show_preserves_input CustomFrame.default
           (scenario_ui (pointer_at 21 60) None drag_start)).
Defined.

Lemma update_shows_frame_then_content_witness :
  let self := (TestApp.new creation) in
  let u := scenario_ui (pointer_at 25 25) None click in
  let f := TestApp.frame self in
  let v1 := frame_view f (sizebox_answer f u) (caption_answer f u) (view u) in
  view (exec (TestApp.update self) u) =
    UiView.extend v1 (UiView.cursor_icon v1) (content_cmds (close_answer self u))
      (content_widgets self u) [] /\
  eval (TestApp.update self) u = self.
Proof.
  exact (update_shows_frame_then_content (TestApp.new creation)
           (scenario_ui (pointer_at 25 25) None click)).
Defined.

Lemma update_closes_iff_clicked_witness :
  let self := (TestApp.new creation) in
  let u := scenario_ui (pointer_at 50 80) None click in
  exists cmds,
    UiView.viewport_cmds (view (exec (TestApp.update self) u)) =
      UiView.viewport_cmds (view u) ++ cmds /\
    (In Close cmds <-> Response.clicked (close_answer self u) = true).
Proof.
  exact (update_closes_iff_clicked (TestApp.new creation)
           (scenario_ui (pointer_at 50 80) None click)).
Defined.

Lemma example_ring_or_caption_witness :
  let g := regions (TestApp.frame (TestApp.new creation)) (scenario_view (pointer_at 160 60) None) in
  caption_live g = Rect.contains (g_core g) (g_pos g) /\
  sizebox_live g = negb (caption_live g).
Proof.
  apply (example_ring_or_caption creation (scenario_view (pointer_at 160 60) None));
    vm_compute; reflexivity.
Defined.

Lemma close_click_ends_run_witness :
  let w := Window.create desktop (NativeOptions.viewport main_options) in
  let i := frame_input (pointer_at 50 80) click in
  Window.open (snd (run_frame (TestApp.new creation) w i)) = false /\
  run (TestApp.new creation) w (i :: session) = run_frame (TestApp.new creation) w i.
Proof.
  apply (close_click_ends_run (TestApp.new creation)
           (Window.create desktop (NativeOptions.viewport main_options))
           (frame_input (pointer_at 50 80) click) session); reflexivity.
Defined.

Lemma default_regions_nested_witness :
  let g := regions CustomFrame.default (scenario_view (pointer_at 1 1) None) in
  Rect.contains_rect (g_view g) (g_core g) = true /\ ordered (g_core g) = true.
Proof.
  apply (default_regions_nested CustomFrame.default
           (scenario_view (pointer_at 1 1) None) 320 120);
    first [reflexivity | unfold min_pixels, max_pixels; lia | vm_compute; reflexivity].
Defined.

Lemma inside_core_no_ring_witness :
  let self := CustomFrame.default in
  let u := scenario_ui (pointer_at 160 80) None drag_start in
  let g := regions self (view u) in
  let v' := view (exec (CustomFrame.show self (ret tt)) u) in
  UiView.cursor_icon v' = UiView.cursor_icon (view u) /\
  UiView.widgets v' = UiView.widgets (view u) ++
    (if caption_live g
     then [(CustomFrame.caption_id, g_caption g, Sense.click_and_drag)] else []) /\
  UiView.viewport_cmds v' = UiView.viewport_cmds (view u) ++
    caption_cmds (if caption_live g then Some (caption_answer self u) else None)
      (g_maximized g).
Proof.
  apply (inside_core_no_ring CustomFrame.default
           (scenario_ui (pointer_at 160 80) None drag_start)).
  vm_compute; reflexivity.
Defined.

Lemma pixel_window_outside_inert_witness :
  let self := TestApp.frame (TestApp.new creation) in
  let u := scenario_ui (pointer_at 310 110) None drag_start in
  view (exec (CustomFrame.show self (ret tt)) u) =
  UiView.paint
    (CustomFrame.panel_frame self (UiView.panel_fill (view u))
       (g_maximized (regions self (view u))))
    (view u).
Proof.
  apply (pixel_window_outside_inert (TestApp.frame (TestApp.new creation))
           (scenario_ui (pointer_at 310 110) None drag_start) 320 120);
    first [reflexivity | unfold min_pixels, max_pixels; lia | vm_compute; reflexivity].
Defined.

Lemma show_keeps_regions_witness :
  let u := scenario_ui (pointer_at 21 60) None drag_start in
  regions (TestApp.frame (TestApp.new creation))
    (view (exec (CustomFrame.show CustomFrame.default (ret tt)) u)) =
  regions (TestApp.frame (TestApp.new creation)) (view u).
Proof.
  exact (show_keeps_regions CustomFrame.default (TestApp.frame (TestApp.new creation))
           (scenario_ui (pointer_at 21 60) None drag_start)).
Defined.

Lemma example_invariant_witness :
  let s := run (TestApp.new creation)
             (Window.create desktop (NativeOptions.viewport main_options)) session in
  Forall resize_windowed (Window.begun (snd s)) /\
  (Window.resizing (snd s) = false ->
   Window.inner_size (snd s) = Vec2.new (F32.of_Z 320) (F32.of_Z 120)) /\
  Window.decorations (snd s) = false /\
  Window.transparent (snd s) = true /\
  fst s = (TestApp.new creation).
Proof.
  apply (example_invariant creation desktop
           (run (TestApp.new creation)
              (Window.create desktop (NativeOptions.viewport main_options)) session)).
  apply run_reachable.
Defined.

Lemma build_finite_witness :
  let calls :=
    [ CustomFrame.SetSizebox (Margin.same (F32.of_Z 8));
      CustomFrame.SetCaption (Rect.from_min_max Pos2.ZERO (Pos2.new F32.NAN F32.INFINITY));
      CustomFrame.SetSizebox (Margin.same (F32.of_Z 2)) ] in
  CustomFrame.finite CustomFrame.default = true /\
  CustomFrame.finite (CustomFrame.build CustomFrame.default calls) = true.
Proof.
  split; [exact (proj1 (build_finite CustomFrame.default []))|].
  apply (proj2 (build_finite CustomFrame.default _)); reflexivity.
Defined.

Lemma regions_made_of_numbers_witness :
  let g := regions (TestApp.frame (TestApp.new creation)) (scenario_view (pointer_at 21 60) None) in
  Rect.has_nan (g_view g) = false /\ Rect.has_nan (g_core g) = false /\
  Rect.has_nan (g_caption g) = false.
Proof.
  apply (regions_made_of_numbers (TestApp.frame (TestApp.new creation))
           (scenario_view (pointer_at 21 60) None)); vm_compute; reflexivity.
Defined.

Lemma no_pointer_inert_witness :
  let self := TestApp.frame (TestApp.new creation) in
  let u := scenario_ui None (Some true) drag_start in
  view (exec (CustomFrame.show self (ret tt)) u) =
  UiView.paint
    (CustomFrame.panel_frame self (UiView.panel_fill (view u))
       (g_maximized (regions self (view u))))
    (view u).
Proof.
  apply (no_pointer_inert (TestApp.frame (TestApp.new creation))
           (scenario_ui None (Some true) drag_start)); vm_compute; reflexivity.
Defined.

Lemma finite_style_regions_exclusive_witness :
  let self := CustomFrame.default in
  let u := scenario_ui (pointer_at 21 60) None drag_start in
  let g := regions self (view u) in
  let v' := view (exec (CustomFrame.show self (ret tt)) u) in
  (exists ws, UiView.widgets v' = UiView.widgets (view u) ++ ws /\ List.length ws <= 1) /\
  (sizebox_live g = true ->
   exists d, resize_direction (g_pos g) (g_core g) = Some d /\
             UiView.cursor_icon v' = cursor_of d) /\
  (sizebox_live g = false -> UiView.cursor_icon v' = UiView.cursor_icon (view u)).
Proof.
  apply (finite_style_regions_exclusive CustomFrame.default
           (scenario_ui (pointer_at 21 60) None drag_start)); vm_compute; reflexivity.
Defined.

Lemma main_ends_iff_closed_witness :
  let inputs n := nth n session (frame_input None Response.idle) in
  (exists s m, m <= 6 /\
     main desktop (take 6 inputs) = Ok s /\
     main_loop 10 desktop inputs = Some (Ok (s, m)) /\
     Window.open (snd s) = false) /\
  main_loop 10 desktop (fun _ => frame_input None Response.idle) = None.
Proof.
  split.
  - apply (proj1 (main_ends_iff_closed desktop
                    (fun n => nth n session (frame_input None Response.idle)) eq_refl) 5 10);
      [reflexivity | lia].
  - apply (proj2 (main_ends_iff_closed desktop (fun _ => frame_input None Response.idle)
                    eq_refl)).
    reflexivity.
Defined.

Lemma double_click_twice_restores_witness :
  let w := Window.create desktop (NativeOptions.viewport main_options) in
  let i := frame_input (pointer_at 160 30) double_click in
  run (TestApp.new creation) w [i] =
    ((TestApp.new creation), Window.set_maximized (negb (Window.maximized w)) w) /\
  run (TestApp.new creation) w [i; i] = ((TestApp.new creation), w).
Proof.
  apply (double_click_twice_restores (TestApp.new creation)
           (Window.create desktop (NativeOptions.viewport main_options))
           (frame_input (pointer_at 160 30) double_click)
           (frame_input (pointer_at 160 30) double_click));
    vm_compute; reflexivity.
Defined.

Lemma margin_keeps_core_in_view_witness :
  let g := regions (TestApp.frame (TestApp.new creation)) (scenario_view (pointer_at 21 60) None) in
  ((Rect.left (g_view g) <=? Rect.left (g_core g))%f32 = true /\
   (Rect.right (g_core g) <=? Rect.right (g_view g))%f32 = true /\
   (Rect.top (g_view g) <=? Rect.top (g_core g))%f32 = true /\
   (Rect.bottom (g_core g) <=? Rect.bottom (g_view g))%f32 = true) /\
  (forall p, Rect.contains (g_core g) p = true \/ Rect.contains (g_caption g) p = true ->
             Rect.contains (g_view g) p = true).
Proof.
  apply (margin_keeps_core_in_view (TestApp.frame (TestApp.new creation))
           (scenario_view (pointer_at 21 60) None)); vm_compute; reflexivity.
Defined.

Lemma whole_regions_witness :
  let self := CustomFrame.caption CustomFrame.default (Rect.of_Z 0 0 400 40) in
  let g := regions self (scenario_view (pointer_at 21 60) None) in
  g_view g = Rect.of_Z 20 20 300 100 /\
  g_core g = Rect.of_Z 24 24 296 96 /\
  g_caption g = Rect.of_Z 24 24 296 60.
Proof.
  apply (whole_regions (CustomFrame.caption CustomFrame.default (Rect.of_Z 0 0 400 40))
           (scenario_view (pointer_at 21 60) None) 4 4 4 4 18 2 320 120 0 0 400 40);
    vm_compute; reflexivity.
Defined.

Lemma well_formed_outside_inert_witness :
  let self := TestApp.frame (TestApp.new creation) in
  let u := scenario_ui (pointer_at 310 110) None drag_start in
  view (exec (CustomFrame.show self (ret tt)) u) =
  UiView.paint
    (CustomFrame.panel_frame self (UiView.panel_fill (view u))
       (g_maximized (regions self (view u))))
    (view u).
Proof.
  apply (well_formed_outside_inert (TestApp.frame (TestApp.new creation))
           (scenario_ui (pointer_at 310 110) None drag_start)); vm_compute; reflexivity.
Defined.

Lemma nan_margin_never_resizes_witness :
  let self := CustomFrame.sizebox CustomFrame.default (Margin.same F32.NAN) in
  let u := scenario_ui (pointer_at 160 100) None drag_start in
  let g := regions self (view u) in
  let v' := view (exec (CustomFrame.show self (ret tt)) u) in
  sizebox_live g = Rect.contains (g_view g) (g_pos g) && negb (g_maximized g) /\
  resize_direction (g_pos g) (g_core g) = None /\
  g_caption g =
    Rect.translate (CustomFrame.f_caption self)
      (Vec2.new (g_shadow_width g) (g_shadow_width g)) /\
  UiView.cursor_icon v' = UiView.cursor_icon (view u) /\
  UiView.viewport_cmds v' = UiView.viewport_cmds (view u) ++
    caption_cmds (if caption_live g then Some (caption_answer self u) else None)
      (g_maximized g).
Proof.
  apply (nan_margin_never_resizes
           (CustomFrame.sizebox CustomFrame.default (Margin.same F32.NAN))
           (scenario_ui (pointer_at 160 100) None drag_start)).
  reflexivity.
Defined.

Lemma max_caption_not_moved_witness :
  let g := regions CustomFrame.default (scenario_view None None) in
  g_shadow_width g = F32.of_Z 20 /\
  Rect.left (g_caption g) = F32.max (F32.of_Z (4 + 20)) (Rect.left (g_core g)) /\
  Rect.right (g_caption g) = F32.min F32.MAX (Rect.right (g_core g)).
Proof.
  apply (max_caption_not_moved CustomFrame.default (scenario_view None None) 4 18 2);
    vm_compute; reflexivity.
Defined.

Lemma drag_and_double_click_send_both_witness :
  let self := CustomFrame.default in
  let u := scenario_ui (pointer_at 25 25) None (Response.mk false true true) in
  let g := regions self (view u) in
  UiView.viewport_cmds (view (exec (CustomFrame.show self (ret tt)) u)) =
    UiView.viewport_cmds (view u) ++
    resize_cmds (if sizebox_live g then Some (sizebox_answer self u) else None)
      (g_pos g) (g_core g) ++
    [StartDrag; Maximized (negb (g_maximized g))].
Proof.
  apply (drag_and_double_click_send_both CustomFrame.default
           (scenario_ui (pointer_at 25 25) None (Response.mk false true true)));
    vm_compute; reflexivity.
Defined.

Lemma negative_margin_drag_outside_view_witness :
  let self := CustomFrame.caption
                (CustomFrame.sizebox CustomFrame.default (Margin.same (F32.of_Z (-30))))
                (Rect.of_Z (-40) (-40) 400 40) in
  let u := scenario_ui (pointer_at (-10) (-10)) None drag_start in
  let g := regions self (view u) in
  Rect.contains (g_view g) (g_pos g) = false /\
  In StartDrag (UiView.viewport_cmds (view (exec (CustomFrame.show self (ret tt)) u))).
Proof.
  refine (negative_margin_drag_outside_view
            (CustomFrame.caption
               (CustomFrame.sizebox CustomFrame.default (Margin.same (F32.of_Z (-30))))
               (Rect.of_Z (-40) (-40) 400 40))
            (scenario_ui (pointer_at (-10) (-10)) None drag_start)
            (-30) (-30) (-30) (-30) 18 2 320 120 (-40) (-40) 400 40
            _ _ _ _ _ _ _ _ _ _ _ _ _ _);
    vm_compute; first [reflexivity | discriminate | split; discriminate].
Defined.

Lemma inverted_core_north_west_witness :
  let self := CustomFrame.sizebox CustomFrame.default (Margin.same (F32.of_Z 200)) in
  let g := regions self (scenario_view (pointer_at 150 60) None) in
  let p := Pos2.new (F32.of_Z 150) (F32.of_Z 60) in
  ordered (g_core g) = false /\
  (octant NorthWest p (g_core g) /\ octant NorthEast p (g_core g) /\
   octant SouthWest p (g_core g) /\ octant SouthEast p (g_core g)) /\
  resize_direction p (g_core g) = Some NorthWest.
Proof.
  refine (inverted_core_north_west
            (CustomFrame.sizebox CustomFrame.default (Margin.same (F32.of_Z 200)))
            (scenario_view (pointer_at 150 60) None) 200 200 200 200 18 2 320 120 150 60
            _ _ _ _ _ _ _ _);
    vm_compute; first [reflexivity | split; reflexivity].
Defined.

Lemma resized_window_regions_witness :
  let w := Window.create desktop (NativeOptions.viewport main_options) in
  let i1 := resized_to 400 200 (frame_input (pointer_at 21 60) drag_start) in
  let i2 := frame_input (pointer_at 25 25) drag_start in
  let w1 := snd (run_frame (TestApp.new creation) w i1) in
  let g := frame_regions (TestApp.new creation) w1 i2 in
  Window.inner_size w1 = Vec2.new (F32.of_Z 400) (F32.of_Z 200) /\
  g_view g = Rect.of_Z 20 20 (400 - 20) (200 - 20) /\
  g_core g = Rect.of_Z 24 24 (400 - 24) (200 - 24) /\
  g_caption g = g_core g /\
  Rect.contains_rect (g_view g) (g_core g) = true /\
  ordered (g_core g) = true.
Proof.
  refine (resized_window_regions creation
            (Window.create desktop (NativeOptions.viewport main_options))
            (resized_to 400 200 (frame_input (pointer_at 21 60) drag_start))
            (frame_input (pointer_at 25 25) drag_start) 400 200 _ _ _ _ _);
    vm_compute; first [reflexivity | split; discriminate].
Defined.

(** The default style and the 320 by 120 window in half pixels, with the
    pointer at (21.5, 60) on the west border. *)
Lemma show_implements_contract_witness :
  let st := Contract.style 8 8 8 8 8 8 Contract.Unbounded (Contract.At 88) 36 4 in
  let p := Contract.pass false 640 240 (Some (43, 120)%Z) in
  let u := scenario_ui (Some (Pos2.new (F32.dyadic 1 43) (F32.of_Z 60))) None drag_start in
  view (exec (CustomFrame.show CustomFrame.default (ret tt)) u) =
  UiView.extend (view u)
    (default (UiView.cursor_icon (view u)) (Contract.cursor st p))
    (Contract.commands st p (sizebox_answer CustomFrame.default u)
       (caption_answer CustomFrame.default u))
    (map (widget_of 1) (Contract.regions st p))
    [CustomFrame.panel_frame CustomFrame.default (UiView.panel_fill (view u))
       (Contract.maximized p)].
Proof.
  refine (show_implements_contract 1 CustomFrame.default
            (scenario_ui (Some (Pos2.new (F32.dyadic 1 43) (F32.of_Z 60))) None drag_start)
            (Contract.style 8 8 8 8 8 8 Contract.Unbounded (Contract.At 88) 36 4)
            (Contract.pass false 640 240 (Some (43, 120)%Z)) _ _ _ _);
    vm_compute; repeat split; discriminate.
Defined.

Lemma show_calls_in_order_witness :
  let u := TraceUi.mk (scenario_ui (pointer_at 21 60) None drag_start) [] in
  let u1 := exec (CustomFrame.show CustomFrame.default (ret tt)) u in
  trace u1 =
    trace u ++ frame_calls CustomFrame.default (sizebox_answer CustomFrame.default u)
                 (caption_answer CustomFrame.default u) (view u) /\
  exec (CustomFrame.show CustomFrame.default (send_viewport_cmd Close)) u =
  exec (send_viewport_cmd Close) u1.
Proof.
  exact (show_calls_in_order CustomFrame.default (send_viewport_cmd Close)
           (TraceUi.mk (scenario_ui (pointer_at 21 60) None drag_start) [])).
Defined.

Lemma crate_example_in_test_context_witness :
  let u := scenario_ui None None Response.idle in
  let u1 := exec (CustomFrame.show CustomFrame.default (ret tt)) u in
  view (exec crate_example u) =
    UiView.extend (view u) (UiView.cursor_icon (view u)) []
      [(Id.new "Hello World!"%string, placed u1 "Hello World!"%string, Sense.hover)]
      [CustomFrame.panel_frame CustomFrame.default (UiView.panel_fill (view u))
         (CustomFrame.is_maximized (view u))] /\
  InnerResponse.inner (eval crate_example u) = tt /\
  type_example u = crate_example u.
Proof.
  apply (crate_example_in_test_context (scenario_ui None None Response.idle)).
  reflexivity.
Defined.

Lemma update_calls_in_order_witness :
  let u := TraceUi.mk (scenario_ui (pointer_at 50 80) None click) [] in
  trace (exec (TestApp.update (TestApp.new creation)) u) =
  trace u ++
  frame_calls (TestApp.frame (TestApp.new creation)) (sizebox_answer (TestApp.frame (TestApp.new creation)) u)
    (caption_answer (TestApp.frame (TestApp.new creation)) u) (view u) ++
  content_calls (TestApp.new creation) (close_answer (TestApp.new creation) u).
Proof.
  exact (update_calls_in_order (TestApp.new creation)
           (TraceUi.mk (scenario_ui (pointer_at 50 80) None click) [])).
Defined.

(** ** Painting *)

(** In the first frame of [main] on the desktop the resize ring is the
    border of the painted panel, (20,20)-(300,100). *)
Lemma view_rect_is_painted_body_witness :
  let w := Window.create desktop (NativeOptions.viewport main_options) in
  let v := view (context w (frame_input (pointer_at 21 60) drag_start)) in
  g_view (regions CustomFrame.default v) =
  Painting.body (Painting.panel CustomFrame.default v) (UiView.clip_rect v).
Proof.
  exact (view_rect_is_painted_body CustomFrame.default
           (view (context (Window.create desktop (NativeOptions.viewport main_options))
                    (frame_input (pointer_at 21 60) drag_start)))
           (Vec2.new (F32.of_Z 320) (F32.of_Z 120)) eq_refl).
Defined.

Lemma shadow_within_bounds_witness :
  let v := scenario_view None None in
  let body := Painting.body (Painting.panel CustomFrame.default v) (UiView.clip_rect v) in
  let reach :=
    Painting.shadow_reach (Frame.shadow (Painting.panel CustomFrame.default v)) body in
  reach = UiView.clip_rect v /\
  Rect.contains_rect (UiView.clip_rect v) reach = true /\
  (CustomFrame.is_maximized v = true -> body = UiView.clip_rect v).
Proof.
  refine (shadow_within_bounds 0 CustomFrame.default (scenario_view None None)
            18 2 320 120 _ _ _ _ _ _ _ _); first [lia | reflexivity].
Defined.

Lemma shadow_offset_leaves_bounds_witness :
  let v := scenario_view None None in
  let body := Painting.body (Painting.panel thrown_shadow v) (UiView.clip_rect v) in
  Rect.contains_rect (UiView.clip_rect v)
    (Painting.shadow_rect (Frame.shadow (Painting.panel thrown_shadow v)) body) = false.
Proof.
  refine (shadow_offset_leaves_bounds 0 thrown_shadow (scenario_view None None)
            18 2 30 0 320 120 _ _ _ _ _ _ _ _); first [lia | reflexivity].
Defined.

(** The shadow thrown to the right ends at 332, twelve pixels beyond the
    window. *)
Example thrown_shadow_rect :
  let v := scenario_view None None in
  Painting.shadow_rect (Frame.shadow (Painting.panel thrown_shadow v))
    (Painting.body (Painting.panel thrown_shadow v) (UiView.clip_rect v)) =
  Rect.of_Z 48 18 332 102.
Proof. vm_compute. reflexivity. Qed.

(** In the 320 by 120 window the content of the default style is laid out
    in (30,30)-(290,90), inside the core (24,24)-(296,96). *)
Lemma content_clear_of_ring_witness :
  let v := scenario_view (pointer_at 160 60) None in
  let g := regions CustomFrame.default v in
  let content :=
    Painting.content (Painting.panel CustomFrame.default v) (UiView.clip_rect v) in
  (forall p, Rect.contains content p = true -> Rect.contains (g_core g) p = true) /\
  (Rect.contains content (g_pos g) = true -> sizebox_live g = false).
Proof.
  refine (content_clear_of_ring 0 CustomFrame.default
            (scenario_view (pointer_at 160 60) None)
            4 4 4 4 10 10 10 10 18 2 320 120 _ _ _ _ _ _ _ _ _ _ _);
    first [lia | reflexivity].
Defined.

Example default_content_rect :
  let v := scenario_view None None in
  Painting.content (Painting.panel CustomFrame.default v) (UiView.clip_rect v) =
  Rect.of_Z 30 30 290 90.
Proof. vm_compute. reflexivity. Qed.

(** The default style in the 320 by 120 window: there is room for the
    shadow and the margins, 48 pixels against 320 and 120. *)
Lemma core_ordered_iff_witness :
  let g := regions CustomFrame.default (scenario_view None None) in
  (ordered (g_core g) = true <-> (2 * 20 + 4 + 4 <= 320 /\ 2 * 20 + 4 + 4 <= 120)%Z) /\
  (Rect.contains_rect (g_view g) (g_core g) = true <->
   (0 <= 4 <= 320 - 2 * 20 /\ 0 <= 4 <= 320 - 2 * 20)%Z /\
   (0 <= 4 <= 120 - 2 * 20 /\ 0 <= 4 <= 120 - 2 * 20)%Z).
Proof.
  refine (core_ordered_iff 0 CustomFrame.default (scenario_view None None)
            4 4 4 4 18 2 320 120 _ _ _ _ _ _ _); first [lia | reflexivity].
Defined.

